(** * A shallow embedding of the NES emulator core

    The C sources (util.h, controller.c, cartridge.c, ppu.c, apu.c, bus.c,
    cpu.c, nes.c) are rendered as Rocq functions over [Z].  Fixed-width
    C integers are integers with their wrap-around written out ([u8],
    [u16]); C arrays are total maps [Z -> Z] updated with [upd]; the
    pointer graph (bus -> NES -> subsystems, PPU -> cartridge) is replaced
    by one [NES] record that every bus access threads through. *)

From Stdlib Require Import ZArith List Bool Lia.
Import ListNotations.
Open Scope Z_scope.

(** ** util.h *)

Module Util.

Definition FLAG_C : Z := 0x01.
Definition FLAG_Z : Z := 0x02.
Definition FLAG_I : Z := 0x04.
Definition FLAG_D : Z := 0x08.
Definition FLAG_B : Z := 0x10.
Definition FLAG_U : Z := 0x20.
Definition FLAG_V : Z := 0x40.
Definition FLAG_N : Z := 0x80.

(** The casts [(uint8_t)x] and [(uint16_t)x]. *)
Definition u8 (x : Z) : Z := x mod 256.
Definition u16 (x : Z) : Z := x mod 65536.

(** [(uint8_t)~mask] for an 8-bit mask. *)
Definition not8 (mask : Z) : Z := u8 (Z.lnot mask).

(** A C condition [x] used as a truth value. *)
Definition nz (x : Z) : bool := negb (x =? 0).

Definition set_bit_u8 (v mask : Z) (on : bool) : Z :=
  if on then Z.lor v mask else Z.land v (not8 mask).

Definition get_bit_u8 (v mask : Z) : bool := nz (Z.land v mask).

Definition make16 (lo hi : Z) : Z := u16 (Z.lor lo (Z.shiftl hi 8)).

Definition lo8 (v : Z) : Z := u8 (Z.land v 0xFF).
Definition hi8 (v : Z) : Z := u8 (Z.land (Z.shiftr v 8) 0xFF).

Definition page_crossed (a b : Z) : bool :=
  negb (Z.land a 0xFF00 =? Z.land b 0xFF00).

(** C arrays: total maps from index to element, zero after [memset]. *)
Definition mem : Type := Z -> Z.
Definition zeros : mem := fun _ => 0.
Definition upd (m : mem) (i v : Z) : mem :=
  fun j => if j =? i then v else m j.

End Util.

Import Util.

(** ** controller.c *)

Module Controller.

Record Controller : Type := mkController {
  state : Z;     (* current buttons state *)
  shift : Z;     (* shift register state *)
  strobe : bool  (* strobe bit ($4016 bit 0) *)
}.

Definition controller_reset (c : Controller) : Controller :=
  mkController 0 0 false.


Definition controller_write (c : Controller) (data : Z) : Controller :=
  let new_strobe := nz (Z.land data 0x01) in
  let c := mkController (state c) (shift c) new_strobe in
  if strobe c then mkController (state c) (state c) (strobe c) else c.

Definition controller_read (c : Controller) : Z * Controller :=
  let ret := Z.land (shift c) 0x01 in
  let c' :=
    if negb (strobe c)
    then mkController (state c)
           (u8 (Z.lor (Z.shiftr (shift c) 1) 0x80)) (strobe c)
    else c in
  (Z.lor ret 0x40, c').


End Controller.

(** ** cartridge.h, cartridge.c (the mapping helpers) *)

Module Cart.

Inductive MirrorMode : Type :=
  | MIRROR_HORIZONTAL
  | MIRROR_VERTICAL
  | MIRROR_FOUR.

(** Pointers to the three buffers are [None] when NULL. *)
Record Cartridge : Type := mkCartridge {
  prg_rom : option mem;
  prg_rom_size : Z;
  chr : option mem;
  chr_size : Z;
  chr_is_ram : bool;
  prg_ram : option mem;
  prg_ram_size : Z;
  mapper : Z;
  cmirror : MirrorMode
}.

Definition set_prg_rom (x : option mem) (r : Cartridge) : Cartridge :=
  mkCartridge x (prg_rom_size r) (chr r) (chr_size r) (chr_is_ram r)
    (prg_ram r) (prg_ram_size r) (mapper r) (cmirror r).
Definition set_prg_rom_size (x : Z) (r : Cartridge) : Cartridge :=
  mkCartridge (prg_rom r) x (chr r) (chr_size r) (chr_is_ram r) (prg_ram r)
    (prg_ram_size r) (mapper r) (cmirror r).
Definition set_chr (x : option mem) (r : Cartridge) : Cartridge :=
  mkCartridge (prg_rom r) (prg_rom_size r) x (chr_size r) (chr_is_ram r)
    (prg_ram r) (prg_ram_size r) (mapper r) (cmirror r).
Definition set_chr_size (x : Z) (r : Cartridge) : Cartridge :=
  mkCartridge (prg_rom r) (prg_rom_size r) (chr r) x (chr_is_ram r)
    (prg_ram r) (prg_ram_size r) (mapper r) (cmirror r).
Definition set_chr_is_ram (x : bool) (r : Cartridge) : Cartridge :=
  mkCartridge (prg_rom r) (prg_rom_size r) (chr r) (chr_size r) x
    (prg_ram r) (prg_ram_size r) (mapper r) (cmirror r).
Definition set_prg_ram (x : option mem) (r : Cartridge) : Cartridge :=
  mkCartridge (prg_rom r) (prg_rom_size r) (chr r) (chr_size r)
    (chr_is_ram r) x (prg_ram_size r) (mapper r) (cmirror r).
Definition set_prg_ram_size (x : Z) (r : Cartridge) : Cartridge :=
  mkCartridge (prg_rom r) (prg_rom_size r) (chr r) (chr_size r)
    (chr_is_ram r) (prg_ram r) x (mapper r) (cmirror r).
Definition set_mapper (x : Z) (r : Cartridge) : Cartridge :=
  mkCartridge (prg_rom r) (prg_rom_size r) (chr r) (chr_size r)
    (chr_is_ram r) (prg_ram r) (prg_ram_size r) x (cmirror r).
Definition set_cmirror (x : MirrorMode) (r : Cartridge) : Cartridge :=
  mkCartridge (prg_rom r) (prg_rom_size r) (chr r) (chr_size r)
    (chr_is_ram r) (prg_ram r) (prg_ram_size r) (mapper r) x.

(** The state left by [memset(cart, 0, sizeof *cart)]. *)
Definition cart_empty : Cartridge :=
  mkCartridge None 0 None 0 false None 0 0 MIRROR_HORIZONTAL.

Definition cart_cpu_read (c : Cartridge) (addr : Z) : Z :=
  if (addr >=? 0x6000) && (addr <=? 0x7FFF) then
    match prg_ram c with
    | Some m => if nz (prg_ram_size c) then m (addr - 0x6000) else 0
    | None => 0
    end
  else if addr >=? 0x8000 then
    match prg_rom c with
    | Some m =>
        if prg_rom_size c =? 0 then 0
        else
          let offset := addr - 0x8000 in
          let offset :=
            if prg_rom_size c =? 16 * 1024
            then Z.rem offset (16 * 1024)
            else Z.rem offset (prg_rom_size c) in
          m offset
    | None => 0
    end
  else 0.

Definition cart_cpu_write (c : Cartridge) (addr data : Z) : Cartridge :=
  if (addr >=? 0x6000) && (addr <=? 0x7FFF) then
    match prg_ram c with
    | Some m =>
        if nz (prg_ram_size c)
        then set_prg_ram (Some (upd m (addr - 0x6000) data)) c
        else c
    | None => c
    end
  else c.

End Cart.

(** ** ppu.h, ppu.c *)

Module Ppu.

Import Cart.

Definition PPU_SCANLINES : Z := 262.
Definition PPU_DOTS_PER_LINE : Z := 341.

(** The struct, without the members no function reads or writes
    (oamdata, cpu_cycles_accum, vram_addr_hi, vram_addr_lo, scroll_x,
    scroll_y).  The cartridge the C struct points at lives in the [NES]
    record; [cart_linked] records whether the pointer is set. *)
Record PPU : Type := mkPPU {
  ppuctrl : Z;  (* $2000 *)
  ppumask : Z;  (* $2001 *)
  ppustatus : Z;  (* $2002 *)
  oamaddr : Z;  (* $2003 *)
  scroll_latch : Z;
  ppuaddr_hi : Z;
  ppuaddr_lo : Z;
  ppudata_buffer : Z;
  nmi_pending : bool;
  frame_ready : bool;
  vram : mem;  (* 2KB nametables *)
  palette : mem;  (* $3F00-$3F1F *)
  oam : mem;
  bg_opaque : mem;
  vram_addr : Z;  (* current VRAM address *)
  v : Z;  (* loopy V *)
  t : Z;  (* loopy T *)
  x_fine : Z;
  w : Z;  (* write toggle *)
  cart_linked : bool;  (* p->cart != NULL *)
  mirror : MirrorMode;
  framebuffer : mem;  (* ARGB8888 *)
  scanline : Z;
  dot : Z;
  odd_frame : bool;
  bg_shift_lo : Z;
  bg_shift_hi : Z;
  at_shift_lo : Z;
  at_shift_hi : Z;
  nt_byte : Z;
  at_byte : Z;
  bg_next_lo : Z;
  bg_next_hi : Z;
  spr_count : Z;
  spr_x : mem;
  spr_attr : mem;
  spr_lo : mem;
  spr_hi : mem;
  spr_index : mem;
  spr_count_next : Z;
  spr_x_next : mem;
  spr_attr_next : mem;
  spr_lo_next : mem;
  spr_hi_next : mem;
  spr_index_next : mem
}.

Definition set_ppuctrl (x : Z) (r : PPU) : PPU :=
  mkPPU x (ppumask r) (ppustatus r) (oamaddr r) (scroll_latch r)
    (ppuaddr_hi r) (ppuaddr_lo r) (ppudata_buffer r) (nmi_pending r)
    (frame_ready r) (vram r) (palette r) (oam r) (bg_opaque r) (vram_addr r)
    (v r) (t r) (x_fine r) (w r) (cart_linked r) (mirror r) (framebuffer r)
    (scanline r) (dot r) (odd_frame r) (bg_shift_lo r) (bg_shift_hi r)
    (at_shift_lo r) (at_shift_hi r) (nt_byte r) (at_byte r) (bg_next_lo r)
    (bg_next_hi r) (spr_count r) (spr_x r) (spr_attr r) (spr_lo r)
    (spr_hi r) (spr_index r) (spr_count_next r) (spr_x_next r)
    (spr_attr_next r) (spr_lo_next r) (spr_hi_next r) (spr_index_next r).
Definition set_ppumask (x : Z) (r : PPU) : PPU :=
  mkPPU (ppuctrl r) x (ppustatus r) (oamaddr r) (scroll_latch r)
    (ppuaddr_hi r) (ppuaddr_lo r) (ppudata_buffer r) (nmi_pending r)
    (frame_ready r) (vram r) (palette r) (oam r) (bg_opaque r) (vram_addr r)
    (v r) (t r) (x_fine r) (w r) (cart_linked r) (mirror r) (framebuffer r)
    (scanline r) (dot r) (odd_frame r) (bg_shift_lo r) (bg_shift_hi r)
    (at_shift_lo r) (at_shift_hi r) (nt_byte r) (at_byte r) (bg_next_lo r)
    (bg_next_hi r) (spr_count r) (spr_x r) (spr_attr r) (spr_lo r)
    (spr_hi r) (spr_index r) (spr_count_next r) (spr_x_next r)
    (spr_attr_next r) (spr_lo_next r) (spr_hi_next r) (spr_index_next r).
Definition set_ppustatus (x : Z) (r : PPU) : PPU :=
  mkPPU (ppuctrl r) (ppumask r) x (oamaddr r) (scroll_latch r)
    (ppuaddr_hi r) (ppuaddr_lo r) (ppudata_buffer r) (nmi_pending r)
    (frame_ready r) (vram r) (palette r) (oam r) (bg_opaque r) (vram_addr r)
    (v r) (t r) (x_fine r) (w r) (cart_linked r) (mirror r) (framebuffer r)
    (scanline r) (dot r) (odd_frame r) (bg_shift_lo r) (bg_shift_hi r)
    (at_shift_lo r) (at_shift_hi r) (nt_byte r) (at_byte r) (bg_next_lo r)
    (bg_next_hi r) (spr_count r) (spr_x r) (spr_attr r) (spr_lo r)
    (spr_hi r) (spr_index r) (spr_count_next r) (spr_x_next r)
    (spr_attr_next r) (spr_lo_next r) (spr_hi_next r) (spr_index_next r).
Definition set_oamaddr (x : Z) (r : PPU) : PPU :=
  mkPPU (ppuctrl r) (ppumask r) (ppustatus r) x (scroll_latch r)
    (ppuaddr_hi r) (ppuaddr_lo r) (ppudata_buffer r) (nmi_pending r)
    (frame_ready r) (vram r) (palette r) (oam r) (bg_opaque r) (vram_addr r)
    (v r) (t r) (x_fine r) (w r) (cart_linked r) (mirror r) (framebuffer r)
    (scanline r) (dot r) (odd_frame r) (bg_shift_lo r) (bg_shift_hi r)
    (at_shift_lo r) (at_shift_hi r) (nt_byte r) (at_byte r) (bg_next_lo r)
    (bg_next_hi r) (spr_count r) (spr_x r) (spr_attr r) (spr_lo r)
    (spr_hi r) (spr_index r) (spr_count_next r) (spr_x_next r)
    (spr_attr_next r) (spr_lo_next r) (spr_hi_next r) (spr_index_next r).
Definition set_scroll_latch (x : Z) (r : PPU) : PPU :=
  mkPPU (ppuctrl r) (ppumask r) (ppustatus r) (oamaddr r) x (ppuaddr_hi r)
    (ppuaddr_lo r) (ppudata_buffer r) (nmi_pending r) (frame_ready r)
    (vram r) (palette r) (oam r) (bg_opaque r) (vram_addr r) (v r) (t r)
    (x_fine r) (w r) (cart_linked r) (mirror r) (framebuffer r) (scanline r)
    (dot r) (odd_frame r) (bg_shift_lo r) (bg_shift_hi r) (at_shift_lo r)
    (at_shift_hi r) (nt_byte r) (at_byte r) (bg_next_lo r) (bg_next_hi r)
    (spr_count r) (spr_x r) (spr_attr r) (spr_lo r) (spr_hi r) (spr_index r)
    (spr_count_next r) (spr_x_next r) (spr_attr_next r) (spr_lo_next r)
    (spr_hi_next r) (spr_index_next r).
Definition set_ppuaddr_hi (x : Z) (r : PPU) : PPU :=
  mkPPU (ppuctrl r) (ppumask r) (ppustatus r) (oamaddr r) (scroll_latch r) x
    (ppuaddr_lo r) (ppudata_buffer r) (nmi_pending r) (frame_ready r)
    (vram r) (palette r) (oam r) (bg_opaque r) (vram_addr r) (v r) (t r)
    (x_fine r) (w r) (cart_linked r) (mirror r) (framebuffer r) (scanline r)
    (dot r) (odd_frame r) (bg_shift_lo r) (bg_shift_hi r) (at_shift_lo r)
    (at_shift_hi r) (nt_byte r) (at_byte r) (bg_next_lo r) (bg_next_hi r)
    (spr_count r) (spr_x r) (spr_attr r) (spr_lo r) (spr_hi r) (spr_index r)
    (spr_count_next r) (spr_x_next r) (spr_attr_next r) (spr_lo_next r)
    (spr_hi_next r) (spr_index_next r).
Definition set_ppuaddr_lo (x : Z) (r : PPU) : PPU :=
  mkPPU (ppuctrl r) (ppumask r) (ppustatus r) (oamaddr r) (scroll_latch r)
    (ppuaddr_hi r) x (ppudata_buffer r) (nmi_pending r) (frame_ready r)
    (vram r) (palette r) (oam r) (bg_opaque r) (vram_addr r) (v r) (t r)
    (x_fine r) (w r) (cart_linked r) (mirror r) (framebuffer r) (scanline r)
    (dot r) (odd_frame r) (bg_shift_lo r) (bg_shift_hi r) (at_shift_lo r)
    (at_shift_hi r) (nt_byte r) (at_byte r) (bg_next_lo r) (bg_next_hi r)
    (spr_count r) (spr_x r) (spr_attr r) (spr_lo r) (spr_hi r) (spr_index r)
    (spr_count_next r) (spr_x_next r) (spr_attr_next r) (spr_lo_next r)
    (spr_hi_next r) (spr_index_next r).
Definition set_ppudata_buffer (x : Z) (r : PPU) : PPU :=
  mkPPU (ppuctrl r) (ppumask r) (ppustatus r) (oamaddr r) (scroll_latch r)
    (ppuaddr_hi r) (ppuaddr_lo r) x (nmi_pending r) (frame_ready r) (vram r)
    (palette r) (oam r) (bg_opaque r) (vram_addr r) (v r) (t r) (x_fine r)
    (w r) (cart_linked r) (mirror r) (framebuffer r) (scanline r) (dot r)
    (odd_frame r) (bg_shift_lo r) (bg_shift_hi r) (at_shift_lo r)
    (at_shift_hi r) (nt_byte r) (at_byte r) (bg_next_lo r) (bg_next_hi r)
    (spr_count r) (spr_x r) (spr_attr r) (spr_lo r) (spr_hi r) (spr_index r)
    (spr_count_next r) (spr_x_next r) (spr_attr_next r) (spr_lo_next r)
    (spr_hi_next r) (spr_index_next r).
Definition set_nmi_pending (x : bool) (r : PPU) : PPU :=
  mkPPU (ppuctrl r) (ppumask r) (ppustatus r) (oamaddr r) (scroll_latch r)
    (ppuaddr_hi r) (ppuaddr_lo r) (ppudata_buffer r) x (frame_ready r)
    (vram r) (palette r) (oam r) (bg_opaque r) (vram_addr r) (v r) (t r)
    (x_fine r) (w r) (cart_linked r) (mirror r) (framebuffer r) (scanline r)
    (dot r) (odd_frame r) (bg_shift_lo r) (bg_shift_hi r) (at_shift_lo r)
    (at_shift_hi r) (nt_byte r) (at_byte r) (bg_next_lo r) (bg_next_hi r)
    (spr_count r) (spr_x r) (spr_attr r) (spr_lo r) (spr_hi r) (spr_index r)
    (spr_count_next r) (spr_x_next r) (spr_attr_next r) (spr_lo_next r)
    (spr_hi_next r) (spr_index_next r).
Definition set_frame_ready (x : bool) (r : PPU) : PPU :=
  mkPPU (ppuctrl r) (ppumask r) (ppustatus r) (oamaddr r) (scroll_latch r)
    (ppuaddr_hi r) (ppuaddr_lo r) (ppudata_buffer r) (nmi_pending r) x
    (vram r) (palette r) (oam r) (bg_opaque r) (vram_addr r) (v r) (t r)
    (x_fine r) (w r) (cart_linked r) (mirror r) (framebuffer r) (scanline r)
    (dot r) (odd_frame r) (bg_shift_lo r) (bg_shift_hi r) (at_shift_lo r)
    (at_shift_hi r) (nt_byte r) (at_byte r) (bg_next_lo r) (bg_next_hi r)
    (spr_count r) (spr_x r) (spr_attr r) (spr_lo r) (spr_hi r) (spr_index r)
    (spr_count_next r) (spr_x_next r) (spr_attr_next r) (spr_lo_next r)
    (spr_hi_next r) (spr_index_next r).
Definition set_vram (x : mem) (r : PPU) : PPU :=
  mkPPU (ppuctrl r) (ppumask r) (ppustatus r) (oamaddr r) (scroll_latch r)
    (ppuaddr_hi r) (ppuaddr_lo r) (ppudata_buffer r) (nmi_pending r)
    (frame_ready r) x (palette r) (oam r) (bg_opaque r) (vram_addr r) (v r)
    (t r) (x_fine r) (w r) (cart_linked r) (mirror r) (framebuffer r)
    (scanline r) (dot r) (odd_frame r) (bg_shift_lo r) (bg_shift_hi r)
    (at_shift_lo r) (at_shift_hi r) (nt_byte r) (at_byte r) (bg_next_lo r)
    (bg_next_hi r) (spr_count r) (spr_x r) (spr_attr r) (spr_lo r)
    (spr_hi r) (spr_index r) (spr_count_next r) (spr_x_next r)
    (spr_attr_next r) (spr_lo_next r) (spr_hi_next r) (spr_index_next r).
Definition set_palette (x : mem) (r : PPU) : PPU :=
  mkPPU (ppuctrl r) (ppumask r) (ppustatus r) (oamaddr r) (scroll_latch r)
    (ppuaddr_hi r) (ppuaddr_lo r) (ppudata_buffer r) (nmi_pending r)
    (frame_ready r) (vram r) x (oam r) (bg_opaque r) (vram_addr r) (v r)
    (t r) (x_fine r) (w r) (cart_linked r) (mirror r) (framebuffer r)
    (scanline r) (dot r) (odd_frame r) (bg_shift_lo r) (bg_shift_hi r)
    (at_shift_lo r) (at_shift_hi r) (nt_byte r) (at_byte r) (bg_next_lo r)
    (bg_next_hi r) (spr_count r) (spr_x r) (spr_attr r) (spr_lo r)
    (spr_hi r) (spr_index r) (spr_count_next r) (spr_x_next r)
    (spr_attr_next r) (spr_lo_next r) (spr_hi_next r) (spr_index_next r).
Definition set_oam (x : mem) (r : PPU) : PPU :=
  mkPPU (ppuctrl r) (ppumask r) (ppustatus r) (oamaddr r) (scroll_latch r)
    (ppuaddr_hi r) (ppuaddr_lo r) (ppudata_buffer r) (nmi_pending r)
    (frame_ready r) (vram r) (palette r) x (bg_opaque r) (vram_addr r) (v r)
    (t r) (x_fine r) (w r) (cart_linked r) (mirror r) (framebuffer r)
    (scanline r) (dot r) (odd_frame r) (bg_shift_lo r) (bg_shift_hi r)
    (at_shift_lo r) (at_shift_hi r) (nt_byte r) (at_byte r) (bg_next_lo r)
    (bg_next_hi r) (spr_count r) (spr_x r) (spr_attr r) (spr_lo r)
    (spr_hi r) (spr_index r) (spr_count_next r) (spr_x_next r)
    (spr_attr_next r) (spr_lo_next r) (spr_hi_next r) (spr_index_next r).
Definition set_bg_opaque (x : mem) (r : PPU) : PPU :=
  mkPPU (ppuctrl r) (ppumask r) (ppustatus r) (oamaddr r) (scroll_latch r)
    (ppuaddr_hi r) (ppuaddr_lo r) (ppudata_buffer r) (nmi_pending r)
    (frame_ready r) (vram r) (palette r) (oam r) x (vram_addr r) (v r) (t r)
    (x_fine r) (w r) (cart_linked r) (mirror r) (framebuffer r) (scanline r)
    (dot r) (odd_frame r) (bg_shift_lo r) (bg_shift_hi r) (at_shift_lo r)
    (at_shift_hi r) (nt_byte r) (at_byte r) (bg_next_lo r) (bg_next_hi r)
    (spr_count r) (spr_x r) (spr_attr r) (spr_lo r) (spr_hi r) (spr_index r)
    (spr_count_next r) (spr_x_next r) (spr_attr_next r) (spr_lo_next r)
    (spr_hi_next r) (spr_index_next r).
Definition set_vram_addr (x : Z) (r : PPU) : PPU :=
  mkPPU (ppuctrl r) (ppumask r) (ppustatus r) (oamaddr r) (scroll_latch r)
    (ppuaddr_hi r) (ppuaddr_lo r) (ppudata_buffer r) (nmi_pending r)
    (frame_ready r) (vram r) (palette r) (oam r) (bg_opaque r) x (v r) (t r)
    (x_fine r) (w r) (cart_linked r) (mirror r) (framebuffer r) (scanline r)
    (dot r) (odd_frame r) (bg_shift_lo r) (bg_shift_hi r) (at_shift_lo r)
    (at_shift_hi r) (nt_byte r) (at_byte r) (bg_next_lo r) (bg_next_hi r)
    (spr_count r) (spr_x r) (spr_attr r) (spr_lo r) (spr_hi r) (spr_index r)
    (spr_count_next r) (spr_x_next r) (spr_attr_next r) (spr_lo_next r)
    (spr_hi_next r) (spr_index_next r).
Definition set_v (x : Z) (r : PPU) : PPU :=
  mkPPU (ppuctrl r) (ppumask r) (ppustatus r) (oamaddr r) (scroll_latch r)
    (ppuaddr_hi r) (ppuaddr_lo r) (ppudata_buffer r) (nmi_pending r)
    (frame_ready r) (vram r) (palette r) (oam r) (bg_opaque r) (vram_addr r)
    x (t r) (x_fine r) (w r) (cart_linked r) (mirror r) (framebuffer r)
    (scanline r) (dot r) (odd_frame r) (bg_shift_lo r) (bg_shift_hi r)
    (at_shift_lo r) (at_shift_hi r) (nt_byte r) (at_byte r) (bg_next_lo r)
    (bg_next_hi r) (spr_count r) (spr_x r) (spr_attr r) (spr_lo r)
    (spr_hi r) (spr_index r) (spr_count_next r) (spr_x_next r)
    (spr_attr_next r) (spr_lo_next r) (spr_hi_next r) (spr_index_next r).
Definition set_t (x : Z) (r : PPU) : PPU :=
  mkPPU (ppuctrl r) (ppumask r) (ppustatus r) (oamaddr r) (scroll_latch r)
    (ppuaddr_hi r) (ppuaddr_lo r) (ppudata_buffer r) (nmi_pending r)
    (frame_ready r) (vram r) (palette r) (oam r) (bg_opaque r) (vram_addr r)
    (v r) x (x_fine r) (w r) (cart_linked r) (mirror r) (framebuffer r)
    (scanline r) (dot r) (odd_frame r) (bg_shift_lo r) (bg_shift_hi r)
    (at_shift_lo r) (at_shift_hi r) (nt_byte r) (at_byte r) (bg_next_lo r)
    (bg_next_hi r) (spr_count r) (spr_x r) (spr_attr r) (spr_lo r)
    (spr_hi r) (spr_index r) (spr_count_next r) (spr_x_next r)
    (spr_attr_next r) (spr_lo_next r) (spr_hi_next r) (spr_index_next r).
Definition set_x_fine (x : Z) (r : PPU) : PPU :=
  mkPPU (ppuctrl r) (ppumask r) (ppustatus r) (oamaddr r) (scroll_latch r)
    (ppuaddr_hi r) (ppuaddr_lo r) (ppudata_buffer r) (nmi_pending r)
    (frame_ready r) (vram r) (palette r) (oam r) (bg_opaque r) (vram_addr r)
    (v r) (t r) x (w r) (cart_linked r) (mirror r) (framebuffer r)
    (scanline r) (dot r) (odd_frame r) (bg_shift_lo r) (bg_shift_hi r)
    (at_shift_lo r) (at_shift_hi r) (nt_byte r) (at_byte r) (bg_next_lo r)
    (bg_next_hi r) (spr_count r) (spr_x r) (spr_attr r) (spr_lo r)
    (spr_hi r) (spr_index r) (spr_count_next r) (spr_x_next r)
    (spr_attr_next r) (spr_lo_next r) (spr_hi_next r) (spr_index_next r).
Definition set_w (x : Z) (r : PPU) : PPU :=
  mkPPU (ppuctrl r) (ppumask r) (ppustatus r) (oamaddr r) (scroll_latch r)
    (ppuaddr_hi r) (ppuaddr_lo r) (ppudata_buffer r) (nmi_pending r)
    (frame_ready r) (vram r) (palette r) (oam r) (bg_opaque r) (vram_addr r)
    (v r) (t r) (x_fine r) x (cart_linked r) (mirror r) (framebuffer r)
    (scanline r) (dot r) (odd_frame r) (bg_shift_lo r) (bg_shift_hi r)
    (at_shift_lo r) (at_shift_hi r) (nt_byte r) (at_byte r) (bg_next_lo r)
    (bg_next_hi r) (spr_count r) (spr_x r) (spr_attr r) (spr_lo r)
    (spr_hi r) (spr_index r) (spr_count_next r) (spr_x_next r)
    (spr_attr_next r) (spr_lo_next r) (spr_hi_next r) (spr_index_next r).
Definition set_cart_linked (x : bool) (r : PPU) : PPU :=
  mkPPU (ppuctrl r) (ppumask r) (ppustatus r) (oamaddr r) (scroll_latch r)
    (ppuaddr_hi r) (ppuaddr_lo r) (ppudata_buffer r) (nmi_pending r)
    (frame_ready r) (vram r) (palette r) (oam r) (bg_opaque r) (vram_addr r)
    (v r) (t r) (x_fine r) (w r) x (mirror r) (framebuffer r) (scanline r)
    (dot r) (odd_frame r) (bg_shift_lo r) (bg_shift_hi r) (at_shift_lo r)
    (at_shift_hi r) (nt_byte r) (at_byte r) (bg_next_lo r) (bg_next_hi r)
    (spr_count r) (spr_x r) (spr_attr r) (spr_lo r) (spr_hi r) (spr_index r)
    (spr_count_next r) (spr_x_next r) (spr_attr_next r) (spr_lo_next r)
    (spr_hi_next r) (spr_index_next r).
Definition set_mirror (x : MirrorMode) (r : PPU) : PPU :=
  mkPPU (ppuctrl r) (ppumask r) (ppustatus r) (oamaddr r) (scroll_latch r)
    (ppuaddr_hi r) (ppuaddr_lo r) (ppudata_buffer r) (nmi_pending r)
    (frame_ready r) (vram r) (palette r) (oam r) (bg_opaque r) (vram_addr r)
    (v r) (t r) (x_fine r) (w r) (cart_linked r) x (framebuffer r)
    (scanline r) (dot r) (odd_frame r) (bg_shift_lo r) (bg_shift_hi r)
    (at_shift_lo r) (at_shift_hi r) (nt_byte r) (at_byte r) (bg_next_lo r)
    (bg_next_hi r) (spr_count r) (spr_x r) (spr_attr r) (spr_lo r)
    (spr_hi r) (spr_index r) (spr_count_next r) (spr_x_next r)
    (spr_attr_next r) (spr_lo_next r) (spr_hi_next r) (spr_index_next r).
Definition set_framebuffer (x : mem) (r : PPU) : PPU :=
  mkPPU (ppuctrl r) (ppumask r) (ppustatus r) (oamaddr r) (scroll_latch r)
    (ppuaddr_hi r) (ppuaddr_lo r) (ppudata_buffer r) (nmi_pending r)
    (frame_ready r) (vram r) (palette r) (oam r) (bg_opaque r) (vram_addr r)
    (v r) (t r) (x_fine r) (w r) (cart_linked r) (mirror r) x (scanline r)
    (dot r) (odd_frame r) (bg_shift_lo r) (bg_shift_hi r) (at_shift_lo r)
    (at_shift_hi r) (nt_byte r) (at_byte r) (bg_next_lo r) (bg_next_hi r)
    (spr_count r) (spr_x r) (spr_attr r) (spr_lo r) (spr_hi r) (spr_index r)
    (spr_count_next r) (spr_x_next r) (spr_attr_next r) (spr_lo_next r)
    (spr_hi_next r) (spr_index_next r).
Definition set_scanline (x : Z) (r : PPU) : PPU :=
  mkPPU (ppuctrl r) (ppumask r) (ppustatus r) (oamaddr r) (scroll_latch r)
    (ppuaddr_hi r) (ppuaddr_lo r) (ppudata_buffer r) (nmi_pending r)
    (frame_ready r) (vram r) (palette r) (oam r) (bg_opaque r) (vram_addr r)
    (v r) (t r) (x_fine r) (w r) (cart_linked r) (mirror r) (framebuffer r)
    x (dot r) (odd_frame r) (bg_shift_lo r) (bg_shift_hi r) (at_shift_lo r)
    (at_shift_hi r) (nt_byte r) (at_byte r) (bg_next_lo r) (bg_next_hi r)
    (spr_count r) (spr_x r) (spr_attr r) (spr_lo r) (spr_hi r) (spr_index r)
    (spr_count_next r) (spr_x_next r) (spr_attr_next r) (spr_lo_next r)
    (spr_hi_next r) (spr_index_next r).
Definition set_dot (x : Z) (r : PPU) : PPU :=
  mkPPU (ppuctrl r) (ppumask r) (ppustatus r) (oamaddr r) (scroll_latch r)
    (ppuaddr_hi r) (ppuaddr_lo r) (ppudata_buffer r) (nmi_pending r)
    (frame_ready r) (vram r) (palette r) (oam r) (bg_opaque r) (vram_addr r)
    (v r) (t r) (x_fine r) (w r) (cart_linked r) (mirror r) (framebuffer r)
    (scanline r) x (odd_frame r) (bg_shift_lo r) (bg_shift_hi r)
    (at_shift_lo r) (at_shift_hi r) (nt_byte r) (at_byte r) (bg_next_lo r)
    (bg_next_hi r) (spr_count r) (spr_x r) (spr_attr r) (spr_lo r)
    (spr_hi r) (spr_index r) (spr_count_next r) (spr_x_next r)
    (spr_attr_next r) (spr_lo_next r) (spr_hi_next r) (spr_index_next r).
Definition set_odd_frame (x : bool) (r : PPU) : PPU :=
  mkPPU (ppuctrl r) (ppumask r) (ppustatus r) (oamaddr r) (scroll_latch r)
    (ppuaddr_hi r) (ppuaddr_lo r) (ppudata_buffer r) (nmi_pending r)
    (frame_ready r) (vram r) (palette r) (oam r) (bg_opaque r) (vram_addr r)
    (v r) (t r) (x_fine r) (w r) (cart_linked r) (mirror r) (framebuffer r)
    (scanline r) (dot r) x (bg_shift_lo r) (bg_shift_hi r) (at_shift_lo r)
    (at_shift_hi r) (nt_byte r) (at_byte r) (bg_next_lo r) (bg_next_hi r)
    (spr_count r) (spr_x r) (spr_attr r) (spr_lo r) (spr_hi r) (spr_index r)
    (spr_count_next r) (spr_x_next r) (spr_attr_next r) (spr_lo_next r)
    (spr_hi_next r) (spr_index_next r).
Definition set_bg_shift_lo (x : Z) (r : PPU) : PPU :=
  mkPPU (ppuctrl r) (ppumask r) (ppustatus r) (oamaddr r) (scroll_latch r)
    (ppuaddr_hi r) (ppuaddr_lo r) (ppudata_buffer r) (nmi_pending r)
    (frame_ready r) (vram r) (palette r) (oam r) (bg_opaque r) (vram_addr r)
    (v r) (t r) (x_fine r) (w r) (cart_linked r) (mirror r) (framebuffer r)
    (scanline r) (dot r) (odd_frame r) x (bg_shift_hi r) (at_shift_lo r)
    (at_shift_hi r) (nt_byte r) (at_byte r) (bg_next_lo r) (bg_next_hi r)
    (spr_count r) (spr_x r) (spr_attr r) (spr_lo r) (spr_hi r) (spr_index r)
    (spr_count_next r) (spr_x_next r) (spr_attr_next r) (spr_lo_next r)
    (spr_hi_next r) (spr_index_next r).
Definition set_bg_shift_hi (x : Z) (r : PPU) : PPU :=
  mkPPU (ppuctrl r) (ppumask r) (ppustatus r) (oamaddr r) (scroll_latch r)
    (ppuaddr_hi r) (ppuaddr_lo r) (ppudata_buffer r) (nmi_pending r)
    (frame_ready r) (vram r) (palette r) (oam r) (bg_opaque r) (vram_addr r)
    (v r) (t r) (x_fine r) (w r) (cart_linked r) (mirror r) (framebuffer r)
    (scanline r) (dot r) (odd_frame r) (bg_shift_lo r) x (at_shift_lo r)
    (at_shift_hi r) (nt_byte r) (at_byte r) (bg_next_lo r) (bg_next_hi r)
    (spr_count r) (spr_x r) (spr_attr r) (spr_lo r) (spr_hi r) (spr_index r)
    (spr_count_next r) (spr_x_next r) (spr_attr_next r) (spr_lo_next r)
    (spr_hi_next r) (spr_index_next r).
Definition set_at_shift_lo (x : Z) (r : PPU) : PPU :=
  mkPPU (ppuctrl r) (ppumask r) (ppustatus r) (oamaddr r) (scroll_latch r)
    (ppuaddr_hi r) (ppuaddr_lo r) (ppudata_buffer r) (nmi_pending r)
    (frame_ready r) (vram r) (palette r) (oam r) (bg_opaque r) (vram_addr r)
    (v r) (t r) (x_fine r) (w r) (cart_linked r) (mirror r) (framebuffer r)
    (scanline r) (dot r) (odd_frame r) (bg_shift_lo r) (bg_shift_hi r) x
    (at_shift_hi r) (nt_byte r) (at_byte r) (bg_next_lo r) (bg_next_hi r)
    (spr_count r) (spr_x r) (spr_attr r) (spr_lo r) (spr_hi r) (spr_index r)
    (spr_count_next r) (spr_x_next r) (spr_attr_next r) (spr_lo_next r)
    (spr_hi_next r) (spr_index_next r).
Definition set_at_shift_hi (x : Z) (r : PPU) : PPU :=
  mkPPU (ppuctrl r) (ppumask r) (ppustatus r) (oamaddr r) (scroll_latch r)
    (ppuaddr_hi r) (ppuaddr_lo r) (ppudata_buffer r) (nmi_pending r)
    (frame_ready r) (vram r) (palette r) (oam r) (bg_opaque r) (vram_addr r)
    (v r) (t r) (x_fine r) (w r) (cart_linked r) (mirror r) (framebuffer r)
    (scanline r) (dot r) (odd_frame r) (bg_shift_lo r) (bg_shift_hi r)
    (at_shift_lo r) x (nt_byte r) (at_byte r) (bg_next_lo r) (bg_next_hi r)
    (spr_count r) (spr_x r) (spr_attr r) (spr_lo r) (spr_hi r) (spr_index r)
    (spr_count_next r) (spr_x_next r) (spr_attr_next r) (spr_lo_next r)
    (spr_hi_next r) (spr_index_next r).
Definition set_nt_byte (x : Z) (r : PPU) : PPU :=
  mkPPU (ppuctrl r) (ppumask r) (ppustatus r) (oamaddr r) (scroll_latch r)
    (ppuaddr_hi r) (ppuaddr_lo r) (ppudata_buffer r) (nmi_pending r)
    (frame_ready r) (vram r) (palette r) (oam r) (bg_opaque r) (vram_addr r)
    (v r) (t r) (x_fine r) (w r) (cart_linked r) (mirror r) (framebuffer r)
    (scanline r) (dot r) (odd_frame r) (bg_shift_lo r) (bg_shift_hi r)
    (at_shift_lo r) (at_shift_hi r) x (at_byte r) (bg_next_lo r)
    (bg_next_hi r) (spr_count r) (spr_x r) (spr_attr r) (spr_lo r)
    (spr_hi r) (spr_index r) (spr_count_next r) (spr_x_next r)
    (spr_attr_next r) (spr_lo_next r) (spr_hi_next r) (spr_index_next r).
Definition set_at_byte (x : Z) (r : PPU) : PPU :=
  mkPPU (ppuctrl r) (ppumask r) (ppustatus r) (oamaddr r) (scroll_latch r)
    (ppuaddr_hi r) (ppuaddr_lo r) (ppudata_buffer r) (nmi_pending r)
    (frame_ready r) (vram r) (palette r) (oam r) (bg_opaque r) (vram_addr r)
    (v r) (t r) (x_fine r) (w r) (cart_linked r) (mirror r) (framebuffer r)
    (scanline r) (dot r) (odd_frame r) (bg_shift_lo r) (bg_shift_hi r)
    (at_shift_lo r) (at_shift_hi r) (nt_byte r) x (bg_next_lo r)
    (bg_next_hi r) (spr_count r) (spr_x r) (spr_attr r) (spr_lo r)
    (spr_hi r) (spr_index r) (spr_count_next r) (spr_x_next r)
    (spr_attr_next r) (spr_lo_next r) (spr_hi_next r) (spr_index_next r).
Definition set_bg_next_lo (x : Z) (r : PPU) : PPU :=
  mkPPU (ppuctrl r) (ppumask r) (ppustatus r) (oamaddr r) (scroll_latch r)
    (ppuaddr_hi r) (ppuaddr_lo r) (ppudata_buffer r) (nmi_pending r)
    (frame_ready r) (vram r) (palette r) (oam r) (bg_opaque r) (vram_addr r)
    (v r) (t r) (x_fine r) (w r) (cart_linked r) (mirror r) (framebuffer r)
    (scanline r) (dot r) (odd_frame r) (bg_shift_lo r) (bg_shift_hi r)
    (at_shift_lo r) (at_shift_hi r) (nt_byte r) (at_byte r) x (bg_next_hi r)
    (spr_count r) (spr_x r) (spr_attr r) (spr_lo r) (spr_hi r) (spr_index r)
    (spr_count_next r) (spr_x_next r) (spr_attr_next r) (spr_lo_next r)
    (spr_hi_next r) (spr_index_next r).
Definition set_bg_next_hi (x : Z) (r : PPU) : PPU :=
  mkPPU (ppuctrl r) (ppumask r) (ppustatus r) (oamaddr r) (scroll_latch r)
    (ppuaddr_hi r) (ppuaddr_lo r) (ppudata_buffer r) (nmi_pending r)
    (frame_ready r) (vram r) (palette r) (oam r) (bg_opaque r) (vram_addr r)
    (v r) (t r) (x_fine r) (w r) (cart_linked r) (mirror r) (framebuffer r)
    (scanline r) (dot r) (odd_frame r) (bg_shift_lo r) (bg_shift_hi r)
    (at_shift_lo r) (at_shift_hi r) (nt_byte r) (at_byte r) (bg_next_lo r) x
    (spr_count r) (spr_x r) (spr_attr r) (spr_lo r) (spr_hi r) (spr_index r)
    (spr_count_next r) (spr_x_next r) (spr_attr_next r) (spr_lo_next r)
    (spr_hi_next r) (spr_index_next r).
Definition set_spr_count (x : Z) (r : PPU) : PPU :=
  mkPPU (ppuctrl r) (ppumask r) (ppustatus r) (oamaddr r) (scroll_latch r)
    (ppuaddr_hi r) (ppuaddr_lo r) (ppudata_buffer r) (nmi_pending r)
    (frame_ready r) (vram r) (palette r) (oam r) (bg_opaque r) (vram_addr r)
    (v r) (t r) (x_fine r) (w r) (cart_linked r) (mirror r) (framebuffer r)
    (scanline r) (dot r) (odd_frame r) (bg_shift_lo r) (bg_shift_hi r)
    (at_shift_lo r) (at_shift_hi r) (nt_byte r) (at_byte r) (bg_next_lo r)
    (bg_next_hi r) x (spr_x r) (spr_attr r) (spr_lo r) (spr_hi r)
    (spr_index r) (spr_count_next r) (spr_x_next r) (spr_attr_next r)
    (spr_lo_next r) (spr_hi_next r) (spr_index_next r).
Definition set_spr_x (x : mem) (r : PPU) : PPU :=
  mkPPU (ppuctrl r) (ppumask r) (ppustatus r) (oamaddr r) (scroll_latch r)
    (ppuaddr_hi r) (ppuaddr_lo r) (ppudata_buffer r) (nmi_pending r)
    (frame_ready r) (vram r) (palette r) (oam r) (bg_opaque r) (vram_addr r)
    (v r) (t r) (x_fine r) (w r) (cart_linked r) (mirror r) (framebuffer r)
    (scanline r) (dot r) (odd_frame r) (bg_shift_lo r) (bg_shift_hi r)
    (at_shift_lo r) (at_shift_hi r) (nt_byte r) (at_byte r) (bg_next_lo r)
    (bg_next_hi r) (spr_count r) x (spr_attr r) (spr_lo r) (spr_hi r)
    (spr_index r) (spr_count_next r) (spr_x_next r) (spr_attr_next r)
    (spr_lo_next r) (spr_hi_next r) (spr_index_next r).
Definition set_spr_attr (x : mem) (r : PPU) : PPU :=
  mkPPU (ppuctrl r) (ppumask r) (ppustatus r) (oamaddr r) (scroll_latch r)
    (ppuaddr_hi r) (ppuaddr_lo r) (ppudata_buffer r) (nmi_pending r)
    (frame_ready r) (vram r) (palette r) (oam r) (bg_opaque r) (vram_addr r)
    (v r) (t r) (x_fine r) (w r) (cart_linked r) (mirror r) (framebuffer r)
    (scanline r) (dot r) (odd_frame r) (bg_shift_lo r) (bg_shift_hi r)
    (at_shift_lo r) (at_shift_hi r) (nt_byte r) (at_byte r) (bg_next_lo r)
    (bg_next_hi r) (spr_count r) (spr_x r) x (spr_lo r) (spr_hi r)
    (spr_index r) (spr_count_next r) (spr_x_next r) (spr_attr_next r)
    (spr_lo_next r) (spr_hi_next r) (spr_index_next r).
Definition set_spr_lo (x : mem) (r : PPU) : PPU :=
  mkPPU (ppuctrl r) (ppumask r) (ppustatus r) (oamaddr r) (scroll_latch r)
    (ppuaddr_hi r) (ppuaddr_lo r) (ppudata_buffer r) (nmi_pending r)
    (frame_ready r) (vram r) (palette r) (oam r) (bg_opaque r) (vram_addr r)
    (v r) (t r) (x_fine r) (w r) (cart_linked r) (mirror r) (framebuffer r)
    (scanline r) (dot r) (odd_frame r) (bg_shift_lo r) (bg_shift_hi r)
    (at_shift_lo r) (at_shift_hi r) (nt_byte r) (at_byte r) (bg_next_lo r)
    (bg_next_hi r) (spr_count r) (spr_x r) (spr_attr r) x (spr_hi r)
    (spr_index r) (spr_count_next r) (spr_x_next r) (spr_attr_next r)
    (spr_lo_next r) (spr_hi_next r) (spr_index_next r).
Definition set_spr_hi (x : mem) (r : PPU) : PPU :=
  mkPPU (ppuctrl r) (ppumask r) (ppustatus r) (oamaddr r) (scroll_latch r)
    (ppuaddr_hi r) (ppuaddr_lo r) (ppudata_buffer r) (nmi_pending r)
    (frame_ready r) (vram r) (palette r) (oam r) (bg_opaque r) (vram_addr r)
    (v r) (t r) (x_fine r) (w r) (cart_linked r) (mirror r) (framebuffer r)
    (scanline r) (dot r) (odd_frame r) (bg_shift_lo r) (bg_shift_hi r)
    (at_shift_lo r) (at_shift_hi r) (nt_byte r) (at_byte r) (bg_next_lo r)
    (bg_next_hi r) (spr_count r) (spr_x r) (spr_attr r) (spr_lo r) x
    (spr_index r) (spr_count_next r) (spr_x_next r) (spr_attr_next r)
    (spr_lo_next r) (spr_hi_next r) (spr_index_next r).
Definition set_spr_index (x : mem) (r : PPU) : PPU :=
  mkPPU (ppuctrl r) (ppumask r) (ppustatus r) (oamaddr r) (scroll_latch r)
    (ppuaddr_hi r) (ppuaddr_lo r) (ppudata_buffer r) (nmi_pending r)
    (frame_ready r) (vram r) (palette r) (oam r) (bg_opaque r) (vram_addr r)
    (v r) (t r) (x_fine r) (w r) (cart_linked r) (mirror r) (framebuffer r)
    (scanline r) (dot r) (odd_frame r) (bg_shift_lo r) (bg_shift_hi r)
    (at_shift_lo r) (at_shift_hi r) (nt_byte r) (at_byte r) (bg_next_lo r)
    (bg_next_hi r) (spr_count r) (spr_x r) (spr_attr r) (spr_lo r)
    (spr_hi r) x (spr_count_next r) (spr_x_next r) (spr_attr_next r)
    (spr_lo_next r) (spr_hi_next r) (spr_index_next r).
Definition set_spr_count_next (x : Z) (r : PPU) : PPU :=
  mkPPU (ppuctrl r) (ppumask r) (ppustatus r) (oamaddr r) (scroll_latch r)
    (ppuaddr_hi r) (ppuaddr_lo r) (ppudata_buffer r) (nmi_pending r)
    (frame_ready r) (vram r) (palette r) (oam r) (bg_opaque r) (vram_addr r)
    (v r) (t r) (x_fine r) (w r) (cart_linked r) (mirror r) (framebuffer r)
    (scanline r) (dot r) (odd_frame r) (bg_shift_lo r) (bg_shift_hi r)
    (at_shift_lo r) (at_shift_hi r) (nt_byte r) (at_byte r) (bg_next_lo r)
    (bg_next_hi r) (spr_count r) (spr_x r) (spr_attr r) (spr_lo r)
    (spr_hi r) (spr_index r) x (spr_x_next r) (spr_attr_next r)
    (spr_lo_next r) (spr_hi_next r) (spr_index_next r).
Definition set_spr_x_next (x : mem) (r : PPU) : PPU :=
  mkPPU (ppuctrl r) (ppumask r) (ppustatus r) (oamaddr r) (scroll_latch r)
    (ppuaddr_hi r) (ppuaddr_lo r) (ppudata_buffer r) (nmi_pending r)
    (frame_ready r) (vram r) (palette r) (oam r) (bg_opaque r) (vram_addr r)
    (v r) (t r) (x_fine r) (w r) (cart_linked r) (mirror r) (framebuffer r)
    (scanline r) (dot r) (odd_frame r) (bg_shift_lo r) (bg_shift_hi r)
    (at_shift_lo r) (at_shift_hi r) (nt_byte r) (at_byte r) (bg_next_lo r)
    (bg_next_hi r) (spr_count r) (spr_x r) (spr_attr r) (spr_lo r)
    (spr_hi r) (spr_index r) (spr_count_next r) x (spr_attr_next r)
    (spr_lo_next r) (spr_hi_next r) (spr_index_next r).
Definition set_spr_attr_next (x : mem) (r : PPU) : PPU :=
  mkPPU (ppuctrl r) (ppumask r) (ppustatus r) (oamaddr r) (scroll_latch r)
    (ppuaddr_hi r) (ppuaddr_lo r) (ppudata_buffer r) (nmi_pending r)
    (frame_ready r) (vram r) (palette r) (oam r) (bg_opaque r) (vram_addr r)
    (v r) (t r) (x_fine r) (w r) (cart_linked r) (mirror r) (framebuffer r)
    (scanline r) (dot r) (odd_frame r) (bg_shift_lo r) (bg_shift_hi r)
    (at_shift_lo r) (at_shift_hi r) (nt_byte r) (at_byte r) (bg_next_lo r)
    (bg_next_hi r) (spr_count r) (spr_x r) (spr_attr r) (spr_lo r)
    (spr_hi r) (spr_index r) (spr_count_next r) (spr_x_next r) x
    (spr_lo_next r) (spr_hi_next r) (spr_index_next r).
Definition set_spr_lo_next (x : mem) (r : PPU) : PPU :=
  mkPPU (ppuctrl r) (ppumask r) (ppustatus r) (oamaddr r) (scroll_latch r)
    (ppuaddr_hi r) (ppuaddr_lo r) (ppudata_buffer r) (nmi_pending r)
    (frame_ready r) (vram r) (palette r) (oam r) (bg_opaque r) (vram_addr r)
    (v r) (t r) (x_fine r) (w r) (cart_linked r) (mirror r) (framebuffer r)
    (scanline r) (dot r) (odd_frame r) (bg_shift_lo r) (bg_shift_hi r)
    (at_shift_lo r) (at_shift_hi r) (nt_byte r) (at_byte r) (bg_next_lo r)
    (bg_next_hi r) (spr_count r) (spr_x r) (spr_attr r) (spr_lo r)
    (spr_hi r) (spr_index r) (spr_count_next r) (spr_x_next r)
    (spr_attr_next r) x (spr_hi_next r) (spr_index_next r).
Definition set_spr_hi_next (x : mem) (r : PPU) : PPU :=
  mkPPU (ppuctrl r) (ppumask r) (ppustatus r) (oamaddr r) (scroll_latch r)
    (ppuaddr_hi r) (ppuaddr_lo r) (ppudata_buffer r) (nmi_pending r)
    (frame_ready r) (vram r) (palette r) (oam r) (bg_opaque r) (vram_addr r)
    (v r) (t r) (x_fine r) (w r) (cart_linked r) (mirror r) (framebuffer r)
    (scanline r) (dot r) (odd_frame r) (bg_shift_lo r) (bg_shift_hi r)
    (at_shift_lo r) (at_shift_hi r) (nt_byte r) (at_byte r) (bg_next_lo r)
    (bg_next_hi r) (spr_count r) (spr_x r) (spr_attr r) (spr_lo r)
    (spr_hi r) (spr_index r) (spr_count_next r) (spr_x_next r)
    (spr_attr_next r) (spr_lo_next r) x (spr_index_next r).
Definition set_spr_index_next (x : mem) (r : PPU) : PPU :=
  mkPPU (ppuctrl r) (ppumask r) (ppustatus r) (oamaddr r) (scroll_latch r)
    (ppuaddr_hi r) (ppuaddr_lo r) (ppudata_buffer r) (nmi_pending r)
    (frame_ready r) (vram r) (palette r) (oam r) (bg_opaque r) (vram_addr r)
    (v r) (t r) (x_fine r) (w r) (cart_linked r) (mirror r) (framebuffer r)
    (scanline r) (dot r) (odd_frame r) (bg_shift_lo r) (bg_shift_hi r)
    (at_shift_lo r) (at_shift_hi r) (nt_byte r) (at_byte r) (bg_next_lo r)
    (bg_next_hi r) (spr_count r) (spr_x r) (spr_attr r) (spr_lo r)
    (spr_hi r) (spr_index r) (spr_count_next r) (spr_x_next r)
    (spr_attr_next r) (spr_lo_next r) (spr_hi_next r) x.

(** The state left by [memset(p, 0, sizeof *p)]. *)
Definition ppu_zeroed : PPU :=
  mkPPU 0 0 0 0 0 0 0 0 false false zeros zeros zeros zeros 0
    0 0 0 0 false MIRROR_HORIZONTAL zeros 0 0 false
    0 0 0 0 0 0 0 0
    0 zeros zeros zeros zeros zeros
    0 zeros zeros zeros zeros zeros.

Definition ppu_reset (p : PPU) : PPU :=
  let p := ppu_zeroed in
  let p := set_ppustatus 0xA0 p in
  let p := set_w 0 (set_x_fine 0 (set_t 0 (set_v 0 p))) in
  let p := set_dot 0 (set_scanline 0 p) in
  let p := set_odd_frame false p in
  let p := set_at_shift_hi 0 (set_at_shift_lo 0
             (set_bg_shift_hi 0 (set_bg_shift_lo 0 p))) in
  set_bg_next_hi 0 (set_bg_next_lo 0 (set_at_byte 0 (set_nt_byte 0 p))).

Definition ppu_power_on (p : PPU) : PPU := ppu_reset p.

Definition inc_coarse_x (p : PPU) : PPU :=
  if Z.land (v p) 0x001F =? 31 then
    let p := set_v (Z.land (v p) (u16 (Z.lnot 0x001F))) p in
    set_v (Z.lxor (v p) 0x0400) p
  else set_v (u16 (v p + 1)) p.

Definition inc_y (p : PPU) : PPU :=
  if negb (Z.land (v p) 0x7000 =? 0x7000) then
    set_v (u16 (v p + 0x1000)) p
  else
    let p := set_v (Z.land (v p) (u16 (Z.lnot 0x7000))) p in
    let y := u16 (Z.shiftr (Z.land (v p) 0x03E0) 5) in
    let '(y, p) :=
      if y =? 29 then (0, set_v (Z.lxor (v p) 0x0800) p)
      else if y =? 31 then (0, p)
      else (u16 (y + 1), p) in
    set_v (u16 (Z.lor (Z.land (v p) (Z.lnot 0x03E0)) (Z.shiftl y 5))) p.

Definition transfer_horizontal (p : PPU) : PPU :=
  set_v (u16 (Z.lor (Z.land (v p) 0x7BE0) (Z.land (t p) 0x041F))) p.

Definition transfer_vertical (p : PPU) : PPU :=
  set_v (u16 (Z.lor (Z.land (v p) 0x041F) (Z.land (t p) 0x7BE0))) p.

Definition mirror_nt_addr (p : PPU) (addr : Z) : Z :=
  let a := u16 (Z.land (addr - 0x2000) 0x0FFF) in
  let table := u16 (a / 0x0400) in
  let offset := u16 (Z.land a 0x03FF) in
  let table :=
    match mirror p with
    | MIRROR_VERTICAL =>
        if table =? 2 then 0 else if table =? 3 then 1 else table
    | MIRROR_HORIZONTAL =>
        if table =? 1 then 0 else if table =? 3 then 2 else table
    | MIRROR_FOUR =>
        if table =? 2 then 0 else if table =? 3 then 1 else table
    end in
  u16 (table * 0x0400 + offset).

(** Palette index with the four mirrors of the universal colour. *)
Definition pal_index (addr : Z) : Z :=
  let pal := u16 (Z.land (addr - 0x3F00) 0x1F) in
  let pal := if pal =? 0x10 then 0x00 else pal in
  let pal := if pal =? 0x14 then 0x04 else pal in
  let pal := if pal =? 0x18 then 0x08 else pal in
  let pal := if pal =? 0x1C then 0x0C else pal in
  pal.

Definition ppu_read_mem (c : Cartridge) (p : PPU) (addr : Z) : Z :=
  let addr := Z.land addr 0x3FFF in
  if addr <? 0x2000 then
    match chr c with
    | Some m =>
        if negb (cart_linked p) || (chr_size c =? 0) then 0
        else m (Z.rem addr (chr_size c))
    | None => 0
    end
  else if addr <? 0x3F00 then
    vram p (mirror_nt_addr p addr)
  else if addr <? 0x4000 then
    palette p (pal_index addr)
  else 0.

Definition ppu_write_mem (c : Cartridge) (p : PPU) (addr data : Z)
  : PPU * Cartridge :=
  let addr := Z.land addr 0x3FFF in
  if addr <? 0x2000 then
    match chr c with
    | Some m =>
        if cart_linked p && chr_is_ram c
        then (p, set_chr (Some (upd m (Z.rem addr (chr_size c)) data)) c)
        else (p, c)
    | None => (p, c)
    end
  else if addr <? 0x3F00 then
    (set_vram (upd (vram p) (mirror_nt_addr p addr) data) p, c)
  else if addr <? 0x4000 then
    (set_palette (upd (palette p) (pal_index addr) data) p, c)
  else (p, c).

Definition ppu_read_reg (c : Cartridge) (p : PPU) (reg : Z) : Z * PPU :=
  let reg := Z.land reg 7 in
  match reg with
  | 2 =>
      let r := ppustatus p in
      let p := set_ppustatus (Z.land (ppustatus p) (not8 0x80)) p in
      let p := set_scroll_latch 0 p in
      let p := set_w 0 p in
      (r, p)
  | 4 => (oam p (oamaddr p), p)
  | 7 =>
      let '(ret, p) :=
        if (vram_addr p >=? 0x3F00) && (vram_addr p <? 0x4000)
        then (palette p (Z.land (vram_addr p - 0x3F00) 0x1F), p)
        else (ppudata_buffer p,
              set_ppudata_buffer (ppu_read_mem c p (vram_addr p)) p) in
      let inc := if nz (Z.land (ppuctrl p) 0x04) then 32 else 1 in
      let p := set_vram_addr (u16 (vram_addr p + inc)) p in
      let p := set_ppuaddr_hi (u8 (Z.shiftr (vram_addr p) 8)) p in
      let p := set_ppuaddr_lo (u8 (Z.land (vram_addr p) 0xFF)) p in
      (ret, p)
  | _ => (0, p)
  end.

Definition ppu_write_reg (c : Cartridge) (p : PPU) (reg data : Z)
  : PPU * Cartridge :=
  let reg := Z.land reg 7 in
  match reg with
  | 0 =>
      let p := set_ppuctrl data p in
      (set_t (u16 (Z.lor (Z.land (t p) 0xF3FF)
                         (Z.shiftl (Z.land data 0x03) 10))) p, c)
  | 1 => (set_ppumask data p, c)
  | 3 => (set_oamaddr data p, c)
  | 4 =>
      let p := set_oam (upd (oam p) (oamaddr p) data) p in
      (set_oamaddr (u8 (oamaddr p + 1)) p, c)
  | 5 =>
      if w p =? 0 then
        let p := set_x_fine (u8 (Z.land data 0x07)) p in
        let p := set_t (u16 (Z.lor (Z.land (t p) 0xFFE0)
                                   (Z.shiftr data 3))) p in
        (set_w 1 p, c)
      else
        let p := set_t (u16 (Z.lor (Z.land (t p) 0x8FFF)
                                   (Z.shiftl (Z.land data 0x07) 12))) p in
        let p := set_t (u16 (Z.lor (Z.land (t p) 0xFC1F)
                                   (Z.shiftl (Z.land data 0xF8) 2))) p in
        (set_w 0 p, c)
  | 6 =>
      if w p =? 0 then
        let p := set_t (u16 (Z.lor (Z.land (t p) 0x00FF)
                                   (Z.shiftl (Z.land data 0x3F) 8))) p in
        (set_w 1 p, c)
      else
        let p := set_t (u16 (Z.lor (Z.land (t p) 0xFF00) data)) p in
        let p := set_v (t p) p in
        (set_w 0 p, c)
  | 7 =>
      let '(p, c) := ppu_write_mem c p (v p) data in
      let inc := if nz (Z.land (ppuctrl p) 0x04) then 32 else 1 in
      let p := set_v (u16 (v p + inc)) p in
      let p := set_ppuaddr_hi (u8 (Z.shiftr (v p) 8)) p in
      let p := set_ppuaddr_lo (u8 (Z.land (v p) 0xFF)) p in
      (p, c)
  | _ => (p, c)
  end.

Definition ppu_connect_cartridge (p : PPU) (m : MirrorMode) : PPU :=
  set_mirror m (set_cart_linked true p).

(** Classic NES palette (approx.). *)
Definition NES_PALETTE : list Z := [
  0xFF757575;0xFF271B8F;0xFF0000AB;0xFF47009F;0xFF8F0077;0xFFAB0013;0xFFA70000;0xFF7F0B00;
  0xFF432F00;0xFF004700;0xFF005100;0xFF003F17;0xFF1B3F5F;0xFF000000;0xFF000000;0xFF000000;
  0xFFBCBCBC;0xFF0073EF;0xFF233BEF;0xFF8300F3;0xFFBF00BF;0xFFE7005B;0xFFDB2B00;0xFFCB4F0F;
  0xFF8B7300;0xFF009700;0xFF00AB00;0xFF00933B;0xFF00838B;0xFF000000;0xFF000000;0xFF000000;
  0xFFFFFFFF;0xFF3FBFFF;0xFF5F73FF;0xFF9F4BFF;0xFFFF3FFF;0xFFFF2747;0xFFFF7B5F;0xFFFFA347;
  0xFFF3BF3F;0xFF83D313;0xFF4FDF4B;0xFF58F898;0xFF00EBDB;0xFF000000;0xFF000000;0xFF000000;
  0xFFFFFFFF;0xFFABE7FF;0xFFC7D7FF;0xFFD7CBFF;0xFFFFC7FF;0xFFFFC7DB;0xFFFFBFAB;0xFFFFDBAB;
  0xFFFFE7A3;0xFFE3FFA3;0xFFABF3BF;0xFFB3FFCF;0xFF9FFFF3;0xFF000000;0xFF000000;0xFF000000 ].

Definition nes_palette (i : Z) : Z := nth (Z.to_nat i) NES_PALETTE 0.

(** The [switch (quadrant)] block that ppu_step runs both when it preloads
    the attribute shifters at dot 1 and when it reloads them every 8 dots. *)
Definition attr_palette_bits (p : PPU) : Z :=
  let attr := at_byte p in
  let coarse_x := u8 (Z.land (v p) 0x1F) in
  let coarse_y := u8 (Z.land (Z.shiftr (v p) 5) 0x1F) in
  let quadrant :=
    u8 (Z.lor (Z.shiftl (Z.land coarse_y 0x02) 1) (Z.land coarse_x 0x02)) in
  match quadrant with
  | 0x00 => u8 (Z.land attr 0x03)
  | 0x02 => u8 (Z.land (Z.shiftr attr 2) 0x03)
  | 0x04 => u8 (Z.land (Z.shiftr attr 4) 0x03)
  | 0x06 => u8 (Z.land (Z.shiftr attr 6) 0x03)
  | _ => u8 (Z.land attr 0x03)
  end.

(** [for (i = 0; i < spr_count; ++i)] copying the prepared sprites. *)
Fixpoint copy_sprites (n : nat) (i : Z) (p : PPU) : PPU :=
  match n with
  | O => p
  | S k =>
      let p := set_spr_x (upd (spr_x p) i (spr_x_next p i)) p in
      let p := set_spr_attr (upd (spr_attr p) i (spr_attr_next p i)) p in
      let p := set_spr_lo (upd (spr_lo p) i (spr_lo_next p i)) p in
      let p := set_spr_hi (upd (spr_hi p) i (spr_hi_next p i)) p in
      let p := set_spr_index (upd (spr_index p) i (spr_index_next p i)) p in
      copy_sprites k (i + 1) p
  end.

(** Dot 1 of a visible line: sprites and shifter preload. *)
Definition load_sprites (p : PPU) : PPU :=
  let p := set_spr_count (spr_count_next p) p in
  let p := copy_sprites (Z.to_nat (spr_count p)) 0 p in
  let p := set_bg_shift_lo (u16 (Z.shiftl (bg_next_lo p) 8)) p in
  let p := set_bg_shift_hi (u16 (Z.shiftl (bg_next_hi p) 8)) p in
  let palette_bits := attr_palette_bits p in
  let p := set_at_shift_lo
             (if nz (Z.land palette_bits 0x01) then 0xFF00 else 0x0000) p in
  set_at_shift_hi
    (if nz (Z.land palette_bits 0x02) then 0xFF00 else 0x0000) p.

(** The per-pixel sprite search; the result is
    (sp_color, sp_opaque, sp0, sp_behind). *)
Fixpoint sprite_pixel (n : nat) (i : Z) (c : Cartridge) (p : PPU)
  : Z * bool * bool * bool :=
  match n with
  | O => (0, false, false, false)
  | S k =>
      if spr_x p i >? 0 then sprite_pixel k (i + 1) c p
      else
        let p0s := if nz (Z.land (spr_lo p i) 0x80) then 1 else 0 in
        let p1s := if nz (Z.land (spr_hi p i) 0x80) then 1 else 0 in
        let pix := u8 (Z.lor (Z.shiftl p1s 1) p0s) in
        if pix =? 0 then sprite_pixel k (i + 1) c p
        else
          let attr := spr_attr p i in
          let paladdr := u16 (0x3F10 + Z.land attr 0x03 * 4 + pix) in
          let paladdr :=
            if Z.land paladdr 0x13 =? 0x10 then 0x3F00 else paladdr in
          let pi := ppu_read_mem c p paladdr in
          (nes_palette (Z.land pi 0x3F), true,
           spr_index p i =? 0, nz (Z.land attr 0x20))
  end.

(** Advance sprite shifters/counters. *)
Fixpoint advance_sprites (n : nat) (i : Z) (p : PPU) : PPU :=
  match n with
  | O => p
  | S k =>
      let p :=
        if spr_x p i >? 0
        then set_spr_x (upd (spr_x p) i (u8 (spr_x p i - 1))) p
        else
          let p := set_spr_lo
                     (upd (spr_lo p) i (u8 (Z.shiftl (spr_lo p i) 1))) p in
          set_spr_hi (upd (spr_hi p) i (u8 (Z.shiftl (spr_hi p i) 1))) p in
      advance_sprites k (i + 1) p
  end.

(** Visible pixels: the body of the [dot >= 1 && dot <= 256] block. *)
Definition render_pixel (c : Cartridge) (sl d : Z) (p : PPU) : PPU :=
  let x := d - 1 in
  let y := sl in
  let '(bg_pix, pal_select) :=
    if nz (Z.land (ppumask p) 0x08) then
      let mask := u16 (Z.shiftr 0x8000 (Z.land (x_fine p) 7)) in
      let b0 := if nz (Z.land (bg_shift_lo p) mask) then 1 else 0 in
      let b1 := if nz (Z.land (bg_shift_hi p) mask) then 1 else 0 in
      let a0 := if nz (Z.land (at_shift_lo p) mask) then 1 else 0 in
      let a1 := if nz (Z.land (at_shift_hi p) mask) then 1 else 0 in
      (u8 (Z.lor (Z.shiftl b1 1) b0), u8 (Z.lor (Z.shiftl a1 1) a0))
    else (0, 0) in
  let bg_pix :=
    if (x <? 8) && (Z.land (ppumask p) 0x02 =? 0) then 0 else bg_pix in
  let bg_palette_index :=
    if bg_pix =? 0 then ppu_read_mem c p 0x3F00
    else ppu_read_mem c p (u16 (0x3F00 + pal_select * 4 + bg_pix)) in
  let bg_color := nes_palette (Z.land bg_palette_index 0x3F) in
  let bg_op := negb (bg_pix =? 0) && nz (Z.land (ppumask p) 0x08) in
  let show_bg := nz (Z.land (ppumask p) 0x08) in
  let show_spr := nz (Z.land (ppumask p) 0x10) in
  let mask_left_spr := Z.land (ppumask p) 0x04 =? 0 in
  let '(sp_color, sp_opaque, sp0, sp_behind) :=
    if show_spr && negb ((x <? 8) && mask_left_spr)
    then sprite_pixel (Z.to_nat (spr_count p)) 0 c p
    else (0, false, false, false) in
  let use_sprite := sp_opaque && negb (sp_behind && bg_op) in
  let bg_op := if negb show_bg then false else bg_op in
  let use_sprite := if negb show_spr then false else use_sprite in
  let color := if use_sprite then sp_color else bg_color in
  let p := set_framebuffer (upd (framebuffer p) (y * 256 + x) color) p in
  let p := set_bg_opaque
             (upd (bg_opaque p) (y * 256 + x) (if bg_op then 1 else 0)) p in
  let p :=
    if sp0 && use_sprite && bg_op && negb (x =? 255)
    then set_ppustatus (Z.lor (ppustatus p) 0x40) p
    else p in
  let p :=
    if nz (Z.land (ppumask p) 0x08) then
      let p := set_bg_shift_lo (u16 (Z.shiftl (bg_shift_lo p) 1)) p in
      let p := set_bg_shift_hi (u16 (Z.shiftl (bg_shift_hi p) 1)) p in
      let p := set_at_shift_lo (u16 (Z.shiftl (at_shift_lo p) 1)) p in
      set_at_shift_hi (u16 (Z.shiftl (at_shift_hi p) 1)) p
    else p in
  if show_spr then advance_sprites (Z.to_nat (spr_count p)) 0 p else p.

(** Background tile fetch pipeline and shifter reloads:
    the [switch (dot % 8)]. *)
Definition bg_fetch (c : Cartridge) (d : Z) (p : PPU) : PPU :=
  match Z.rem d 8 with
  | 1 =>
      let addr := u16 (Z.lor 0x2000 (Z.land (v p) 0x0FFF)) in
      set_nt_byte (ppu_read_mem c p addr) p
  | 3 =>
      let addr :=
        u16 (Z.lor (Z.lor (Z.lor 0x23C0 (Z.land (v p) 0x0C00))
                          (Z.land (Z.shiftr (v p) 4) 0x38))
                   (Z.land (Z.shiftr (v p) 2) 0x07)) in
      set_at_byte (ppu_read_mem c p addr) p
  | 5 =>
      let fine_y := u16 (Z.land (Z.shiftr (v p) 12) 0x7) in
      let base := if nz (Z.land (ppuctrl p) 0x10) then 0x1000 else 0x0000 in
      let addr := u16 (base + nt_byte p * 16 + fine_y) in
      set_bg_next_lo (ppu_read_mem c p addr) p
  | 7 =>
      let fine_y := u16 (Z.land (Z.shiftr (v p) 12) 0x7) in
      let base := if nz (Z.land (ppuctrl p) 0x10) then 0x1000 else 0x0000 in
      let addr := u16 (base + nt_byte p * 16 + fine_y + 8) in
      set_bg_next_hi (ppu_read_mem c p addr) p
  | 0 =>
      let p := set_bg_shift_lo
                 (u16 (Z.lor (Z.land (bg_shift_lo p) 0x00FF)
                             (Z.shiftl (bg_next_lo p) 8))) p in
      let p := set_bg_shift_hi
                 (u16 (Z.lor (Z.land (bg_shift_hi p) 0x00FF)
                             (Z.shiftl (bg_next_hi p) 8))) p in
      let palette_bits := attr_palette_bits p in
      let fill := if nz (Z.land palette_bits 0x01) then 0xFF00 else 0x0000 in
      let p := set_at_shift_lo
                 (u16 (Z.lor (Z.land (at_shift_lo p) 0x00FF) fill)) p in
      let fill := if nz (Z.land palette_bits 0x02) then 0xFF00 else 0x0000 in
      let p := set_at_shift_hi
                 (u16 (Z.lor (Z.land (at_shift_hi p) 0x00FF) fill)) p in
      if negb (d =? 256) then inc_coarse_x p else p
  | _ => p
  end.

(** Horizontal flip: reverse the 8 pattern bits. *)
Definition rev8 (x : Z) : Z :=
  fold_left
    (fun r b => u8 (Z.lor (Z.shiftl r 1) (Z.land (Z.shiftr x b) 1)))
    [0; 1; 2; 3; 4; 5; 6; 7] 0.

(** [for (n = 0; n < 64; ++n)] of the sprite evaluation, with its
    [continue] and [break]. *)
Fixpoint eval_sprites (cnt : nat) (n : Z) (next_scan : Z)
    (sprites_8x16 : bool) (height : Z) (c : Cartridge) (p : PPU) : PPU :=
  match cnt with
  | O => p
  | S k =>
      let sy := oam p (n * 4 + 0) + 1 in
      let row := next_scan - sy in
      if (row <? 0) || (row >=? height)
      then eval_sprites k (n + 1) next_scan sprites_8x16 height c p
      else if spr_count_next p <? 8 then
        let tile := oam p (n * 4 + 1) in
        let attr := oam p (n * 4 + 2) in
        let sx := oam p (n * 4 + 3) in
        let flip_h := nz (Z.land attr 0x40) in
        let flip_v := nz (Z.land attr 0x80) in
        let r := if flip_v then height - 1 - row else row in
        let '(lo, hi) :=
          if negb sprites_8x16 then
            let base :=
              if nz (Z.land (ppuctrl p) 0x08) then 0x1000 else 0x0000 in
            let addr := u16 (base + tile * 16 + Z.land r 7) in
            (ppu_read_mem c p addr, ppu_read_mem c p (u16 (addr + 8)))
          else
            let top_tile_index := Z.land tile 0xFE in
            let top_base := if nz (Z.land tile 1) then 0x1000 else 0x0000 in
            let tile_row := if r <? 8 then 0 else 1 in
            let in_row := Z.land r 7 in
            let base := u16 (top_base + (top_tile_index + tile_row) * 16) in
            (ppu_read_mem c p (u16 (base + in_row)),
             ppu_read_mem c p (u16 (base + in_row + 8))) in
        let '(lo, hi) := if flip_h then (rev8 lo, rev8 hi) else (lo, hi) in
        let i := spr_count_next p in
        let p := set_spr_count_next (u8 (spr_count_next p + 1)) p in
        let p := set_spr_x_next (upd (spr_x_next p) i sx) p in
        let p := set_spr_attr_next (upd (spr_attr_next p) i attr) p in
        let p := set_spr_lo_next (upd (spr_lo_next p) i lo) p in
        let p := set_spr_hi_next (upd (spr_hi_next p) i hi) p in
        let p := set_spr_index_next (upd (spr_index_next p) i (u8 n)) p in
        eval_sprites k (n + 1) next_scan sprites_8x16 height c p
      else set_ppustatus (Z.lor (ppustatus p) 0x20) p
  end.

(** Sprite evaluation for the next scanline at dot 257. *)
Definition evaluate_sprites (c : Cartridge) (sl : Z) (p : PPU) : PPU :=
  let next_scan := Z.rem (sl + 1) PPU_SCANLINES in
  let p := set_spr_count_next 0 p in
  if next_scan <? 240 then
    let p := set_ppustatus (Z.land (ppustatus p) (not8 0x20)) p in
    let sprites_8x16 := nz (Z.land (ppuctrl p) 0x20) in
    let height := if sprites_8x16 then 16 else 8 in
    eval_sprites 64 0 next_scan sprites_8x16 height c p
  else p.

(** [ppu_step] in its four parts, in source order. *)

(** Odd frame cycle skip: on the pre-render line, if rendering is enabled,
    dot 0 is skipped.  The result is the dot the step works on. *)
Definition step_dot (p : PPU) : Z :=
  let sl := scanline p in
  let d := dot p in
  if (sl =? 261) && (d =? 0) then
    if nz (Z.land (ppumask p) 0x18) && odd_frame p then 1 else d
  else d.

(** The skip fires on this step. *)
Definition odd_skip (p : PPU) : bool :=
  (scanline p =? 261) && (dot p =? 0)
  && nz (Z.land (ppumask p) 0x18) && odd_frame p.

(** The step runs the statement that sets the VBlank bit: the guard
    [scanline == 241 && dot == 1]. *)
Definition sets_vblank (p : PPU) : bool :=
  (scanline p =? 241) && (step_dot p =? 1).

(** VBlank start at scanline 241, dot 1; the pre-render line clears it. *)
Definition vblank_edges (sl d : Z) (p : PPU) : PPU :=
  let p :=
    if (sl =? 241) && (d =? 1) then
      let p := set_ppustatus (Z.lor (ppustatus p) 0x80) p in
      if nz (Z.land (ppuctrl p) 0x80) then set_nmi_pending true p else p
    else p in
  if (sl =? 261) && (d =? 1) then
    let p := set_ppustatus (Z.land (ppustatus p) (not8 0x80)) p in
    set_ppustatus (Z.land (ppustatus p) (not8 0x40)) p
  else p.

(** Everything gated by [rendering_on]. *)
Definition render_dot (c : Cartridge) (sl d : Z) (p : PPU) : PPU :=
  let rendering_on := nz (Z.land (ppumask p) 0x18) in
  let visible_line := (sl >=? 0) && (sl <? 240) in
  let pre_render := sl =? 261 in
  let p :=
    if rendering_on && visible_line && (d =? 1) then load_sprites p else p in
  let p :=
    if rendering_on && visible_line && (d >=? 1) && (d <=? 256)
    then render_pixel c sl d p else p in
  let p :=
    if rendering_on && (visible_line || pre_render)
       && (((d >=? 1) && (d <=? 256)) || ((d >=? 321) && (d <=? 336)))
    then bg_fetch c d p else p in
  let p :=
    if rendering_on && visible_line && (d =? 256) then inc_y p else p in
  let p :=
    if rendering_on && (visible_line || pre_render) && (d =? 257)
    then transfer_horizontal p else p in
  let p :=
    if rendering_on && (visible_line || pre_render) && (d =? 257)
    then evaluate_sprites c sl p else p in
  if rendering_on && pre_render && (d >=? 280) && (d <=? 304)
  then transfer_vertical p else p.

(** Advance dot. *)
Definition advance_dot (sl d : Z) (p : PPU) : PPU :=
  let d := d + 1 in
  let '(sl, d, p) :=
    if d >=? PPU_DOTS_PER_LINE then
      let d := 0 in
      let sl := sl + 1 in
      if sl >=? PPU_SCANLINES
      then (0, d, set_odd_frame (negb (odd_frame p)) (set_frame_ready true p))
      else (sl, d, p)
    else (sl, d, p) in
  set_dot d (set_scanline sl p).

(** Advance one PPU cycle (dot). *)
Definition ppu_step (c : Cartridge) (p : PPU) : PPU :=
  let sl := scanline p in
  let d := step_dot p in
  let p := vblank_edges sl d p in
  let p := render_dot c sl d p in
  advance_dot sl d p.

(** [n] successive dots. *)
Fixpoint ppu_steps (n : nat) (c : Cartridge) (p : PPU) : PPU :=
  match n with
  | O => p
  | S k => ppu_steps k c (ppu_step c p)
  end.

(** How many of the next [n] steps satisfy [f] when they start. *)
Fixpoint count_steps (f : PPU -> bool) (n : nat) (c : Cartridge) (p : PPU)
  : nat :=
  match n with
  | O => O
  | S k => ((if f p then 1 else 0) + count_steps f k c (ppu_step c p))%nat
  end.

(** One complete frame = 341 x 262 dots. *)
Definition FRAME_DOTS : nat := Z.to_nat (341 * 262).

Definition ppu_tick_cpu_cycles (c : Cartridge) (p : PPU) (cycles : Z) : PPU :=
  let ppu_cycles := cycles * 3 in
  ppu_steps (Z.to_nat ppu_cycles) c p.

End Ppu.

(** ** apu.h, apu.c *)

Module Apu.

(** The double- and single-precision members of the APU struct (phase
    accumulators, phase increments, volumes, the SDL audio spec) are kept
    behind an interface: the integer state never reads them except for the
    number of DMC bit clocks that fall due in a tick, which
    [fp_dmc_advance] returns together with the new floating-point state
    (it stands for the guard [dmc_inc > 0.0], the update of [dmc_phase]
    and the [while (dmc_phase >= 1.0)] loop header). *)
Class FloatModel : Type := {
  FP : Type;
  fp_init : FP;
  apu_recalc_phase : bool -> Z -> FP -> FP;     (* enabled, timer *)
  apu_recalc_triangle : bool -> Z -> FP -> FP;  (* tri_enabled, tri_timer *)
  apu_recalc_noise : bool -> Z -> FP -> FP;     (* noise_enabled, index *)
  fp_volume : Z -> Z -> FP -> FP;               (* register, envelope value *)
  fp_phase_restart : Z -> FP -> FP;             (* register *)
  fp_dmc_rate : Z -> FP -> FP;                  (* dmc_rate_index *)
  fp_dmc_advance : Z -> FP -> nat * FP          (* cpu_cycles *)
}.

Section WithFloats.
Context {fm : FloatModel}.

Record APU : Type := mkAPU {
  enabled : bool;  (* pulse 1 *)
  timer : Z;
  tri_enabled : bool;
  tri_timer : Z;
  noise_enabled : bool;
  noise_period_index : Z;
  lfsr : Z;
  noise_mode : bool;
  frame_mode : Z;  (* 0=4-step, 1=5-step *)
  irq_inhibit : bool;
  cpu_cycle_mod : Z;  (* cycles since last frame reset *)
  frame_irq : bool;
  p1_env_const : bool;
  p1_env_period : Z;
  p1_env_decay : Z;
  p1_env_loop : bool;
  p1_env_start : bool;
  p1_env_div : Z;
  p1_length : Z;
  tri_linear_reload : Z;
  tri_control : bool;
  tri_length : Z;
  tri_linear_counter : Z;
  noise_env_const : bool;
  noise_env_period : Z;
  noise_env_loop : bool;
  noise_env_decay : Z;
  noise_length : Z;
  noise_env_start : bool;
  noise_env_div : Z;
  dmc_enabled : bool;
  dmc_irq_enable : bool;
  dmc_irq_flag : bool;
  dmc_rate_index : Z;
  dmc_output : Z;  (* 0..127 *)
  dmc_sample_start : Z;
  dmc_sample_length : Z;
  dmc_cur_addr : Z;
  dmc_remaining : Z;
  dmc_shift_reg : Z;
  dmc_bits_remaining : Z;
  dmc_buffer_full : bool;
  dmc_buffer : Z;
  bus_linked : bool;  (* a->bus != NULL *)
  fp : FP  (* the double and float fields *)
}.

Definition set_enabled (x : bool) (r : APU) : APU :=
  mkAPU x (timer r) (tri_enabled r) (tri_timer r) (noise_enabled r)
    (noise_period_index r) (lfsr r) (noise_mode r) (frame_mode r)
    (irq_inhibit r) (cpu_cycle_mod r) (frame_irq r) (p1_env_const r)
    (p1_env_period r) (p1_env_decay r) (p1_env_loop r) (p1_env_start r)
    (p1_env_div r) (p1_length r) (tri_linear_reload r) (tri_control r)
    (tri_length r) (tri_linear_counter r) (noise_env_const r)
    (noise_env_period r) (noise_env_loop r) (noise_env_decay r)
    (noise_length r) (noise_env_start r) (noise_env_div r) (dmc_enabled r)
    (dmc_irq_enable r) (dmc_irq_flag r) (dmc_rate_index r) (dmc_output r)
    (dmc_sample_start r) (dmc_sample_length r) (dmc_cur_addr r)
    (dmc_remaining r) (dmc_shift_reg r) (dmc_bits_remaining r)
    (dmc_buffer_full r) (dmc_buffer r) (bus_linked r) (fp r).
Definition set_timer (x : Z) (r : APU) : APU :=
  mkAPU (enabled r) x (tri_enabled r) (tri_timer r) (noise_enabled r)
    (noise_period_index r) (lfsr r) (noise_mode r) (frame_mode r)
    (irq_inhibit r) (cpu_cycle_mod r) (frame_irq r) (p1_env_const r)
    (p1_env_period r) (p1_env_decay r) (p1_env_loop r) (p1_env_start r)
    (p1_env_div r) (p1_length r) (tri_linear_reload r) (tri_control r)
    (tri_length r) (tri_linear_counter r) (noise_env_const r)
    (noise_env_period r) (noise_env_loop r) (noise_env_decay r)
    (noise_length r) (noise_env_start r) (noise_env_div r) (dmc_enabled r)
    (dmc_irq_enable r) (dmc_irq_flag r) (dmc_rate_index r) (dmc_output r)
    (dmc_sample_start r) (dmc_sample_length r) (dmc_cur_addr r)
    (dmc_remaining r) (dmc_shift_reg r) (dmc_bits_remaining r)
    (dmc_buffer_full r) (dmc_buffer r) (bus_linked r) (fp r).
Definition set_tri_enabled (x : bool) (r : APU) : APU :=
  mkAPU (enabled r) (timer r) x (tri_timer r) (noise_enabled r)
    (noise_period_index r) (lfsr r) (noise_mode r) (frame_mode r)
    (irq_inhibit r) (cpu_cycle_mod r) (frame_irq r) (p1_env_const r)
    (p1_env_period r) (p1_env_decay r) (p1_env_loop r) (p1_env_start r)
    (p1_env_div r) (p1_length r) (tri_linear_reload r) (tri_control r)
    (tri_length r) (tri_linear_counter r) (noise_env_const r)
    (noise_env_period r) (noise_env_loop r) (noise_env_decay r)
    (noise_length r) (noise_env_start r) (noise_env_div r) (dmc_enabled r)
    (dmc_irq_enable r) (dmc_irq_flag r) (dmc_rate_index r) (dmc_output r)
    (dmc_sample_start r) (dmc_sample_length r) (dmc_cur_addr r)
    (dmc_remaining r) (dmc_shift_reg r) (dmc_bits_remaining r)
    (dmc_buffer_full r) (dmc_buffer r) (bus_linked r) (fp r).
Definition set_tri_timer (x : Z) (r : APU) : APU :=
  mkAPU (enabled r) (timer r) (tri_enabled r) x (noise_enabled r)
    (noise_period_index r) (lfsr r) (noise_mode r) (frame_mode r)
    (irq_inhibit r) (cpu_cycle_mod r) (frame_irq r) (p1_env_const r)
    (p1_env_period r) (p1_env_decay r) (p1_env_loop r) (p1_env_start r)
    (p1_env_div r) (p1_length r) (tri_linear_reload r) (tri_control r)
    (tri_length r) (tri_linear_counter r) (noise_env_const r)
    (noise_env_period r) (noise_env_loop r) (noise_env_decay r)
    (noise_length r) (noise_env_start r) (noise_env_div r) (dmc_enabled r)
    (dmc_irq_enable r) (dmc_irq_flag r) (dmc_rate_index r) (dmc_output r)
    (dmc_sample_start r) (dmc_sample_length r) (dmc_cur_addr r)
    (dmc_remaining r) (dmc_shift_reg r) (dmc_bits_remaining r)
    (dmc_buffer_full r) (dmc_buffer r) (bus_linked r) (fp r).
Definition set_noise_enabled (x : bool) (r : APU) : APU :=
  mkAPU (enabled r) (timer r) (tri_enabled r) (tri_timer r) x
    (noise_period_index r) (lfsr r) (noise_mode r) (frame_mode r)
    (irq_inhibit r) (cpu_cycle_mod r) (frame_irq r) (p1_env_const r)
    (p1_env_period r) (p1_env_decay r) (p1_env_loop r) (p1_env_start r)
    (p1_env_div r) (p1_length r) (tri_linear_reload r) (tri_control r)
    (tri_length r) (tri_linear_counter r) (noise_env_const r)
    (noise_env_period r) (noise_env_loop r) (noise_env_decay r)
    (noise_length r) (noise_env_start r) (noise_env_div r) (dmc_enabled r)
    (dmc_irq_enable r) (dmc_irq_flag r) (dmc_rate_index r) (dmc_output r)
    (dmc_sample_start r) (dmc_sample_length r) (dmc_cur_addr r)
    (dmc_remaining r) (dmc_shift_reg r) (dmc_bits_remaining r)
    (dmc_buffer_full r) (dmc_buffer r) (bus_linked r) (fp r).
Definition set_noise_period_index (x : Z) (r : APU) : APU :=
  mkAPU (enabled r) (timer r) (tri_enabled r) (tri_timer r)
    (noise_enabled r) x (lfsr r) (noise_mode r) (frame_mode r)
    (irq_inhibit r) (cpu_cycle_mod r) (frame_irq r) (p1_env_const r)
    (p1_env_period r) (p1_env_decay r) (p1_env_loop r) (p1_env_start r)
    (p1_env_div r) (p1_length r) (tri_linear_reload r) (tri_control r)
    (tri_length r) (tri_linear_counter r) (noise_env_const r)
    (noise_env_period r) (noise_env_loop r) (noise_env_decay r)
    (noise_length r) (noise_env_start r) (noise_env_div r) (dmc_enabled r)
    (dmc_irq_enable r) (dmc_irq_flag r) (dmc_rate_index r) (dmc_output r)
    (dmc_sample_start r) (dmc_sample_length r) (dmc_cur_addr r)
    (dmc_remaining r) (dmc_shift_reg r) (dmc_bits_remaining r)
    (dmc_buffer_full r) (dmc_buffer r) (bus_linked r) (fp r).
Definition set_lfsr (x : Z) (r : APU) : APU :=
  mkAPU (enabled r) (timer r) (tri_enabled r) (tri_timer r)
    (noise_enabled r) (noise_period_index r) x (noise_mode r) (frame_mode r)
    (irq_inhibit r) (cpu_cycle_mod r) (frame_irq r) (p1_env_const r)
    (p1_env_period r) (p1_env_decay r) (p1_env_loop r) (p1_env_start r)
    (p1_env_div r) (p1_length r) (tri_linear_reload r) (tri_control r)
    (tri_length r) (tri_linear_counter r) (noise_env_const r)
    (noise_env_period r) (noise_env_loop r) (noise_env_decay r)
    (noise_length r) (noise_env_start r) (noise_env_div r) (dmc_enabled r)
    (dmc_irq_enable r) (dmc_irq_flag r) (dmc_rate_index r) (dmc_output r)
    (dmc_sample_start r) (dmc_sample_length r) (dmc_cur_addr r)
    (dmc_remaining r) (dmc_shift_reg r) (dmc_bits_remaining r)
    (dmc_buffer_full r) (dmc_buffer r) (bus_linked r) (fp r).
Definition set_noise_mode (x : bool) (r : APU) : APU :=
  mkAPU (enabled r) (timer r) (tri_enabled r) (tri_timer r)
    (noise_enabled r) (noise_period_index r) (lfsr r) x (frame_mode r)
    (irq_inhibit r) (cpu_cycle_mod r) (frame_irq r) (p1_env_const r)
    (p1_env_period r) (p1_env_decay r) (p1_env_loop r) (p1_env_start r)
    (p1_env_div r) (p1_length r) (tri_linear_reload r) (tri_control r)
    (tri_length r) (tri_linear_counter r) (noise_env_const r)
    (noise_env_period r) (noise_env_loop r) (noise_env_decay r)
    (noise_length r) (noise_env_start r) (noise_env_div r) (dmc_enabled r)
    (dmc_irq_enable r) (dmc_irq_flag r) (dmc_rate_index r) (dmc_output r)
    (dmc_sample_start r) (dmc_sample_length r) (dmc_cur_addr r)
    (dmc_remaining r) (dmc_shift_reg r) (dmc_bits_remaining r)
    (dmc_buffer_full r) (dmc_buffer r) (bus_linked r) (fp r).
Definition set_frame_mode (x : Z) (r : APU) : APU :=
  mkAPU (enabled r) (timer r) (tri_enabled r) (tri_timer r)
    (noise_enabled r) (noise_period_index r) (lfsr r) (noise_mode r) x
    (irq_inhibit r) (cpu_cycle_mod r) (frame_irq r) (p1_env_const r)
    (p1_env_period r) (p1_env_decay r) (p1_env_loop r) (p1_env_start r)
    (p1_env_div r) (p1_length r) (tri_linear_reload r) (tri_control r)
    (tri_length r) (tri_linear_counter r) (noise_env_const r)
    (noise_env_period r) (noise_env_loop r) (noise_env_decay r)
    (noise_length r) (noise_env_start r) (noise_env_div r) (dmc_enabled r)
    (dmc_irq_enable r) (dmc_irq_flag r) (dmc_rate_index r) (dmc_output r)
    (dmc_sample_start r) (dmc_sample_length r) (dmc_cur_addr r)
    (dmc_remaining r) (dmc_shift_reg r) (dmc_bits_remaining r)
    (dmc_buffer_full r) (dmc_buffer r) (bus_linked r) (fp r).
Definition set_irq_inhibit (x : bool) (r : APU) : APU :=
  mkAPU (enabled r) (timer r) (tri_enabled r) (tri_timer r)
    (noise_enabled r) (noise_period_index r) (lfsr r) (noise_mode r)
    (frame_mode r) x (cpu_cycle_mod r) (frame_irq r) (p1_env_const r)
    (p1_env_period r) (p1_env_decay r) (p1_env_loop r) (p1_env_start r)
    (p1_env_div r) (p1_length r) (tri_linear_reload r) (tri_control r)
    (tri_length r) (tri_linear_counter r) (noise_env_const r)
    (noise_env_period r) (noise_env_loop r) (noise_env_decay r)
    (noise_length r) (noise_env_start r) (noise_env_div r) (dmc_enabled r)
    (dmc_irq_enable r) (dmc_irq_flag r) (dmc_rate_index r) (dmc_output r)
    (dmc_sample_start r) (dmc_sample_length r) (dmc_cur_addr r)
    (dmc_remaining r) (dmc_shift_reg r) (dmc_bits_remaining r)
    (dmc_buffer_full r) (dmc_buffer r) (bus_linked r) (fp r).
Definition set_cpu_cycle_mod (x : Z) (r : APU) : APU :=
  mkAPU (enabled r) (timer r) (tri_enabled r) (tri_timer r)
    (noise_enabled r) (noise_period_index r) (lfsr r) (noise_mode r)
    (frame_mode r) (irq_inhibit r) x (frame_irq r) (p1_env_const r)
    (p1_env_period r) (p1_env_decay r) (p1_env_loop r) (p1_env_start r)
    (p1_env_div r) (p1_length r) (tri_linear_reload r) (tri_control r)
    (tri_length r) (tri_linear_counter r) (noise_env_const r)
    (noise_env_period r) (noise_env_loop r) (noise_env_decay r)
    (noise_length r) (noise_env_start r) (noise_env_div r) (dmc_enabled r)
    (dmc_irq_enable r) (dmc_irq_flag r) (dmc_rate_index r) (dmc_output r)
    (dmc_sample_start r) (dmc_sample_length r) (dmc_cur_addr r)
    (dmc_remaining r) (dmc_shift_reg r) (dmc_bits_remaining r)
    (dmc_buffer_full r) (dmc_buffer r) (bus_linked r) (fp r).
Definition set_frame_irq (x : bool) (r : APU) : APU :=
  mkAPU (enabled r) (timer r) (tri_enabled r) (tri_timer r)
    (noise_enabled r) (noise_period_index r) (lfsr r) (noise_mode r)
    (frame_mode r) (irq_inhibit r) (cpu_cycle_mod r) x (p1_env_const r)
    (p1_env_period r) (p1_env_decay r) (p1_env_loop r) (p1_env_start r)
    (p1_env_div r) (p1_length r) (tri_linear_reload r) (tri_control r)
    (tri_length r) (tri_linear_counter r) (noise_env_const r)
    (noise_env_period r) (noise_env_loop r) (noise_env_decay r)
    (noise_length r) (noise_env_start r) (noise_env_div r) (dmc_enabled r)
    (dmc_irq_enable r) (dmc_irq_flag r) (dmc_rate_index r) (dmc_output r)
    (dmc_sample_start r) (dmc_sample_length r) (dmc_cur_addr r)
    (dmc_remaining r) (dmc_shift_reg r) (dmc_bits_remaining r)
    (dmc_buffer_full r) (dmc_buffer r) (bus_linked r) (fp r).
Definition set_p1_env_const (x : bool) (r : APU) : APU :=
  mkAPU (enabled r) (timer r) (tri_enabled r) (tri_timer r)
    (noise_enabled r) (noise_period_index r) (lfsr r) (noise_mode r)
    (frame_mode r) (irq_inhibit r) (cpu_cycle_mod r) (frame_irq r) x
    (p1_env_period r) (p1_env_decay r) (p1_env_loop r) (p1_env_start r)
    (p1_env_div r) (p1_length r) (tri_linear_reload r) (tri_control r)
    (tri_length r) (tri_linear_counter r) (noise_env_const r)
    (noise_env_period r) (noise_env_loop r) (noise_env_decay r)
    (noise_length r) (noise_env_start r) (noise_env_div r) (dmc_enabled r)
    (dmc_irq_enable r) (dmc_irq_flag r) (dmc_rate_index r) (dmc_output r)
    (dmc_sample_start r) (dmc_sample_length r) (dmc_cur_addr r)
    (dmc_remaining r) (dmc_shift_reg r) (dmc_bits_remaining r)
    (dmc_buffer_full r) (dmc_buffer r) (bus_linked r) (fp r).
Definition set_p1_env_period (x : Z) (r : APU) : APU :=
  mkAPU (enabled r) (timer r) (tri_enabled r) (tri_timer r)
    (noise_enabled r) (noise_period_index r) (lfsr r) (noise_mode r)
    (frame_mode r) (irq_inhibit r) (cpu_cycle_mod r) (frame_irq r)
    (p1_env_const r) x (p1_env_decay r) (p1_env_loop r) (p1_env_start r)
    (p1_env_div r) (p1_length r) (tri_linear_reload r) (tri_control r)
    (tri_length r) (tri_linear_counter r) (noise_env_const r)
    (noise_env_period r) (noise_env_loop r) (noise_env_decay r)
    (noise_length r) (noise_env_start r) (noise_env_div r) (dmc_enabled r)
    (dmc_irq_enable r) (dmc_irq_flag r) (dmc_rate_index r) (dmc_output r)
    (dmc_sample_start r) (dmc_sample_length r) (dmc_cur_addr r)
    (dmc_remaining r) (dmc_shift_reg r) (dmc_bits_remaining r)
    (dmc_buffer_full r) (dmc_buffer r) (bus_linked r) (fp r).
Definition set_p1_env_decay (x : Z) (r : APU) : APU :=
  mkAPU (enabled r) (timer r) (tri_enabled r) (tri_timer r)
    (noise_enabled r) (noise_period_index r) (lfsr r) (noise_mode r)
    (frame_mode r) (irq_inhibit r) (cpu_cycle_mod r) (frame_irq r)
    (p1_env_const r) (p1_env_period r) x (p1_env_loop r) (p1_env_start r)
    (p1_env_div r) (p1_length r) (tri_linear_reload r) (tri_control r)
    (tri_length r) (tri_linear_counter r) (noise_env_const r)
    (noise_env_period r) (noise_env_loop r) (noise_env_decay r)
    (noise_length r) (noise_env_start r) (noise_env_div r) (dmc_enabled r)
    (dmc_irq_enable r) (dmc_irq_flag r) (dmc_rate_index r) (dmc_output r)
    (dmc_sample_start r) (dmc_sample_length r) (dmc_cur_addr r)
    (dmc_remaining r) (dmc_shift_reg r) (dmc_bits_remaining r)
    (dmc_buffer_full r) (dmc_buffer r) (bus_linked r) (fp r).
Definition set_p1_env_loop (x : bool) (r : APU) : APU :=
  mkAPU (enabled r) (timer r) (tri_enabled r) (tri_timer r)
    (noise_enabled r) (noise_period_index r) (lfsr r) (noise_mode r)
    (frame_mode r) (irq_inhibit r) (cpu_cycle_mod r) (frame_irq r)
    (p1_env_const r) (p1_env_period r) (p1_env_decay r) x (p1_env_start r)
    (p1_env_div r) (p1_length r) (tri_linear_reload r) (tri_control r)
    (tri_length r) (tri_linear_counter r) (noise_env_const r)
    (noise_env_period r) (noise_env_loop r) (noise_env_decay r)
    (noise_length r) (noise_env_start r) (noise_env_div r) (dmc_enabled r)
    (dmc_irq_enable r) (dmc_irq_flag r) (dmc_rate_index r) (dmc_output r)
    (dmc_sample_start r) (dmc_sample_length r) (dmc_cur_addr r)
    (dmc_remaining r) (dmc_shift_reg r) (dmc_bits_remaining r)
    (dmc_buffer_full r) (dmc_buffer r) (bus_linked r) (fp r).
Definition set_p1_env_start (x : bool) (r : APU) : APU :=
  mkAPU (enabled r) (timer r) (tri_enabled r) (tri_timer r)
    (noise_enabled r) (noise_period_index r) (lfsr r) (noise_mode r)
    (frame_mode r) (irq_inhibit r) (cpu_cycle_mod r) (frame_irq r)
    (p1_env_const r) (p1_env_period r) (p1_env_decay r) (p1_env_loop r) x
    (p1_env_div r) (p1_length r) (tri_linear_reload r) (tri_control r)
    (tri_length r) (tri_linear_counter r) (noise_env_const r)
    (noise_env_period r) (noise_env_loop r) (noise_env_decay r)
    (noise_length r) (noise_env_start r) (noise_env_div r) (dmc_enabled r)
    (dmc_irq_enable r) (dmc_irq_flag r) (dmc_rate_index r) (dmc_output r)
    (dmc_sample_start r) (dmc_sample_length r) (dmc_cur_addr r)
    (dmc_remaining r) (dmc_shift_reg r) (dmc_bits_remaining r)
    (dmc_buffer_full r) (dmc_buffer r) (bus_linked r) (fp r).
Definition set_p1_env_div (x : Z) (r : APU) : APU :=
  mkAPU (enabled r) (timer r) (tri_enabled r) (tri_timer r)
    (noise_enabled r) (noise_period_index r) (lfsr r) (noise_mode r)
    (frame_mode r) (irq_inhibit r) (cpu_cycle_mod r) (frame_irq r)
    (p1_env_const r) (p1_env_period r) (p1_env_decay r) (p1_env_loop r)
    (p1_env_start r) x (p1_length r) (tri_linear_reload r) (tri_control r)
    (tri_length r) (tri_linear_counter r) (noise_env_const r)
    (noise_env_period r) (noise_env_loop r) (noise_env_decay r)
    (noise_length r) (noise_env_start r) (noise_env_div r) (dmc_enabled r)
    (dmc_irq_enable r) (dmc_irq_flag r) (dmc_rate_index r) (dmc_output r)
    (dmc_sample_start r) (dmc_sample_length r) (dmc_cur_addr r)
    (dmc_remaining r) (dmc_shift_reg r) (dmc_bits_remaining r)
    (dmc_buffer_full r) (dmc_buffer r) (bus_linked r) (fp r).
Definition set_p1_length (x : Z) (r : APU) : APU :=
  mkAPU (enabled r) (timer r) (tri_enabled r) (tri_timer r)
    (noise_enabled r) (noise_period_index r) (lfsr r) (noise_mode r)
    (frame_mode r) (irq_inhibit r) (cpu_cycle_mod r) (frame_irq r)
    (p1_env_const r) (p1_env_period r) (p1_env_decay r) (p1_env_loop r)
    (p1_env_start r) (p1_env_div r) x (tri_linear_reload r) (tri_control r)
    (tri_length r) (tri_linear_counter r) (noise_env_const r)
    (noise_env_period r) (noise_env_loop r) (noise_env_decay r)
    (noise_length r) (noise_env_start r) (noise_env_div r) (dmc_enabled r)
    (dmc_irq_enable r) (dmc_irq_flag r) (dmc_rate_index r) (dmc_output r)
    (dmc_sample_start r) (dmc_sample_length r) (dmc_cur_addr r)
    (dmc_remaining r) (dmc_shift_reg r) (dmc_bits_remaining r)
    (dmc_buffer_full r) (dmc_buffer r) (bus_linked r) (fp r).
Definition set_tri_linear_reload (x : Z) (r : APU) : APU :=
  mkAPU (enabled r) (timer r) (tri_enabled r) (tri_timer r)
    (noise_enabled r) (noise_period_index r) (lfsr r) (noise_mode r)
    (frame_mode r) (irq_inhibit r) (cpu_cycle_mod r) (frame_irq r)
    (p1_env_const r) (p1_env_period r) (p1_env_decay r) (p1_env_loop r)
    (p1_env_start r) (p1_env_div r) (p1_length r) x (tri_control r)
    (tri_length r) (tri_linear_counter r) (noise_env_const r)
    (noise_env_period r) (noise_env_loop r) (noise_env_decay r)
    (noise_length r) (noise_env_start r) (noise_env_div r) (dmc_enabled r)
    (dmc_irq_enable r) (dmc_irq_flag r) (dmc_rate_index r) (dmc_output r)
    (dmc_sample_start r) (dmc_sample_length r) (dmc_cur_addr r)
    (dmc_remaining r) (dmc_shift_reg r) (dmc_bits_remaining r)
    (dmc_buffer_full r) (dmc_buffer r) (bus_linked r) (fp r).
Definition set_tri_control (x : bool) (r : APU) : APU :=
  mkAPU (enabled r) (timer r) (tri_enabled r) (tri_timer r)
    (noise_enabled r) (noise_period_index r) (lfsr r) (noise_mode r)
    (frame_mode r) (irq_inhibit r) (cpu_cycle_mod r) (frame_irq r)
    (p1_env_const r) (p1_env_period r) (p1_env_decay r) (p1_env_loop r)
    (p1_env_start r) (p1_env_div r) (p1_length r) (tri_linear_reload r) x
    (tri_length r) (tri_linear_counter r) (noise_env_const r)
    (noise_env_period r) (noise_env_loop r) (noise_env_decay r)
    (noise_length r) (noise_env_start r) (noise_env_div r) (dmc_enabled r)
    (dmc_irq_enable r) (dmc_irq_flag r) (dmc_rate_index r) (dmc_output r)
    (dmc_sample_start r) (dmc_sample_length r) (dmc_cur_addr r)
    (dmc_remaining r) (dmc_shift_reg r) (dmc_bits_remaining r)
    (dmc_buffer_full r) (dmc_buffer r) (bus_linked r) (fp r).
Definition set_tri_length (x : Z) (r : APU) : APU :=
  mkAPU (enabled r) (timer r) (tri_enabled r) (tri_timer r)
    (noise_enabled r) (noise_period_index r) (lfsr r) (noise_mode r)
    (frame_mode r) (irq_inhibit r) (cpu_cycle_mod r) (frame_irq r)
    (p1_env_const r) (p1_env_period r) (p1_env_decay r) (p1_env_loop r)
    (p1_env_start r) (p1_env_div r) (p1_length r) (tri_linear_reload r)
    (tri_control r) x (tri_linear_counter r) (noise_env_const r)
    (noise_env_period r) (noise_env_loop r) (noise_env_decay r)
    (noise_length r) (noise_env_start r) (noise_env_div r) (dmc_enabled r)
    (dmc_irq_enable r) (dmc_irq_flag r) (dmc_rate_index r) (dmc_output r)
    (dmc_sample_start r) (dmc_sample_length r) (dmc_cur_addr r)
    (dmc_remaining r) (dmc_shift_reg r) (dmc_bits_remaining r)
    (dmc_buffer_full r) (dmc_buffer r) (bus_linked r) (fp r).
Definition set_tri_linear_counter (x : Z) (r : APU) : APU :=
  mkAPU (enabled r) (timer r) (tri_enabled r) (tri_timer r)
    (noise_enabled r) (noise_period_index r) (lfsr r) (noise_mode r)
    (frame_mode r) (irq_inhibit r) (cpu_cycle_mod r) (frame_irq r)
    (p1_env_const r) (p1_env_period r) (p1_env_decay r) (p1_env_loop r)
    (p1_env_start r) (p1_env_div r) (p1_length r) (tri_linear_reload r)
    (tri_control r) (tri_length r) x (noise_env_const r)
    (noise_env_period r) (noise_env_loop r) (noise_env_decay r)
    (noise_length r) (noise_env_start r) (noise_env_div r) (dmc_enabled r)
    (dmc_irq_enable r) (dmc_irq_flag r) (dmc_rate_index r) (dmc_output r)
    (dmc_sample_start r) (dmc_sample_length r) (dmc_cur_addr r)
    (dmc_remaining r) (dmc_shift_reg r) (dmc_bits_remaining r)
    (dmc_buffer_full r) (dmc_buffer r) (bus_linked r) (fp r).
Definition set_noise_env_const (x : bool) (r : APU) : APU :=
  mkAPU (enabled r) (timer r) (tri_enabled r) (tri_timer r)
    (noise_enabled r) (noise_period_index r) (lfsr r) (noise_mode r)
    (frame_mode r) (irq_inhibit r) (cpu_cycle_mod r) (frame_irq r)
    (p1_env_const r) (p1_env_period r) (p1_env_decay r) (p1_env_loop r)
    (p1_env_start r) (p1_env_div r) (p1_length r) (tri_linear_reload r)
    (tri_control r) (tri_length r) (tri_linear_counter r) x
    (noise_env_period r) (noise_env_loop r) (noise_env_decay r)
    (noise_length r) (noise_env_start r) (noise_env_div r) (dmc_enabled r)
    (dmc_irq_enable r) (dmc_irq_flag r) (dmc_rate_index r) (dmc_output r)
    (dmc_sample_start r) (dmc_sample_length r) (dmc_cur_addr r)
    (dmc_remaining r) (dmc_shift_reg r) (dmc_bits_remaining r)
    (dmc_buffer_full r) (dmc_buffer r) (bus_linked r) (fp r).
Definition set_noise_env_period (x : Z) (r : APU) : APU :=
  mkAPU (enabled r) (timer r) (tri_enabled r) (tri_timer r)
    (noise_enabled r) (noise_period_index r) (lfsr r) (noise_mode r)
    (frame_mode r) (irq_inhibit r) (cpu_cycle_mod r) (frame_irq r)
    (p1_env_const r) (p1_env_period r) (p1_env_decay r) (p1_env_loop r)
    (p1_env_start r) (p1_env_div r) (p1_length r) (tri_linear_reload r)
    (tri_control r) (tri_length r) (tri_linear_counter r)
    (noise_env_const r) x (noise_env_loop r) (noise_env_decay r)
    (noise_length r) (noise_env_start r) (noise_env_div r) (dmc_enabled r)
    (dmc_irq_enable r) (dmc_irq_flag r) (dmc_rate_index r) (dmc_output r)
    (dmc_sample_start r) (dmc_sample_length r) (dmc_cur_addr r)
    (dmc_remaining r) (dmc_shift_reg r) (dmc_bits_remaining r)
    (dmc_buffer_full r) (dmc_buffer r) (bus_linked r) (fp r).
Definition set_noise_env_loop (x : bool) (r : APU) : APU :=
  mkAPU (enabled r) (timer r) (tri_enabled r) (tri_timer r)
    (noise_enabled r) (noise_period_index r) (lfsr r) (noise_mode r)
    (frame_mode r) (irq_inhibit r) (cpu_cycle_mod r) (frame_irq r)
    (p1_env_const r) (p1_env_period r) (p1_env_decay r) (p1_env_loop r)
    (p1_env_start r) (p1_env_div r) (p1_length r) (tri_linear_reload r)
    (tri_control r) (tri_length r) (tri_linear_counter r)
    (noise_env_const r) (noise_env_period r) x (noise_env_decay r)
    (noise_length r) (noise_env_start r) (noise_env_div r) (dmc_enabled r)
    (dmc_irq_enable r) (dmc_irq_flag r) (dmc_rate_index r) (dmc_output r)
    (dmc_sample_start r) (dmc_sample_length r) (dmc_cur_addr r)
    (dmc_remaining r) (dmc_shift_reg r) (dmc_bits_remaining r)
    (dmc_buffer_full r) (dmc_buffer r) (bus_linked r) (fp r).
Definition set_noise_env_decay (x : Z) (r : APU) : APU :=
  mkAPU (enabled r) (timer r) (tri_enabled r) (tri_timer r)
    (noise_enabled r) (noise_period_index r) (lfsr r) (noise_mode r)
    (frame_mode r) (irq_inhibit r) (cpu_cycle_mod r) (frame_irq r)
    (p1_env_const r) (p1_env_period r) (p1_env_decay r) (p1_env_loop r)
    (p1_env_start r) (p1_env_div r) (p1_length r) (tri_linear_reload r)
    (tri_control r) (tri_length r) (tri_linear_counter r)
    (noise_env_const r) (noise_env_period r) (noise_env_loop r) x
    (noise_length r) (noise_env_start r) (noise_env_div r) (dmc_enabled r)
    (dmc_irq_enable r) (dmc_irq_flag r) (dmc_rate_index r) (dmc_output r)
    (dmc_sample_start r) (dmc_sample_length r) (dmc_cur_addr r)
    (dmc_remaining r) (dmc_shift_reg r) (dmc_bits_remaining r)
    (dmc_buffer_full r) (dmc_buffer r) (bus_linked r) (fp r).
Definition set_noise_length (x : Z) (r : APU) : APU :=
  mkAPU (enabled r) (timer r) (tri_enabled r) (tri_timer r)
    (noise_enabled r) (noise_period_index r) (lfsr r) (noise_mode r)
    (frame_mode r) (irq_inhibit r) (cpu_cycle_mod r) (frame_irq r)
    (p1_env_const r) (p1_env_period r) (p1_env_decay r) (p1_env_loop r)
    (p1_env_start r) (p1_env_div r) (p1_length r) (tri_linear_reload r)
    (tri_control r) (tri_length r) (tri_linear_counter r)
    (noise_env_const r) (noise_env_period r) (noise_env_loop r)
    (noise_env_decay r) x (noise_env_start r) (noise_env_div r)
    (dmc_enabled r) (dmc_irq_enable r) (dmc_irq_flag r) (dmc_rate_index r)
    (dmc_output r) (dmc_sample_start r) (dmc_sample_length r)
    (dmc_cur_addr r) (dmc_remaining r) (dmc_shift_reg r)
    (dmc_bits_remaining r) (dmc_buffer_full r) (dmc_buffer r) (bus_linked r)
    (fp r).
Definition set_noise_env_start (x : bool) (r : APU) : APU :=
  mkAPU (enabled r) (timer r) (tri_enabled r) (tri_timer r)
    (noise_enabled r) (noise_period_index r) (lfsr r) (noise_mode r)
    (frame_mode r) (irq_inhibit r) (cpu_cycle_mod r) (frame_irq r)
    (p1_env_const r) (p1_env_period r) (p1_env_decay r) (p1_env_loop r)
    (p1_env_start r) (p1_env_div r) (p1_length r) (tri_linear_reload r)
    (tri_control r) (tri_length r) (tri_linear_counter r)
    (noise_env_const r) (noise_env_period r) (noise_env_loop r)
    (noise_env_decay r) (noise_length r) x (noise_env_div r) (dmc_enabled r)
    (dmc_irq_enable r) (dmc_irq_flag r) (dmc_rate_index r) (dmc_output r)
    (dmc_sample_start r) (dmc_sample_length r) (dmc_cur_addr r)
    (dmc_remaining r) (dmc_shift_reg r) (dmc_bits_remaining r)
    (dmc_buffer_full r) (dmc_buffer r) (bus_linked r) (fp r).
Definition set_noise_env_div (x : Z) (r : APU) : APU :=
  mkAPU (enabled r) (timer r) (tri_enabled r) (tri_timer r)
    (noise_enabled r) (noise_period_index r) (lfsr r) (noise_mode r)
    (frame_mode r) (irq_inhibit r) (cpu_cycle_mod r) (frame_irq r)
    (p1_env_const r) (p1_env_period r) (p1_env_decay r) (p1_env_loop r)
    (p1_env_start r) (p1_env_div r) (p1_length r) (tri_linear_reload r)
    (tri_control r) (tri_length r) (tri_linear_counter r)
    (noise_env_const r) (noise_env_period r) (noise_env_loop r)
    (noise_env_decay r) (noise_length r) (noise_env_start r) x
    (dmc_enabled r) (dmc_irq_enable r) (dmc_irq_flag r) (dmc_rate_index r)
    (dmc_output r) (dmc_sample_start r) (dmc_sample_length r)
    (dmc_cur_addr r) (dmc_remaining r) (dmc_shift_reg r)
    (dmc_bits_remaining r) (dmc_buffer_full r) (dmc_buffer r) (bus_linked r)
    (fp r).
Definition set_dmc_enabled (x : bool) (r : APU) : APU :=
  mkAPU (enabled r) (timer r) (tri_enabled r) (tri_timer r)
    (noise_enabled r) (noise_period_index r) (lfsr r) (noise_mode r)
    (frame_mode r) (irq_inhibit r) (cpu_cycle_mod r) (frame_irq r)
    (p1_env_const r) (p1_env_period r) (p1_env_decay r) (p1_env_loop r)
    (p1_env_start r) (p1_env_div r) (p1_length r) (tri_linear_reload r)
    (tri_control r) (tri_length r) (tri_linear_counter r)
    (noise_env_const r) (noise_env_period r) (noise_env_loop r)
    (noise_env_decay r) (noise_length r) (noise_env_start r)
    (noise_env_div r) x (dmc_irq_enable r) (dmc_irq_flag r)
    (dmc_rate_index r) (dmc_output r) (dmc_sample_start r)
    (dmc_sample_length r) (dmc_cur_addr r) (dmc_remaining r)
    (dmc_shift_reg r) (dmc_bits_remaining r) (dmc_buffer_full r)
    (dmc_buffer r) (bus_linked r) (fp r).
Definition set_dmc_irq_enable (x : bool) (r : APU) : APU :=
  mkAPU (enabled r) (timer r) (tri_enabled r) (tri_timer r)
    (noise_enabled r) (noise_period_index r) (lfsr r) (noise_mode r)
    (frame_mode r) (irq_inhibit r) (cpu_cycle_mod r) (frame_irq r)
    (p1_env_const r) (p1_env_period r) (p1_env_decay r) (p1_env_loop r)
    (p1_env_start r) (p1_env_div r) (p1_length r) (tri_linear_reload r)
    (tri_control r) (tri_length r) (tri_linear_counter r)
    (noise_env_const r) (noise_env_period r) (noise_env_loop r)
    (noise_env_decay r) (noise_length r) (noise_env_start r)
    (noise_env_div r) (dmc_enabled r) x (dmc_irq_flag r) (dmc_rate_index r)
    (dmc_output r) (dmc_sample_start r) (dmc_sample_length r)
    (dmc_cur_addr r) (dmc_remaining r) (dmc_shift_reg r)
    (dmc_bits_remaining r) (dmc_buffer_full r) (dmc_buffer r) (bus_linked r)
    (fp r).
Definition set_dmc_irq_flag (x : bool) (r : APU) : APU :=
  mkAPU (enabled r) (timer r) (tri_enabled r) (tri_timer r)
    (noise_enabled r) (noise_period_index r) (lfsr r) (noise_mode r)
    (frame_mode r) (irq_inhibit r) (cpu_cycle_mod r) (frame_irq r)
    (p1_env_const r) (p1_env_period r) (p1_env_decay r) (p1_env_loop r)
    (p1_env_start r) (p1_env_div r) (p1_length r) (tri_linear_reload r)
    (tri_control r) (tri_length r) (tri_linear_counter r)
    (noise_env_const r) (noise_env_period r) (noise_env_loop r)
    (noise_env_decay r) (noise_length r) (noise_env_start r)
    (noise_env_div r) (dmc_enabled r) (dmc_irq_enable r) x
    (dmc_rate_index r) (dmc_output r) (dmc_sample_start r)
    (dmc_sample_length r) (dmc_cur_addr r) (dmc_remaining r)
    (dmc_shift_reg r) (dmc_bits_remaining r) (dmc_buffer_full r)
    (dmc_buffer r) (bus_linked r) (fp r).
Definition set_dmc_rate_index (x : Z) (r : APU) : APU :=
  mkAPU (enabled r) (timer r) (tri_enabled r) (tri_timer r)
    (noise_enabled r) (noise_period_index r) (lfsr r) (noise_mode r)
    (frame_mode r) (irq_inhibit r) (cpu_cycle_mod r) (frame_irq r)
    (p1_env_const r) (p1_env_period r) (p1_env_decay r) (p1_env_loop r)
    (p1_env_start r) (p1_env_div r) (p1_length r) (tri_linear_reload r)
    (tri_control r) (tri_length r) (tri_linear_counter r)
    (noise_env_const r) (noise_env_period r) (noise_env_loop r)
    (noise_env_decay r) (noise_length r) (noise_env_start r)
    (noise_env_div r) (dmc_enabled r) (dmc_irq_enable r) (dmc_irq_flag r) x
    (dmc_output r) (dmc_sample_start r) (dmc_sample_length r)
    (dmc_cur_addr r) (dmc_remaining r) (dmc_shift_reg r)
    (dmc_bits_remaining r) (dmc_buffer_full r) (dmc_buffer r) (bus_linked r)
    (fp r).
Definition set_dmc_output (x : Z) (r : APU) : APU :=
  mkAPU (enabled r) (timer r) (tri_enabled r) (tri_timer r)
    (noise_enabled r) (noise_period_index r) (lfsr r) (noise_mode r)
    (frame_mode r) (irq_inhibit r) (cpu_cycle_mod r) (frame_irq r)
    (p1_env_const r) (p1_env_period r) (p1_env_decay r) (p1_env_loop r)
    (p1_env_start r) (p1_env_div r) (p1_length r) (tri_linear_reload r)
    (tri_control r) (tri_length r) (tri_linear_counter r)
    (noise_env_const r) (noise_env_period r) (noise_env_loop r)
    (noise_env_decay r) (noise_length r) (noise_env_start r)
    (noise_env_div r) (dmc_enabled r) (dmc_irq_enable r) (dmc_irq_flag r)
    (dmc_rate_index r) x (dmc_sample_start r) (dmc_sample_length r)
    (dmc_cur_addr r) (dmc_remaining r) (dmc_shift_reg r)
    (dmc_bits_remaining r) (dmc_buffer_full r) (dmc_buffer r) (bus_linked r)
    (fp r).
Definition set_dmc_sample_start (x : Z) (r : APU) : APU :=
  mkAPU (enabled r) (timer r) (tri_enabled r) (tri_timer r)
    (noise_enabled r) (noise_period_index r) (lfsr r) (noise_mode r)
    (frame_mode r) (irq_inhibit r) (cpu_cycle_mod r) (frame_irq r)
    (p1_env_const r) (p1_env_period r) (p1_env_decay r) (p1_env_loop r)
    (p1_env_start r) (p1_env_div r) (p1_length r) (tri_linear_reload r)
    (tri_control r) (tri_length r) (tri_linear_counter r)
    (noise_env_const r) (noise_env_period r) (noise_env_loop r)
    (noise_env_decay r) (noise_length r) (noise_env_start r)
    (noise_env_div r) (dmc_enabled r) (dmc_irq_enable r) (dmc_irq_flag r)
    (dmc_rate_index r) (dmc_output r) x (dmc_sample_length r)
    (dmc_cur_addr r) (dmc_remaining r) (dmc_shift_reg r)
    (dmc_bits_remaining r) (dmc_buffer_full r) (dmc_buffer r) (bus_linked r)
    (fp r).
Definition set_dmc_sample_length (x : Z) (r : APU) : APU :=
  mkAPU (enabled r) (timer r) (tri_enabled r) (tri_timer r)
    (noise_enabled r) (noise_period_index r) (lfsr r) (noise_mode r)
    (frame_mode r) (irq_inhibit r) (cpu_cycle_mod r) (frame_irq r)
    (p1_env_const r) (p1_env_period r) (p1_env_decay r) (p1_env_loop r)
    (p1_env_start r) (p1_env_div r) (p1_length r) (tri_linear_reload r)
    (tri_control r) (tri_length r) (tri_linear_counter r)
    (noise_env_const r) (noise_env_period r) (noise_env_loop r)
    (noise_env_decay r) (noise_length r) (noise_env_start r)
    (noise_env_div r) (dmc_enabled r) (dmc_irq_enable r) (dmc_irq_flag r)
    (dmc_rate_index r) (dmc_output r) (dmc_sample_start r) x
    (dmc_cur_addr r) (dmc_remaining r) (dmc_shift_reg r)
    (dmc_bits_remaining r) (dmc_buffer_full r) (dmc_buffer r) (bus_linked r)
    (fp r).
Definition set_dmc_cur_addr (x : Z) (r : APU) : APU :=
  mkAPU (enabled r) (timer r) (tri_enabled r) (tri_timer r)
    (noise_enabled r) (noise_period_index r) (lfsr r) (noise_mode r)
    (frame_mode r) (irq_inhibit r) (cpu_cycle_mod r) (frame_irq r)
    (p1_env_const r) (p1_env_period r) (p1_env_decay r) (p1_env_loop r)
    (p1_env_start r) (p1_env_div r) (p1_length r) (tri_linear_reload r)
    (tri_control r) (tri_length r) (tri_linear_counter r)
    (noise_env_const r) (noise_env_period r) (noise_env_loop r)
    (noise_env_decay r) (noise_length r) (noise_env_start r)
    (noise_env_div r) (dmc_enabled r) (dmc_irq_enable r) (dmc_irq_flag r)
    (dmc_rate_index r) (dmc_output r) (dmc_sample_start r)
    (dmc_sample_length r) x (dmc_remaining r) (dmc_shift_reg r)
    (dmc_bits_remaining r) (dmc_buffer_full r) (dmc_buffer r) (bus_linked r)
    (fp r).
Definition set_dmc_remaining (x : Z) (r : APU) : APU :=
  mkAPU (enabled r) (timer r) (tri_enabled r) (tri_timer r)
    (noise_enabled r) (noise_period_index r) (lfsr r) (noise_mode r)
    (frame_mode r) (irq_inhibit r) (cpu_cycle_mod r) (frame_irq r)
    (p1_env_const r) (p1_env_period r) (p1_env_decay r) (p1_env_loop r)
    (p1_env_start r) (p1_env_div r) (p1_length r) (tri_linear_reload r)
    (tri_control r) (tri_length r) (tri_linear_counter r)
    (noise_env_const r) (noise_env_period r) (noise_env_loop r)
    (noise_env_decay r) (noise_length r) (noise_env_start r)
    (noise_env_div r) (dmc_enabled r) (dmc_irq_enable r) (dmc_irq_flag r)
    (dmc_rate_index r) (dmc_output r) (dmc_sample_start r)
    (dmc_sample_length r) (dmc_cur_addr r) x (dmc_shift_reg r)
    (dmc_bits_remaining r) (dmc_buffer_full r) (dmc_buffer r) (bus_linked r)
    (fp r).
Definition set_dmc_shift_reg (x : Z) (r : APU) : APU :=
  mkAPU (enabled r) (timer r) (tri_enabled r) (tri_timer r)
    (noise_enabled r) (noise_period_index r) (lfsr r) (noise_mode r)
    (frame_mode r) (irq_inhibit r) (cpu_cycle_mod r) (frame_irq r)
    (p1_env_const r) (p1_env_period r) (p1_env_decay r) (p1_env_loop r)
    (p1_env_start r) (p1_env_div r) (p1_length r) (tri_linear_reload r)
    (tri_control r) (tri_length r) (tri_linear_counter r)
    (noise_env_const r) (noise_env_period r) (noise_env_loop r)
    (noise_env_decay r) (noise_length r) (noise_env_start r)
    (noise_env_div r) (dmc_enabled r) (dmc_irq_enable r) (dmc_irq_flag r)
    (dmc_rate_index r) (dmc_output r) (dmc_sample_start r)
    (dmc_sample_length r) (dmc_cur_addr r) (dmc_remaining r) x
    (dmc_bits_remaining r) (dmc_buffer_full r) (dmc_buffer r) (bus_linked r)
    (fp r).
Definition set_dmc_bits_remaining (x : Z) (r : APU) : APU :=
  mkAPU (enabled r) (timer r) (tri_enabled r) (tri_timer r)
    (noise_enabled r) (noise_period_index r) (lfsr r) (noise_mode r)
    (frame_mode r) (irq_inhibit r) (cpu_cycle_mod r) (frame_irq r)
    (p1_env_const r) (p1_env_period r) (p1_env_decay r) (p1_env_loop r)
    (p1_env_start r) (p1_env_div r) (p1_length r) (tri_linear_reload r)
    (tri_control r) (tri_length r) (tri_linear_counter r)
    (noise_env_const r) (noise_env_period r) (noise_env_loop r)
    (noise_env_decay r) (noise_length r) (noise_env_start r)
    (noise_env_div r) (dmc_enabled r) (dmc_irq_enable r) (dmc_irq_flag r)
    (dmc_rate_index r) (dmc_output r) (dmc_sample_start r)
    (dmc_sample_length r) (dmc_cur_addr r) (dmc_remaining r)
    (dmc_shift_reg r) x (dmc_buffer_full r) (dmc_buffer r) (bus_linked r)
    (fp r).
Definition set_dmc_buffer_full (x : bool) (r : APU) : APU :=
  mkAPU (enabled r) (timer r) (tri_enabled r) (tri_timer r)
    (noise_enabled r) (noise_period_index r) (lfsr r) (noise_mode r)
    (frame_mode r) (irq_inhibit r) (cpu_cycle_mod r) (frame_irq r)
    (p1_env_const r) (p1_env_period r) (p1_env_decay r) (p1_env_loop r)
    (p1_env_start r) (p1_env_div r) (p1_length r) (tri_linear_reload r)
    (tri_control r) (tri_length r) (tri_linear_counter r)
    (noise_env_const r) (noise_env_period r) (noise_env_loop r)
    (noise_env_decay r) (noise_length r) (noise_env_start r)
    (noise_env_div r) (dmc_enabled r) (dmc_irq_enable r) (dmc_irq_flag r)
    (dmc_rate_index r) (dmc_output r) (dmc_sample_start r)
    (dmc_sample_length r) (dmc_cur_addr r) (dmc_remaining r)
    (dmc_shift_reg r) (dmc_bits_remaining r) x (dmc_buffer r) (bus_linked r)
    (fp r).
Definition set_dmc_buffer (x : Z) (r : APU) : APU :=
  mkAPU (enabled r) (timer r) (tri_enabled r) (tri_timer r)
    (noise_enabled r) (noise_period_index r) (lfsr r) (noise_mode r)
    (frame_mode r) (irq_inhibit r) (cpu_cycle_mod r) (frame_irq r)
    (p1_env_const r) (p1_env_period r) (p1_env_decay r) (p1_env_loop r)
    (p1_env_start r) (p1_env_div r) (p1_length r) (tri_linear_reload r)
    (tri_control r) (tri_length r) (tri_linear_counter r)
    (noise_env_const r) (noise_env_period r) (noise_env_loop r)
    (noise_env_decay r) (noise_length r) (noise_env_start r)
    (noise_env_div r) (dmc_enabled r) (dmc_irq_enable r) (dmc_irq_flag r)
    (dmc_rate_index r) (dmc_output r) (dmc_sample_start r)
    (dmc_sample_length r) (dmc_cur_addr r) (dmc_remaining r)
    (dmc_shift_reg r) (dmc_bits_remaining r) (dmc_buffer_full r) x
    (bus_linked r) (fp r).
Definition set_bus_linked (x : bool) (r : APU) : APU :=
  mkAPU (enabled r) (timer r) (tri_enabled r) (tri_timer r)
    (noise_enabled r) (noise_period_index r) (lfsr r) (noise_mode r)
    (frame_mode r) (irq_inhibit r) (cpu_cycle_mod r) (frame_irq r)
    (p1_env_const r) (p1_env_period r) (p1_env_decay r) (p1_env_loop r)
    (p1_env_start r) (p1_env_div r) (p1_length r) (tri_linear_reload r)
    (tri_control r) (tri_length r) (tri_linear_counter r)
    (noise_env_const r) (noise_env_period r) (noise_env_loop r)
    (noise_env_decay r) (noise_length r) (noise_env_start r)
    (noise_env_div r) (dmc_enabled r) (dmc_irq_enable r) (dmc_irq_flag r)
    (dmc_rate_index r) (dmc_output r) (dmc_sample_start r)
    (dmc_sample_length r) (dmc_cur_addr r) (dmc_remaining r)
    (dmc_shift_reg r) (dmc_bits_remaining r) (dmc_buffer_full r)
    (dmc_buffer r) x (fp r).
Definition set_fp (x : FP) (r : APU) : APU :=
  mkAPU (enabled r) (timer r) (tri_enabled r) (tri_timer r)
    (noise_enabled r) (noise_period_index r) (lfsr r) (noise_mode r)
    (frame_mode r) (irq_inhibit r) (cpu_cycle_mod r) (frame_irq r)
    (p1_env_const r) (p1_env_period r) (p1_env_decay r) (p1_env_loop r)
    (p1_env_start r) (p1_env_div r) (p1_length r) (tri_linear_reload r)
    (tri_control r) (tri_length r) (tri_linear_counter r)
    (noise_env_const r) (noise_env_period r) (noise_env_loop r)
    (noise_env_decay r) (noise_length r) (noise_env_start r)
    (noise_env_div r) (dmc_enabled r) (dmc_irq_enable r) (dmc_irq_flag r)
    (dmc_rate_index r) (dmc_output r) (dmc_sample_start r)
    (dmc_sample_length r) (dmc_cur_addr r) (dmc_remaining r)
    (dmc_shift_reg r) (dmc_bits_remaining r) (dmc_buffer_full r)
    (dmc_buffer r) (bus_linked r) x.

(** The state built by a successful [apu_init]. *)
Definition apu_init : APU :=
  mkAPU true 0x7FF false 0x7FF false 0 1 false
    0 true 0 false
    false 0 15 false false 0 0
    0 false 0 0
    false 0 false 15 0 false 0
    false false false 0 0x20 0xC000 1 0 0 0 0 false 0
    false fp_init.

(** Current simple implementation does not use bus; placeholder for DMC. *)
Definition apu_connect_bus (a : APU) : APU := a.

Definition LENGTH_TABLE : list Z :=
  [10; 254; 20; 2; 40; 4; 80; 6; 160; 8; 60; 10; 14; 12; 26; 14;
   12; 16; 24; 18; 48; 20; 96; 22; 192; 24; 72; 26; 16; 28; 32; 30].

Definition length_table (i : Z) : Z := nth (Z.to_nat i) LENGTH_TABLE 0.

Definition recalc_phase (a : APU) : APU :=
  set_fp (apu_recalc_phase (enabled a) (timer a) (fp a)) a.
Definition recalc_triangle (a : APU) : APU :=
  set_fp (apu_recalc_triangle (tri_enabled a) (tri_timer a) (fp a)) a.
Definition recalc_noise (a : APU) : APU :=
  set_fp (apu_recalc_noise (noise_enabled a) (noise_period_index a) (fp a)) a.

Definition apu_write (a : APU) (addr data : Z) : APU :=
  match addr with
  | 0x4000 =>
      let a := set_p1_env_const (nz (Z.land data 0x10)) a in
      let a := set_p1_env_loop (nz (Z.land data 0x20)) a in
      let a := set_p1_env_period (u8 (Z.land data 0x0F)) a in
      set_fp (fp_volume 0x4000
                (if p1_env_const a then p1_env_period a else p1_env_decay a)
                (fp a)) a
  | 0x4001 => a
  | 0x4002 =>
      let a := set_timer (u16 (Z.lor (Z.land (timer a) 0x0700) data)) a in
      recalc_phase a
  | 0x4003 =>
      let a := set_timer (u16 (Z.lor (Z.shiftl (Z.land data 0x07) 8)
                                     (Z.land (timer a) 0x00FF))) a in
      let a := set_fp (fp_phase_restart 0x4003 (fp a)) a in
      let a := set_p1_length (length_table (Z.land (Z.shiftr data 3) 0x1F)) a in
      let a := set_p1_env_start true a in
      recalc_phase a
  | 0x4008 =>
      let a := set_tri_control (nz (Z.land data 0x80)) a in
      let a := set_tri_linear_reload (u8 (Z.land data 0x7F)) a in
      set_fp (fp_volume 0x4008 (Z.land (tri_linear_counter a) 0x1F) (fp a)) a
  | 0x400A =>
      let a := set_tri_timer
                 (u16 (Z.lor (Z.land (tri_timer a) 0x0700) data)) a in
      recalc_triangle a
  | 0x400B =>
      let a := set_tri_timer (u16 (Z.lor (Z.shiftl (Z.land data 0x07) 8)
                                         (Z.land (tri_timer a) 0x00FF))) a in
      let a := set_fp (fp_phase_restart 0x400B (fp a)) a in
      let a := set_tri_length
                 (length_table (Z.land (Z.shiftr data 3) 0x1F)) a in
      let a := set_tri_linear_counter (tri_linear_reload a) a in
      recalc_triangle a
  | 0x400C =>
      let a := set_noise_env_const (nz (Z.land data 0x10)) a in
      let a := set_noise_env_loop (nz (Z.land data 0x20)) a in
      let a := set_noise_env_period (u8 (Z.land data 0x0F)) a in
      set_fp (fp_volume 0x400C
                (if noise_env_const a then noise_env_period a
                 else noise_env_decay a)
                (fp a)) a
  | 0x400E =>
      let a := set_noise_period_index (u16 (Z.land data 0x0F)) a in
      let a := set_noise_mode (nz (Z.land data 0x80)) a in
      recalc_noise a
  | 0x400F =>
      let a := set_lfsr 1 a in
      let a := set_noise_length
                 (length_table (Z.land (Z.shiftr data 3) 0x1F)) a in
      set_noise_env_start true a
  | 0x4015 =>
      let a := set_enabled (nz (Z.land data 0x01)) a in
      let a := set_tri_enabled (nz (Z.land data 0x04)) a in
      let a := set_noise_enabled (nz (Z.land data 0x08)) a in
      let dmc_en := nz (Z.land data 0x10) in
      let a :=
        if dmc_en && negb (dmc_enabled a) then
          let a := set_dmc_enabled true a in
          if dmc_remaining a =? 0 then
            let a := set_dmc_cur_addr (dmc_sample_start a) a in
            set_dmc_remaining (dmc_sample_length a) a
          else a
        else if negb dmc_en then
          let a := set_dmc_enabled false a in
          set_dmc_remaining 0 a
        else a in
      let a := recalc_phase a in
      let a := recalc_triangle a in
      recalc_noise a
  | 0x4010 =>
      let a := set_dmc_irq_enable (nz (Z.land data 0x80)) a in
      let a := set_dmc_rate_index (u8 (Z.land data 0x0F)) a in
      set_fp (fp_dmc_rate (dmc_rate_index a) (fp a)) a
  | 0x4011 => set_dmc_output (u8 (Z.land data 0x7F)) a
  | 0x4012 => set_dmc_sample_start (u16 (0xC000 + Z.shiftl data 6)) a
  | 0x4013 => set_dmc_sample_length (u16 (Z.shiftl data 4 + 1)) a
  | 0x4017 =>
      let a := set_frame_mode (if nz (Z.land data 0x80) then 1 else 0) a in
      let a := set_irq_inhibit (nz (Z.land data 0x40)) a in
      set_cpu_cycle_mod 0 a
  | _ => a
  end.

Definition apu_read (a : APU) (addr : Z) : Z * APU :=
  if addr =? 0x4015 then
    let st := 0 in
    let st := if enabled a && nz (p1_length a) then Z.lor st 0x01 else st in
    let st := if tri_enabled a && nz (tri_length a) then Z.lor st 0x04 else st in
    let st :=
      if noise_enabled a && nz (noise_length a) then Z.lor st 0x08 else st in
    let st :=
      if dmc_enabled a && nz (dmc_remaining a) then Z.lor st 0x10 else st in
    let st := if frame_irq a then Z.lor st 0x40 else st in
    let st := if dmc_irq_flag a then Z.lor st 0x80 else st in
    let a := set_frame_irq false a in
    let a := set_dmc_irq_flag false a in
    (st, a)
  else (0, a).

(** [apu_quarter_frame] in its three blocks. *)

(** Pulse 1 envelope. *)
Definition clock_p1_envelope (a : APU) : APU :=
  let a :=
    if p1_env_start a then
      let a := set_p1_env_start false a in
      let a := set_p1_env_decay 15 a in
      set_p1_env_div (p1_env_period a) a
    else if p1_env_div a >? 0 then set_p1_env_div (u8 (p1_env_div a - 1)) a
    else
      let a := set_p1_env_div (p1_env_period a) a in
      if p1_env_decay a >? 0 then set_p1_env_decay (u8 (p1_env_decay a - 1)) a
      else if p1_env_loop a then set_p1_env_decay 15 a
      else a in
  set_fp (fp_volume 0x4000
            (if p1_env_const a then p1_env_period a else p1_env_decay a)
            (fp a)) a.

(** Noise envelope. *)
Definition clock_noise_envelope (a : APU) : APU :=
  let a :=
    if noise_env_start a then
      let a := set_noise_env_start false a in
      let a := set_noise_env_decay 15 a in
      set_noise_env_div (noise_env_period a) a
    else if noise_env_div a >? 0
    then set_noise_env_div (u8 (noise_env_div a - 1)) a
    else
      let a := set_noise_env_div (noise_env_period a) a in
      if noise_env_decay a >? 0
      then set_noise_env_decay (u8 (noise_env_decay a - 1)) a
      else if noise_env_loop a then set_noise_env_decay 15 a
      else a in
  set_fp (fp_volume 0x400C
            (if noise_env_const a then noise_env_period a
             else noise_env_decay a) (fp a)) a.

(** Triangle linear counter reload if control flag set. *)
Definition clock_linear_counter (a : APU) : APU :=
  if tri_control a then set_tri_linear_counter (tri_linear_reload a) a
  else if tri_linear_counter a >? 0
  then set_tri_linear_counter (u8 (tri_linear_counter a - 1)) a
  else a.

Definition apu_quarter_frame (a : APU) : APU :=
  let a := clock_p1_envelope a in
  let a := clock_noise_envelope a in
  clock_linear_counter a.

Definition apu_half_frame (a : APU) : APU :=
  let a :=
    if negb (p1_env_loop a) && (p1_length a >? 0)
    then set_p1_length (u8 (p1_length a - 1)) a else a in
  let a :=
    if negb (tri_control a) && (tri_length a >? 0)
    then set_tri_length (u8 (tri_length a - 1)) a else a in
  if negb (noise_env_loop a) && (noise_length a >? 0)
  then set_noise_length (u8 (noise_length a - 1)) a else a.

Definition step_times : list Z := [3729; 7457; 11186; 14916].

(** [while (idx < 4 && cpu_cycle_mod >= step_times[idx]) idx++]. *)
Fixpoint seq_index (ts : list Z) (m : Z) : Z :=
  match ts with
  | [] => 0
  | t0 :: r => if m >=? t0 then 1 + seq_index r m else 0
  end.

(** [for (i = 0; i < idx; ++i)] of the intermediate steps. *)
Fixpoint seq_steps (n : nat) (i : Z) (a : APU) : APU :=
  match n with
  | O => a
  | S k =>
      let a := apu_quarter_frame a in
      let a := if (i =? 1) || (i =? 3) then apu_half_frame a else a in
      seq_steps k (i + 1) a
  end.

(** One pass of the [while (1)] loop of the frame sequencer, past its
    [break]; [idx] is the number of boundaries reached. *)
Definition seq_pass (idx : Z) (a : APU) : APU :=
  if cpu_cycle_mod a >=? 14916 then
    let a := set_cpu_cycle_mod (cpu_cycle_mod a - 14916) a in
    let a := apu_quarter_frame a in
    let a := apu_half_frame a in
    if negb (irq_inhibit a) && (frame_mode a =? 0)
    then set_frame_irq true a else a
  else
    let a := seq_steps (Z.to_nat idx) 0 a in
    set_cpu_cycle_mod 0 a.

(** The loop; [None] if the fuel runs out before the [break]. *)
Fixpoint seq_loop (fuel : nat) (a : APU) : option APU :=
  match fuel with
  | O => None
  | S k =>
      let idx := seq_index step_times (cpu_cycle_mod a) in
      if idx =? 0 then Some a else seq_loop k (seq_pass idx a)
  end.

(** Fuel that always reaches the [break]: one pass per whole period in
    the accumulator, one for the remainder, one to leave. *)
Definition seq_fuel (m : Z) : nat := S (S (Z.to_nat (m / 14916))).

(** First half of [apu_tick_cpu_cycles]: accumulate and clock the frame
    sequencer.  (The DMC half reads the bus and is defined with it.) *)
Definition apu_frame_sequencer (a : APU) (cpu_cycles : Z) : APU :=
  let a := set_cpu_cycle_mod (cpu_cycle_mod a + cpu_cycles) a in
  match seq_loop (seq_fuel (cpu_cycle_mod a)) a with
  | Some a' => a'
  | None => a
  end.

Definition apu_frame_irq_pending (a : option APU) : bool :=
  match a with Some a => frame_irq a | None => false end.
Definition apu_dmc_irq_pending (a : option APU) : bool :=
  match a with Some a => dmc_irq_flag a | None => false end.

End WithFloats.

Arguments APU {fm}.

End Apu.

(** ** cpu.h and the bus-free helpers of cpu.c *)

Module Cpu.

Record CPU : Type := mkCPU {
  A : Z;
  X : Z;
  Y : Z;
  S : Z;  (* stack pointer *)
  PC : Z;
  P : Z;  (* NV-BDIZC *)
  nmi_line : bool;
  irq_line : bool;
  cycles : Z
}.

Definition set_A (x : Z) (r : CPU) : CPU :=
  mkCPU x (X r) (Y r) (S r) (PC r) (P r) (nmi_line r) (irq_line r)
    (cycles r).
Definition set_X (x : Z) (r : CPU) : CPU :=
  mkCPU (A r) x (Y r) (S r) (PC r) (P r) (nmi_line r) (irq_line r)
    (cycles r).
Definition set_Y (x : Z) (r : CPU) : CPU :=
  mkCPU (A r) (X r) x (S r) (PC r) (P r) (nmi_line r) (irq_line r)
    (cycles r).
Definition set_S (x : Z) (r : CPU) : CPU :=
  mkCPU (A r) (X r) (Y r) x (PC r) (P r) (nmi_line r) (irq_line r)
    (cycles r).
Definition set_PC (x : Z) (r : CPU) : CPU :=
  mkCPU (A r) (X r) (Y r) (S r) x (P r) (nmi_line r) (irq_line r) (cycles r).
Definition set_P (x : Z) (r : CPU) : CPU :=
  mkCPU (A r) (X r) (Y r) (S r) (PC r) x (nmi_line r) (irq_line r)
    (cycles r).
Definition set_nmi_line (x : bool) (r : CPU) : CPU :=
  mkCPU (A r) (X r) (Y r) (S r) (PC r) (P r) x (irq_line r) (cycles r).
Definition set_irq_line (x : bool) (r : CPU) : CPU :=
  mkCPU (A r) (X r) (Y r) (S r) (PC r) (P r) (nmi_line r) x (cycles r).
Definition set_cycles (x : Z) (r : CPU) : CPU :=
  mkCPU (A r) (X r) (Y r) (S r) (PC r) (P r) (nmi_line r) (irq_line r) x.

(** The state left by [memset(c, 0, sizeof *c)]. *)
Definition cpu_zeroed : CPU := mkCPU 0 0 0 0 0 0 false false 0.

Definition cpu_power_on (c : CPU) : CPU :=
  let c := cpu_zeroed in
  let c := set_P (Z.lor FLAG_U FLAG_I) c in
  let c := set_S 0xFD c in
  set_cycles 0 c.

Definition set_zn (c : CPU) (x : Z) : CPU :=
  let c := set_P (set_bit_u8 (P c) FLAG_Z (x =? 0)) c in
  set_P (set_bit_u8 (P c) FLAG_N (nz (Z.land x 0x80))) c.

(** ADC/SBC helpers (no decimal mode on NES). *)
Definition adc (c : CPU) (a b : Z) : Z * CPU :=
  let sum := u16 (a + b + (if nz (Z.land (P c) FLAG_C) then 1 else 0)) in
  let res := u8 sum in
  let c := set_P (set_bit_u8 (P c) FLAG_C (sum >? 0xFF)) c in
  let c := set_P (set_bit_u8 (P c) FLAG_V
                    (nz (Z.land (Z.land (Z.lnot (Z.lxor a b)) (Z.lxor a res))
                                0x80))) c in
  let c := set_zn c res in
  (res, c).

Definition sbc (c : CPU) (a b : Z) : Z * CPU :=
  let diff :=
    u16 (a + u16 (Z.lnot b) + (if nz (Z.land (P c) FLAG_C) then 1 else 0)) in
  let res := u8 diff in
  let c := set_P (set_bit_u8 (P c) FLAG_C (nz (Z.land diff 0x100))) c in
  let c := set_P (set_bit_u8 (P c) FLAG_V
                    (nz (Z.land (Z.land (Z.lxor a b) (Z.lxor a res)) 0x80))) c in
  let c := set_zn c res in
  (res, c).

End Cpu.

(** ** nes.h, bus.c, cpu.c, nes.c *)

Module Nes.

Import Controller Cart Apu.
Import Cpu (CPU).
Import Ppu (PPU).

Section WithFloats.
Context {fm : FloatModel}.

(** The console.  The bus owns only [ram]; its back pointer and the
    CPU's bus pointer are wired by [nes_init] and never change, so a bus
    access is a function of the whole record. *)
Record NES : Type := mkNES {
  cpu : CPU;
  ppu : PPU;
  ram : mem;  (* bus.ram *)
  cart : Cartridge;
  ctrl1 : Controller;
  ctrl2 : Controller;
  apu : option APU
}.

Definition with_cpu (x : CPU) (r : NES) : NES :=
  mkNES x (ppu r) (ram r) (cart r) (ctrl1 r) (ctrl2 r) (apu r).
Definition with_ppu (x : PPU) (r : NES) : NES :=
  mkNES (cpu r) x (ram r) (cart r) (ctrl1 r) (ctrl2 r) (apu r).
Definition with_ram (x : mem) (r : NES) : NES :=
  mkNES (cpu r) (ppu r) x (cart r) (ctrl1 r) (ctrl2 r) (apu r).
Definition with_cart (x : Cartridge) (r : NES) : NES :=
  mkNES (cpu r) (ppu r) (ram r) x (ctrl1 r) (ctrl2 r) (apu r).
Definition with_ctrl1 (x : Controller) (r : NES) : NES :=
  mkNES (cpu r) (ppu r) (ram r) (cart r) x (ctrl2 r) (apu r).
Definition with_ctrl2 (x : Controller) (r : NES) : NES :=
  mkNES (cpu r) (ppu r) (ram r) (cart r) (ctrl1 r) x (apu r).
Definition with_apu (x : option APU) (r : NES) : NES :=
  mkNES (cpu r) (ppu r) (ram r) (cart r) (ctrl1 r) (ctrl2 r) x.

Definition on_cpu (f : CPU -> CPU) (s : NES) : NES := with_cpu (f (cpu s)) s.
Definition on_ppu (f : PPU -> PPU) (s : NES) : NES := with_ppu (f (ppu s)) s.
Definition on_apu (f : APU -> APU) (s : NES) : NES :=
  match apu s with
  | Some a => with_apu (Some (f a)) s
  | None => s
  end.

(** *** bus.c *)

Definition bus_cpu_read (s : NES) (addr : Z) : Z * NES :=
  if addr <=? 0x1FFF then (ram s (Z.land addr 0x07FF), s)
  else if addr <=? 0x3FFF then
    let '(r, p) :=
      Ppu.ppu_read_reg (cart s) (ppu s) (u16 (0x2000 + Z.land addr 7)) in
    (r, with_ppu p s)
  else if addr =? 0x4016 then
    let '(r, c) := controller_read (ctrl1 s) in (r, with_ctrl1 c s)
  else if addr =? 0x4017 then
    let '(r, c) := controller_read (ctrl2 s) in (r, with_ctrl2 c s)
  else if (addr >=? 0x4000) && (addr <=? 0x4017) then
    if addr =? 0x4015 then
      match apu s with
      | Some a => let '(r, a) := apu_read a addr in (r, with_apu (Some a) s)
      | None => (0x00, s)
      end
    else (0, s)
  else if addr >=? 0x6000 then (cart_cpu_read (cart s) addr, s)
  else (0, s).

(** OAMDMA: copy 256 bytes from page data<<8 into PPU OAM starting at
    OAMADDR. *)
Fixpoint oam_dma (n : nat) (i base start : Z) (s : NES) : NES :=
  match n with
  | O => s
  | S k =>
      let '(x, s) := bus_cpu_read s (u16 (base + i)) in
      let s := on_ppu (fun p =>
                 Ppu.set_oam (upd (Ppu.oam p) (u8 (start + i)) x) p) s in
      oam_dma k (i + 1) base start s
  end.

Definition bus_cpu_write (s : NES) (addr data : Z) : NES :=
  if addr <=? 0x1FFF then with_ram (upd (ram s) (Z.land addr 0x07FF) data) s
  else if addr <=? 0x3FFF then
    let '(p, c) :=
      Ppu.ppu_write_reg (cart s) (ppu s) (u16 (0x2000 + Z.land addr 7)) data in
    with_cart c (with_ppu p s)
  else if addr =? 0x4014 then
    let base := u16 (Z.shiftl data 8) in
    let start := Ppu.oamaddr (ppu s) in
    oam_dma 256 0 base start s
  else if addr =? 0x4016 then
    let s := with_ctrl1 (controller_write (ctrl1 s) data) s in
    with_ctrl2 (controller_write (ctrl2 s) data) s
  else if (addr >=? 0x4000) && (addr <=? 0x4017) then
    on_apu (fun a => apu_write a addr data) s
  else if addr >=? 0x6000 then
    with_cart (cart_cpu_write (cart s) addr data) s
  else s.

(** *** A state monad over the console, for cpu.c *)

Definition M (A : Type) : Type := NES -> A * NES.
Definition ret {A : Type} (a : A) : M A := fun s => (a, s).
Definition bind {A B : Type} (m : M A) (k : A -> M B) : M B :=
  fun s => let '(a, s1) := m s in k a s1.

Notation "x <- m ;; k" := (bind m (fun x => k))
  (at level 61, m at next level, right associativity).
Notation "m ;; k" := (bind m (fun _ => k))
  (at level 61, right associativity).

Definition get_cpu : M CPU := fun s => (cpu s, s).
Definition mod_cpu (f : CPU -> CPU) : M unit := fun s => (tt, on_cpu f s).

Definition cpu_read (addr : Z) : M Z := fun s => bus_cpu_read s addr.
Definition cpu_write (addr x : Z) : M unit :=
  fun s => (tt, bus_cpu_write s addr x).

(** *** cpu.c *)

Definition push (x : Z) : M unit :=
  c <- get_cpu ;;
  cpu_write (u16 (Z.lor 0x0100 (Cpu.S c))) x ;;
  mod_cpu (fun c => Cpu.set_S (u8 (Cpu.S c - 1)) c).

Definition pull : M Z :=
  mod_cpu (fun c => Cpu.set_S (u8 (Cpu.S c + 1)) c) ;;
  c <- get_cpu ;;
  cpu_read (u16 (Z.lor 0x0100 (Cpu.S c))).

Definition set_zn (x : Z) : M unit := mod_cpu (fun c => Cpu.set_zn c x).

(** [set_bit_u8(&c->P, mask, on)]. *)
Definition set_flag (mask : Z) (on : bool) : M unit :=
  mod_cpu (fun c => Cpu.set_P (set_bit_u8 (Cpu.P c) mask on) c).

(** [cpu_read(c, c->PC++)]. *)
Definition fetch_pc : M Z :=
  c <- get_cpu ;;
  mod_cpu (fun c => Cpu.set_PC (u16 (Cpu.PC c + 1)) c) ;;
  cpu_read (Cpu.PC c).

Definition fetch16 : M Z :=
  lo <- fetch_pc ;;
  hi <- fetch_pc ;;
  ret (make16 lo hi).

Definition cpu_reset : M unit :=
  mod_cpu (fun c => Cpu.set_P (Z.lor (Cpu.P c) FLAG_I) c) ;;
  mod_cpu (fun c => Cpu.set_S (u8 (Cpu.S c - 3)) c) ;;
  lo <- cpu_read 0xFFFC ;;
  hi <- cpu_read 0xFFFD ;;
  mod_cpu (Cpu.set_PC (make16 lo hi)).

(** Push PCH, PCL and P with B cleared and U set, set I, load the vector:
    the common body of [cpu_irq] and [cpu_nmi]. *)
Definition interrupt (vector : Z) : M unit :=
  c <- get_cpu ;;
  push (u8 (Z.land (Z.shiftr (Cpu.PC c) 8) 0xFF)) ;;
  push (u8 (Z.land (Cpu.PC c) 0xFF)) ;;
  c <- get_cpu ;;
  let p := Z.land (Cpu.P c) (not8 FLAG_B) in
  let p := Z.lor p FLAG_U in
  push p ;;
  mod_cpu (fun c => Cpu.set_P (Z.lor (Cpu.P c) FLAG_I) c) ;;
  lo <- cpu_read vector ;;
  hi <- cpu_read (vector + 1) ;;
  mod_cpu (Cpu.set_PC (make16 lo hi)) ;;
  mod_cpu (fun c => Cpu.set_cycles ((Cpu.cycles c + 7) mod 2 ^ 64) c).

Definition cpu_irq : M unit :=
  c <- get_cpu ;;
  if negb (nz (Z.land (Cpu.P c) FLAG_I)) then interrupt 0xFFFE else ret tt.

Definition cpu_nmi : M unit := interrupt 0xFFFA.

(** Addressing helpers. *)
Record Addr : Type := mkAddr { addr : Z; extra_cycles : Z }.

Definition addr_imm : M Addr :=
  c <- get_cpu ;;
  mod_cpu (fun c => Cpu.set_PC (u16 (Cpu.PC c + 1)) c) ;;
  ret (mkAddr (Cpu.PC c) 0).

Definition addr_zp0 : M Addr :=
  zp <- fetch_pc ;; ret (mkAddr zp 0).

Definition addr_zpx : M Addr :=
  zp <- fetch_pc ;; c <- get_cpu ;; ret (mkAddr (u8 (zp + Cpu.X c)) 0).

Definition addr_zpy : M Addr :=
  zp <- fetch_pc ;; c <- get_cpu ;; ret (mkAddr (u8 (zp + Cpu.Y c)) 0).

Definition addr_abs : M Addr :=
  a <- fetch16 ;; ret (mkAddr a 0).

Definition addr_abx : M Addr :=
  base <- fetch16 ;;
  c <- get_cpu ;;
  let a := u16 (base + Cpu.X c) in
  ret (mkAddr a (if page_crossed base a then 1 else 0)).

Definition addr_aby : M Addr :=
  base <- fetch16 ;;
  c <- get_cpu ;;
  let a := u16 (base + Cpu.Y c) in
  ret (mkAddr a (if page_crossed base a then 1 else 0)).

(** JMP indirect with 6502 bug. *)
Definition addr_ind : M Addr :=
  ptr <- fetch16 ;;
  let lo_addr := ptr in
  let hi_addr := u16 (Z.lor (Z.land ptr 0xFF00) (Z.land (ptr + 1) 0x00FF)) in
  lo <- cpu_read lo_addr ;;
  hi <- cpu_read hi_addr ;;
  ret (mkAddr (make16 lo hi) 0).

Definition addr_izx : M Addr :=
  zp <- fetch_pc ;;
  c <- get_cpu ;;
  let t := u8 (zp + Cpu.X c) in
  lo <- cpu_read t ;;
  hi <- cpu_read (u8 (t + 1)) ;;
  ret (mkAddr (make16 lo hi) 0).

Definition addr_izy : M Addr :=
  t <- fetch_pc ;;
  lo <- cpu_read t ;;
  hi <- cpu_read (u8 (t + 1)) ;;
  c <- get_cpu ;;
  let base := make16 lo hi in
  let a := u16 (base + Cpu.Y c) in
  ret (mkAddr a (if page_crossed base a then 1 else 0)).

(** Branch helper: the operand byte read as [int8_t]. *)
Definition rel_addr : M Z :=
  b <- fetch_pc ;;
  c <- get_cpu ;;
  let off := if b >=? 128 then b - 256 else b in
  ret (u16 (Cpu.PC c + off)).

(** Cycle counts of a case: fixed, or with the page-cross penalty. *)
Definition fixed (n : Z) : Addr -> Z := fun _ => n.
Definition paged (n : Z) : Addr -> Z := fun a => n + extra_cycles a.

(** The case bodies of the opcode switch.  Cases of one instruction differ
    only in the addressing helper [am] and the cycle count [cyc]. *)

Definition op_ora (am : M Addr) (cyc : Addr -> Z) : M Z :=
  a <- am ;; m <- cpu_read (addr a) ;;
  mod_cpu (fun c => Cpu.set_A (Z.lor (Cpu.A c) m) c) ;;
  c <- get_cpu ;; set_zn (Cpu.A c) ;; ret (cyc a).

Definition op_and (am : M Addr) (cyc : Addr -> Z) : M Z :=
  a <- am ;; m <- cpu_read (addr a) ;;
  mod_cpu (fun c => Cpu.set_A (Z.land (Cpu.A c) m) c) ;;
  c <- get_cpu ;; set_zn (Cpu.A c) ;; ret (cyc a).

Definition op_eor (am : M Addr) (cyc : Addr -> Z) : M Z :=
  a <- am ;; m <- cpu_read (addr a) ;;
  mod_cpu (fun c => Cpu.set_A (Z.lxor (Cpu.A c) m) c) ;;
  c <- get_cpu ;; set_zn (Cpu.A c) ;; ret (cyc a).

Definition op_adc (am : M Addr) (cyc : Addr -> Z) : M Z :=
  a <- am ;; m <- cpu_read (addr a) ;;
  mod_cpu (fun c => let '(r, c) := Cpu.adc c (Cpu.A c) m in Cpu.set_A r c) ;;
  ret (cyc a).

Definition op_sbc (am : M Addr) (cyc : Addr -> Z) : M Z :=
  a <- am ;; m <- cpu_read (addr a) ;;
  mod_cpu (fun c => let '(r, c) := Cpu.sbc c (Cpu.A c) m in Cpu.set_A r c) ;;
  ret (cyc a).

(** CMP, CPX, CPY: [reg] is the compared register. *)
Definition op_cmp (reg : CPU -> Z) (am : M Addr) (cyc : Addr -> Z) : M Z :=
  a <- am ;; m <- cpu_read (addr a) ;;
  c <- get_cpu ;;
  let t := u16 (reg c - m) in
  set_flag FLAG_C (reg c >=? m) ;;
  set_zn (u8 t) ;; ret (cyc a).

Definition op_inc (am : M Addr) (cyc : Addr -> Z) : M Z :=
  a <- am ;; m <- cpu_read (addr a) ;;
  let x := u8 (m + 1) in
  cpu_write (addr a) x ;; set_zn x ;; ret (cyc a).

Definition op_dec (am : M Addr) (cyc : Addr -> Z) : M Z :=
  a <- am ;; m <- cpu_read (addr a) ;;
  let x := u8 (m - 1) in
  cpu_write (addr a) x ;; set_zn x ;; ret (cyc a).

Definition op_asl (am : M Addr) (cyc : Addr -> Z) : M Z :=
  a <- am ;; x <- cpu_read (addr a) ;;
  set_flag FLAG_C (nz (Z.land x 0x80)) ;;
  let x := u8 (Z.shiftl x 1) in
  cpu_write (addr a) x ;; set_zn x ;; ret (cyc a).

Definition op_lsr (am : M Addr) (cyc : Addr -> Z) : M Z :=
  a <- am ;; x <- cpu_read (addr a) ;;
  set_flag FLAG_C (nz (Z.land x 1)) ;;
  let x := u8 (Z.shiftr x 1) in
  cpu_write (addr a) x ;; set_zn x ;; ret (cyc a).

Definition op_rol (am : M Addr) (cyc : Addr -> Z) : M Z :=
  a <- am ;; x <- cpu_read (addr a) ;;
  c <- get_cpu ;;
  let carry := if nz (Z.land (Cpu.P c) FLAG_C) then 1 else 0 in
  set_flag FLAG_C (nz (Z.land x 0x80)) ;;
  let x := u8 (Z.lor (Z.shiftl x 1) carry) in
  cpu_write (addr a) x ;; set_zn x ;; ret (cyc a).

Definition op_ror (am : M Addr) (cyc : Addr -> Z) : M Z :=
  a <- am ;; x <- cpu_read (addr a) ;;
  c <- get_cpu ;;
  let carry := if nz (Z.land (Cpu.P c) FLAG_C) then 1 else 0 in
  set_flag FLAG_C (nz (Z.land x 1)) ;;
  let x := u8 (Z.lor (Z.shiftr x 1) (Z.shiftl carry 7)) in
  cpu_write (addr a) x ;; set_zn x ;; ret (cyc a).

Definition op_bit (am : M Addr) (cyc : Addr -> Z) : M Z :=
  a <- am ;; x <- cpu_read (addr a) ;;
  c <- get_cpu ;;
  set_flag FLAG_Z (Z.land (Cpu.A c) x =? 0) ;;
  set_flag FLAG_V (nz (Z.land x 0x40)) ;;
  set_flag FLAG_N (nz (Z.land x 0x80)) ;;
  ret (cyc a).

Definition op_jmp (am : M Addr) (cyc : Addr -> Z) : M Z :=
  a <- am ;; mod_cpu (Cpu.set_PC (addr a)) ;; ret (cyc a).

(** LDA, LDX, LDY: [setr] stores the register. *)
Definition op_ld (setr : Z -> CPU -> CPU) (am : M Addr) (cyc : Addr -> Z)
  : M Z :=
  a <- am ;; m <- cpu_read (addr a) ;;
  mod_cpu (setr m) ;; set_zn m ;; ret (cyc a).

(** STA, STX, STY. *)
Definition op_st (reg : CPU -> Z) (am : M Addr) (cyc : Addr -> Z) : M Z :=
  a <- am ;; c <- get_cpu ;; cpu_write (addr a) (reg c) ;; ret (cyc a).

(** Register transfers and INX/INY/DEX/DEY: store [f c] with [setr]
    and set Z and N from it. *)
Definition op_reg (f : CPU -> Z) (setr : Z -> CPU -> CPU) : M Z :=
  c <- get_cpu ;;
  mod_cpu (setr (f c)) ;; set_zn (f c) ;; ret 2.

(** The eight conditional branches. *)
Definition op_branch (cond : CPU -> bool) : M Z :=
  let cycles := 0 in
  t <- rel_addr ;;
  c <- get_cpu ;;
  if cond c then
    let cycles := if page_crossed (Cpu.PC c) t then cycles + 1 else cycles in
    mod_cpu (Cpu.set_PC t) ;;
    let cycles := cycles + 1 in
    ret (cycles + 2)
  else ret (cycles + 2).

Definition flag_set (mask : Z) (c : CPU) : bool := nz (Z.land (Cpu.P c) mask).
Definition flag_clear (mask : Z) (c : CPU) : bool :=
  negb (nz (Z.land (Cpu.P c) mask)).

Definition op_brk : M Z :=
  mod_cpu (fun c => Cpu.set_PC (u16 (Cpu.PC c + 1)) c) ;;
  c <- get_cpu ;;
  push (u8 (Z.land (Z.shiftr (Cpu.PC c) 8) 0xFF)) ;;
  push (u8 (Z.land (Cpu.PC c) 0xFF)) ;;
  c <- get_cpu ;;
  let p := Z.lor (Z.lor (Cpu.P c) FLAG_B) FLAG_U in
  push p ;;
  mod_cpu (fun c => Cpu.set_P (Z.lor (Cpu.P c) FLAG_I) c) ;;
  lo <- cpu_read 0xFFFE ;;
  hi <- cpu_read 0xFFFF ;;
  mod_cpu (Cpu.set_PC (make16 lo hi)) ;;
  ret 7.

Definition op_asl_a : M Z :=
  c <- get_cpu ;;
  set_flag FLAG_C (nz (Z.land (Cpu.A c) 0x80)) ;;
  mod_cpu (fun c => Cpu.set_A (u8 (Z.shiftl (Cpu.A c) 1)) c) ;;
  c <- get_cpu ;; set_zn (Cpu.A c) ;; ret 2.

Definition op_lsr_a : M Z :=
  c <- get_cpu ;;
  set_flag FLAG_C (nz (Z.land (Cpu.A c) 1)) ;;
  mod_cpu (fun c => Cpu.set_A (u8 (Z.shiftr (Cpu.A c) 1)) c) ;;
  c <- get_cpu ;; set_zn (Cpu.A c) ;; ret 2.

Definition op_rol_a : M Z :=
  c <- get_cpu ;;
  let carry := if nz (Z.land (Cpu.P c) FLAG_C) then 1 else 0 in
  let newc := if nz (Z.land (Cpu.A c) 0x80) then 1 else 0 in
  mod_cpu (fun c => Cpu.set_A (u8 (Z.lor (Z.shiftl (Cpu.A c) 1) carry)) c) ;;
  set_flag FLAG_C (nz newc) ;;
  c <- get_cpu ;; set_zn (Cpu.A c) ;; ret 2.

Definition op_ror_a : M Z :=
  c <- get_cpu ;;
  let carry := if nz (Z.land (Cpu.P c) FLAG_C) then 1 else 0 in
  let newc := u8 (Z.land (Cpu.A c) 1) in
  mod_cpu (fun c =>
    Cpu.set_A (u8 (Z.lor (Z.shiftr (Cpu.A c) 1) (Z.shiftl carry 7))) c) ;;
  set_flag FLAG_C (nz newc) ;;
  c <- get_cpu ;; set_zn (Cpu.A c) ;; ret 2.

Definition op_jsr : M Z :=
  a <- fetch16 ;;
  c <- get_cpu ;;
  let r := u16 (Cpu.PC c - 1) in
  push (hi8 r) ;; push (lo8 r) ;;
  mod_cpu (Cpu.set_PC a) ;; ret 6.

Definition op_rts : M Z :=
  lo <- pull ;; hi <- pull ;;
  mod_cpu (Cpu.set_PC (u16 (make16 lo hi + 1))) ;; ret 6.

Definition op_rti : M Z :=
  p <- pull ;; lo <- pull ;; hi <- pull ;;
  mod_cpu (Cpu.set_P (u8 (Z.land (Z.lor p FLAG_U) (Z.lnot FLAG_B)))) ;;
  mod_cpu (Cpu.set_PC (make16 lo hi)) ;; ret 6.

Definition op_pla : M Z :=
  x <- pull ;; mod_cpu (Cpu.set_A x) ;; set_zn x ;; ret 4.

Definition op_plp : M Z :=
  x <- pull ;;
  mod_cpu (Cpu.set_P (u8 (Z.land (Z.lor x FLAG_U) (Z.lnot FLAG_B)))) ;;
  ret 4.

Definition op_pha : M Z :=
  c <- get_cpu ;; push (Cpu.A c) ;; ret 3.

Definition op_php : M Z :=
  c <- get_cpu ;;
  push (u8 (Z.lor (Z.lor (Cpu.P c) FLAG_B) FLAG_U)) ;; ret 3.

(** CLC, CLD, CLI, CLV: [c->P &= (uint8_t)~mask]. *)
Definition op_clear (mask : Z) : M Z :=
  mod_cpu (fun c => Cpu.set_P (Z.land (Cpu.P c) (not8 mask)) c) ;; ret 2.

(** SEC, SED, SEI: [c->P |= mask]. *)
Definition op_set (mask : Z) : M Z :=
  mod_cpu (fun c => Cpu.set_P (Z.lor (Cpu.P c) mask) c) ;; ret 2.

Definition incr (x : Z) : Z := u8 (x + 1).
Definition decr (x : Z) : Z := u8 (x - 1).

(** The opcode switch of [cpu_step]; the result is [cycles]. *)
Definition exec (op : Z) : M Z :=
  match op with
  (* BRK *)
  | 0x00 => op_brk
  (* ORA *)
  | 0x09 => op_ora addr_imm (fixed 2)
  | 0x05 => op_ora addr_zp0 (fixed 3)
  | 0x15 => op_ora addr_zpx (fixed 4)
  | 0x0D => op_ora addr_abs (fixed 4)
  | 0x1D => op_ora addr_abx (paged 4)
  | 0x19 => op_ora addr_aby (paged 4)
  | 0x01 => op_ora addr_izx (fixed 6)
  | 0x11 => op_ora addr_izy (paged 5)
  (* AND *)
  | 0x29 => op_and addr_imm (fixed 2)
  | 0x25 => op_and addr_zp0 (fixed 3)
  | 0x35 => op_and addr_zpx (fixed 4)
  | 0x2D => op_and addr_abs (fixed 4)
  | 0x3D => op_and addr_abx (paged 4)
  | 0x39 => op_and addr_aby (paged 4)
  | 0x21 => op_and addr_izx (fixed 6)
  | 0x31 => op_and addr_izy (paged 5)
  (* EOR *)
  | 0x49 => op_eor addr_imm (fixed 2)
  | 0x45 => op_eor addr_zp0 (fixed 3)
  | 0x55 => op_eor addr_zpx (fixed 4)
  | 0x4D => op_eor addr_abs (fixed 4)
  | 0x5D => op_eor addr_abx (paged 4)
  | 0x59 => op_eor addr_aby (paged 4)
  | 0x41 => op_eor addr_izx (fixed 6)
  | 0x51 => op_eor addr_izy (paged 5)
  (* ADC *)
  | 0x69 => op_adc addr_imm (fixed 2)
  | 0x65 => op_adc addr_zp0 (fixed 3)
  | 0x75 => op_adc addr_zpx (fixed 4)
  | 0x6D => op_adc addr_abs (fixed 4)
  | 0x7D => op_adc addr_abx (paged 4)
  | 0x79 => op_adc addr_aby (paged 4)
  | 0x61 => op_adc addr_izx (fixed 6)
  | 0x71 => op_adc addr_izy (paged 5)
  (* SBC *)
  | 0xE9 => op_sbc addr_imm (fixed 2)
  | 0xE5 => op_sbc addr_zp0 (fixed 3)
  | 0xF5 => op_sbc addr_zpx (fixed 4)
  | 0xED => op_sbc addr_abs (fixed 4)
  | 0xFD => op_sbc addr_abx (paged 4)
  | 0xF9 => op_sbc addr_aby (paged 4)
  | 0xE1 => op_sbc addr_izx (fixed 6)
  | 0xF1 => op_sbc addr_izy (paged 5)
  (* CMP *)
  | 0xC9 => op_cmp Cpu.A addr_imm (fixed 2)
  | 0xC5 => op_cmp Cpu.A addr_zp0 (fixed 3)
  | 0xD5 => op_cmp Cpu.A addr_zpx (fixed 4)
  | 0xCD => op_cmp Cpu.A addr_abs (fixed 4)
  | 0xDD => op_cmp Cpu.A addr_abx (paged 4)
  | 0xD9 => op_cmp Cpu.A addr_aby (paged 4)
  | 0xC1 => op_cmp Cpu.A addr_izx (fixed 6)
  | 0xD1 => op_cmp Cpu.A addr_izy (paged 5)
  (* CPX *)
  | 0xE0 => op_cmp Cpu.X addr_imm (fixed 2)
  | 0xE4 => op_cmp Cpu.X addr_zp0 (fixed 3)
  | 0xEC => op_cmp Cpu.X addr_abs (fixed 4)
  (* CPY *)
  | 0xC0 => op_cmp Cpu.Y addr_imm (fixed 2)
  | 0xC4 => op_cmp Cpu.Y addr_zp0 (fixed 3)
  | 0xCC => op_cmp Cpu.Y addr_abs (fixed 4)
  (* INC *)
  | 0xE6 => op_inc addr_zp0 (fixed 5)
  | 0xF6 => op_inc addr_zpx (fixed 6)
  | 0xEE => op_inc addr_abs (fixed 6)
  | 0xFE => op_inc addr_abx (fixed 7)
  (* INX, INY *)
  | 0xE8 => op_reg (fun c => incr (Cpu.X c)) Cpu.set_X
  | 0xC8 => op_reg (fun c => incr (Cpu.Y c)) Cpu.set_Y
  (* DEC *)
  | 0xC6 => op_dec addr_zp0 (fixed 5)
  | 0xD6 => op_dec addr_zpx (fixed 6)
  | 0xCE => op_dec addr_abs (fixed 6)
  | 0xDE => op_dec addr_abx (fixed 7)
  (* DEX, DEY *)
  | 0xCA => op_reg (fun c => decr (Cpu.X c)) Cpu.set_X
  | 0x88 => op_reg (fun c => decr (Cpu.Y c)) Cpu.set_Y
  (* ASL *)
  | 0x0A => op_asl_a
  | 0x06 => op_asl addr_zp0 (fixed 5)
  | 0x16 => op_asl addr_zpx (fixed 6)
  | 0x0E => op_asl addr_abs (fixed 6)
  | 0x1E => op_asl addr_abx (fixed 7)
  (* LSR *)
  | 0x4A => op_lsr_a
  | 0x46 => op_lsr addr_zp0 (fixed 5)
  | 0x56 => op_lsr addr_zpx (fixed 6)
  | 0x4E => op_lsr addr_abs (fixed 6)
  | 0x5E => op_lsr addr_abx (fixed 7)
  (* ROL *)
  | 0x2A => op_rol_a
  | 0x26 => op_rol addr_zp0 (fixed 5)
  | 0x36 => op_rol addr_zpx (fixed 6)
  | 0x2E => op_rol addr_abs (fixed 6)
  | 0x3E => op_rol addr_abx (fixed 7)
  (* ROR *)
  | 0x6A => op_ror_a
  | 0x66 => op_ror addr_zp0 (fixed 5)
  | 0x76 => op_ror addr_zpx (fixed 6)
  | 0x6E => op_ror addr_abs (fixed 6)
  | 0x7E => op_ror addr_abx (fixed 7)
  (* BIT *)
  | 0x24 => op_bit addr_zp0 (fixed 3)
  | 0x2C => op_bit addr_abs (fixed 4)
  (* JMP *)
  | 0x4C => op_jmp addr_abs (fixed 3)
  | 0x6C => op_jmp addr_ind (fixed 5)
  (* JSR, RTS, RTI *)
  | 0x20 => op_jsr
  | 0x60 => op_rts
  | 0x40 => op_rti
  (* LDA *)
  | 0xA9 => op_ld Cpu.set_A addr_imm (fixed 2)
  | 0xA5 => op_ld Cpu.set_A addr_zp0 (fixed 3)
  | 0xB5 => op_ld Cpu.set_A addr_zpx (fixed 4)
  | 0xAD => op_ld Cpu.set_A addr_abs (fixed 4)
  | 0xBD => op_ld Cpu.set_A addr_abx (paged 4)
  | 0xB9 => op_ld Cpu.set_A addr_aby (paged 4)
  | 0xA1 => op_ld Cpu.set_A addr_izx (fixed 6)
  | 0xB1 => op_ld Cpu.set_A addr_izy (paged 5)
  (* LDX *)
  | 0xA2 => op_ld Cpu.set_X addr_imm (fixed 2)
  | 0xA6 => op_ld Cpu.set_X addr_zp0 (fixed 3)
  | 0xB6 => op_ld Cpu.set_X addr_zpy (fixed 4)
  | 0xAE => op_ld Cpu.set_X addr_abs (fixed 4)
  | 0xBE => op_ld Cpu.set_X addr_aby (paged 4)
  (* LDY *)
  | 0xA0 => op_ld Cpu.set_Y addr_imm (fixed 2)
  | 0xA4 => op_ld Cpu.set_Y addr_zp0 (fixed 3)
  | 0xB4 => op_ld Cpu.set_Y addr_zpx (fixed 4)
  | 0xAC => op_ld Cpu.set_Y addr_abs (fixed 4)
  | 0xBC => op_ld Cpu.set_Y addr_abx (paged 4)
  (* STA *)
  | 0x85 => op_st Cpu.A addr_zp0 (fixed 3)
  | 0x95 => op_st Cpu.A addr_zpx (fixed 4)
  | 0x8D => op_st Cpu.A addr_abs (fixed 4)
  | 0x9D => op_st Cpu.A addr_abx (fixed 5)
  | 0x99 => op_st Cpu.A addr_aby (fixed 5)
  | 0x81 => op_st Cpu.A addr_izx (fixed 6)
  | 0x91 => op_st Cpu.A addr_izy (fixed 6)
  (* STX *)
  | 0x86 => op_st Cpu.X addr_zp0 (fixed 3)
  | 0x96 => op_st Cpu.X addr_zpy (fixed 4)
  | 0x8E => op_st Cpu.X addr_abs (fixed 4)
  (* STY *)
  | 0x84 => op_st Cpu.Y addr_zp0 (fixed 3)
  | 0x94 => op_st Cpu.Y addr_zpx (fixed 4)
  | 0x8C => op_st Cpu.Y addr_abs (fixed 4)
  (* TAX, TAY, TSX, TXA, TXS, TYA *)
  | 0xAA => op_reg Cpu.A Cpu.set_X
  | 0xA8 => op_reg Cpu.A Cpu.set_Y
  | 0xBA => op_reg Cpu.S Cpu.set_X
  | 0x8A => op_reg Cpu.X Cpu.set_A
  | 0x9A => mod_cpu (fun c => Cpu.set_S (Cpu.X c) c) ;; ret 2
  | 0x98 => op_reg Cpu.Y Cpu.set_A
  (* PLA, PLP, PHA, PHP *)
  | 0x68 => op_pla
  | 0x28 => op_plp
  | 0x48 => op_pha
  | 0x08 => op_php
  (* CLC, CLD, CLI, CLV, SEC, SED, SEI *)
  | 0x18 => op_clear FLAG_C
  | 0xD8 => op_clear FLAG_D
  | 0x58 => op_clear FLAG_I
  | 0xB8 => op_clear FLAG_V
  | 0x38 => op_set FLAG_C
  | 0xF8 => op_set FLAG_D
  | 0x78 => op_set FLAG_I
  (* NOP *)
  | 0xEA => ret 2
  (* BCC, BCS, BEQ, BMI, BNE, BPL, BVC, BVS *)
  | 0x90 => op_branch (flag_clear FLAG_C)
  | 0xB0 => op_branch (flag_set FLAG_C)
  | 0xF0 => op_branch (flag_set FLAG_Z)
  | 0x30 => op_branch (flag_set FLAG_N)
  | 0xD0 => op_branch (flag_clear FLAG_Z)
  | 0x10 => op_branch (flag_clear FLAG_N)
  | 0x50 => op_branch (flag_clear FLAG_V)
  | 0x70 => op_branch (flag_set FLAG_V)
  (* unknown/undocumented opcodes as NOP *)
  | _ => ret 2
  end.

(** Execute instruction. *)
Definition cpu_step : M Z :=
  c <- get_cpu ;;
  if Cpu.nmi_line c then
    mod_cpu (Cpu.set_nmi_line false) ;; cpu_nmi ;; ret 7
  else if Cpu.irq_line c && negb (nz (Z.land (Cpu.P c) FLAG_I)) then
    mod_cpu (Cpu.set_irq_line false) ;; cpu_irq ;; ret 7
  else
    op <- fetch_pc ;;
    cycles <- exec op ;;
    mod_cpu (fun c => Cpu.set_cycles ((Cpu.cycles c + cycles) mod 2 ^ 64) c) ;;
    ret cycles.

(** *** apu.c: the DMC half of apu_tick_cpu_cycles *)

(** What the sample fetch does with the byte [b] it has read. *)
Definition dmc_store (b : Z) (a : APU) : APU :=
  let a := set_dmc_buffer b a in
  let a := set_dmc_buffer_full true a in
  let a := set_dmc_cur_addr (u16 (dmc_cur_addr a + 1)) a in
  let a :=
    if dmc_cur_addr a =? 0x0000 then set_dmc_cur_addr 0x8000 a else a in
  let a := set_dmc_remaining (u16 (dmc_remaining a - 1)) a in
  if (dmc_remaining a =? 0) && dmc_irq_enable a
  then set_dmc_irq_flag true a else a.

(** The sample fetch: [a->dmc_buffer = bus_cpu_read(a->bus, a->dmc_cur_addr)]
    and the bookkeeping after it.  The read goes through the console, so a
    fetch from $4015 would clear the APU's own IRQ flags before the buffer
    is stored. *)
Definition dmc_fetch (s : NES) : NES :=
  match apu s with
  | None => s
  | Some a =>
      let '(b, s) := bus_cpu_read s (dmc_cur_addr a) in
      on_apu (dmc_store b) s
  end.

(** Reload of the shift register when it is empty. *)
Definition dmc_reload (a : APU) : APU :=
  if dmc_buffer_full a then
    let a := set_dmc_shift_reg (dmc_buffer a) a in
    let a := set_dmc_bits_remaining 8 a in
    set_dmc_buffer_full false a
  else
    let a := set_dmc_shift_reg 0xFF a in
    set_dmc_bits_remaining 8 a.

(** Output bit adjusts 7-bit output towards max/min by 2. *)
Definition dmc_output_bit (a : APU) : APU :=
  let a :=
    if nz (Z.land (dmc_shift_reg a) 1) then
      if dmc_output a <=? 125 then set_dmc_output (u8 (dmc_output a + 2)) a
      else a
    else
      if dmc_output a >=? 2 then set_dmc_output (u8 (dmc_output a - 2)) a
      else a in
  let a := set_dmc_shift_reg (u8 (Z.shiftr (dmc_shift_reg a) 1)) a in
  if nz (dmc_bits_remaining a)
  then set_dmc_bits_remaining (u8 (dmc_bits_remaining a - 1)) a
  else a.

(** One pass of the [while (a->dmc_phase >= 1.0)] body. *)
Definition dmc_clock (s : NES) : NES :=
  match apu s with
  | None => s
  | Some a =>
      let s :=
        if dmc_bits_remaining a =? 0 then
          let s :=
            if negb (dmc_buffer_full a) && bus_linked a
               && (dmc_remaining a >? 0)
            then dmc_fetch s else s in
          on_apu dmc_reload s
        else s in
      on_apu dmc_output_bit s
  end.

Fixpoint dmc_clocks (n : nat) (s : NES) : NES :=
  match n with
  | O => s
  | S k => dmc_clocks k (dmc_clock s)
  end.

Definition apu_tick_cpu_cycles (s : NES) (cpu_cycles : Z) : NES :=
  match apu s with
  | None => s
  | Some a =>
      let a := apu_frame_sequencer a cpu_cycles in
      if dmc_enabled a then
        let '(due, f) := fp_dmc_advance cpu_cycles (fp a) in
        dmc_clocks due (with_apu (Some (set_fp f a)) s)
      else with_apu (Some a) s
  end.

(** *** nes.c *)

(** [audio] is true when audio was requested and the device opened. *)
Definition nes_init (audio : bool) : NES :=
  let c := controller_reset (mkController 0 0 false) in
  mkNES (Cpu.cpu_power_on Cpu.cpu_zeroed) (Ppu.ppu_power_on Ppu.ppu_zeroed)
    zeros cart_empty c c
    (if audio then Some (apu_connect_bus apu_init) else None).

(** [nes_load_rom] once [cartridge_load] has returned 0 with [c]. *)
Definition nes_load_rom (s : NES) (c : Cartridge) : NES :=
  with_ppu (Ppu.ppu_connect_cartridge (ppu s) (cmirror c)) (with_cart c s).

Definition nes_reset : M unit :=
  cpu_reset ;;
  c <- get_cpu ;;
  if Cpu.PC c =? 0x0000 then mod_cpu (Cpu.set_PC 0x8000) else ret tt.

(** The interrupt rewiring after the PPU tick. *)
Definition take_nmi (s : NES) : NES :=
  if Ppu.nmi_pending (ppu s) then
    let s := on_ppu (Ppu.set_nmi_pending false) s in
    on_cpu (Cpu.set_nmi_line true) s
  else s.

(** The APU tick and IRQ rewiring, done only [if (nes->apu)]. *)
Definition tick_apu (used : Z) (s : NES) : NES :=
  match apu s with
  | Some _ =>
      let s := apu_tick_cpu_cycles s used in
      if apu_frame_irq_pending (apu s) || apu_dmc_irq_pending (apu s)
      then on_cpu (Cpu.set_irq_line true) s
      else s
  | None => s
  end.

(** What follows [cpu_step] in one pass of the [nes_run_cycles] loop. *)
Definition after_step (used : Z) (s : NES) : NES :=
  let s := on_ppu (fun p => Ppu.ppu_tick_cpu_cycles (cart s) p used) s in
  let s := take_nmi s in
  tick_apu used s.

(** One pass of the loop body; the result is [used]. *)
Definition nes_iteration (s : NES) : Z * NES :=
  let '(used, s) := cpu_step s in
  let used := if used <=? 0 then 1 else used in
  (used, after_step used s).

(** [while (remaining > 0)]: the result carries the list of the [used]
    values, oldest first; [None] if the fuel runs out first. *)
Fixpoint nes_run_loop (fuel : nat) (remaining : Z) (s : NES)
  : option (list Z * NES) :=
  if remaining >? 0 then
    match fuel with
    | O => None
    | S k =>
        let '(used, s) := nes_iteration s in
        match nes_run_loop k (remaining - used) s with
        | Some (us, s') => Some (used :: us, s')
        | None => None
        end
    end
  else Some ([], s).

(** [cycles] passes always suffice, since every pass uses at least one. *)
Definition nes_run_cycles (s : NES) (cycles : Z) : NES :=
  match nes_run_loop (Z.to_nat cycles) cycles s with
  | Some (_, s') => s'
  | None => s
  end.

(** Odd-frame skips that fire in the PPU tick of one pass, and in a whole
    run: ghost counters that follow [nes_iteration] and [nes_run_loop]. *)
Definition iteration_skips (s : NES) : nat :=
  let '(used, s) := cpu_step s in
  let used := if used <=? 0 then 1 else used in
  Ppu.count_steps Ppu.odd_skip (Z.to_nat (used * 3)) (cart s) (ppu s).

Fixpoint run_skips (fuel : nat) (remaining : Z) (s : NES) : nat :=
  if remaining >? 0 then
    match fuel with
    | O => O
    | S k =>
        let '(used, s') := nes_iteration s in
        (iteration_skips s + run_skips k (remaining - used) s')%nat
    end
  else O.

(** The entry points a host can call on the console, and sequences of
    them. *)
Inductive machine_op : Type :=
  | OpStep
  | OpReset
  | OpNmi
  | OpIrq
  | OpRun (cycles : Z).

Definition apply_op (s : NES) (op : machine_op) : NES :=
  match op with
  | OpStep => snd (cpu_step s)
  | OpReset => snd (nes_reset s)
  | OpNmi => snd (cpu_nmi s)
  | OpIrq => snd (cpu_irq s)
  | OpRun cycles => nes_run_cycles s cycles
  end.

Definition run_ops (ops : list machine_op) (s : NES) : NES :=
  fold_left apply_op ops s.

Definition nes_step_instruction (s : NES) : Z * NES :=
  let '(used, s) := cpu_step s in
  let used := if used <=? 0 then 1 else used in
  let s := on_ppu (fun p => Ppu.ppu_tick_cpu_cycles (cart s) p used) s in
  (used, take_nmi s).

End WithFloats.

Arguments NES {fm}.
Arguments M {fm} A.

End Nes.

(** * Vocabulary of the properties *)

Module Props.

Import Controller Cart Apu Nes.
Import Cpu (CPU).
Import Ppu (PPU).

(** ** Controller *)



(** ** CPU status flags *)

Definition flag (mask : Z) (c : CPU) : bool := nz (Z.land (Cpu.P c) mask).

(** The B flag is clear in the stored status register. *)
Definition b_clear (c : CPU) : Prop := Z.land (Cpu.P c) FLAG_B = 0.

(** ** PPU beam position *)

Definition pos_ok (p : PPU) : Prop :=
  0 <= Ppu.scanline p < 262 /\ 0 <= Ppu.dot p < 341.

(** The dot counter: dots since the start of the frame. *)
Definition idx (p : PPU) : Z := Ppu.scanline p * 341 + Ppu.dot p.

Definition same_beam (p q : PPU) : Prop :=
  Ppu.scanline q = Ppu.scanline p /\ Ppu.dot q = Ppu.dot p.

Definition rendering_off (p : PPU) : Prop :=
  nz (Z.land (Ppu.ppumask p) 0x18) = false.

(** Distance, in dots, from [p] to scanline 241 dot 1. *)
Definition to_vblank (p : PPU) : Z := (241 * 341 + 1 - idx p) mod 89342.

(** ** PPUDATA *)

(** The increment selected by ctrl.bit2. *)
Definition vram_inc (p : PPU) : Z :=
  if nz (Z.land (Ppu.ppuctrl p) 0x04) then 32 else 1.

Definition in_palette_range (a : Z) : bool := (a >=? 0x3F00) && (a <? 0x4000).

(** ** The register-file updates cpu.c performs *)

Inductive cpu_upd : CPU -> CPU -> Prop :=
  | upd_refl c : cpu_upd c c
  | upd_trans c1 c2 c3 : cpu_upd c1 c2 -> cpu_upd c2 c3 -> cpu_upd c1 c3
  | upd_A c x : cpu_upd c (Cpu.set_A x c)
  | upd_X c x : cpu_upd c (Cpu.set_X x c)
  | upd_Y c x : cpu_upd c (Cpu.set_Y x c)
  | upd_S c x : cpu_upd c (Cpu.set_S x c)
  | upd_PC c x : cpu_upd c (Cpu.set_PC x c)
  | upd_nmi c b : cpu_upd c (Cpu.set_nmi_line b c)
  | upd_irq c b : cpu_upd c (Cpu.set_irq_line b c)
  | upd_cycles c x : cpu_upd c (Cpu.set_cycles x c)
  | upd_flag c mask on :
      In mask [FLAG_C; FLAG_Z; FLAG_V; FLAG_N] ->
      cpu_upd c (Cpu.set_P (set_bit_u8 (Cpu.P c) mask on) c)
  | upd_or c mask :
      In mask [FLAG_C; FLAG_D; FLAG_I] ->
      cpu_upd c (Cpu.set_P (Z.lor (Cpu.P c) mask) c)
  | upd_clear c mask :
      In mask [FLAG_C; FLAG_D; FLAG_I; FLAG_V] ->
      cpu_upd c (Cpu.set_P (Z.land (Cpu.P c) (not8 mask)) c)
  | upd_pulled c x :
      cpu_upd c (Cpu.set_P (u8 (Z.land (Z.lor x FLAG_U) (Z.lnot FLAG_B))) c).

(** Cycle counts and page-cross penalties. *)
Definition penalty_ok (a : Addr) : Prop := 0 <= extra_cycles a <= 1.
Definition cycles_ok (n : Z) : Prop := 2 <= n <= 7.
Definition cyc_ok (cyc : Addr -> Z) : Prop :=
  forall a, penalty_ok a -> cycles_ok (cyc a).
Definition any {A : Type} : A -> Prop := fun _ => True.

(** The frame sequencer's accumulator once [apu_frame_sequencer] has
    run on the value [m]: left alone below the first boundary; reduced by
    whole periods of 14916 cycles; reset to 0 when a boundary was
    reached. *)
Definition sequenced (m : Z) : Z :=
  if m <? 3729 then m
  else let r := m mod 14916 in if r <? 3729 then r else 0.

(** Sum of the cycle counts of a run. *)
Definition total (us : list Z) : Z := fold_right Z.add 0 us.

Section WithFloats.
Context {fm : FloatModel}.

(** The APU's bus pointer is the same in both states (and the APU is
    present in both or in neither). *)
Definition same_wiring (a a' : option APU) : Prop :=
  match a, a' with
  | Some x, Some x' => bus_linked x' = bus_linked x
  | None, None => True
  | _, _ => False
  end.

(** The same, and the frame sequencer's accumulator is the same too. *)
Definition same_core (a a' : option APU) : Prop :=
  match a, a' with
  | Some x, Some x' =>
      bus_linked x' = bus_linked x /\ cpu_cycle_mod x' = cpu_cycle_mod x
  | None, None => True
  | _, _ => False
  end.

(** The fields the sequencer's channel clocks leave alone. *)
Definition untouched (a a' : APU) : Prop :=
  bus_linked a' = bus_linked a /\ cpu_cycle_mod a' = cpu_cycle_mod a
  /\ irq_inhibit a' = irq_inhibit a /\ frame_mode a' = frame_mode a.

(** What a bus access, an instruction or a tick may do to the register
    file and to the APU wiring. *)
Record bus_frame (s s' : NES) : Prop := mk_bus_frame {
  bf_cpu : cpu_upd (cpu s) (cpu s');
  bf_apu : same_wiring (apu s) (apu s')
}.

(** An instruction moves neither the beam nor the APU wiring. *)
Definition cpu_frame (s s' : NES) : Prop :=
  bus_frame s s' /\ same_beam (ppu s) (ppu s').

(** A DMC clock changes nothing of the register file, the accumulator,
    the wiring or the beam. *)
Definition quiet (s s' : NES) : Prop :=
  cpu s' = cpu s /\ same_core (apu s) (apu s')
  /\ same_beam (ppu s) (ppu s').

(** [triple I m Q]: from a state in [I], [m] returns a result in [Q] and
    a state in [I]. *)
Definition triple {A : Type} (I : NES -> Prop) (m : M A) (Q : A -> Prop)
  : Prop :=
  forall s, I s -> Q (fst (m s)) /\ I (snd (m s)).

(** The DMC can never fetch: the APU, if present, has no bus. *)
Definition unwired (s : NES) : Prop :=
  match apu s with
  | Some a => bus_linked a = false
  | None => True
  end.

End WithFloats.

End Props.

(** * Concrete machines *)

Module Examples.

Import Controller Cart Apu Nes Props.

(** A floating-point model for machines without sound: no DMC clock ever
    falls due. *)
#[export] Instance silent : FloatModel := {|
  FP := unit;
  fp_init := tt;
  apu_recalc_phase := fun _ _ f => f;
  apu_recalc_triangle := fun _ _ f => f;
  apu_recalc_noise := fun _ _ f => f;
  fp_volume := fun _ _ f => f;
  fp_phase_restart := fun _ f => f;
  fp_dmc_rate := fun _ f => f;
  fp_dmc_advance := fun _ f => (O, f)
|}.


(** The PPU as powered on, moved to scanline 261 dot 1. *)
Definition at_prerender : Ppu.PPU :=
  Ppu.set_dot 1 (Ppu.set_scanline 261 (Ppu.ppu_power_on Ppu.ppu_zeroed)).

(** Register writes to the PPU, threading the cartridge. *)
Definition ppu_wr (a d : Z) (s : Ppu.PPU * Cartridge) : Ppu.PPU * Cartridge :=
  Ppu.ppu_write_reg (snd s) (fst s) a d.

(** Power on and store 0x55 at VRAM 0x2108 ($2006 = 0x21, 0x08, then
    $2007 = 0x55). *)
Definition stored : Ppu.PPU :=
  fst (ppu_wr 0x2007 0x55 (ppu_wr 0x2006 0x08 (ppu_wr 0x2006 0x21
         (Ppu.ppu_power_on Ppu.ppu_zeroed, cart_empty)))).

(** The same, followed by a $2006 pair that points v back at 0x2108. *)
Definition session : Ppu.PPU * Cartridge :=
  ppu_wr 0x2006 0x08 (ppu_wr 0x2006 0x21 (stored, cart_empty)).

(** A CPU with the carry set, as after SEC. *)
Definition carry_set : Cpu.CPU :=
  Cpu.set_P (Z.lor (Cpu.P (Cpu.cpu_power_on Cpu.cpu_zeroed)) FLAG_C)
    (Cpu.cpu_power_on Cpu.cpu_zeroed).

(** The APU after [apu_init] and a write of 0 to $4003, which loads the
    pulse length counter with 10. *)
Definition pulse_loaded : APU := apu_write apu_init 0x4003 0x00.


(** A console with sound after [nes_init], its DMC set up through the
    registers: IRQ enabled at rate 15, sample at $C000 of 17 bytes,
    channel enabled. *)
Definition dmc_armed : NES :=
  let s := nes_init true in
  let s := bus_cpu_write s 0x4010 0x8F in
  let s := bus_cpu_write s 0x4012 0x00 in
  let s := bus_cpu_write s 0x4013 0x01 in
  bus_cpu_write s 0x4015 0x10.

(** A 16 KB NROM image: at $8000, LDA #$08; STA $2001; then JMP to
    itself at $8005; the reset vector points at $8000. *)
Definition spin_prg : mem := fun i =>
  match i with
  | 0 => 0xA9 | 1 => 0x08
  | 2 => 0x8D | 3 => 0x01 | 4 => 0x20
  | 5 => 0x4C | 6 => 0x05 | 7 => 0x80
  | 0x3FFC => 0x00 | 0x3FFD => 0x80
  | _ => 0
  end.

Definition spin : Cartridge :=
  mkCartridge (Some spin_prg) (16 * 1024) (Some zeros) 8192 true
    (Some zeros) 8192 0 MIRROR_HORIZONTAL.

(** The console without sound, powered on with [spin], reset, and run
    for the six cycles of LDA and STA: background rendering is now
    enabled and the CPU is in the JMP loop. *)
Definition booted : NES :=
  run_ops [OpReset; OpRun 6] (nes_load_rom (nes_init false) spin).

(** The same console with sound: the APU is present and has been ticked
    with the six cycles of LDA and STA. *)
Definition booted_loud : NES :=
  run_ops [OpReset; OpRun 6] (nes_load_rom (nes_init true) spin).

(** The APU of [dmc_armed]. *)
Definition armed : APU :=
  apu_write (apu_write (apu_write (apu_write (apu_connect_bus apu_init)
    0x4010 0x8F) 0x4012 0x00) 0x4013 0x01) 0x4015 0x10.

End Examples.

(** * More of the sources *)

(** ** cartridge.c: the iNES loader *)

Module Loader.

Import Cart.

(** The 16-byte header, as [fread] fills the packed struct. *)
Record INesHeader : Type := mkINesHeader {
  magic0 : Z; magic1 : Z; magic2 : Z; magic3 : Z;  (* 'N','E','S',0x1A *)
  prg_rom_16k_units : Z;
  chr_rom_8k_units : Z;
  flags6 : Z;
  flags7 : Z
}.

(** The first eight bytes of the file; the other eight header bytes
    (PRG RAM units, flags 9 and 10, five reserved) are never read. *)
Definition header_of (bytes : list Z) : INesHeader :=
  mkINesHeader (nth 0 bytes 0) (nth 1 bytes 0) (nth 2 bytes 0) (nth 3 bytes 0)
    (nth 4 bytes 0) (nth 5 bytes 0) (nth 6 bytes 0) (nth 7 bytes 0).

Definition header_is_nes (h : INesHeader) : bool :=
  (magic0 h =? 0x4E) && (magic1 h =? 0x45) && (magic2 h =? 0x53)
  && (magic3 h =? 0x1A).

(** A buffer filled from a list of bytes. *)
Definition mem_of (l : list Z) : mem := fun i => nth (Z.to_nat i) l 0.

(** What [cartridge_load] returns: 0 with the cartridge filled in, or a
    negative code. *)
Inductive load_result : Type :=
  | Loaded (c : Cartridge)
  | Failed (code : Z).

(** [cartridge_load] on the contents of the file at [path] ([None] when
    [fopen] fails), a regular file of bytes; [malloc], [calloc] and
    [fseek] succeed, so the codes -5, -8, -9 and -11 do not occur.  The
    fields [battery] and [trainer_present] of the struct, which nothing
    reads after the load, are not kept. *)
Definition cartridge_load (file : option (list Z)) : load_result :=
  match file with
  | None => Failed (-1)
  | Some bytes =>
      if (length bytes <? 16)%nat then Failed (-2)
      else
        let h := header_of bytes in
        let rest := skipn 16 bytes in
        if negb (header_is_nes h) then Failed (-3)
        else
          let mapper_lower := Z.land (Z.shiftr (flags6 h) 4) 0x0F in
          let mapper_upper := Z.land (flags7 h) 0xF0 in
          let mapper := u8 (Z.lor mapper_lower mapper_upper) in
          let trainer_present := nz (Z.land (flags6 h) 0x04) in
          let mirror :=
            if nz (Z.land (flags6 h) 0x08) then MIRROR_FOUR
            else if nz (Z.land (flags6 h) 0x01) then MIRROR_VERTICAL
            else MIRROR_HORIZONTAL in
          if negb (mapper =? 0) then Failed (-4)
          else
            let rest := if trainer_present then skipn 512 rest else rest in
            let prg_rom_size := prg_rom_16k_units h * 16 * 1024 in
            let chr_size := chr_rom_8k_units h * 8 * 1024 in
            if prg_rom_size =? 0 then Failed (-6)
            else if (length rest <? Z.to_nat prg_rom_size)%nat then Failed (-7)
            else
              let prg := firstn (Z.to_nat prg_rom_size) rest in
              let rest := skipn (Z.to_nat prg_rom_size) rest in
              if chr_size =? 0 then
                Loaded (mkCartridge (Some (mem_of prg)) prg_rom_size
                          (Some zeros) (8 * 1024) true
                          (Some zeros) (8 * 1024) mapper mirror)
              else if (length rest <? Z.to_nat chr_size)%nat then Failed (-10)
              else
                Loaded (mkCartridge (Some (mem_of prg)) prg_rom_size
                          (Some (mem_of (firstn (Z.to_nat chr_size) rest)))
                          chr_size false
                          (Some zeros) (8 * 1024) mapper mirror)
  end.

(** The bytes of a file are bytes. *)
Definition bytes_ok (l : list Z) : Prop := Forall (fun b => 0 <= b < 256) l.

End Loader.

(** ** Vocabulary of the further properties *)

Module Props2.

Import Controller Cart Ppu.

(** [f] holds of [lo], [lo + 1], ..., [lo + n - 1]. *)
Fixpoint all_from (n : nat) (lo : Z) (f : Z -> bool) : bool :=
  match n with
  | O => true
  | S k => f lo && all_from k (lo + 1) f
  end.

(** [f] holds of 0, ..., [n - 1]. *)
Definition all_below (n : Z) (f : Z -> bool) : bool :=
  all_from (Z.to_nat n) 0 f.

(** The palette cell of a PPU address in $3F00-$3FFF: the address modulo
    32, the four entries $10, $14, $18, $1C falling on $00, $04, $08,
    $0C. *)
Definition pal_slot (a : Z) : Z :=
  let k := a mod 32 in if k mod 4 =? 0 then k mod 16 else k.

(** The nametable cell of a PPU address in $2000-$3EFF. *)
Definition nt_slot (m : MirrorMode) (a : Z) : Z :=
  let a' := (a - 0x2000) mod 0x1000 in
  match m with
  | MIRROR_HORIZONTAL => a' / 0x800 * 0x800 + a' mod 0x400
  | MIRROR_VERTICAL | MIRROR_FOUR => a' mod 0x800
  end.

(** The value [inc_coarse_x] leaves in v, as a function of v. *)
Definition coarse_x_next (x : Z) : Z :=
  if Z.land x 0x001F =? 31 then
    Z.lxor (Z.land x (u16 (Z.lnot 0x001F))) 0x0400
  else u16 (x + 1).

(** The value [inc_y] leaves in v, as a function of v. *)
Definition y_next (x : Z) : Z :=
  if negb (Z.land x 0x7000 =? 0x7000) then u16 (x + 0x1000)
  else
    let x := Z.land x (u16 (Z.lnot 0x7000)) in
    let y := u16 (Z.shiftr (Z.land x 0x03E0) 5) in
    let '(y, x) :=
      if y =? 29 then (0, Z.lxor x 0x0800)
      else if y =? 31 then (0, x)
      else (u16 (y + 1), x) in
    u16 (Z.lor (Z.land x (Z.lnot 0x03E0)) (Z.shiftl y 5)).

(** Sprite [n] of the table [o] covers scanline [line]: the row of the
    sprite on that line, counted from OAM Y + 1, is in 0 ..< [height]. *)
Definition sprite_on_line (o : mem) (line height n : Z) : bool :=
  let row := line - (o (n * 4 + 0) + 1) in
  negb ((row <? 0) || (row >=? height)).

(** How many of the [cnt] sprites from [n] on cover the line. *)
Fixpoint sprites_on_line (cnt : nat) (n : Z) (o : mem) (line height : Z)
  : Z :=
  match cnt with
  | O => 0
  | S k =>
      (if sprite_on_line o line height n then 1 else 0)
      + sprites_on_line k (n + 1) o line height
  end.

(** The cartridge of a load that succeeded. *)
Definition loaded (r : Loader.load_result) : Cartridge :=
  match r with
  | Loader.Loaded c => c
  | Loader.Failed _ => cart_empty
  end.

(** The cartridge [c'] holds the ROM of [c]: the same PRG ROM and
    geometry, and the same CHR when it is ROM. *)
Definition same_rom (c c' : Cartridge) : Prop :=
  prg_rom c' = prg_rom c /\ prg_rom_size c' = prg_rom_size c
  /\ chr_size c' = chr_size c /\ chr_is_ram c' = chr_is_ram c
  /\ mapper c' = mapper c /\ cmirror c' = cmirror c
  /\ (chr_is_ram c = false -> chr c' = chr c).

(** The 151 case labels of the opcode switch of [cpu_step], in source
    order. *)
Definition official_opcodes : list Z :=
  [0x00; 0x09; 0x05; 0x15; 0x0D; 0x1D; 0x19; 0x01; 0x11; 0x29; 0x25; 0x35;
   0x2D; 0x3D; 0x39; 0x21; 0x31; 0x49; 0x45; 0x55; 0x4D; 0x5D; 0x59; 0x41;
   0x51; 0x69; 0x65; 0x75; 0x6D; 0x7D; 0x79; 0x61; 0x71; 0xE9; 0xE5; 0xF5;
   0xED; 0xFD; 0xF9; 0xE1; 0xF1; 0xC9; 0xC5; 0xD5; 0xCD; 0xDD; 0xD9; 0xC1;
   0xD1; 0xE0; 0xE4; 0xEC; 0xC0; 0xC4; 0xCC; 0xE6; 0xF6; 0xEE; 0xFE; 0xE8;
   0xC8; 0xC6; 0xD6; 0xCE; 0xDE; 0xCA; 0x88; 0x0A; 0x06; 0x16; 0x0E; 0x1E;
   0x4A; 0x46; 0x56; 0x4E; 0x5E; 0x2A; 0x26; 0x36; 0x2E; 0x3E; 0x6A; 0x66;
   0x76; 0x6E; 0x7E; 0x24; 0x2C; 0x4C; 0x6C; 0x20; 0x60; 0x40; 0xA9; 0xA5;
   0xB5; 0xAD; 0xBD; 0xB9; 0xA1; 0xB1; 0xA2; 0xA6; 0xB6; 0xAE; 0xBE; 0xA0;
   0xA4; 0xB4; 0xAC; 0xBC; 0x85; 0x95; 0x8D; 0x9D; 0x99; 0x81; 0x91; 0x86;
   0x96; 0x8E; 0x84; 0x94; 0x8C; 0xAA; 0xA8; 0xBA; 0x8A; 0x9A; 0x98; 0x68;
   0x28; 0x48; 0x08; 0x18; 0xD8; 0x58; 0xB8; 0x38; 0xF8; 0x78; 0xEA; 0x90;
   0xB0; 0xF0; 0x30; 0xD0; 0x10; 0x50; 0x70].

Definition official (op : Z) : bool := existsb (Z.eqb op) official_opcodes.

Section WithFloats.
Context {fm : Apu.FloatModel}.

(** [s'] is [s] after the CPU has entered an interrupt through the
    vector at [vec]: PC high, PC low and P with B clear and U set are on
    the stack, S is three lower, I is set, PC comes from the cartridge,
    and seven cycles are counted.  RAM outside the three stack cells,
    A, X, Y, the cartridge and the PPU are as before. *)
Definition enters (vec : Z) (s s' : Nes.NES) : Prop :=
  let c := Nes.cpu s in
  let c' := Nes.cpu s' in
  let top := 0x100 + Cpu.S c in
  let mid := 0x100 + (Cpu.S c - 1) mod 256 in
  let low := 0x100 + (Cpu.S c - 2) mod 256 in
  Cpu.S c' = (Cpu.S c - 3) mod 256
  /\ Nes.ram s' top = hi8 (Cpu.PC c)
  /\ Nes.ram s' mid = lo8 (Cpu.PC c)
  /\ Nes.ram s' low = Z.lor (Z.land (Cpu.P c) (not8 FLAG_B)) FLAG_U
  /\ (forall a, a <> top -> a <> mid -> a <> low ->
        Nes.ram s' a = Nes.ram s a)
  /\ Cpu.P c' = Z.lor (Cpu.P c) FLAG_I
  /\ Cpu.PC c'
     = make16 (cart_cpu_read (Nes.cart s) vec)
         (cart_cpu_read (Nes.cart s) (vec + 1))
  /\ Cpu.cycles c' = (Cpu.cycles c + 7) mod 2 ^ 64
  /\ Cpu.A c' = Cpu.A c /\ Cpu.X c' = Cpu.X c /\ Cpu.Y c' = Cpu.Y c
  /\ Nes.cart s' = Nes.cart s /\ Nes.ppu s' = Nes.ppu s.

(** The frame IRQ flag and the three length counters. *)
Definition counters (a : Apu.APU) : bool * Z * Z * Z :=
  (Apu.frame_irq a, Apu.p1_length a, Apu.tri_length a, Apu.noise_length a).

(** The frame sequencer at rest between two ticks of the run loop: no
    frame IRQ is flagged and the accumulator is below the first
    boundary. *)
Definition idle_sequencer (s : Nes.NES) : Prop :=
  match Nes.apu s with
  | Some a => Apu.frame_irq a = false /\ 0 <= Apu.cpu_cycle_mod a < 3729
  | None => True
  end.

(** The console holds the ROM of [c0]. *)
Definition holds_rom (c0 : Cartridge) (s : Nes.NES) : Prop :=
  same_rom c0 (Nes.cart s).

End WithFloats.

End Props2.

(** ** Further concrete inputs *)

Module Examples2.

(** The smallest iNES file the loader accepts: the header of a 16 KB
    NROM image with no CHR ROM and no trainer, and 16 KB of NOP. *)
Definition tiny_rom : list Z :=
  [0x4E; 0x45; 0x53; 0x1A; 1; 0; 0; 0; 0; 0; 0; 0; 0; 0; 0; 0]
  ++ repeat 0xEA (Z.to_nat 16384).

(** A cartridge with 8 KB of zeroed CHR RAM and nothing else, and the
    PPU connected to it. *)
Definition chr_ram_cart : Cart.Cartridge :=
  Cart.set_chr_is_ram true
    (Cart.set_chr_size 8192 (Cart.set_chr (Some (fun _ => 0)) Cart.cart_empty)).

Definition linked : Ppu.PPU :=
  Ppu.ppu_connect_cartridge Examples.at_prerender (Cart.cmirror chr_ram_cart).

End Examples2.

(** * Proofs *)

(** ** Bit-level facts *)

Module Bits.

Lemma nz_land_pow2 (x k : Z) :
  0 <= k -> nz (Z.land x (2 ^ k)) = Z.testbit x k.
Proof.
  intros Hk. unfold nz.
  destruct (Z.testbit x k) eqn:E.
  - destruct (Z.eqb_spec (Z.land x (2 ^ k)) 0) as [H0|]; [|reflexivity].
    apply (f_equal (fun y => Z.testbit y k)) in H0.
    rewrite Z.land_spec, E, Z.pow2_bits_true, Z.bits_0 in H0 by assumption.
    discriminate.
  - replace (Z.land x (2 ^ k)) with 0; [reflexivity|].
    symmetry. apply Z.bits_inj'. intros n Hn.
    rewrite Z.land_spec, Z.bits_0, Z.pow2_bits_eqb by assumption.
    destruct (Z.eqb_spec k n) as [->|]; [now rewrite E|apply andb_false_r].
Qed.

Lemma land_pow2_zero (x k : Z) :
  0 <= k -> Z.testbit x k = false -> Z.land x (2 ^ k) = 0.
Proof.
  intros Hk H. rewrite <- (nz_land_pow2 x k Hk) in H. unfold nz in H.
  apply negb_false_iff in H. now apply Z.eqb_eq.
Qed.

Lemma sign_bit (x : Z) : nz (Z.land x 0x80) = Z.testbit x 7.
Proof. apply (nz_land_pow2 x 7). lia. Qed.



Lemma testbit_not8 (k j : Z) :
  0 <= k -> 0 <= j ->
  Z.testbit (not8 (2 ^ k)) j = (j <? 8) && negb (k =? j).
Proof.
  intros Hk Hj. unfold not8, u8. change 256 with (2 ^ 8).
  destruct (Z.ltb_spec j 8).
  - rewrite Z.mod_pow2_bits_low by assumption.
    now rewrite Z.lnot_spec, Z.pow2_bits_eqb by assumption.
  - now rewrite Z.mod_pow2_bits_high by lia.
Qed.

Lemma testbit_set_bit (x k j : Z) (on : bool) :
  0 <= k -> 0 <= j ->
  Z.testbit (set_bit_u8 x (2 ^ k) on) j =
  if on then Z.testbit x j || (k =? j)
  else Z.testbit x j && ((j <? 8) && negb (k =? j)).
Proof.
  intros Hk Hj. unfold set_bit_u8. destruct on.
  - now rewrite Z.lor_spec, Z.pow2_bits_eqb by assumption.
  - now rewrite Z.land_spec, testbit_not8 by assumption.
Qed.

Lemma compl8_sign (b : Z) :
  Z.testbit (u8 (Z.lnot b)) 7 = negb (Z.testbit b 7).
Proof.
  unfold u8. change 256 with (2 ^ 8).
  rewrite Z.mod_pow2_bits_low by lia. apply Z.lnot_spec. lia.
Qed.

End Bits.

(** ** controller.c *)

Module ControllerFacts.

Import Controller Props Bits.







End ControllerFacts.

(** ** cpu.c: ADC and SBC *)

Module AluFacts.

Import Cpu Props Bits.

Lemma flag_C_testbit c : flag FLAG_C c = Z.testbit (P c) 0.
Proof. apply (nz_land_pow2 (P c) 0). lia. Qed.

Lemma flag_V_testbit c : flag FLAG_V c = Z.testbit (P c) 6.
Proof. apply (nz_land_pow2 (P c) 6). lia. Qed.

(** Carry and overflow survive the Z/N update that ends adc and sbc. *)
Lemma set_zn_keeps (c : CPU) (x j : Z) :
  0 <= j < 8 -> j <> 1 -> j <> 7 ->
  Z.testbit (P (set_zn c x)) j = Z.testbit (P c) j.
Proof.
  intros Hj H1 H7. unfold set_zn. cbn [P set_P].
  change FLAG_N with (2 ^ 7). change FLAG_Z with (2 ^ 1).
  rewrite !testbit_set_bit by lia.
  destruct (Z.eqb_spec 7 j); [lia|]. destruct (Z.eqb_spec 1 j); [lia|].
  destruct (Z.ltb_spec j 8); [|lia].
  destruct (nz (Z.land x 128)), (x =? 0); cbn;
    now rewrite ?orb_false_r, ?andb_true_r.
Qed.

Lemma adc_result (c : CPU) (a b : Z) :
  let cin := if flag FLAG_C c then 1 else 0 in
  let sum := u16 (a + b + cin) in
  fst (adc c a b) = u8 sum
  /\ flag FLAG_C (snd (adc c a b)) = (sum >? 0xFF)
  /\ flag FLAG_V (snd (adc c a b)) =
     negb (xorb (Z.testbit a 7) (Z.testbit b 7))
     && xorb (Z.testbit a 7) (Z.testbit (u8 sum) 7).
Proof.
  intros cin sum. unfold adc. fold (flag FLAG_C c). fold cin. fold sum.
  cbn [fst snd]. split; [reflexivity|].
  rewrite flag_C_testbit, flag_V_testbit, !set_zn_keeps by lia.
  cbn [P set_P]. change FLAG_V with (2 ^ 6). change FLAG_C with (2 ^ 0).
  rewrite !testbit_set_bit by lia.
  rewrite sign_bit, !Z.land_spec, Z.lnot_spec, !Z.lxor_spec by lia.
  split.
  - destruct (sum >? 255), (negb _ && _); cbn;
      now rewrite ?orb_false_r, ?orb_true_r, ?andb_true_r, ?andb_false_r.
  - destruct (negb _ && _); cbn; [apply orb_true_r|apply andb_false_r].
Qed.

Lemma sbc_result (c : CPU) (a b : Z) :
  let cin := if flag FLAG_C c then 1 else 0 in
  let diff := u16 (a + u16 (Z.lnot b) + cin) in
  fst (sbc c a b) = u8 diff
  /\ flag FLAG_C (snd (sbc c a b)) = Z.testbit diff 8
  /\ flag FLAG_V (snd (sbc c a b)) =
     xorb (Z.testbit a 7) (Z.testbit b 7)
     && xorb (Z.testbit a 7) (Z.testbit (u8 diff) 7).
Proof.
  intros cin diff. unfold sbc. fold (flag FLAG_C c). fold cin. fold diff.
  cbn [fst snd]. split; [reflexivity|].
  rewrite flag_C_testbit, flag_V_testbit, !set_zn_keeps by lia.
  cbn [P set_P]. change FLAG_V with (2 ^ 6). change FLAG_C with (2 ^ 0).
  rewrite !testbit_set_bit by lia.
  rewrite sign_bit, !Z.land_spec, !Z.lxor_spec.
  change 0x100 with (2 ^ 8). rewrite nz_land_pow2 by lia.
  split.
  - destruct (Z.testbit diff 8), (xorb _ _ && _); cbn;
      now rewrite ?orb_false_r, ?orb_true_r, ?andb_true_r, ?andb_false_r.
  - destruct (xorb _ _ && _); cbn; [apply orb_true_r|apply andb_false_r].
Qed.

(** The overflow formula of the specification, on sign bits. *)
Lemma spec_overflow (a b r : Z) :
  nz (Z.land (Z.land (Z.lxor a r) (Z.lxor b r)) 0x80) =
  xorb (Z.testbit a 7) (Z.testbit r 7) && xorb (Z.testbit b 7) (Z.testbit r 7).
Proof. now rewrite sign_bit, Z.land_spec, !Z.lxor_spec. Qed.

(** Bit 8 of the 16-bit sum sbc forms: [(uint16_t)(~b)] is 0xFFFF - b, not
    the 8-bit complement, so bit 8 is set exactly when the 8-bit sum
    a + ~b + C does NOT carry. *)
Lemma sbc_diff_bit8 (a b cin : Z) :
  0 <= a < 256 -> 0 <= b < 256 -> 0 <= cin <= 1 ->
  Z.testbit (u16 (a + u16 (Z.lnot b) + cin)) 8 =
  negb (a + u8 (Z.lnot b) + cin >? 0xFF).
Proof.
  intros Ha Hb Hc. unfold u16, u8.
  replace (Z.lnot b) with (- b - 1) by (unfold Z.lnot; lia).
  replace ((- b - 1) mod 65536) with (65535 - b)
    by (apply Z.mod_unique with (q := -1); lia).
  replace ((- b - 1) mod 256) with (255 - b)
    by (apply Z.mod_unique with (q := -1); lia).
  destruct (Z.gtb_spec (a + (255 - b) + cin) 0xFF) as [Hgt|Hle]; cbn [negb].
  - replace ((a + (65535 - b) + cin) mod 65536) with (a - b - 1 + cin)
      by (apply Z.mod_unique with (q := 1); lia).
    apply Z.testbit_false; [lia|]. rewrite Z.div_small by lia. reflexivity.
  - rewrite Z.mod_small by lia.
    apply Z.testbit_true; [lia|].
    replace ((a + (65535 - b) + cin) / 2 ^ 8) with 255; [reflexivity|].
    apply Z.div_unique with (r := a + (65535 - b) + cin - 255 * 256); lia.
Qed.

(** C6.  For 8-bit operands [a], [b] and the incoming carry, what adc and
    sbc leave in the carry and overflow flags, [r] being the 8-bit result.
    ADC: carry iff a + b + C > 0xFF, overflow iff ((a^r) & (b^r) & 0x80)
    != 0.  SBC, with b' the 8-bit complement of b: the result and the
    overflow flag are those of a + b' + C, but the carry flag is the
    NEGATION of (a + b' + C > 0xFF). *)
Theorem adc_sbc_flags (c : CPU) (a b : Z) :
  0 <= a < 256 -> 0 <= b < 256 ->
  let cin := if flag FLAG_C c then 1 else 0 in
  let r := fst (adc c a b) in
  let r' := fst (sbc c a b) in
  let b' := u8 (Z.lnot b) in
  r = (a + b + cin) mod 256
  /\ flag FLAG_C (snd (adc c a b)) = (a + b + cin >? 0xFF)
  /\ flag FLAG_V (snd (adc c a b)) =
     nz (Z.land (Z.land (Z.lxor a r) (Z.lxor b r)) 0x80)
  /\ r' = (a + b' + cin) mod 256
  /\ flag FLAG_V (snd (sbc c a b)) =
     nz (Z.land (Z.land (Z.lxor a r') (Z.lxor b' r')) 0x80)
  /\ flag FLAG_C (snd (sbc c a b)) = negb (a + b' + cin >? 0xFF).
Proof.
  intros Ha Hb cin r r' b'.
  assert (Hc : 0 <= cin <= 1) by (subst cin; destruct (flag FLAG_C c); lia).
  destruct (adc_result c a b) as (Hr & HC & HV).
  destruct (sbc_result c a b) as (Hr' & HC' & HV').
  fold cin in Hr, HC, HV, Hr', HC', HV'. fold r in Hr. fold r' in Hr'.
  assert (Hsum : u16 (a + b + cin) = a + b + cin)
    by (unfold u16; apply Z.mod_small; lia).
  rewrite Hsum in *.
  repeat split.
  - exact Hr.
  - exact HC.
  - rewrite HV, spec_overflow, <- Hr.
    destruct (Z.testbit a 7), (Z.testbit b 7), (Z.testbit r 7); reflexivity.
  - rewrite Hr'. subst b'. unfold u8, u16.
    replace (Z.lnot b) with (- b - 1) by (unfold Z.lnot; lia).
    Z.div_mod_to_equations. lia.
  - rewrite HV', spec_overflow, <- Hr'. subst b'. rewrite compl8_sign.
    destruct (Z.testbit a 7), (Z.testbit b 7), (Z.testbit r' 7); reflexivity.
  - rewrite HC'. now apply sbc_diff_bit8.
Qed.

(** SBC of 5 - 3 with the carry set (no borrow requested): the result is
    2 and no borrow occurs, so the 6502 sets the carry; sbc clears it. *)
Lemma adc_sbc_flags_witness :
  fst (sbc Examples.carry_set 5 3) = 2
  /\ (5 + u8 (Z.lnot 3) + 1 >? 0xFF) = true
  /\ flag FLAG_C (snd (sbc Examples.carry_set 5 3)) = false.
Proof.
  destruct (adc_sbc_flags Examples.carry_set 5 3) as (_ & _ & _ & Hr & _ & Hc);
    [lia | lia |].
  split; [exact Hr|]. split; [reflexivity|exact Hc].
Defined.

End AluFacts.

(** ** ppu.c: the dot stepper *)

Module PpuFacts.

Import Cart Ppu Props Bits.

Lemma render_dot_off (c : Cartridge) (sl d : Z) (p : PPU) :
  rendering_off p -> render_dot c sl d p = p.
Proof. intros H. unfold render_dot. rewrite H. reflexivity. Qed.



Lemma step_dot_skip (p : PPU) :
  step_dot p = if odd_skip p then 1 else dot p.
Proof.
  unfold step_dot, odd_skip.
  destruct (scanline p =? 261), (dot p =? 0); reflexivity.
Qed.

Lemma step_dot_eq (p : PPU) :
  (scanline p = 261 -> dot p <> 0) -> step_dot p = dot p.
Proof.
  intros H. unfold step_dot.
  destruct (Z.eqb_spec (scanline p) 261), (Z.eqb_spec (dot p) 0);
    cbn [andb]; try reflexivity.
  now elim H.
Qed.







(** *** Beam position *)

Lemma advance_dot_pos (sl d : Z) (p : PPU) :
  scanline (advance_dot sl d p) =
    (if d + 1 >=? 341 then if sl + 1 >=? 262 then 0 else sl + 1 else sl)
  /\ dot (advance_dot sl d p) = (if d + 1 >=? 341 then 0 else d + 1).
Proof.
  unfold advance_dot, PPU_DOTS_PER_LINE, PPU_SCANLINES.
  destruct (d + 1 >=? 341); [destruct (sl + 1 >=? 262)|]; split; reflexivity.
Qed.

(** One step moves the dot counter by one, or by two when the odd-frame
    skip fires. *)
Lemma ppu_step_pos (c : Cartridge) (p : PPU) :
  pos_ok p ->
  pos_ok (ppu_step c p)
  /\ idx (ppu_step c p)
     = (idx p + 1 + (if odd_skip p then 1 else 0)) mod 89342.
Proof.
  intros [Hs Hd]. unfold pos_ok, idx, ppu_step.
  destruct (advance_dot_pos (scanline p) (step_dot p)
              (render_dot c (scanline p) (step_dot p)
                 (vblank_edges (scanline p) (step_dot p) p))) as [-> ->].
  rewrite step_dot_skip.
  destruct (odd_skip p) eqn:Hk.
  - unfold odd_skip in Hk. apply andb_prop in Hk as [Hk _].
    apply andb_prop in Hk as [Hk _]. apply andb_prop in Hk as [H1 H2].
    apply Z.eqb_eq in H1, H2. rewrite H1, H2. cbn. split; [lia|reflexivity].
  - destruct (Z.geb_spec (dot p + 1) 341), (Z.geb_spec (scanline p + 1) 262);
      (split; [lia|]).
    + replace (scanline p) with 261 by lia. replace (dot p) with 340 by lia.
      reflexivity.
    + rewrite Z.mod_small; lia.
    + rewrite Z.mod_small; lia.
    + rewrite Z.mod_small; lia.
Qed.

Lemma ppu_steps_pos (c : Cartridge) (n : nat) :
  forall p, pos_ok p ->
  pos_ok (ppu_steps n c p)
  /\ idx (ppu_steps n c p)
     = (idx p + Z.of_nat n + Z.of_nat (count_steps odd_skip n c p)) mod 89342.
Proof.
  induction n as [|n IH]; intros p Hp; cbn [ppu_steps count_steps].
  - split; [assumption|]. rewrite !Z.add_0_r.
    destruct Hp. unfold idx. rewrite Z.mod_small; lia.
  - destruct (ppu_step_pos c p Hp) as [Hp' Hi].
    destruct (IH (ppu_step c p) Hp') as [Hq Hj]. split; [assumption|].
    rewrite Hj, Hi, <- Z.add_assoc, Z.add_mod_idemp_l by lia.
    f_equal. destruct (odd_skip p); lia.
Qed.

(** *** Rendering disabled *)

Lemma vblank_edges_frame (sl d : Z) (p : PPU) :
  let q := vblank_edges sl d p in
  ppumask q = ppumask p /\ ppuctrl q = ppuctrl p
  /\ framebuffer q = framebuffer p
  /\ nmi_pending q =
     ((sl =? 241) && (d =? 1) && nz (Z.land (ppuctrl p) 0x80)
      || nmi_pending p).
Proof.
  unfold vblank_edges.
  destruct ((sl =? 241) && (d =? 1)); cbn [andb];
    [cbn [ppuctrl set_ppustatus]; destruct (nz (Z.land (ppuctrl p) 128))|];
    destruct ((sl =? 261) && (d =? 1)); repeat split; reflexivity.
Qed.

Lemma odd_skip_off (p : PPU) : rendering_off p -> odd_skip p = false.
Proof. intros H. unfold odd_skip. rewrite H. now rewrite andb_false_r. Qed.

Lemma ppu_step_off (c : Cartridge) (p : PPU) :
  rendering_off p ->
  ppu_step c p =
  advance_dot (scanline p) (dot p) (vblank_edges (scanline p) (dot p) p).
Proof.
  intros H. unfold ppu_step.
  rewrite step_dot_skip, (odd_skip_off p H).
  rewrite render_dot_off; [reflexivity|].
  unfold rendering_off in *.
  now destruct (vblank_edges_frame (scanline p) (dot p) p) as (-> & _).
Qed.

Lemma advance_dot_frame (sl d : Z) (p : PPU) :
  let q := advance_dot sl d p in
  ppumask q = ppumask p /\ ppuctrl q = ppuctrl p
  /\ framebuffer q = framebuffer p /\ nmi_pending q = nmi_pending p
  /\ ppustatus q = ppustatus p.
Proof.
  unfold advance_dot.
  destruct (d + 1 >=? _); [destruct (sl + 1 >=? _)|]; repeat split; reflexivity.
Qed.

Lemma ppu_step_off_frame (c : Cartridge) (p : PPU) :
  rendering_off p ->
  let q := ppu_step c p in
  rendering_off q /\ ppuctrl q = ppuctrl p /\ framebuffer q = framebuffer p
  /\ nmi_pending q
     = (sets_vblank p && Z.testbit (ppuctrl p) 7 || nmi_pending p).
Proof.
  intros H q. subst q. rewrite (ppu_step_off c p H).
  destruct (advance_dot_frame (scanline p) (dot p)
              (vblank_edges (scanline p) (dot p) p)) as (A1 & A2 & A3 & A4 & _).
  destruct (vblank_edges_frame (scanline p) (dot p) p) as (V1 & V2 & V3 & V4).
  unfold rendering_off. rewrite A1, A2, A3, A4, V1, V2, V3, V4.
  repeat split; try assumption.
  unfold sets_vblank. rewrite step_dot_skip, (odd_skip_off p H), sign_bit.
  reflexivity.
Qed.

Lemma FRAME_DOTS_eq : Z.of_nat FRAME_DOTS = 89342.
Proof. unfold FRAME_DOTS. now rewrite Z2Nat.id. Qed.

Lemma to_vblank_range (p : PPU) : 0 <= to_vblank p < 89342.
Proof. apply Z.mod_pos_bound. lia. Qed.

Lemma sets_vblank_dist (p : PPU) :
  pos_ok p -> odd_skip p = false -> sets_vblank p = (to_vblank p =? 0).
Proof.
  intros [Hs Hd] Hk. unfold sets_vblank, to_vblank, idx.
  rewrite step_dot_skip, Hk.
  destruct (Z.eqb_spec (scanline p) 241) as [E1|E1];
    destruct (Z.eqb_spec (dot p) 1) as [E2|E2]; cbn [andb]; symmetry.
  - rewrite E1, E2. reflexivity.
  - apply Z.eqb_neq. intros H0.
    apply Z.mod_divide in H0; [|lia]. destruct H0 as [k Hk']. lia.
  - apply Z.eqb_neq. intros H0.
    apply Z.mod_divide in H0; [|lia]. destruct H0 as [k Hk']. nia.
  - apply Z.eqb_neq. intros H0.
    apply Z.mod_divide in H0; [|lia]. destruct H0 as [k Hk']. nia.
Qed.

Lemma to_vblank_step (c : Cartridge) (p : PPU) :
  pos_ok p -> odd_skip p = false ->
  to_vblank (ppu_step c p) =
  if to_vblank p =? 0 then 89341 else to_vblank p - 1.
Proof.
  intros Hp Hk. destruct (ppu_step_pos c p Hp) as [_ Hi].
  rewrite Hk in Hi. unfold to_vblank. rewrite Hi.
  destruct Hp as [Hs Hd]. unfold idx in *.
  destruct (Z.eqb_spec
              ((241 * 341 + 1 - (scanline p * 341 + dot p)) mod 89342) 0)
    as [E|E]; Z.div_mod_to_equations; lia.
Qed.

(** Within a frame's worth of dots, scanline 241 dot 1 comes up once if
    it is less than [n] dots away, and not at all otherwise. *)
Lemma count_vblank_off (c : Cartridge) (n : nat) :
  forall p, pos_ok p -> rendering_off p -> Z.of_nat n <= 89342 ->
  count_steps sets_vblank n c p =
  if to_vblank p <? Z.of_nat n then 1%nat else 0%nat.
Proof.
  induction n as [|n IH]; intros p Hp Hoff Hn.
  - cbn [count_steps]. pose proof (to_vblank_range p).
    destruct (Z.ltb_spec (to_vblank p) (Z.of_nat 0)); [lia|reflexivity].
  - cbn [count_steps].
    destruct (ppu_step_off_frame c p Hoff) as (Hoff' & _).
    pose proof (odd_skip_off p Hoff) as Hk.
    destruct (ppu_step_pos c p Hp) as [Hp' _].
    rewrite (IH (ppu_step c p) Hp' Hoff') by lia.
    rewrite (to_vblank_step c p Hp Hk), (sets_vblank_dist p Hp Hk).
    pose proof (to_vblank_range p).
    destruct (Z.eqb_spec (to_vblank p) 0) as [E|E].
    + destruct (Z.ltb_spec 89341 (Z.of_nat n)); [lia|].
      destruct (Z.ltb_spec (to_vblank p) (Z.of_nat (S n))); [reflexivity|lia].
    + destruct (Z.ltb_spec (to_vblank p - 1) (Z.of_nat n));
        destruct (Z.ltb_spec (to_vblank p) (Z.of_nat (S n)));
        try reflexivity; lia.
Qed.

Lemma ppu_steps_off (c : Cartridge) (n : nat) :
  forall p, pos_ok p -> rendering_off p ->
  let q := ppu_steps n c p in
  pos_ok q /\ rendering_off q /\ ppuctrl q = ppuctrl p
  /\ framebuffer q = framebuffer p
  /\ (Z.testbit (ppuctrl p) 7 = false -> nmi_pending q = nmi_pending p).
Proof.
  induction n as [|n IH]; intros p Hp Hoff; cbn [ppu_steps].
  - repeat split; auto; apply Hp.
  - destruct (ppu_step_off_frame c p Hoff) as (Hoff' & Hc & Hf & Hn).
    destruct (ppu_step_pos c p Hp) as [Hp' _].
    destruct (IH (ppu_step c p) Hp' Hoff') as (H1 & H2 & H3 & H4 & H5).
    repeat split; try apply H1; auto; try congruence.
    intros H7. rewrite H5 by congruence. rewrite Hn, H7.
    now rewrite andb_false_r.
Qed.

(** With rendering off, a tick turns the VBlank bit on only through the
    statement guarded by [sets_vblank]. *)
Lemma vblank_bit_off (c : Cartridge) (p : PPU) :
  rendering_off p ->
  Z.testbit (ppustatus (ppu_step c p)) 7 =
  if sets_vblank p then true
  else Z.testbit (ppustatus p) 7
       && negb ((scanline p =? 261) && (dot p =? 1)).
Proof.
  intros H. rewrite (ppu_step_off c p H).
  destruct (advance_dot_frame (scanline p) (dot p)
              (vblank_edges (scanline p) (dot p) p)) as (_ & _ & _ & _ & ->).
  unfold sets_vblank. rewrite step_dot_skip, (odd_skip_off p H).
  unfold vblank_edges.
  destruct (Z.eqb_spec (scanline p) 241) as [E1|E1]; cbn [andb].
  - rewrite E1. change (241 =? 261) with false. cbn [andb negb].
    destruct (dot p =? 1).
    + cbn [ppuctrl set_ppustatus].
      destruct (nz (Z.land (ppuctrl p) 128));
        cbn [ppustatus set_nmi_pending set_ppustatus];
        rewrite Z.lor_spec; apply orb_true_r.
    + now rewrite andb_true_r.
  - destruct ((scanline p =? 261) && (dot p =? 1)); cbn [negb].
    + cbn [ppustatus set_ppustatus]. rewrite !Z.land_spec.
      change 0x80 with (2 ^ 7). rewrite testbit_not8 by lia.
      cbn. now rewrite !andb_false_r.
    + now rewrite andb_true_r.
Qed.

(** A tick counted by [count_steps] is one of the ticks. *)
Lemma count_steps_exists (f : PPU -> bool) (c : Cartridge) (n : nat) :
  forall p, (0 < count_steps f n c p)%nat ->
  exists k, (k < n)%nat /\ f (ppu_steps k c p) = true.
Proof.
  induction n as [|n IH]; intros p H; cbn [count_steps] in H; [lia|].
  destruct (f p) eqn:E.
  - exists O. split; [lia|exact E].
  - destruct (IH (ppu_step c p) H) as (k & Hk & Hf).
    exists (S k). split; [lia|exact Hf].
Qed.

(** C9.  With PPUMASK = 0, over one frame of 341 x 262 dots from any beam
    position: every framebuffer pixel is as before; exactly one tick runs
    the statement that sets the VBlank bit, and there is such a tick in
    the frame; that tick is the one at scanline 241 dot 1, and after it
    the VBlank bit of PPUSTATUS is set, whatever it was before; no other
    tick of the frame turns the bit on; and with ctrl.bit7 = 0 the NMI
    flag is never changed. *)
Theorem frame_with_rendering_disabled (c : Cartridge) (p : PPU) :
  ppumask p = 0 -> 0 <= scanline p < 262 -> 0 <= dot p < 341 ->
  let frame := ppu_steps FRAME_DOTS c p in
  (forall i, framebuffer frame i = framebuffer p i)
  /\ count_steps sets_vblank FRAME_DOTS c p = 1%nat
  /\ (forall k, (k < FRAME_DOTS)%nat ->
        let q := ppu_steps k c p in
        (sets_vblank q = true ->
           scanline q = 241 /\ dot q = 1
           /\ Z.testbit (ppustatus (ppu_step c q)) 7 = true)
        /\ (scanline q = 241 -> dot q = 1 ->
           sets_vblank q = true
           /\ Z.testbit (ppustatus (ppu_step c q)) 7 = true)
        /\ (sets_vblank q = false ->
            Z.testbit (ppustatus (ppu_step c q)) 7 = true ->
            Z.testbit (ppustatus q) 7 = true))
  /\ (Z.testbit (ppuctrl p) 7 = false ->
      forall k, (k <= FRAME_DOTS)%nat ->
        nmi_pending (ppu_steps k c p) = nmi_pending p)
  /\ (exists k, (k < FRAME_DOTS)%nat
        /\ scanline (ppu_steps k c p) = 241 /\ dot (ppu_steps k c p) = 1
        /\ Z.testbit (ppustatus (ppu_steps (S k) c p)) 7 = true).
Proof.
  intros Hm Hs Hd frame.
  assert (Hp : pos_ok p) by (split; assumption).
  assert (Hoff : rendering_off p) by (unfold rendering_off; now rewrite Hm).
  assert (Hcount : count_steps sets_vblank FRAME_DOTS c p = 1%nat).
  { rewrite (count_vblank_off c FRAME_DOTS p Hp Hoff)
      by (rewrite FRAME_DOTS_eq; lia).
    pose proof (to_vblank_range p). rewrite FRAME_DOTS_eq.
    destruct (Z.ltb_spec (to_vblank p) 89342); [reflexivity|lia]. }
  assert (Hat : forall k,
            let q := ppu_steps k c p in
            sets_vblank q = true ->
            scanline q = 241 /\ dot q = 1
            /\ Z.testbit (ppustatus (ppu_step c q)) 7 = true).
  { intros k q Hv.
    destruct (ppu_steps_off c k p Hp Hoff) as (Hq & Hqoff & _).
    fold q in Hq, Hqoff.
    rewrite (vblank_bit_off c q Hqoff), Hv.
    unfold sets_vblank in Hv.
    rewrite step_dot_skip, (odd_skip_off q Hqoff) in Hv.
    apply andb_prop in Hv as [H1 H2].
    apply Z.eqb_eq in H1, H2. repeat split; assumption. }
  split; [|split; [exact Hcount|split; [|split]]].
  - intros i. subst frame.
    destruct (ppu_steps_off c FRAME_DOTS p Hp Hoff) as (_ & _ & _ & -> & _).
    reflexivity.
  - intros k Hk q.
    destruct (ppu_steps_off c k p Hp Hoff) as (Hq & Hqoff & _).
    fold q in Hq, Hqoff. split; [apply Hat|]. split.
    + intros H1 H2.
      assert (Hv : sets_vblank q = true).
      { unfold sets_vblank.
        rewrite step_dot_skip, (odd_skip_off q Hqoff), H1, H2.
        reflexivity. }
      split; [exact Hv|]. apply (Hat k Hv).
    + intros Hv Hb. rewrite (vblank_bit_off c q Hqoff), Hv in Hb.
      now apply andb_prop in Hb as [Hb _].
  - intros H7 k Hk.
    destruct (ppu_steps_off c k p Hp Hoff) as (_ & _ & _ & _ & Hn).
    now apply Hn.
  - destruct (count_steps_exists sets_vblank c FRAME_DOTS p) as (k & Hk & Hv);
      [rewrite Hcount; lia|].
    destruct (Hat k Hv) as (H1 & H2 & H3).
    exists k. repeat split; try assumption.
    clear - H3. revert p H3. induction k as [|k IH]; intros p H3.
    + exact H3.
    + change (ppu_steps (S (S k)) c p) with (ppu_steps (S k) c (ppu_step c p)).
      apply IH. exact H3.
Qed.

(** One frame from power-on, where PPUMASK is 0 and the VBlank bit is
    set from the start: one tick sets the bit, and with the bit cleared
    beforehand the frame still ends with it set. *)
Lemma frame_with_rendering_disabled_witness :
  count_steps sets_vblank FRAME_DOTS cart_empty (ppu_power_on ppu_zeroed)
  = 1%nat
  /\ exists k,
       (k < FRAME_DOTS)%nat
       /\ scanline (ppu_steps k cart_empty
                      (set_ppustatus 0 (ppu_power_on ppu_zeroed))) = 241
       /\ dot (ppu_steps k cart_empty
                 (set_ppustatus 0 (ppu_power_on ppu_zeroed))) = 1
       /\ Z.testbit
            (ppustatus (ppu_steps (S k) cart_empty
                          (set_ppustatus 0 (ppu_power_on ppu_zeroed)))) 7
          = true.
Proof.
  split.
  - exact (proj1 (proj2 (frame_with_rendering_disabled cart_empty
                           (ppu_power_on ppu_zeroed) eq_refl
                           (conj (Z.le_refl 0) eq_refl)
                           (conj (Z.le_refl 0) eq_refl)))).
  - exact (proj2 (proj2 (proj2 (proj2
             (frame_with_rendering_disabled cart_empty
                (set_ppustatus 0 (ppu_power_on ppu_zeroed)) eq_refl
                (conj (Z.le_refl 0) eq_refl)
                (conj (Z.le_refl 0) eq_refl)))))).
Defined.

End PpuFacts.

(** ** ppu.c: PPUADDR and PPUDATA *)

Module PpuRegFacts.

Import Cart Ppu Props.

Lemma ppu_write_mem_frame (c : Cartridge) (p : PPU) (a data : Z) :
  let p' := fst (ppu_write_mem c p a data) in
  v p' = v p /\ ppuctrl p' = ppuctrl p /\ vram_addr p' = vram_addr p
  /\ ppudata_buffer p' = ppudata_buffer p.
Proof.
  unfold ppu_write_mem.
  destruct (Z.land a 16383 <? 8192).
  - destruct (chr c); [destruct (cart_linked p && chr_is_ram c)|];
      repeat split; reflexivity.
  - destruct (Z.land a 16383 <? 16128); [repeat split; reflexivity|].
    destruct (Z.land a 16383 <? 16384); repeat split; reflexivity.
Qed.

(** A $2007 write stores through ppu_write_mem at v and advances v. *)
Lemma ppudata_write_advances_v (c : Cartridge) (p : PPU) (data : Z) :
  let p' := fst (ppu_write_reg c p 0x2007 data) in
  v p' = u16 (v p + vram_inc p) /\ vram_addr p' = vram_addr p.
Proof.
  unfold ppu_write_reg. change (Z.land 0x2007 7) with 7. cbv iota beta.
  destruct (ppu_write_mem_frame c p (v p) data) as (Hv & Hc & Ha & _).
  destruct (ppu_write_mem c p (v p) data) as [p1 c1]. cbn [fst] in *.
  cbn [v vram_addr set_ppuaddr_lo set_ppuaddr_hi set_v].
  unfold vram_inc. rewrite Hv, Hc, Ha. split; reflexivity.
Qed.

(** A $2007 read works on [vram_addr]: it selects, refills and advances
    by it, and leaves v alone. *)
Lemma ppudata_read_uses_vram_addr (c : Cartridge) (p : PPU) :
  let r := fst (ppu_read_reg c p 0x2007) in
  let p' := snd (ppu_read_reg c p 0x2007) in
  r = (if in_palette_range (vram_addr p)
       then palette p (Z.land (vram_addr p - 0x3F00) 0x1F)
       else ppudata_buffer p)
  /\ ppudata_buffer p' =
     (if in_palette_range (vram_addr p) then ppudata_buffer p
      else ppu_read_mem c p (vram_addr p))
  /\ vram_addr p' = u16 (vram_addr p + vram_inc p)
  /\ v p' = v p.
Proof.
  unfold ppu_read_reg. change (Z.land 0x2007 7) with 7. cbv iota beta.
  unfold in_palette_range, vram_inc.
  destruct ((vram_addr p >=? 16128) && (vram_addr p <? 16384));
    cbn [fst snd]; repeat split; reflexivity.
Qed.

(** A $2006 pair loads v and leaves [vram_addr] and the read buffer. *)
Lemma ppuaddr_pair_sets_v (c : Cartridge) (p : PPU) (hi lo : Z) :
  w p = 0 ->
  let p1 := fst (ppu_write_reg c p 0x2006 hi) in
  let p2 := fst (ppu_write_reg c p1 0x2006 lo) in
  v p2 = u16 (Z.lor (Z.land (u16 (Z.lor (Z.land (t p) 0x00FF)
                                         (Z.shiftl (Z.land hi 0x3F) 8)))
                            0xFF00) lo)
  /\ vram_addr p2 = vram_addr p
  /\ ppudata_buffer p2 = ppudata_buffer p
  /\ palette p2 = palette p.
Proof.
  intros Hw. unfold ppu_write_reg. change (Z.land 0x2006 7) with 6.
  cbv iota beta. rewrite Hw. cbn. repeat split; reflexivity.
Qed.

(** C1, as the code has it.  After a $2006 high-then-low pair has loaded
    v, a $2007 read returns the read buffer, or the palette byte when
    [vram_addr] is in 0x3F00-0x3FFF, refills the buffer from the memory
    at [vram_addr], advances [vram_addr] by 1 or 32 per ctrl.bit2, and
    neither reads at v nor advances v; a $2007 write advances v. *)
Theorem ppudata_access (c : Cartridge) (p : PPU) (hi lo data : Z) :
  w p = 0 ->
  let q := fst (ppu_write_reg c (fst (ppu_write_reg c p 0x2006 hi)) 0x2006 lo) in
  let r := fst (ppu_read_reg c q 0x2007) in
  let q' := snd (ppu_read_reg c q 0x2007) in
  r = (if in_palette_range (vram_addr p)
       then palette p (Z.land (vram_addr p - 0x3F00) 0x1F)
       else ppudata_buffer p)
  /\ ppudata_buffer q' =
     (if in_palette_range (vram_addr p) then ppudata_buffer p
      else ppu_read_mem c q (vram_addr p))
  /\ vram_addr q' = u16 (vram_addr p + vram_inc q)
  /\ v q' = v q
  /\ v (fst (ppu_write_reg c q 0x2007 data)) = u16 (v q + vram_inc q).
Proof.
  intros Hw q r q'.
  destruct (ppuaddr_pair_sets_v c p hi lo Hw) as (_ & Ha & Hb & Hp).
  fold q in Ha, Hb, Hp.
  destruct (ppudata_read_uses_vram_addr c q) as (H1 & H2 & H3 & H4).
  fold r in H1. fold q' in H2, H3, H4.
  rewrite Ha, Hb, Hp in *.
  destruct (ppudata_write_advances_v c q data) as [H5 _].
  repeat split; assumption.
Qed.

(** On [Examples.stored], where 0x55 sits at VRAM 0x2108 and
    [vram_addr] is still 0: the pair $2006 = 0x21, 0x08 and a $2007
    read. *)
Lemma ppudata_access_witness :
  let p := Examples.stored in
  let c := cart_empty in
  let q :=
    fst (ppu_write_reg c (fst (ppu_write_reg c p 0x2006 0x21)) 0x2006 0x08) in
  let r := fst (ppu_read_reg c q 0x2007) in
  let q' := snd (ppu_read_reg c q 0x2007) in
  r = (if in_palette_range (vram_addr p)
       then palette p (Z.land (vram_addr p - 0x3F00) 0x1F)
       else ppudata_buffer p)
  /\ ppudata_buffer q' =
     (if in_palette_range (vram_addr p) then ppudata_buffer p
      else ppu_read_mem c q (vram_addr p))
  /\ vram_addr q' = u16 (vram_addr p + vram_inc q)
  /\ v q' = v q
  /\ v (fst (ppu_write_reg c q 0x2007 0)) = u16 (v q + vram_inc q).
Proof.
  exact (ppudata_access cart_empty Examples.stored 0x21 0x08 0
           ltac:(vm_compute; reflexivity)).
Defined.

(** The same session in numbers: v points at the stored 0x55, yet the
    first $2007 read refills the buffer from address 0, the second
    returns that byte, not 0x55, and v has not moved. *)
Lemma ppudata_read_misses_v :
  let p := fst Examples.session in
  let c := snd Examples.session in
  let p1 := snd (ppu_read_reg c p 0x2007) in
  v p = 0x2108 /\ ppu_read_mem c p (v p) = 0x55
  /\ vram_addr p = 0
  /\ fst (ppu_read_reg c p1 0x2007) = 0
  /\ v (snd (ppu_read_reg c p1 0x2007)) = 0x2108.
Proof. vm_compute. repeat split. Qed.

End PpuRegFacts.

(** ** apu.c: the status register $4015 *)

Module ApuFacts.

Import Apu Props Bits.

Section WithFloats.
Context {fm : FloatModel}.

Lemma bit_of_mask (d k : Z) : 0 <= k -> nz (Z.land d (2 ^ k)) = Z.testbit d k.
Proof. apply nz_land_pow2. Qed.

Lemma write_4015 (a : APU) (d : Z) :
  let a' := apu_write a 0x4015 d in
  enabled a' = Z.testbit d 0
  /\ tri_enabled a' = Z.testbit d 2
  /\ noise_enabled a' = Z.testbit d 3
  /\ dmc_enabled a' = Z.testbit d 4
  /\ p1_length a' = p1_length a
  /\ tri_length a' = tri_length a
  /\ noise_length a' = noise_length a
  /\ (Z.testbit d 4 = false -> dmc_remaining a' = 0).
Proof.
  unfold apu_write. cbv beta iota.
  rewrite <- (bit_of_mask d 0), <- (bit_of_mask d 2), <- (bit_of_mask d 3),
    <- (bit_of_mask d 4) by lia.
  change (2 ^ 0) with 1. change (2 ^ 2) with 4. change (2 ^ 3) with 8.
  change (2 ^ 4) with 16.
  destruct (nz (Z.land d 16)); cbn [andb negb].
  - cbn [dmc_enabled set_enabled set_tri_enabled set_noise_enabled].
    destruct (dmc_enabled a) eqn:E; cbn [negb].
    + repeat split; try reflexivity; try discriminate. cbn. exact E.
    + cbn [dmc_remaining set_dmc_enabled].
      destruct (dmc_remaining _ =? 0);
        repeat split; try reflexivity; discriminate.
  - repeat split; reflexivity.
Qed.

Lemma read_4015 (a : APU) :
  let st := fst (apu_read a 0x4015) in
  let a' := snd (apu_read a 0x4015) in
  Z.testbit st 0 = enabled a && nz (p1_length a)
  /\ Z.testbit st 2 = tri_enabled a && nz (tri_length a)
  /\ Z.testbit st 3 = noise_enabled a && nz (noise_length a)
  /\ Z.testbit st 4 = dmc_enabled a && nz (dmc_remaining a)
  /\ Z.testbit st 6 = frame_irq a
  /\ Z.testbit st 7 = dmc_irq_flag a
  /\ frame_irq a' = false
  /\ dmc_irq_flag a' = false.
Proof.
  unfold apu_read. change (0x4015 =? 0x4015) with true. cbv beta iota.
  destruct (enabled a && nz (p1_length a)),
    (tri_enabled a && nz (tri_length a)),
    (noise_enabled a && nz (noise_length a)),
    (dmc_enabled a && nz (dmc_remaining a)),
    (frame_irq a), (dmc_irq_flag a); repeat split; reflexivity.
Qed.

(** C5, as the code has it.  A write to $4015 sets the enable flag of
    pulse 1, triangle, noise and DMC from bits 0, 2, 3 and 4; it leaves
    the three length counters as they were and zeroes only the DMC's
    bytes-remaining when bit 4 is 0.  A read of $4015 reports, per
    channel, enabled-and-counter-nonzero in the same bits, the frame IRQ
    in bit 6 and the DMC IRQ in bit 7, and clears both IRQ flags. *)
Theorem status_register (a : APU) (d : Z) :
  let a' := apu_write a 0x4015 d in
  let st := fst (apu_read a 0x4015) in
  let a'' := snd (apu_read a 0x4015) in
  (enabled a' = Z.testbit d 0
   /\ tri_enabled a' = Z.testbit d 2
   /\ noise_enabled a' = Z.testbit d 3
   /\ dmc_enabled a' = Z.testbit d 4
   /\ p1_length a' = p1_length a
   /\ tri_length a' = tri_length a
   /\ noise_length a' = noise_length a
   /\ (Z.testbit d 4 = false -> dmc_remaining a' = 0))
  /\ (Z.testbit st 0 = enabled a && nz (p1_length a)
      /\ Z.testbit st 2 = tri_enabled a && nz (tri_length a)
      /\ Z.testbit st 3 = noise_enabled a && nz (noise_length a)
      /\ Z.testbit st 4 = dmc_enabled a && nz (dmc_remaining a)
      /\ Z.testbit st 6 = frame_irq a
      /\ Z.testbit st 7 = dmc_irq_flag a
      /\ frame_irq a'' = false
      /\ dmc_irq_flag a'' = false).
Proof. split; [apply write_4015|apply read_4015]. Qed.

End WithFloats.

(** C5 as stated fails: with the pulse length counter loaded (10) by a
    write to $4003, a write of 0 to $4015 disables the channel and the
    counter is still 10. *)
Lemma length_survives_disable :
  p1_length Examples.pulse_loaded = 10
  /\ enabled (apu_write Examples.pulse_loaded 0x4015 0) = false
  /\ p1_length (apu_write Examples.pulse_loaded 0x4015 0) <> 0.
Proof. repeat split. discriminate. Qed.

End ApuFacts.

(** ** bus.c: what an access leaves alone *)

Module BusFacts.

Import Controller Cart Apu Nes Props.
Import Cpu (CPU).
Import Ppu (PPU).

Ltac break_if :=
  match goal with
  | |- context [if ?b then _ else _] => destruct b
  end.
Ltac break_match :=
  match goal with
  | |- context [match ?x with _ => _ end] =>
      is_var x; destruct x; cbv beta iota
  end.

Lemma same_beam_refl (p : PPU) : same_beam p p.
Proof. split; reflexivity. Qed.

Lemma same_beam_trans (p q r : PPU) :
  same_beam p q -> same_beam q r -> same_beam p r.
Proof. intros [H1 H2] [H3 H4]. split; congruence. Qed.

Lemma ppu_read_reg_beam (c : Cartridge) (p : PPU) (reg : Z) :
  same_beam p (snd (Ppu.ppu_read_reg c p reg)).
Proof.
  unfold Ppu.ppu_read_reg. generalize (Z.land reg 7). intros r.
  repeat break_match; try (split; reflexivity).
  break_if; split; reflexivity.
Qed.

Lemma ppu_write_mem_beam (c : Cartridge) (p : PPU) (a x : Z) :
  same_beam p (fst (Ppu.ppu_write_mem c p a x)).
Proof.
  unfold Ppu.ppu_write_mem.
  destruct (chr c); repeat break_if; split; reflexivity.
Qed.

Lemma ppu_write_reg_beam (c : Cartridge) (p : PPU) (reg x : Z) :
  same_beam p (fst (Ppu.ppu_write_reg c p reg x)).
Proof.
  unfold Ppu.ppu_write_reg. generalize (Z.land reg 7). intros r.
  repeat break_match; try (split; reflexivity);
    try (break_if; split; reflexivity).
  destruct (ppu_write_mem_beam c p (Ppu.v p) x) as [H1 H2].
  destruct (Ppu.ppu_write_mem c p (Ppu.v p) x) as [p1 c1].
  cbn [fst] in *. split; assumption.
Qed.

Lemma apu_read_linked {fm : FloatModel} (a : APU) (addr : Z) :
  bus_linked (snd (apu_read a addr)) = bus_linked a.
Proof. unfold apu_read. break_if; reflexivity. Qed.

Lemma apu_read_acc {fm : FloatModel} (a : APU) (addr : Z) :
  cpu_cycle_mod (snd (apu_read a addr)) = cpu_cycle_mod a.
Proof. unfold apu_read. break_if; reflexivity. Qed.

Lemma apu_write_linked {fm : FloatModel} (a : APU) (addr x : Z) :
  bus_linked (apu_write a addr x) = bus_linked a.
Proof.
  unfold apu_write.
  repeat break_match; try reflexivity.
  all: repeat break_if; reflexivity.
Qed.

Section WithFloats.
Context {fm : FloatModel}.

Lemma same_wiring_refl (a : option APU) : same_wiring a a.
Proof. destruct a; cbn; auto. Qed.

Lemma same_wiring_trans (a b c : option APU) :
  same_wiring a b -> same_wiring b c -> same_wiring a c.
Proof. destruct a, b, c; cbn; try tauto. congruence. Qed.

Lemma same_core_refl (a : option APU) : same_core a a.
Proof. destruct a; cbn; auto. Qed.

Lemma same_core_trans (a b c : option APU) :
  same_core a b -> same_core b c -> same_core a c.
Proof.
  destruct a, b, c; cbn; try tauto. intros [H1 H2] [H3 H4].
  split; congruence.
Qed.

Lemma same_core_wiring (a b : option APU) : same_core a b -> same_wiring a b.
Proof. destruct a, b; cbn; tauto. Qed.

Lemma bus_frame_refl (s : NES) : bus_frame s s.
Proof. split; [apply upd_refl|apply same_wiring_refl]. Qed.

Lemma bus_frame_trans (s1 s2 s3 : NES) :
  bus_frame s1 s2 -> bus_frame s2 s3 -> bus_frame s1 s3.
Proof.
  intros [c1 a1] [c2 a2]. split.
  - eapply upd_trans; eassumption.
  - eapply same_wiring_trans; eassumption.
Qed.

(** States that agree on the register file and on the APU. *)
Lemma bus_frame_same (s s' : NES) :
  cpu s' = cpu s -> apu s' = apu s -> bus_frame s s'.
Proof.
  intros Hc Ha. split; [rewrite Hc; apply upd_refl|].
  rewrite Ha. apply same_wiring_refl.
Qed.

Lemma bus_frame_on_cpu (s : NES) (c : CPU) :
  cpu_upd (cpu s) c -> bus_frame s (with_cpu c s).
Proof. intros H. split; [exact H|apply same_wiring_refl]. Qed.

Lemma bus_frame_on_apu (s : NES) (f : APU -> APU) :
  (forall a, bus_linked (f a) = bus_linked a) -> bus_frame s (on_apu f s).
Proof.
  intros H. unfold on_apu. destruct (apu s) as [a|] eqn:E.
  - split; [apply upd_refl|]. cbn [apu with_apu]. rewrite E. apply H.
  - apply bus_frame_refl.
Qed.

(** A read changes neither the register file nor the accumulator. *)
Lemma bus_cpu_read_core (s : NES) (a : Z) :
  cpu (snd (bus_cpu_read s a)) = cpu s
  /\ same_core (apu s) (apu (snd (bus_cpu_read s a))).
Proof.
  unfold bus_cpu_read.
  destruct (a <=? 8191); [split; [reflexivity|apply same_core_refl]|].
  destruct (a <=? 16383).
  { destruct (Ppu.ppu_read_reg _ _ _) as [r p].
    split; [reflexivity|apply same_core_refl]. }
  destruct (a =? 16406).
  { destruct (controller_read (ctrl1 s)).
    split; [reflexivity|apply same_core_refl]. }
  destruct (a =? 16407).
  { destruct (controller_read (ctrl2 s)).
    split; [reflexivity|apply same_core_refl]. }
  destruct ((a >=? 16384) && (a <=? 16407)).
  { destruct (a =? 16405); [|split; [reflexivity|apply same_core_refl]].
    destruct (apu s) as [x|] eqn:E;
      [|split; [reflexivity|cbn [snd]; rewrite E; exact Logic.I]].
    pose proof (apu_read_linked x a) as H1.
    pose proof (apu_read_acc x a) as H2.
    destruct (apu_read x a) as [r x']. cbn [snd cpu apu with_apu] in *.
    split; [reflexivity|split; assumption]. }
  destruct (a >=? 24576); (split; [reflexivity|apply same_core_refl]).
Qed.

Lemma bus_cpu_read_frame (s : NES) (a : Z) :
  bus_frame s (snd (bus_cpu_read s a))
  /\ same_beam (ppu s) (ppu (snd (bus_cpu_read s a)))
  /\ ram (snd (bus_cpu_read s a)) = ram s.
Proof.
  unfold bus_cpu_read.
  destruct (a <=? 8191).
  { split; [apply bus_frame_refl|split; [apply same_beam_refl|reflexivity]]. }
  destruct (a <=? 16383).
  { pose proof (ppu_read_reg_beam (cart s) (ppu s) (u16 (8192 + Z.land a 7)))
      as H.
    destruct (Ppu.ppu_read_reg _ _ _) as [r p]. cbn [snd] in *.
    split; [now apply bus_frame_same|split; [exact H|reflexivity]]. }
  destruct (a =? 16406).
  { destruct (controller_read (ctrl1 s)). cbn [snd].
    split; [now apply bus_frame_same|split; [apply same_beam_refl|reflexivity]]. }
  destruct (a =? 16407).
  { destruct (controller_read (ctrl2 s)). cbn [snd].
    split; [now apply bus_frame_same|split; [apply same_beam_refl|reflexivity]]. }
  destruct ((a >=? 16384) && (a <=? 16407)).
  { destruct (a =? 16405);
      [|split; [apply bus_frame_refl|split; [apply same_beam_refl|reflexivity]]].
    destruct (apu s) as [x|] eqn:E;
      [|split; [apply bus_frame_refl|split; [apply same_beam_refl|reflexivity]]].
    pose proof (apu_read_linked x a) as H.
    destruct (apu_read x a) as [r x']. cbn [snd] in *.
    split; [|split; [apply same_beam_refl|reflexivity]].
    split; [apply upd_refl|]. cbn [apu with_apu]. now rewrite E. }
  destruct (a >=? 24576);
    (split; [apply bus_frame_refl|split; [apply same_beam_refl|reflexivity]]).
Qed.

Lemma oam_dma_frame (n : nat) :
  forall i base start s,
    bus_frame s (oam_dma n i base start s)
    /\ same_beam (ppu s) (ppu (oam_dma n i base start s)).
Proof.
  induction n as [|n IH]; intros i base start s; cbn [oam_dma].
  - split; [apply bus_frame_refl|apply same_beam_refl].
  - destruct (bus_cpu_read_frame s (u16 (base + i))) as (H & Hb & _).
    destruct (bus_cpu_read s (u16 (base + i))) as [x s1]. cbn [snd] in H, Hb.
    match goal with |- context [oam_dma n ?j base start ?t] =>
      destruct (IH j base start t) as [H2 Hb2];
      assert (H1 : bus_frame s1 t) by (now apply bus_frame_same);
      assert (Hb1 : same_beam (ppu s1) (ppu t)) by (split; reflexivity)
    end.
    split.
    + eapply bus_frame_trans; [exact H|].
      eapply bus_frame_trans; [exact H1|exact H2].
    + eapply same_beam_trans; [exact Hb|].
      eapply same_beam_trans; [exact Hb1|exact Hb2].
Qed.

Lemma bus_cpu_write_frame (s : NES) (a x : Z) :
  bus_frame s (bus_cpu_write s a x)
  /\ same_beam (ppu s) (ppu (bus_cpu_write s a x)).
Proof.
  unfold bus_cpu_write.
  destruct (a <=? 8191).
  { split; [now apply bus_frame_same|apply same_beam_refl]. }
  destruct (a <=? 16383).
  { pose proof (ppu_write_reg_beam (cart s) (ppu s)
                  (u16 (8192 + Z.land a 7)) x) as H.
    destruct (Ppu.ppu_write_reg _ _ _ _) as [p c]. cbn [fst] in *.
    split; [now apply bus_frame_same|exact H]. }
  destruct (a =? 16404); [apply oam_dma_frame|].
  destruct (a =? 16406).
  { split; [now apply bus_frame_same|apply same_beam_refl]. }
  destruct ((a >=? 16384) && (a <=? 16407)).
  { split.
    - apply bus_frame_on_apu. intros y. apply apu_write_linked.
    - unfold on_apu. destruct (apu s); apply same_beam_refl. }
  destruct (a >=? 24576).
  - split; [now apply bus_frame_same|apply same_beam_refl].
  - split; [apply bus_frame_refl|apply same_beam_refl].
Qed.

(** A write below $2000 lands in RAM. *)
Lemma ram_after_write (s : NES) (a x : Z) :
  0 <= a <= 0x1FFF ->
  ram (bus_cpu_write s a x) (Z.land a 0x07FF) = x
  /\ cpu (bus_cpu_write s a x) = cpu s.
Proof.
  intros Ha. unfold bus_cpu_write.
  destruct (Z.leb_spec a 8191); [|lia].
  cbn [ram with_ram cpu]. unfold upd. now rewrite Z.eqb_refl.
Qed.

End WithFloats.

End BusFacts.

(** ** cpu.c: a program logic for the instruction code *)

Module CpuLogic.

Import Controller Cart Apu Nes Props.
Import Cpu (CPU).

Create HintDb cpu.
#[local] Hint Constructors cpu_upd : cpu.

Lemma upd_set_zn c x : cpu_upd c (Cpu.set_zn c x).
Proof.
  unfold Cpu.set_zn. eapply upd_trans; apply upd_flag; cbn; auto.
Qed.

Lemma upd_adc c a b : cpu_upd c (snd (Cpu.adc c a b)).
Proof.
  unfold Cpu.adc. cbn [snd].
  eapply upd_trans; [|apply upd_set_zn].
  eapply upd_trans; apply upd_flag; cbn; auto.
Qed.

Lemma upd_sbc c a b : cpu_upd c (snd (Cpu.sbc c a b)).
Proof.
  unfold Cpu.sbc. cbn [snd].
  eapply upd_trans; [|apply upd_set_zn].
  eapply upd_trans; apply upd_flag; cbn; auto.
Qed.

Section Triples.
Context {fm : FloatModel}.

Variable I : NES -> Prop.
Hypothesis I_read : forall s a, I s -> I (snd (bus_cpu_read s a)).
Hypothesis I_write : forall s a x, I s -> I (bus_cpu_write s a x).
Hypothesis I_reg : forall s c, cpu_upd (cpu s) c -> I s -> I (with_cpu c s).

Lemma triple_ret {A} (a : A) (Q : A -> Prop) : Q a -> triple I (ret a) Q.
Proof. intros H s Hs. split; assumption. Qed.

Lemma triple_bind {A B} (m : M A) (k : A -> M B) (Q : A -> Prop)
    (R : B -> Prop) :
  triple I m Q -> (forall a, Q a -> triple I (k a) R) ->
  triple I (bind m k) R.
Proof.
  intros Hm Hk s Hs. unfold bind. destruct (Hm s Hs) as [Hq Hi].
  destruct (m s) as [a s1]. cbn [fst snd] in *. exact (Hk a Hq s1 Hi).
Qed.

Lemma triple_get_cpu : triple I get_cpu any.
Proof. intros s Hs. split; [exact Logic.I|assumption]. Qed.

Lemma triple_mod_cpu (f : CPU -> CPU) :
  (forall c, cpu_upd c (f c)) -> triple I (mod_cpu f) any.
Proof.
  intros Hf s Hs. split; [exact Logic.I|]. cbn. unfold on_cpu.
  apply I_reg; [apply Hf|assumption].
Qed.

Lemma triple_read a : triple I (cpu_read a) any.
Proof. intros s Hs. split; [exact Logic.I|]. now apply I_read. Qed.

Lemma triple_write a x : triple I (cpu_write a x) any.
Proof. intros s Hs. split; [exact Logic.I|]. now apply I_write. Qed.

Lemma triple_if {A} (b : bool) (m1 m2 : M A) (Q : A -> Prop) :
  triple I m1 Q -> triple I m2 Q -> triple I (if b then m1 else m2) Q.
Proof. destruct b; auto. Qed.

(** One step through a chain of binds whose intermediate results need no
    property. *)
Ltac step :=
  lazymatch goal with
  | |- triple _ (bind _ _) _ => eapply triple_bind; [ | intros ? _ ]
  | |- triple _ (ret _) _ => apply triple_ret
  | |- triple _ get_cpu _ => apply triple_get_cpu
  | |- triple _ (mod_cpu _) _ => apply triple_mod_cpu; intros
  | |- triple _ (cpu_read _) _ => apply triple_read
  | |- triple _ (cpu_write _ _) _ => apply triple_write
  | |- triple _ (if _ then _ else _) _ => apply triple_if
  | |- triple _ (let _ := _ in _) _ => cbv zeta
  end.

Lemma triple_push x : triple I (push x) any.
Proof. unfold push. repeat step; auto with cpu. Qed.

Lemma triple_pull : triple I pull any.
Proof. unfold pull. repeat step; auto with cpu. Qed.

Lemma triple_set_zn x : triple I (set_zn x) any.
Proof. unfold set_zn. step. apply upd_set_zn. Qed.

Lemma triple_set_flag mask on :
  In mask [FLAG_C; FLAG_Z; FLAG_V; FLAG_N] -> triple I (set_flag mask on) any.
Proof. intros H. unfold set_flag. step. now apply upd_flag. Qed.

Lemma triple_fetch_pc : triple I fetch_pc any.
Proof. unfold fetch_pc. repeat step; auto with cpu. Qed.

Lemma triple_fetch16 : triple I fetch16 any.
Proof.
  unfold fetch16. repeat step; try apply triple_fetch_pc. exact Logic.I.
Qed.

Lemma triple_cpu_reset : triple I cpu_reset any.
Proof.
  unfold cpu_reset. repeat step; auto with cpu.
  apply upd_or. cbn; auto.
Qed.

Lemma triple_interrupt vec : triple I (interrupt vec) any.
Proof.
  unfold interrupt. repeat step; try apply triple_push; auto with cpu.
  apply upd_or. cbn; auto.
Qed.

Lemma triple_cpu_irq : triple I cpu_irq any.
Proof.
  unfold cpu_irq. repeat step; try apply triple_interrupt. exact Logic.I.
Qed.

Lemma triple_cpu_nmi : triple I cpu_nmi any.
Proof. apply triple_interrupt. Qed.

Lemma triple_nes_reset : triple I nes_reset any.
Proof.
  unfold nes_reset. repeat step; try apply triple_cpu_reset; auto with cpu.
  exact Logic.I.
Qed.

(** Addressing helpers: the penalty is 0 or 1. *)
Ltac addr_mode :=
  repeat step;
  try apply triple_fetch_pc; try apply triple_fetch16; auto with cpu;
  try (unfold penalty_ok; cbn [extra_cycles];
       try match goal with |- context [if ?b then _ else _] => destruct b end;
       lia).

Lemma triple_addr_imm : triple I addr_imm penalty_ok.
Proof. unfold addr_imm. addr_mode. Qed.
Lemma triple_addr_zp0 : triple I addr_zp0 penalty_ok.
Proof. unfold addr_zp0. addr_mode. Qed.
Lemma triple_addr_zpx : triple I addr_zpx penalty_ok.
Proof. unfold addr_zpx. addr_mode. Qed.
Lemma triple_addr_zpy : triple I addr_zpy penalty_ok.
Proof. unfold addr_zpy. addr_mode. Qed.
Lemma triple_addr_abs : triple I addr_abs penalty_ok.
Proof. unfold addr_abs. addr_mode. Qed.
Lemma triple_addr_abx : triple I addr_abx penalty_ok.
Proof. unfold addr_abx. addr_mode. Qed.
Lemma triple_addr_aby : triple I addr_aby penalty_ok.
Proof. unfold addr_aby. addr_mode. Qed.
Lemma triple_addr_ind : triple I addr_ind penalty_ok.
Proof. unfold addr_ind. addr_mode. Qed.
Lemma triple_addr_izx : triple I addr_izx penalty_ok.
Proof. unfold addr_izx. addr_mode. Qed.
Lemma triple_addr_izy : triple I addr_izy penalty_ok.
Proof. unfold addr_izy. addr_mode. Qed.

Lemma triple_rel_addr : triple I rel_addr any.
Proof.
  unfold rel_addr. repeat step; try apply triple_fetch_pc. exact Logic.I.
Qed.

Lemma fixed_ok n : 2 <= n <= 7 -> cyc_ok (fixed n).
Proof. intros H a _. exact H. Qed.

Lemma paged_ok n : 2 <= n <= 6 -> cyc_ok (paged n).
Proof. intros H a Ha. unfold paged, cycles_ok, penalty_ok in *. lia. Qed.

Ltac op_body :=
  repeat first
    [ apply triple_push | apply triple_pull | apply triple_set_zn
    | apply triple_fetch_pc | apply triple_fetch16 | apply triple_rel_addr
    | apply triple_set_flag; cbn; solve [auto 10]
    | step ];
  try solve [ auto with cpu
            | apply upd_or; cbn; auto 10
            | apply upd_clear; cbn; auto 10
            | apply upd_flag; cbn; auto 10 ].

Section Op.
Variables (am : M Addr) (cyc : Addr -> Z).
Hypothesis Ham : triple I am penalty_ok.
Hypothesis Hcyc : cyc_ok cyc.

Ltac with_mode :=
  eapply triple_bind; [exact Ham|]; intros a Ha;
  op_body; try (apply Hcyc; exact Ha).

Lemma triple_op_ora : triple I (op_ora am cyc) cycles_ok.
Proof. unfold op_ora. with_mode. Qed.
Lemma triple_op_and : triple I (op_and am cyc) cycles_ok.
Proof. unfold op_and. with_mode. Qed.
Lemma triple_op_eor : triple I (op_eor am cyc) cycles_ok.
Proof. unfold op_eor. with_mode. Qed.
Lemma triple_op_adc : triple I (op_adc am cyc) cycles_ok.
Proof.
  unfold op_adc. with_mode.
  pose proof (upd_adc c (Cpu.A c) a0) as H.
  destruct (Cpu.adc c (Cpu.A c) a0) as [r c1]. cbn [snd] in H.
  eapply upd_trans; [exact H|apply upd_A].
Qed.
Lemma triple_op_sbc : triple I (op_sbc am cyc) cycles_ok.
Proof.
  unfold op_sbc. with_mode.
  pose proof (upd_sbc c (Cpu.A c) a0) as H.
  destruct (Cpu.sbc c (Cpu.A c) a0) as [r c1]. cbn [snd] in H.
  eapply upd_trans; [exact H|apply upd_A].
Qed.
Lemma triple_op_cmp reg : triple I (op_cmp reg am cyc) cycles_ok.
Proof. unfold op_cmp. with_mode. Qed.
Lemma triple_op_inc : triple I (op_inc am cyc) cycles_ok.
Proof. unfold op_inc. with_mode. Qed.
Lemma triple_op_dec : triple I (op_dec am cyc) cycles_ok.
Proof. unfold op_dec. with_mode. Qed.
Lemma triple_op_asl : triple I (op_asl am cyc) cycles_ok.
Proof. unfold op_asl. with_mode. Qed.
Lemma triple_op_lsr : triple I (op_lsr am cyc) cycles_ok.
Proof. unfold op_lsr. with_mode. Qed.
Lemma triple_op_rol : triple I (op_rol am cyc) cycles_ok.
Proof. unfold op_rol. with_mode. Qed.
Lemma triple_op_ror : triple I (op_ror am cyc) cycles_ok.
Proof. unfold op_ror. with_mode. Qed.
Lemma triple_op_bit : triple I (op_bit am cyc) cycles_ok.
Proof. unfold op_bit. with_mode. Qed.
Lemma triple_op_jmp : triple I (op_jmp am cyc) cycles_ok.
Proof. unfold op_jmp. with_mode. Qed.
Lemma triple_op_st reg : triple I (op_st reg am cyc) cycles_ok.
Proof. unfold op_st. with_mode. Qed.
End Op.

Lemma triple_op_ld setr am cyc :
  (forall x c, cpu_upd c (setr x c)) ->
  triple I am penalty_ok -> cyc_ok cyc ->
  triple I (op_ld setr am cyc) cycles_ok.
Proof.
  intros Hs Ham Hcyc. unfold op_ld.
  eapply triple_bind; [exact Ham|]; intros a Ha.
  op_body.
Qed.

Lemma triple_op_reg f setr :
  (forall x c, cpu_upd c (setr x c)) -> triple I (op_reg f setr) cycles_ok.
Proof. intros Hs. unfold op_reg. op_body. unfold cycles_ok. lia. Qed.

Lemma triple_op_branch cond : triple I (op_branch cond) cycles_ok.
Proof.
  unfold op_branch. op_body; unfold cycles_ok;
    try match goal with |- context [if ?b then _ else _] => destruct b end; lia.
Qed.

Ltac fixed_op := op_body; try (unfold cycles_ok; lia).

Lemma triple_op_brk : triple I op_brk cycles_ok.
Proof. unfold op_brk. fixed_op. Qed.
Lemma triple_op_asl_a : triple I op_asl_a cycles_ok.
Proof. unfold op_asl_a. fixed_op. Qed.
Lemma triple_op_lsr_a : triple I op_lsr_a cycles_ok.
Proof. unfold op_lsr_a. fixed_op. Qed.
Lemma triple_op_rol_a : triple I op_rol_a cycles_ok.
Proof. unfold op_rol_a. fixed_op. Qed.
Lemma triple_op_ror_a : triple I op_ror_a cycles_ok.
Proof. unfold op_ror_a. fixed_op. Qed.
Lemma triple_op_jsr : triple I op_jsr cycles_ok.
Proof. unfold op_jsr. fixed_op. Qed.
Lemma triple_op_rts : triple I op_rts cycles_ok.
Proof. unfold op_rts. fixed_op. Qed.
Lemma triple_op_rti : triple I op_rti cycles_ok.
Proof. unfold op_rti. fixed_op. Qed.
Lemma triple_op_pla : triple I op_pla cycles_ok.
Proof. unfold op_pla. fixed_op. Qed.
Lemma triple_op_plp : triple I op_plp cycles_ok.
Proof. unfold op_plp. fixed_op. Qed.
Lemma triple_op_pha : triple I op_pha cycles_ok.
Proof. unfold op_pha. fixed_op. Qed.
Lemma triple_op_php : triple I op_php cycles_ok.
Proof. unfold op_php. fixed_op. Qed.
Lemma triple_op_clear mask :
  In mask [FLAG_C; FLAG_D; FLAG_I; FLAG_V] ->
  triple I (op_clear mask) cycles_ok.
Proof. intros H. unfold op_clear. fixed_op. Qed.
Lemma triple_op_set mask :
  In mask [FLAG_C; FLAG_D; FLAG_I] -> triple I (op_set mask) cycles_ok.
Proof. intros H. unfold op_set. fixed_op. Qed.

Ltac mode :=
  first [ apply triple_addr_imm | apply triple_addr_zp0 | apply triple_addr_zpx
        | apply triple_addr_zpy | apply triple_addr_abs | apply triple_addr_abx
        | apply triple_addr_aby | apply triple_addr_ind | apply triple_addr_izx
        | apply triple_addr_izy ].
Ltac count := first [ apply fixed_ok; lia | apply paged_ok; lia ].

(** The lemma for the case body at hand. *)
Ltac opcode :=
  lazymatch goal with
  | |- triple _ (ret _) _ => apply triple_ret; unfold cycles_ok; lia
  | |- triple _ (op_ora _ _) _ => apply triple_op_ora; [mode|count]
  | |- triple _ (op_and _ _) _ => apply triple_op_and; [mode|count]
  | |- triple _ (op_eor _ _) _ => apply triple_op_eor; [mode|count]
  | |- triple _ (op_adc _ _) _ => apply triple_op_adc; [mode|count]
  | |- triple _ (op_sbc _ _) _ => apply triple_op_sbc; [mode|count]
  | |- triple _ (op_cmp _ _ _) _ => apply triple_op_cmp; [mode|count]
  | |- triple _ (op_inc _ _) _ => apply triple_op_inc; [mode|count]
  | |- triple _ (op_dec _ _) _ => apply triple_op_dec; [mode|count]
  | |- triple _ (op_asl _ _) _ => apply triple_op_asl; [mode|count]
  | |- triple _ (op_lsr _ _) _ => apply triple_op_lsr; [mode|count]
  | |- triple _ (op_rol _ _) _ => apply triple_op_rol; [mode|count]
  | |- triple _ (op_ror _ _) _ => apply triple_op_ror; [mode|count]
  | |- triple _ (op_bit _ _) _ => apply triple_op_bit; [mode|count]
  | |- triple _ (op_jmp _ _) _ => apply triple_op_jmp; [mode|count]
  | |- triple _ (op_st _ _ _) _ => apply triple_op_st; [mode|count]
  | |- triple _ (op_ld _ _ _) _ =>
      apply triple_op_ld; [intros; auto with cpu|mode|count]
  | |- triple _ (op_reg _ _) _ => apply triple_op_reg; intros; auto with cpu
  | |- triple _ (op_branch _) _ => apply triple_op_branch
  | |- triple _ op_brk _ => apply triple_op_brk
  | |- triple _ op_asl_a _ => apply triple_op_asl_a
  | |- triple _ op_lsr_a _ => apply triple_op_lsr_a
  | |- triple _ op_rol_a _ => apply triple_op_rol_a
  | |- triple _ op_ror_a _ => apply triple_op_ror_a
  | |- triple _ op_jsr _ => apply triple_op_jsr
  | |- triple _ op_rts _ => apply triple_op_rts
  | |- triple _ op_rti _ => apply triple_op_rti
  | |- triple _ op_pla _ => apply triple_op_pla
  | |- triple _ op_plp _ => apply triple_op_plp
  | |- triple _ op_pha _ => apply triple_op_pha
  | |- triple _ op_php _ => apply triple_op_php
  | |- triple _ (op_clear _) _ => apply triple_op_clear; cbn; auto 10
  | |- triple _ (op_set _) _ => apply triple_op_set; cbn; auto 10
  | |- _ => fixed_op
  end.

(** Every case of the opcode switch, the default included. *)
Lemma triple_exec (op : Z) : triple I (exec op) cycles_ok.
Proof.
  unfold exec.
  repeat match goal with
         | |- triple _ (match ?p with _ => _ end) _ =>
             is_var p; destruct p; cbv beta iota
         end; opcode.
Qed.

Lemma triple_cpu_step : triple I cpu_step cycles_ok.
Proof.
  unfold cpu_step.
  eapply triple_bind; [apply triple_get_cpu|]. intros c _.
  apply triple_if; [|apply triple_if].
  - eapply triple_bind; [apply triple_mod_cpu; auto with cpu|]. intros _ _.
    eapply triple_bind; [apply triple_cpu_nmi|]. intros _ _.
    apply triple_ret. unfold cycles_ok. lia.
  - eapply triple_bind; [apply triple_mod_cpu; auto with cpu|]. intros _ _.
    eapply triple_bind; [apply triple_cpu_irq|]. intros _ _.
    apply triple_ret. unfold cycles_ok. lia.
  - eapply triple_bind; [apply triple_fetch_pc|]. intros op _.
    eapply triple_bind; [apply triple_exec|]. intros cyc Hcyc.
    eapply triple_bind; [apply triple_mod_cpu; auto with cpu|]. intros _ _.
    apply triple_ret. exact Hcyc.
Qed.

End Triples.

End CpuLogic.

(** ** apu.c: the tick *)

Module TickFacts.

Import Controller Cart Apu Nes Props BusFacts.
Import Cpu (CPU).
Import Ppu (PPU).

Section WithFloats.
Context {fm : FloatModel}.

Lemma untouched_refl a : untouched a a.
Proof. repeat split. Qed.

Lemma untouched_trans a b c : untouched a b -> untouched b c -> untouched a c.
Proof.
  intros (A1 & A2 & A3 & A4) (B1 & B2 & B3 & B4). repeat split; congruence.
Qed.

Lemma quarter_frame_untouched (a : APU) : untouched a (apu_quarter_frame a).
Proof.
  assert (P1 : forall b, untouched b (clock_p1_envelope b)).
  { intros b. unfold clock_p1_envelope. cbv zeta.
    repeat break_if; repeat split; reflexivity. }
  assert (P2 : forall b, untouched b (clock_noise_envelope b)).
  { intros b. unfold clock_noise_envelope. cbv zeta.
    repeat break_if; repeat split; reflexivity. }
  assert (P3 : forall b, untouched b (clock_linear_counter b)).
  { intros b. unfold clock_linear_counter.
    repeat break_if; repeat split; reflexivity. }
  unfold apu_quarter_frame. cbv zeta.
  eapply untouched_trans; [apply P1|].
  eapply untouched_trans; [apply P2|apply P3].
Qed.

Lemma half_frame_untouched (a : APU) : untouched a (apu_half_frame a).
Proof.
  unfold apu_half_frame. cbv zeta.
  repeat break_if; repeat split; reflexivity.
Qed.

Lemma seq_steps_untouched (n : nat) :
  forall i a, untouched a (seq_steps n i a).
Proof.
  induction n as [|n IH]; intros i a; cbn [seq_steps].
  - apply untouched_refl.
  - eapply untouched_trans; [|apply IH].
    eapply untouched_trans; [apply quarter_frame_untouched|].
    break_if; [apply half_frame_untouched|apply untouched_refl].
Qed.


Lemma seq_pass_spec (idx : Z) (a : APU) :
  bus_linked (seq_pass idx a) = bus_linked a
  /\ cpu_cycle_mod (seq_pass idx a)
     = (if cpu_cycle_mod a >=? 14916 then cpu_cycle_mod a - 14916 else 0).
Proof.
  unfold seq_pass. destruct (cpu_cycle_mod a >=? 14916).
  - set (a1 := set_cpu_cycle_mod (cpu_cycle_mod a - 14916) a).
    cbv zeta. set (h := apu_half_frame (apu_quarter_frame a1)).
    assert (Hh : untouched a1 h).
    { eapply untouched_trans;
        [apply quarter_frame_untouched|apply half_frame_untouched]. }
    clearbody h. destruct Hh as (H1 & H2 & _).
    destruct (negb (irq_inhibit h) && (frame_mode h =? 0));
      cbn [bus_linked cpu_cycle_mod set_frame_irq];
      rewrite H1, H2; split; reflexivity.
  - cbv zeta. set (q := seq_steps (Z.to_nat idx) 0 a).
    pose proof (seq_steps_untouched (Z.to_nat idx) 0 a) as (H1 & _).
    fold q in H1. clearbody q.
    cbn [bus_linked cpu_cycle_mod set_cpu_cycle_mod]. split; [exact H1|reflexivity].
Qed.

Lemma seq_loop_leaves (k : nat) (a : APU) :
  cpu_cycle_mod a < 3729 -> seq_loop (S k) a = Some a.
Proof.
  intros H. cbn [seq_loop seq_index step_times].
  destruct (Z.geb_spec (cpu_cycle_mod a) 3729); [lia|reflexivity].
Qed.

Lemma seq_index_zero (m : Z) :
  (seq_index step_times m =? 0) = (m <? 3729).
Proof.
  cbn [seq_index step_times].
  destruct (Z.geb_spec m 3729); destruct (Z.ltb_spec m 3729);
    try lia; try reflexivity.
  repeat break_if; reflexivity.
Qed.

Lemma sequenced_period (m : Z) :
  14916 <= m -> sequenced (m - 14916) = sequenced m.
Proof.
  intros H. unfold sequenced.
  assert (E : (m - 14916) mod 14916 = m mod 14916).
  { replace (m - 14916) with (m + (-1) * 14916) by lia.
    apply Z.mod_add. lia. }
  cbv zeta. rewrite E.
  destruct (Z.ltb_spec (m - 14916) 3729), (Z.ltb_spec m 3729);
    try lia; try reflexivity.
  rewrite <- E, Z.mod_small by lia.
  destruct (Z.ltb_spec (m - 14916) 3729); lia.
Qed.

Lemma sequenced_reset (m : Z) : 3729 <= m < 14916 -> sequenced m = 0.
Proof.
  intros H. unfold sequenced. cbv zeta. rewrite Z.mod_small by lia.
  destruct (Z.ltb_spec m 3729); [lia|reflexivity].
Qed.

(** The [while (1)] loop leaves, given one pass per whole period in the
    accumulator and two more. *)
Lemma seq_loop_total (k : nat) :
  forall a, cpu_cycle_mod a < 14916 * Z.of_nat k + 14916 ->
  exists a', seq_loop (S (S k)) a = Some a'
             /\ bus_linked a' = bus_linked a
             /\ cpu_cycle_mod a' = sequenced (cpu_cycle_mod a).
Proof.
  induction k as [|k IH]; intros a Hm.
  - change (seq_loop 2 a) with
      (if seq_index step_times (cpu_cycle_mod a) =? 0 then Some a
       else seq_loop 1 (seq_pass (seq_index step_times (cpu_cycle_mod a)) a)).
    rewrite seq_index_zero.
    destruct (Z.ltb_spec (cpu_cycle_mod a) 3729) as [Hlt|Hge].
    { exists a. repeat split. unfold sequenced.
      destruct (Z.ltb_spec (cpu_cycle_mod a) 3729); [reflexivity|lia]. }
    destruct (seq_pass_spec (seq_index step_times (cpu_cycle_mod a)) a)
      as [Hl Hc].
    destruct (Z.geb_spec (cpu_cycle_mod a) 14916); [lia|].
    rewrite seq_loop_leaves by lia.
    eexists; split; [reflexivity|split; [exact Hl|]].
    rewrite Hc, sequenced_reset by lia. reflexivity.
  - change (seq_loop (S (S (S k))) a) with
      (if seq_index step_times (cpu_cycle_mod a) =? 0 then Some a
       else seq_loop (S (S k))
              (seq_pass (seq_index step_times (cpu_cycle_mod a)) a)).
    rewrite seq_index_zero.
    destruct (Z.ltb_spec (cpu_cycle_mod a) 3729) as [Hlt|Hge].
    { exists a. repeat split. unfold sequenced.
      destruct (Z.ltb_spec (cpu_cycle_mod a) 3729); [reflexivity|lia]. }
    destruct (seq_pass_spec (seq_index step_times (cpu_cycle_mod a)) a)
      as [Hl Hc].
    destruct (IH (seq_pass (seq_index step_times (cpu_cycle_mod a)) a))
      as (a' & Ha' & Hl' & Hc').
    + rewrite Hc. destruct (Z.geb_spec (cpu_cycle_mod a) 14916); lia.
    + exists a'. split; [exact Ha'|split; [congruence|]].
      rewrite Hc', Hc.
      destruct (Z.geb_spec (cpu_cycle_mod a) 14916).
      * apply sequenced_period. lia.
      * rewrite (sequenced_reset (cpu_cycle_mod a)) by lia. reflexivity.
Qed.

(** [apu_frame_sequencer] leaves its loop: the fuel of the model is
    enough.  The bus pointer is as before, and the accumulator is the
    [sequenced] value of the sum. *)
Lemma frame_sequencer_runs (a : APU) (cyc : Z) :
  exists a',
    seq_loop (seq_fuel (cpu_cycle_mod a + cyc))
      (set_cpu_cycle_mod (cpu_cycle_mod a + cyc) a) = Some a'
    /\ apu_frame_sequencer a cyc = a'
    /\ bus_linked a' = bus_linked a
    /\ cpu_cycle_mod a' = sequenced (cpu_cycle_mod a + cyc).
Proof.
  unfold apu_frame_sequencer, seq_fuel. cbn [cpu_cycle_mod set_cpu_cycle_mod].
  destruct (seq_loop_total (Z.to_nat ((cpu_cycle_mod a + cyc) / 14916))
              (set_cpu_cycle_mod (cpu_cycle_mod a + cyc) a))
    as (a' & Ha' & Hl & Hc).
  - cbn [cpu_cycle_mod set_cpu_cycle_mod].
    destruct (Z.le_gt_cases 0 ((cpu_cycle_mod a + cyc) / 14916)).
    + rewrite Z2Nat.id by assumption.
      pose proof (Z.mul_succ_div_gt (cpu_cycle_mod a + cyc) 14916). lia.
    + assert (cpu_cycle_mod a + cyc < 0).
      { destruct (Z.lt_ge_cases (cpu_cycle_mod a + cyc) 0) as [|Hge];
          [assumption|].
        apply (Z.div_pos _ 14916) in Hge; lia. }
      lia.
  - exists a'. rewrite Ha'. repeat split; assumption.
Qed.

(** Below the first boundary the sequencer only accumulates. *)
Lemma frame_sequencer_below (a : APU) (cyc : Z) :
  cpu_cycle_mod a + cyc < 3729 ->
  apu_frame_sequencer a cyc = set_cpu_cycle_mod (cpu_cycle_mod a + cyc) a.
Proof.
  intros H. unfold apu_frame_sequencer, seq_fuel.
  cbn [cpu_cycle_mod set_cpu_cycle_mod seq_loop seq_index step_times].
  destruct (Z.geb_spec (cpu_cycle_mod a + cyc) 3729); [lia|reflexivity].
Qed.

End WithFloats.
End TickFacts.

(** ** nes.c: one pass of the run loop *)

Module NesFacts.

Import Controller Cart Apu Nes Props BusFacts CpuLogic TickFacts.
Import Cpu (CPU).
Import Ppu (PPU).

Section WithFloats.
Context {fm : FloatModel}.

Lemma cpu_frame_refl (s : NES) : cpu_frame s s.
Proof. split; [apply bus_frame_refl|apply same_beam_refl]. Qed.

Lemma cpu_frame_trans (s1 s2 s3 : NES) :
  cpu_frame s1 s2 -> cpu_frame s2 s3 -> cpu_frame s1 s3.
Proof.
  intros [A1 A2] [B1 B2]. split.
  - eapply bus_frame_trans; eassumption.
  - eapply same_beam_trans; eassumption.
Qed.

Lemma cpu_frame_read (s0 s : NES) (a : Z) :
  cpu_frame s0 s -> cpu_frame s0 (snd (bus_cpu_read s a)).
Proof.
  intros H. eapply cpu_frame_trans; [exact H|].
  destruct (bus_cpu_read_frame s a) as (H1 & H2 & _). split; assumption.
Qed.

Lemma cpu_frame_write (s0 s : NES) (a x : Z) :
  cpu_frame s0 s -> cpu_frame s0 (bus_cpu_write s a x).
Proof.
  intros H. eapply cpu_frame_trans; [exact H|].
  destruct (bus_cpu_write_frame s a x) as (H1 & H2). split; assumption.
Qed.

Lemma cpu_frame_reg (s0 s : NES) (c : CPU) :
  cpu_upd (cpu s) c -> cpu_frame s0 s -> cpu_frame s0 (with_cpu c s).
Proof.
  intros Hc H. eapply cpu_frame_trans; [exact H|].
  split; [now apply bus_frame_on_cpu|apply same_beam_refl].
Qed.

(** Every path of [cpu_step] returns 2..7 cycles, and touches the
    register file only by the updates of [cpu_upd]. *)
Lemma cpu_step_frame (s : NES) :
  cycles_ok (fst (cpu_step s)) /\ cpu_frame s (snd (cpu_step s)).
Proof.
  apply (triple_cpu_step (cpu_frame s)).
  - apply cpu_frame_read.
  - apply cpu_frame_write.
  - apply cpu_frame_reg.
  - apply cpu_frame_refl.
Qed.

Lemma cpu_nmi_frame (s : NES) : cpu_frame s (snd (cpu_nmi s)).
Proof.
  apply (triple_cpu_nmi (cpu_frame s)).
  - apply cpu_frame_read.
  - apply cpu_frame_write.
  - apply cpu_frame_reg.
  - apply cpu_frame_refl.
Qed.

Lemma cpu_irq_frame (s : NES) : cpu_frame s (snd (cpu_irq s)).
Proof.
  apply (triple_cpu_irq (cpu_frame s)).
  - apply cpu_frame_read.
  - apply cpu_frame_write.
  - apply cpu_frame_reg.
  - apply cpu_frame_refl.
Qed.

Lemma nes_reset_frame (s : NES) : cpu_frame s (snd (nes_reset s)).
Proof.
  apply (triple_nes_reset (cpu_frame s)).
  - apply cpu_frame_read.
  - apply cpu_frame_reg.
  - apply cpu_frame_refl.
Qed.

(** *** The DMC clocks *)

Lemma quiet_refl (s : NES) : quiet s s.
Proof.
  split; [reflexivity|split; [apply same_core_refl|apply same_beam_refl]].
Qed.

Lemma quiet_trans (s1 s2 s3 : NES) : quiet s1 s2 -> quiet s2 s3 -> quiet s1 s3.
Proof.
  intros (A1 & A2 & A3) (B1 & B2 & B3). split; [congruence|split].
  - eapply same_core_trans; eassumption.
  - eapply same_beam_trans; eassumption.
Qed.

Lemma quiet_on_apu (s : NES) (f : APU -> APU) :
  (forall a, bus_linked (f a) = bus_linked a
             /\ cpu_cycle_mod (f a) = cpu_cycle_mod a) ->
  quiet s (on_apu f s).
Proof.
  intros H. unfold on_apu. destruct (apu s) as [a|] eqn:E.
  - split; [reflexivity|split; [|apply same_beam_refl]].
    cbn [apu with_apu]. rewrite E. apply H.
  - apply quiet_refl.
Qed.

Lemma quiet_read (s : NES) (a : Z) : quiet s (snd (bus_cpu_read s a)).
Proof.
  destruct (bus_cpu_read_core s a) as [H1 H2].
  destruct (bus_cpu_read_frame s a) as (_ & H3 & _).
  split; [assumption|split; assumption].
Qed.

Lemma dmc_fetch_quiet (s : NES) : quiet s (dmc_fetch s).
Proof.
  unfold dmc_fetch. destruct (apu s) as [a|]; [|apply quiet_refl].
  pose proof (quiet_read s (dmc_cur_addr a)) as Hr.
  destruct (bus_cpu_read s (dmc_cur_addr a)) as [b s1]. cbn [snd] in Hr.
  eapply quiet_trans; [exact Hr|]. apply quiet_on_apu.
  intros a0. unfold dmc_store. cbv zeta. repeat break_if; split; reflexivity.
Qed.

Lemma dmc_reload_core (a : APU) :
  bus_linked (dmc_reload a) = bus_linked a
  /\ cpu_cycle_mod (dmc_reload a) = cpu_cycle_mod a.
Proof. unfold dmc_reload. break_if; split; reflexivity. Qed.

Lemma dmc_output_bit_core (a : APU) :
  bus_linked (dmc_output_bit a) = bus_linked a
  /\ cpu_cycle_mod (dmc_output_bit a) = cpu_cycle_mod a.
Proof.
  unfold dmc_output_bit. cbv zeta. repeat break_if; split; reflexivity.
Qed.

Lemma dmc_clock_quiet (s : NES) : quiet s (dmc_clock s).
Proof.
  unfold dmc_clock. destruct (apu s) as [a|]; [|apply quiet_refl].
  cbv zeta. eapply quiet_trans; [|apply quiet_on_apu, dmc_output_bit_core].
  destruct (dmc_bits_remaining a =? 0); [|apply quiet_refl].
  eapply quiet_trans; [|apply quiet_on_apu, dmc_reload_core].
  break_if; [apply dmc_fetch_quiet|apply quiet_refl].
Qed.

Lemma dmc_clocks_quiet (n : nat) : forall s, quiet s (dmc_clocks n s).
Proof.
  induction n as [|n IH]; intros s; cbn [dmc_clocks].
  - apply quiet_refl.
  - eapply quiet_trans; [apply dmc_clock_quiet|apply IH].
Qed.

End WithFloats.
End NesFacts.

(** ** nes.c: the run loop *)

Module RunFacts.

Import Controller Cart Apu Nes Props BusFacts CpuLogic TickFacts NesFacts.
Import Cpu (CPU).
Import Ppu (PPU).

Section WithFloats.
Context {fm : FloatModel}.

Lemma frame_sequencer_linked (a : APU) (cyc : Z) :
  bus_linked (apu_frame_sequencer a cyc) = bus_linked a
  /\ cpu_cycle_mod (apu_frame_sequencer a cyc)
     = sequenced (cpu_cycle_mod a + cyc).
Proof.
  destruct (frame_sequencer_runs a cyc) as (a' & _ & -> & H1 & H2).
  split; assumption.
Qed.

(** The APU tick: the sequencer runs on the accumulator plus [used]; the
    DMC clocks that follow leave the accumulator alone. *)
Lemma apu_tick_spec (s : NES) (used : Z) (a : APU) :
  apu s = Some a ->
  cpu (apu_tick_cpu_cycles s used) = cpu s
  /\ same_beam (ppu s) (ppu (apu_tick_cpu_cycles s used))
  /\ same_core (Some (apu_frame_sequencer a used))
       (apu (apu_tick_cpu_cycles s used)).
Proof.
  intros E. unfold apu_tick_cpu_cycles. rewrite E. cbv zeta.
  set (a1 := apu_frame_sequencer a used). clearbody a1.
  destruct (dmc_enabled a1).
  - destruct (fp_dmc_advance used (fp a1)) as [due f].
    destruct (dmc_clocks_quiet due (with_apu (Some (set_fp f a1)) s))
      as (H1 & H2 & H3).
    split; [exact H1|split; [exact H3|]].
    eapply same_core_trans; [|exact H2]. split; reflexivity.
  - split; [reflexivity|split; [apply same_beam_refl|split; reflexivity]].
Qed.

Lemma take_nmi_spec (s : NES) :
  cpu_upd (cpu s) (cpu (take_nmi s))
  /\ same_beam (ppu s) (ppu (take_nmi s))
  /\ apu (take_nmi s) = apu s.
Proof.
  unfold take_nmi. destruct (Ppu.nmi_pending (ppu s)).
  - split; [apply upd_nmi|split; [split; reflexivity|reflexivity]].
  - split; [apply upd_refl|split; [apply same_beam_refl|reflexivity]].
Qed.

Lemma tick_apu_spec (used : Z) (s : NES) :
  cpu_upd (cpu s) (cpu (tick_apu used s))
  /\ same_beam (ppu s) (ppu (tick_apu used s))
  /\ same_core (option_map (fun a => apu_frame_sequencer a used) (apu s))
       (apu (tick_apu used s)).
Proof.
  unfold tick_apu. destruct (apu s) as [a|] eqn:E.
  - destruct (apu_tick_spec s used a E) as (H1 & H2 & H3).
    cbv zeta. break_if.
    + cbn [cpu ppu apu on_cpu with_cpu]. rewrite <- H1.
      split; [apply upd_irq|split; assumption].
    + rewrite H1. split; [apply upd_refl|split; assumption].
  - rewrite E. split; [apply upd_refl|split; [apply same_beam_refl|exact Logic.I]].
Qed.

(** What follows the instruction in one pass: exactly [3 * used] PPU
    ticks, then only the NMI and IRQ lines and the APU change. *)
Lemma after_step_spec (used : Z) (s : NES) :
  cpu_upd (cpu s) (cpu (after_step used s))
  /\ same_beam (Ppu.ppu_steps (Z.to_nat (used * 3)) (cart s) (ppu s))
       (ppu (after_step used s))
  /\ same_core (option_map (fun a => apu_frame_sequencer a used) (apu s))
       (apu (after_step used s)).
Proof.
  unfold after_step. cbv zeta.
  set (s0 := on_ppu (fun p => Ppu.ppu_tick_cpu_cycles (cart s) p used) s).
  assert (E0 : cpu s0 = cpu s /\ apu s0 = apu s
               /\ ppu s0 = Ppu.ppu_steps (Z.to_nat (used * 3)) (cart s) (ppu s))
    by (repeat split; reflexivity).
  clearbody s0. destruct E0 as (C0 & A0 & P0).
  destruct (take_nmi_spec s0) as (C1 & B1 & A1).
  destruct (tick_apu_spec used (take_nmi s0)) as (C2 & B2 & A2).
  rewrite <- C0, <- A0, <- P0. split; [|split].
  - eapply upd_trans; eassumption.
  - eapply same_beam_trans; eassumption.
  - rewrite <- A1. exact A2.
Qed.

Lemma iteration_fst (s : NES) : fst (nes_iteration s) = fst (cpu_step s).
Proof.
  unfold nes_iteration. destruct (cpu_step_frame s) as [[H _] _].
  destruct (cpu_step s) as [used s1]. cbn [fst] in *.
  destruct (Z.leb_spec used 0); [lia|reflexivity].
Qed.

Lemma iteration_snd (s : NES) :
  snd (nes_iteration s) = after_step (fst (cpu_step s)) (snd (cpu_step s)).
Proof.
  unfold nes_iteration. destruct (cpu_step_frame s) as [[H _] _].
  destruct (cpu_step s) as [used s1]. cbn [fst snd] in *.
  destruct (Z.leb_spec used 0); [lia|reflexivity].
Qed.

Lemma iteration_skips_eq (s : NES) :
  iteration_skips s
  = Ppu.count_steps Ppu.odd_skip (Z.to_nat (fst (cpu_step s) * 3))
      (cart (snd (cpu_step s))) (ppu (snd (cpu_step s))).
Proof.
  unfold iteration_skips. destruct (cpu_step_frame s) as [[H _] _].
  destruct (cpu_step s) as [used s1]. cbn [fst snd] in *.
  destruct (Z.leb_spec used 0); [lia|reflexivity].
Qed.

(** One pass moves the register file by [cpu_upd] only and keeps the
    APU's wiring. *)
Lemma iteration_frame (s : NES) : bus_frame s (snd (nes_iteration s)).
Proof.
  rewrite iteration_snd.
  destruct (cpu_step_frame s) as [_ [[C1 W1] _]].
  destruct (after_step_spec (fst (cpu_step s)) (snd (cpu_step s)))
    as (C2 & _ & A2).
  split; [eapply upd_trans; eassumption|].
  eapply same_wiring_trans; [exact W1|].
  destruct (apu (snd (cpu_step s))) as [a1|];
    destruct (apu (after_step (fst (cpu_step s)) (snd (cpu_step s))))
      as [a2|]; cbn in A2 |- *; try contradiction; try exact Logic.I.
  destruct A2 as [A2 _]. rewrite A2. apply frame_sequencer_linked.
Qed.

Lemma same_beam_pos (p q : PPU) :
  same_beam p q -> pos_ok p -> pos_ok q /\ idx q = idx p.
Proof.
  intros [H1 H2] H. unfold pos_ok, idx in *. rewrite H1, H2. split; [exact H|reflexivity].
Qed.

(** The beam after one pass. *)
Lemma iteration_beam (s : NES) :
  pos_ok (ppu s) ->
  pos_ok (ppu (snd (nes_iteration s)))
  /\ idx (ppu (snd (nes_iteration s)))
     = (idx (ppu s) + 3 * fst (nes_iteration s)
        + Z.of_nat (iteration_skips s)) mod 89342.
Proof.
  intros Hp. rewrite iteration_snd, iteration_fst, iteration_skips_eq.
  destruct (cpu_step_frame s) as [[Hu _] [_ B1]].
  destruct (same_beam_pos _ _ B1 Hp) as [Hp1 I1].
  destruct (after_step_spec (fst (cpu_step s)) (snd (cpu_step s)))
    as (_ & B2 & _).
  destruct (PpuFacts.ppu_steps_pos (cart (snd (cpu_step s)))
              (Z.to_nat (fst (cpu_step s) * 3)) _ Hp1) as [Hp2 I2].
  destruct (same_beam_pos _ _ B2 Hp2) as [Hp3 I3].
  split; [exact Hp3|].
  rewrite I3, I2, I1, Z2Nat.id by (unfold cycles_ok in Hu; lia).
  f_equal. lia.
Qed.

(** The loop of [nes_run_cycles] leaves whenever the fuel is at least
    the number of cycles asked for: every pass takes off at least two. *)
Lemma run_loop_spec (fuel : nat) :
  forall n s, n <= Z.of_nat fuel ->
  exists us s',
    nes_run_loop fuel n s = Some (us, s')
    /\ Forall cycles_ok us
    /\ (n <= 0 -> total us = 0) /\ (0 < n -> n <= total us <= n + 6)
    /\ bus_frame s s'
    /\ (pos_ok (ppu s) ->
        pos_ok (ppu s')
        /\ idx (ppu s')
           = (idx (ppu s) + 3 * total us
              + Z.of_nat (run_skips fuel n s)) mod 89342).
Proof.
  induction fuel as [|k IH]; intros n s Hn.
  - cbn [nes_run_loop run_skips].
    destruct (Z.gtb_spec n 0) as [H0|H0]; [lia|].
    exists [], s. split; [reflexivity|]. split; [constructor|].
    split; [cbn; lia|]. split; [lia|]. split; [apply bus_frame_refl|].
    intros Hp. split; [exact Hp|].
    cbn [total fold_right]. rewrite !Z.add_0_r.
    destruct Hp. unfold idx. rewrite Z.mod_small; lia.
  - cbn [nes_run_loop run_skips].
    destruct (Z.gtb_spec n 0) as [H0|H0].
    + pose proof (iteration_fst s) as Hf.
      destruct (cpu_step_frame s) as [Hu _]. rewrite <- Hf in Hu.
      pose proof (iteration_frame s) as Hfr.
      pose proof (iteration_beam s) as Hb.
      unfold cycles_ok in Hu.
      destruct (nes_iteration s) as [used s1]. cbn [fst snd] in *.
      destruct (IH (n - used) s1) as (us & s' & E & Hall & Ht0 & Ht & Hfr' & Hb');
        [lia|].
      rewrite E. exists (used :: us), s'.
      change (total (used :: us)) with (used + total us).
      split; [reflexivity|]. split; [constructor; assumption|].
      split; [lia|]. split; [lia|].
      split; [eapply bus_frame_trans; eassumption|].
      intros Hp. destruct (Hb Hp) as [Hp1 I1].
      destruct (Hb' Hp1) as [Hp2 I2]. split; [assumption|].
      rewrite I2, I1, <- Z.add_assoc, Z.add_mod_idemp_l by lia.
      f_equal. lia.
    + exists [], s. split; [reflexivity|]. split; [constructor|].
      split; [cbn; lia|]. split; [lia|]. split; [apply bus_frame_refl|].
      intros Hp. split; [exact Hp|].
      cbn [total fold_right]. rewrite !Z.add_0_r.
      destruct Hp. unfold idx. rewrite Z.mod_small; lia.
Qed.

Lemma run_cycles_spec (s : NES) (n : Z) :
  exists us s',
    nes_run_loop (Z.to_nat n) n s = Some (us, s')
    /\ nes_run_cycles s n = s'
    /\ Forall cycles_ok us
    /\ (n <= 0 -> total us = 0) /\ (0 < n -> n <= total us <= n + 6)
    /\ bus_frame s s'
    /\ (pos_ok (ppu s) ->
        pos_ok (ppu s')
        /\ idx (ppu s')
           = (idx (ppu s) + 3 * total us
              + Z.of_nat (run_skips (Z.to_nat n) n s)) mod 89342).
Proof.
  destruct (run_loop_spec (Z.to_nat n) n s) as (us & s' & E & H); [lia|].
  exists us, s'. split; [exact E|]. split; [|exact H].
  unfold nes_run_cycles. rewrite E. reflexivity.
Qed.

(** More fuel changes nothing. *)
Lemma run_loop_fuel (f1 : nat) :
  forall f2 n s, n <= Z.of_nat f1 -> n <= Z.of_nat f2 ->
  nes_run_loop f1 n s = nes_run_loop f2 n s.
Proof.
  induction f1 as [|k IH]; intros f2 n s H1 H2.
  - destruct f2; cbn [nes_run_loop];
      destruct (Z.gtb_spec n 0); try lia; reflexivity.
  - destruct f2 as [|m]; cbn [nes_run_loop];
      destruct (Z.gtb_spec n 0) as [H0|H0]; try lia; try reflexivity.
    pose proof (iteration_fst s) as Hf.
    destruct (cpu_step_frame s) as [Hu _]. rewrite <- Hf in Hu.
    unfold cycles_ok in Hu.
    destruct (nes_iteration s) as [used s1]. cbn [fst] in *.
    rewrite (IH m (n - used) s1) by lia. reflexivity.
Qed.

(** The entry points keep the register file within [cpu_upd] and the
    APU's wiring as it is. *)
Lemma apply_op_frame (s : NES) (op : machine_op) : bus_frame s (apply_op s op).
Proof.
  destruct op as [| | | |n]; cbn [apply_op].
  - apply cpu_step_frame.
  - apply nes_reset_frame.
  - apply cpu_nmi_frame.
  - apply cpu_irq_frame.
  - destruct (run_cycles_spec s n) as (us & s' & _ & -> & _ & _ & _ & H & _).
    exact H.
Qed.

Lemma run_ops_frame (ops : list machine_op) :
  forall s, bus_frame s (run_ops ops s).
Proof.
  induction ops as [|op ops IH]; intros s; cbn [run_ops fold_left].
  - apply bus_frame_refl.
  - eapply bus_frame_trans; [apply apply_op_frame|apply IH].
Qed.

End WithFloats.
End RunFacts.

(** ** cpu.c: the B flag *)

Module FlagFacts.

Import Controller Cart Apu Nes Props Bits BusFacts CpuLogic NesFacts RunFacts.
Import Cpu (CPU).
Import Ppu (PPU).

Lemma b_clear_bit (c : CPU) : b_clear c <-> Z.testbit (Cpu.P c) 4 = false.
Proof.
  unfold b_clear. change FLAG_B with (2 ^ 4). split; intros H.
  - assert (E : Z.testbit (Z.land (Cpu.P c) (2 ^ 4)) 4 = false)
      by (rewrite H; apply Z.bits_0).
    rewrite Z.land_spec, Z.pow2_bits_true, andb_true_r in E by lia. exact E.
  - apply land_pow2_zero; [lia|exact H].
Qed.

Lemma pulled_bits (x : Z) :
  let p := u8 (Z.land (Z.lor x FLAG_U) (Z.lnot FLAG_B)) in
  Z.testbit p 5 = true /\ Z.testbit p 4 = false.
Proof.
  cbv zeta. unfold u8. change 256 with (2 ^ 8).
  rewrite !Z.mod_pow2_bits_low, !Z.land_spec, !Z.lor_spec, !Z.lnot_spec by lia.
  change (Z.testbit FLAG_U 5) with true.
  change (Z.testbit FLAG_B 5) with false.
  change (Z.testbit FLAG_B 4) with true.
  rewrite orb_true_r, andb_false_r. split; reflexivity.
Qed.

(** None of the updates cpu.c performs on the register file sets bit 4
    of P. *)
Lemma upd_b_clear (c c' : CPU) : cpu_upd c c' -> b_clear c -> b_clear c'.
Proof.
  induction 1 as [c|c1 c2 c3 _ IH1 _ IH2|c x|c x|c x|c x|c x|c b|c b|c x
                  |c mask on Hm|c mask Hm|c mask Hm|c x];
    intros Hb; try exact Hb; [auto| | | |].
  - apply b_clear_bit. apply b_clear_bit in Hb. cbn [Cpu.P Cpu.set_P].
    cbn [In] in Hm.
    assert (Hk : exists k, mask = 2 ^ k /\ 0 <= k /\ k <> 4).
    { destruct Hm as [<-|[<-|[<-|[<-|[]]]]];
        [exists 0|exists 1|exists 6|exists 7]; repeat split; lia. }
    destruct Hk as (k & -> & Hk0 & Hk4).
    rewrite testbit_set_bit, Hb by lia.
    destruct (Z.eqb_spec k 4); [lia|]. destruct on; reflexivity.
  - apply b_clear_bit. apply b_clear_bit in Hb. cbn [Cpu.P Cpu.set_P].
    rewrite Z.lor_spec, Hb. cbn [In] in Hm.
    destruct Hm as [<-|[<-|[<-|[]]]]; reflexivity.
  - apply b_clear_bit. apply b_clear_bit in Hb. cbn [Cpu.P Cpu.set_P].
    rewrite Z.land_spec, Hb. reflexivity.
  - apply b_clear_bit. cbn [Cpu.P Cpu.set_P]. apply pulled_bits.
Qed.

Section WithFloats.
Context {fm : FloatModel}.

Lemma frame_b_clear (s s' : NES) :
  bus_frame s s' -> b_clear (cpu s) -> b_clear (cpu s').
Proof. intros [H _]. now apply upd_b_clear. Qed.

(** *** The stack *)

Lemma stack_addr (sp : Z) :
  0 <= sp < 256 -> u16 (Z.lor 0x0100 sp) = 0x100 + sp.
Proof.
  intros H.
  assert (E : Z.land 0x100 sp = 0).
  { apply Z.bits_inj'. intros i Hi. rewrite Z.land_spec, Z.bits_0.
    change 0x100 with (2 ^ 8). rewrite Z.pow2_bits_eqb by lia.
    destruct (Z.eqb_spec 8 i) as [<-|]; [|reflexivity].
    rewrite <- (Z.mod_small sp (2 ^ 8)) by lia.
    rewrite Z.mod_pow2_bits_high by lia. reflexivity. }
  pose proof (Z.add_lor_land 0x100 sp) as A. rewrite E in A.
  unfold u16. rewrite Z.mod_small; lia.
Qed.

(** [push]: the byte goes to RAM at 0x100 + S, and S steps down. *)
Lemma push_spec (x : Z) (s : NES) :
  0 <= Cpu.S (cpu s) < 256 ->
  cpu (snd (push x s)) = Cpu.set_S (u8 (Cpu.S (cpu s) - 1)) (cpu s)
  /\ ram (snd (push x s)) (0x100 + Cpu.S (cpu s)) = x.
Proof.
  intros H. unfold push, bind, get_cpu, cpu_write, mod_cpu.
  cbn [fst snd]. rewrite (stack_addr _ H).
  destruct (ram_after_write s (0x100 + Cpu.S (cpu s)) x) as [R C]; [lia|].
  cbn [cpu ram on_cpu with_cpu]. rewrite C. split; [reflexivity|].
  replace (Z.land (0x100 + Cpu.S (cpu s)) 0x07FF)
    with (0x100 + Cpu.S (cpu s)) in R; [exact R|].
  change 0x07FF with (Z.ones 11). rewrite Z.land_ones by lia.
  symmetry. apply Z.mod_small. lia.
Qed.

Lemma bind_eq {A B : Type} (m : M A) (k : A -> M B) (s : NES) :
  bind m k s = k (fst (m s)) (snd (m s)).
Proof. unfold bind. destruct (m s). reflexivity. Qed.

Lemma read_keeps (a : Z) (s : NES) :
  cpu (snd (cpu_read a s)) = cpu s /\ ram (snd (cpu_read a s)) = ram s.
Proof.
  unfold cpu_read. destruct (bus_cpu_read_core s a) as [H _].
  destruct (bus_cpu_read_frame s a) as (_ & _ & R). split; assumption.
Qed.

Lemma u8_range (x : Z) : 0 <= u8 x < 256.
Proof. unfold u8. apply Z.mod_pos_bound. lia. Qed.

Ltac next := rewrite bind_eq; cbv beta; cbn [get_cpu mod_cpu ret fst snd].

(** Two pushes, then the status byte [f P], then [P |= FLAG_I] and the
    two reads of the vector: the part BRK, NMI and IRQ share. *)
Lemma status_push_spec {A : Type} (x1 x2 : Z) (f : Z -> Z) (v1 v2 : Z)
    (k : Z -> Z -> M A) (s : NES) :
  0 <= Cpu.S (cpu s) < 256 ->
  (forall lo hi t, Cpu.P (cpu (snd (k lo hi t))) = Cpu.P (cpu t)
                   /\ ram (snd (k lo hi t)) = ram t) ->
  let m : M A :=
    bind (push x1) (fun _ => bind (push x2) (fun _ =>
    bind get_cpu (fun c => bind (push (f (Cpu.P c))) (fun _ =>
    bind (mod_cpu (fun c => Cpu.set_P (Z.lor (Cpu.P c) FLAG_I) c)) (fun _ =>
    bind (cpu_read v1) (fun lo => bind (cpu_read v2) (fun hi =>
    k lo hi))))))) in
  Cpu.P (cpu (snd (m s))) = Z.lor (Cpu.P (cpu s)) FLAG_I
  /\ ram (snd (m s)) (0x100 + u8 (u8 (Cpu.S (cpu s) - 1) - 1))
     = f (Cpu.P (cpu s)).
Proof.
  intros H Hk m. subst m.
  next. destruct (push_spec x1 s H) as [C1 _].
  set (s1 := snd (push x1 s)) in *. clearbody s1.
  assert (H1 : 0 <= Cpu.S (cpu s1) < 256)
    by (rewrite C1; cbn [Cpu.S Cpu.set_S]; apply u8_range).
  next. destruct (push_spec x2 s1 H1) as [C2 _].
  set (s2 := snd (push x2 s1)) in *. clearbody s2.
  assert (H2 : 0 <= Cpu.S (cpu s2) < 256)
    by (rewrite C2; cbn [Cpu.S Cpu.set_S]; apply u8_range).
  next. next. destruct (push_spec (f (Cpu.P (cpu s2))) s2 H2) as [C3 R3].
  set (s3 := snd (push (f (Cpu.P (cpu s2))) s2)) in *. clearbody s3.
  next. set (s4 := on_cpu _ s3).
  assert (C4 : Cpu.P (cpu s4) = Z.lor (Cpu.P (cpu s3)) FLAG_I
               /\ ram s4 = ram s3) by (split; reflexivity).
  clearbody s4. destruct C4 as [C4 R4].
  next. destruct (read_keeps v1 s4) as [C5 R5].
  set (lo := fst (cpu_read v1 s4)). set (s5 := snd (cpu_read v1 s4)) in *.
  clearbody lo s5.
  next. destruct (read_keeps v2 s5) as [C6 R6].
  set (hi := fst (cpu_read v2 s5)). set (s6 := snd (cpu_read v2 s5)) in *.
  clearbody hi s6.
  destruct (Hk lo hi s6) as [C7 R7]. rewrite C7, R7.
  rewrite C6, C5, C4, C3, R6, R5, R4. cbn [Cpu.P Cpu.set_S].
  assert (EP : Cpu.P (cpu s2) = Cpu.P (cpu s))
    by (rewrite C2, C1; reflexivity).
  assert (ES : Cpu.S (cpu s2) = u8 (u8 (Cpu.S (cpu s) - 1) - 1))
    by (rewrite C2, C1; reflexivity).
  rewrite <- ES, <- EP. split; [reflexivity|exact R3].
Qed.

(** Interrupt servicing: the byte pushed is P with B cleared and U
    set; P itself only gains I. *)
Lemma interrupt_spec (vec : Z) (s : NES) :
  0 <= Cpu.S (cpu s) < 256 ->
  Cpu.P (cpu (snd (interrupt vec s))) = Z.lor (Cpu.P (cpu s)) FLAG_I
  /\ ram (snd (interrupt vec s)) (0x100 + u8 (u8 (Cpu.S (cpu s) - 1) - 1))
     = Z.lor (Z.land (Cpu.P (cpu s)) (not8 FLAG_B)) FLAG_U.
Proof.
  intros H. unfold interrupt. next.
  apply (status_push_spec _ _
           (fun p => Z.lor (Z.land p (not8 FLAG_B)) FLAG_U)); [exact H|].
  intros lo hi t. split; reflexivity.
Qed.

(** BRK: the byte pushed is P with B and U set; P itself only gains
    I. *)
Lemma brk_spec (s : NES) :
  0 <= Cpu.S (cpu s) < 256 ->
  Cpu.P (cpu (snd (op_brk s))) = Z.lor (Cpu.P (cpu s)) FLAG_I
  /\ ram (snd (op_brk s)) (0x100 + u8 (u8 (Cpu.S (cpu s) - 1) - 1))
     = Z.lor (Z.lor (Cpu.P (cpu s)) FLAG_B) FLAG_U.
Proof.
  intros H. unfold op_brk. next. next.
  apply (status_push_spec _ _
           (fun p => Z.lor (Z.lor p FLAG_B) FLAG_U) _ _ _
           (on_cpu (fun c => Cpu.set_PC (u16 (Cpu.PC c + 1)) c) s));
    [exact H|].
  intros lo hi t. split; reflexivity.
Qed.

(** PHP: the byte pushed is P with B and U set; P is not changed. *)
Lemma php_spec (s : NES) :
  0 <= Cpu.S (cpu s) < 256 ->
  Cpu.P (cpu (snd (op_php s))) = Cpu.P (cpu s)
  /\ ram (snd (op_php s)) (0x100 + Cpu.S (cpu s))
     = u8 (Z.lor (Z.lor (Cpu.P (cpu s)) FLAG_B) FLAG_U).
Proof.
  intros H. unfold op_php. next. next.
  destruct (push_spec (u8 (Z.lor (Z.lor (Cpu.P (cpu s)) FLAG_B) FLAG_U)) s H)
    as [C R].
  rewrite C, R. split; reflexivity.
Qed.

(** PLP and RTI: P is the pulled byte with U forced to 1 and B to 0. *)
Lemma plp_spec (s : NES) :
  Cpu.P (cpu (snd (op_plp s)))
  = u8 (Z.land (Z.lor (fst (pull s)) FLAG_U) (Z.lnot FLAG_B)).
Proof. unfold op_plp. next. next. reflexivity. Qed.

Lemma rti_spec (s : NES) :
  Cpu.P (cpu (snd (op_rti s)))
  = u8 (Z.land (Z.lor (fst (pull s)) FLAG_U) (Z.lnot FLAG_B)).
Proof. unfold op_rti. next. next. next. next. next. reflexivity. Qed.

(** C7.  From power-on, with any cartridge and with or without sound,
    after any sequence of instruction steps (which covers PHP, PLP, BRK,
    RTI and the servicing of the NMI and IRQ lines), resets, calls of
    cpu_nmi and cpu_irq and runs of nes_run_cycles, bit 0x10 of the stored
    P is clear; and every such operation keeps it clear from any state
    where it is.  With the stack pointer a byte: PHP stores
    (uint8_t)(P | B | U) at 0x100 + S and leaves P as it is; BRK stores
    P | B | U as the third byte of its frame, after which P has only
    gained I; cpu_nmi, and cpu_irq when I is clear, store (P & ~B) | U
    there, after which P has only gained I.  PLP and RTI load P with the
    pulled byte, bit 5 forced to 1 and bit 4 to 0. *)
Theorem b_flag_never_stored (audio : bool) (rom : Cartridge)
    (ops : list machine_op) (s : NES) :
  b_clear (cpu (run_ops ops (nes_load_rom (nes_init audio) rom)))
  /\ (b_clear (cpu s) -> forall op, b_clear (cpu (apply_op s op)))
  /\ (0 <= Cpu.S (cpu s) < 256 ->
      let p := Cpu.P (cpu s) in
      let sp := Cpu.S (cpu s) in
      let sp3 := u8 (u8 (sp - 1) - 1) in
      (Cpu.P (cpu (snd (exec 0x08 s))) = p
       /\ ram (snd (exec 0x08 s)) (0x100 + sp)
          = u8 (Z.lor (Z.lor p FLAG_B) FLAG_U))
      /\ (Cpu.P (cpu (snd (exec 0x00 s))) = Z.lor p FLAG_I
          /\ ram (snd (exec 0x00 s)) (0x100 + sp3)
             = Z.lor (Z.lor p FLAG_B) FLAG_U)
      /\ (Cpu.P (cpu (snd (cpu_nmi s))) = Z.lor p FLAG_I
          /\ ram (snd (cpu_nmi s)) (0x100 + sp3)
             = Z.lor (Z.land p (not8 FLAG_B)) FLAG_U)
      /\ (flag FLAG_I (cpu s) = false ->
          Cpu.P (cpu (snd (cpu_irq s))) = Z.lor p FLAG_I
          /\ ram (snd (cpu_irq s)) (0x100 + sp3)
             = Z.lor (Z.land p (not8 FLAG_B)) FLAG_U))
  /\ (let p' := Cpu.P (cpu (snd (exec 0x28 s))) in
      p' = u8 (Z.land (Z.lor (fst (pull s)) FLAG_U) (Z.lnot FLAG_B))
      /\ Z.testbit p' 5 = true /\ Z.testbit p' 4 = false)
  /\ (let p' := Cpu.P (cpu (snd (exec 0x40 s))) in
      p' = u8 (Z.land (Z.lor (fst (pull s)) FLAG_U) (Z.lnot FLAG_B))
      /\ Z.testbit p' 5 = true /\ Z.testbit p' 4 = false).
Proof.
  split; [|split; [|split; [|split]]].
  - apply (frame_b_clear _ _ (run_ops_frame ops _)). reflexivity.
  - intros Hb op. exact (frame_b_clear _ _ (apply_op_frame s op) Hb).
  - intros H p sp sp3.
    change (exec 0x08) with op_php. change (exec 0x00) with op_brk.
    split; [apply php_spec, H|]. split; [apply brk_spec, H|].
    split; [apply interrupt_spec, H|].
    intros HI. unfold cpu_irq. rewrite bind_eq. cbn [get_cpu fst snd].
    unfold flag in HI. rewrite HI. apply interrupt_spec, H.
  - change (exec 0x28) with op_plp. cbv zeta. rewrite plp_spec.
    split; [reflexivity|apply pulled_bits].
  - change (exec 0x40) with op_rti. cbv zeta. rewrite rti_spec.
    split; [reflexivity|apply pulled_bits].
Qed.

End WithFloats.

(** On the console as powered on (P = 0x24, S = 0xFD): PHP stores 0x34
    at 0x1FD and leaves P at 0x24; an NMI stores 0x24 at 0x1FB. *)
Lemma b_flag_never_stored_witness :
  let s := nes_init (fm := Examples.silent) false in
  b_clear (cpu (apply_op s OpStep))
  /\ Cpu.P (cpu (snd (exec 0x08 s))) = 0x24
  /\ ram (snd (exec 0x08 s)) 0x1FD = 0x34
  /\ ram (snd (cpu_nmi s)) 0x1FB = 0x24.
Proof.
  intros s.
  destruct (b_flag_never_stored (fm := Examples.silent) false cart_empty []
              s) as (_ & Hi & Hs & _).
  destruct Hs as ((H1 & H2) & _ & (_ & H3) & _); [simpl; lia|].
  split; [apply Hi; reflexivity|].
  split; [exact H1|]. split; [exact H2|exact H3].
Defined.

End FlagFacts.

(** ** nes.c: termination of the run loop *)

Module Termination.

Import Controller Cart Apu Nes Props BusFacts CpuLogic NesFacts RunFacts.

Section WithFloats.
Context {fm : FloatModel}.

(** C10.  In every state (registers, memory, cartridge), each case of
    the opcode switch, the default case included, returns between 2 and
    7 cycles, and so does cpu_step, which also covers the servicing of
    the NMI and IRQ lines; so one pass of the loop of nes_run_cycles
    uses exactly what cpu_step returned and leaves strictly less to run;
    and for every n the loop leaves: with one unit of fuel per cycle
    asked for, and with any larger amount, it returns the same list of
    cycle counts and the same final state, which is the result of
    nes_run_cycles.  (This holds for every [FloatModel]: the
    floating-point side of the APU, which decides how many DMC bit
    clocks fall due in a tick, is behind that interface.) *)
Theorem cpu_step_bounded_and_run_terminates (s : NES) (n : Z) :
  (forall op, 2 <= fst (exec op s) <= 7)
  /\ 2 <= fst (cpu_step s) <= 7
  /\ fst (nes_iteration s) = fst (cpu_step s)
  /\ n - fst (nes_iteration s) < n
  /\ exists us s',
       nes_run_loop (Z.to_nat n) n s = Some (us, s')
       /\ nes_run_cycles s n = s'
       /\ Forall cycles_ok us
       /\ forall extra,
            nes_run_loop (Z.to_nat n + extra) n s = Some (us, s').
Proof.
  destruct (cpu_step_frame s) as [Hu _].
  split; [|split; [exact Hu|split; [apply iteration_fst|split]]].
  - intros op.
    apply (triple_exec (fun _ => True)); intros; exact Logic.I.
  - rewrite iteration_fst. unfold cycles_ok in Hu. lia.
  - destruct (run_cycles_spec s n) as (us & s' & E & R & Hall & _).
    exists us, s'. split; [exact E|]. split; [exact R|].
    split; [exact Hall|].
    intros extra. rewrite <- E. apply run_loop_fuel; lia.
Qed.

End WithFloats.
End Termination.

(** ** nes.c: what a run advances *)

Module Timing.

Import Controller Cart Apu Nes Props BusFacts CpuLogic TickFacts NesFacts
  RunFacts.

Section WithFloats.
Context {fm : FloatModel}.

(** The APU tick of one pass: the frame sequencer is given the cycle
    count of the pass, and below its first boundary it only adds it. *)
Lemma iteration_accumulator (s : NES) :
  match apu (snd (cpu_step s)), apu (snd (nes_iteration s)) with
  | Some a1, Some a2 =>
      cpu_cycle_mod a2
      = cpu_cycle_mod (apu_frame_sequencer a1 (fst (cpu_step s)))
      /\ (cpu_cycle_mod a1 + fst (cpu_step s) < 3729 ->
          cpu_cycle_mod a2 = cpu_cycle_mod a1 + fst (cpu_step s))
  | None, None => True
  | _, _ => False
  end.
Proof.
  rewrite iteration_snd.
  destruct (after_step_spec (fst (cpu_step s)) (snd (cpu_step s)))
    as (_ & _ & A).
  destruct (apu (snd (cpu_step s))) as [a1|];
    destruct (apu (after_step (fst (cpu_step s)) (snd (cpu_step s))))
      as [a2|]; cbn in A |- *; try contradiction; try exact Logic.I.
  destruct A as [_ A]. split; [exact A|].
  intros H. rewrite A, frame_sequencer_below by exact H. reflexivity.
Qed.

(** C2, as the code has it.  From any state whose beam is within the
    frame, nes_run_cycles(n) leaves its loop, and the PPU's dot counter
    (scanline * 341 + dot) has advanced, modulo 341 * 262, by 3 times the
    sum of the cycle counts the CPU steps returned PLUS the number of
    odd-frame skips that fired on the way.  In each pass the instruction
    does not move the beam, the PPU is then ticked exactly 3 * used
    times, and the rest of the pass does not move the beam; the APU's
    frame sequencer is given exactly [used] cycles, and while the
    accumulator stays below the sequencer's first boundary, 3729, it has
    advanced by exactly [used].  What the sequencer makes of the
    accumulator at its boundaries is not part of this statement. *)
Theorem run_cycles_advance (s : NES) (n : Z) :
  pos_ok (ppu s) ->
  (exists us s',
     nes_run_loop (Z.to_nat n) n s = Some (us, s')
     /\ nes_run_cycles s n = s'
     /\ pos_ok (ppu s')
     /\ idx (ppu s')
        = (idx (ppu s) + 3 * total us
           + Z.of_nat (run_skips (Z.to_nat n) n s)) mod (341 * 262))
  /\ (let used := fst (cpu_step s) in
      let s1 := snd (cpu_step s) in
      let s2 := snd (nes_iteration s) in
      fst (nes_iteration s) = used
      /\ same_beam (ppu s) (ppu s1)
      /\ same_beam (Ppu.ppu_steps (Z.to_nat (used * 3)) (cart s1) (ppu s1))
           (ppu s2)
      /\ match apu s1, apu s2 with
         | Some a1, Some a2 =>
             cpu_cycle_mod a2 = cpu_cycle_mod (apu_frame_sequencer a1 used)
             /\ (cpu_cycle_mod a1 + used < 3729 ->
                 cpu_cycle_mod a2 = cpu_cycle_mod a1 + used)
         | None, None => True
         | _, _ => False
         end).
Proof.
  intros Hp. split.
  - destruct (run_cycles_spec s n) as (us & s' & E & R & _ & _ & _ & _ & H).
    destruct (H Hp) as [Hp' Hi].
    exists us, s'. repeat split; try assumption; apply Hp'.
  - cbv zeta. split; [apply iteration_fst|].
    destruct (cpu_step_frame s) as [_ [_ B1]]. split; [exact B1|].
    split; [|apply iteration_accumulator].
    rewrite iteration_snd. apply after_step_spec.
Qed.

End WithFloats.

(** From power-on with [Examples.spin], in the JMP loop with the
    background enabled: a run of three cycles is one JMP; no skip fires
    and the dot counter goes from 18 to 27; with sound, the accumulator
    goes from 6 to 9. *)
Lemma run_cycles_advance_witness :
  idx (ppu (nes_run_cycles Examples.booted 3)) = 27
  /\ option_map cpu_cycle_mod (apu (snd (nes_iteration Examples.booted_loud)))
     = Some 9.
Proof.
  split.
  - destruct (run_cycles_advance Examples.booted 3)
      as [(us & s' & E & <- & _ & I) _].
    + vm_compute. repeat split; discriminate || reflexivity.
    + assert (Hus : option_map fst
                      (nes_run_loop (Z.to_nat 3) 3 Examples.booted)
                    = Some [3]) by (vm_compute; reflexivity).
      rewrite E in Hus. cbn [option_map fst] in Hus.
      injection Hus as ->.
      assert (Hk : run_skips (Z.to_nat 3) 3 Examples.booted = 0%nat)
        by (vm_compute; reflexivity).
      assert (H0 : idx (ppu Examples.booted) = 18)
        by (vm_compute; reflexivity).
      rewrite Hk, H0 in I. exact I.
  - destruct (run_cycles_advance Examples.booted_loud 3) as [_ H].
    + vm_compute. repeat split; discriminate || reflexivity.
    + cbv zeta in H. destruct H as (_ & _ & _ & H).
      set (x := apu (snd (cpu_step Examples.booted_loud))) in *.
      set (y := apu (snd (nes_iteration Examples.booted_loud))) in *.
      set (u := fst (cpu_step Examples.booted_loud)) in *.
      assert (H1 : option_map cpu_cycle_mod x = Some 6)
        by (vm_compute; reflexivity).
      assert (Hu : u = 3) by (vm_compute; reflexivity).
      clearbody x y u. subst u.
      destruct x as [a1|]; [|discriminate].
      destruct y as [a2|]; [|contradiction].
      cbn [option_map] in H1 |- *. injection H1 as H1.
      destruct H as [_ H]. rewrite H by (rewrite H1; lia).
      rewrite H1. reflexivity.
Defined.

(** C2 as stated fails on reachable states with rendering enabled, for
    the beam and for the accumulator.
    The beam: [Examples.booted] is the console after power-on, reset and
    the first two instructions of the program; rendering is enabled and
    the dot counter is 18.  A run of 59445 cycles executes JMPs of 3
    cycles, 59445 cycles in all, over the end of the first frame and dot
    0 of the pre-render line of the second, odd, frame, where one dot is
    skipped: the dot counter ends at 89012, one more than
    (18 + 3 * 59445) mod (341 * 262).
    The accumulator: [Examples.booted_loud] is the same console with
    sound; rendering is enabled and the accumulator is 6.  A run of 3750
    cycles executes JMPs of 3750 cycles in all, and the accumulator ends
    at 27, not at 6 + 3750. *)
Lemma run_cycles_counts_differ :
  let b := Examples.booted in
  let t := Examples.booted_loud in
  (nz (Z.land (Ppu.ppumask (ppu b)) 0x18) = true
   /\ idx (ppu b) = 18
   /\ option_map (fun r => (total (fst r), idx (ppu (snd r))))
        (nes_run_loop (Z.to_nat 59445) 59445 b) = Some (59445, 89012)
   /\ (18 + 3 * 59445) mod (341 * 262) = 89011)
  /\ (nz (Z.land (Ppu.ppumask (ppu t)) 0x18) = true
      /\ option_map cpu_cycle_mod (apu t) = Some 6
      /\ option_map
           (fun r => (total (fst r), option_map cpu_cycle_mod (apu (snd r))))
           (nes_run_loop (Z.to_nat 3750) 3750 t) = Some (3750, Some 27)
      /\ 6 + 3750 = 3756).
Proof.
  cbv zeta.
  repeat match goal with |- _ /\ _ => split end; vm_compute; reflexivity.
Qed.

End Timing.

(** ** apu.c: the DMC channel *)

Module DmcFacts.

Import Controller Cart Apu Nes Props BusFacts CpuLogic TickFacts NesFacts
  RunFacts.

Section WithFloats.
Context {fm : FloatModel}.

Lemma wiring_unwired (s s' : NES) :
  same_wiring (apu s) (apu s') -> unwired s -> unwired s'.
Proof.
  unfold unwired, same_wiring.
  destruct (apu s) as [a|], (apu s') as [a'|]; try contradiction; auto.
  intros -> H. exact H.
Qed.

(** [apu_connect_bus] stores nothing: the console as initialised has no
    bus in its APU, and no entry point puts one there. *)
Lemma reachable_unwired (rom : Cartridge) (ops : list machine_op) :
  unwired (run_ops ops (nes_load_rom (nes_init true) rom)).
Proof.
  apply (wiring_unwired (nes_load_rom (nes_init true) rom)).
  - apply run_ops_frame.
  - reflexivity.
Qed.

(** The reload and the output step leave the sample reader alone. *)
Lemma output_after_reload (a : APU) :
  let a' := dmc_output_bit (dmc_reload a) in
  dmc_remaining a' = dmc_remaining a
  /\ dmc_cur_addr a' = dmc_cur_addr a
  /\ dmc_irq_flag a' = dmc_irq_flag a
  /\ dmc_buffer a' = dmc_buffer a
  /\ dmc_buffer_full a' = false
  /\ bus_linked a' = bus_linked a.
Proof.
  cbv zeta. unfold dmc_output_bit, dmc_reload.
  destruct (dmc_buffer_full a) eqn:E; cbv zeta;
    repeat break_if; cbn; rewrite ?E; repeat split; reflexivity.
Qed.

Lemma reload_empty (a : APU) :
  dmc_buffer_full a = false ->
  dmc_shift_reg (dmc_output_bit (dmc_reload a)) = 0x7F
  /\ dmc_bits_remaining (dmc_output_bit (dmc_reload a)) = 7.
Proof.
  intros E. unfold dmc_reload. rewrite E. cbv zeta.
  set (a1 := set_dmc_bits_remaining 8 (set_dmc_shift_reg 0xFF a)).
  unfold dmc_output_bit. cbv zeta.
  change (nz (Z.land (dmc_shift_reg a1) 1)) with true. cbv iota.
  destruct (dmc_output a1 <=? 125); split; reflexivity.
Qed.

(** With no bus the DMC clock is the reload and the output step. *)
Lemma dmc_clock_unwired (s : NES) (a : APU) :
  apu s = Some a -> bus_linked a = false -> dmc_bits_remaining a = 0 ->
  dmc_clock s = with_apu (Some (dmc_output_bit (dmc_reload a))) s.
Proof.
  intros E Hl Hb. unfold dmc_clock. rewrite E, Hb, Hl.
  rewrite andb_false_r. cbn [Z.eqb andb]. cbv zeta.
  unfold on_apu. rewrite E. cbn [apu with_apu]. reflexivity.
Qed.

(** What the fetch stores: the byte read, the address stepped with wrap
    to 0x8000, one byte less remaining, and the IRQ flag when that was
    the last byte and the IRQ is enabled. *)
Lemma dmc_store_spec (b : Z) (a : APU) :
  let a' := dmc_store b a in
  dmc_buffer a' = b /\ dmc_buffer_full a' = true
  /\ dmc_cur_addr a'
     = (if u16 (dmc_cur_addr a + 1) =? 0 then 0x8000
        else u16 (dmc_cur_addr a + 1))
  /\ dmc_remaining a' = u16 (dmc_remaining a - 1)
  /\ dmc_irq_flag a'
     = ((u16 (dmc_remaining a - 1) =? 0) && dmc_irq_enable a
        || dmc_irq_flag a).
Proof.
  cbv zeta. unfold dmc_store. cbv zeta.
  set (a1 := set_dmc_cur_addr _ _).
  change (dmc_cur_addr a1) with (u16 (dmc_cur_addr a + 1)).
  destruct (u16 (dmc_cur_addr a + 1) =? 0).
  - set (a2 := set_dmc_remaining _ _).
    change (dmc_remaining a2) with (u16 (dmc_remaining a - 1)).
    change (dmc_irq_enable a2) with (dmc_irq_enable a).
    destruct ((u16 (dmc_remaining a - 1) =? 0) && dmc_irq_enable a);
      repeat split; reflexivity.
  - set (a2 := set_dmc_remaining _ _).
    change (dmc_remaining a2) with (u16 (dmc_remaining a - 1)).
    change (dmc_irq_enable a2) with (dmc_irq_enable a).
    destruct ((u16 (dmc_remaining a - 1) =? 0) && dmc_irq_enable a);
      repeat split; reflexivity.
Qed.

Lemma reload_full (a : APU) :
  dmc_buffer_full a = true ->
  dmc_shift_reg (dmc_output_bit (dmc_reload a))
  = u8 (Z.shiftr (dmc_buffer a) 1).
Proof.
  intros E. unfold dmc_reload. rewrite E. cbv zeta.
  set (a1 := set_dmc_buffer_full false _).
  unfold dmc_output_bit. cbv zeta.
  change (dmc_bits_remaining a1) with 8.
  change (dmc_shift_reg a1) with (dmc_buffer a).
  repeat break_if; reflexivity.
Qed.

(** With a bus, an empty buffer and bytes remaining, the DMC clock
    fetches as the sample reader should (from a sample address in
    cartridge space, where a read changes nothing). *)
Lemma dmc_clock_wired (s : NES) (a : APU) :
  apu s = Some a -> bus_linked a = true -> dmc_bits_remaining a = 0 ->
  dmc_buffer_full a = false -> dmc_remaining a > 0 ->
  0x8000 <= dmc_cur_addr a <= 0xFFFF ->
  exists a',
    apu (dmc_clock s) = Some a'
    /\ dmc_shift_reg a'
       = u8 (Z.shiftr (cart_cpu_read (cart s) (dmc_cur_addr a)) 1)
    /\ dmc_cur_addr a'
       = (if u16 (dmc_cur_addr a + 1) =? 0 then 0x8000
          else u16 (dmc_cur_addr a + 1))
    /\ dmc_remaining a' = u16 (dmc_remaining a - 1)
    /\ dmc_irq_flag a'
       = ((u16 (dmc_remaining a - 1) =? 0) && dmc_irq_enable a
          || dmc_irq_flag a).
Proof.
  intros E Hl Hb Hf Hr Ha. unfold dmc_clock. rewrite E, Hb, Hl, Hf.
  destruct (Z.gtb_spec (dmc_remaining a) 0) as [_|]; [|lia].
  cbn [Z.eqb andb negb]. cbv zeta.
  assert (R : bus_cpu_read s (dmc_cur_addr a)
              = (cart_cpu_read (cart s) (dmc_cur_addr a), s)).
  { unfold bus_cpu_read.
    destruct (Z.leb_spec (dmc_cur_addr a) 0x1FFF); [lia|].
    destruct (Z.leb_spec (dmc_cur_addr a) 0x3FFF); [lia|].
    destruct (Z.eqb_spec (dmc_cur_addr a) 0x4016); [lia|].
    destruct (Z.eqb_spec (dmc_cur_addr a) 0x4017); [lia|].
    destruct (Z.leb_spec (dmc_cur_addr a) 0x4017); [lia|].
    rewrite andb_false_r.
    destruct (Z.geb_spec (dmc_cur_addr a) 0x6000); [reflexivity|lia]. }
  unfold dmc_fetch. rewrite E, R. unfold on_apu. rewrite E.
  cbn [apu with_apu].
  set (b := cart_cpu_read (cart s) (dmc_cur_addr a)).
  destruct (dmc_store_spec b a) as (S1 & S2 & S3 & S4 & S5).
  set (a1 := dmc_store b a) in *. clearbody a1.
  destruct (output_after_reload a1) as (O1 & O2 & O3 & _).
  pose proof (reload_full a1 S2) as O4.
  eexists. split; [reflexivity|].
  rewrite O4, O1, O2, O3, S1, S3, S4, S5. repeat split; reflexivity.
Qed.

(** C4, as the code has it.  A console initialised with sound has no
    bus in its APU, whatever cartridge is loaded and whatever is run on
    it, and no write through the bus puts one there.  In such a state a
    DMC clock that finds the shift register empty fetches nothing: the
    state changes in the APU only, bytes-remaining, the sample address,
    the DMC IRQ flag and the sample buffer are as before, and with the
    buffer empty the shift register is reloaded with 0xFF (0x7F after
    the output step).  Only with a bus, which no reachable state has,
    does the clock fetch the byte at the sample address, step the
    address with wrap to 0x8000, decrement bytes-remaining and raise the
    IRQ flag on the last byte when the IRQ is enabled. *)
Theorem dmc_clock_without_bus (rom : Cartridge) (ops : list machine_op)
    (s : NES) (a : APU) :
  unwired (run_ops ops (nes_load_rom (nes_init true) rom))
  /\ (forall addr x, unwired s -> unwired (bus_cpu_write s addr x))
  /\ (apu s = Some a -> bus_linked a = false -> dmc_bits_remaining a = 0 ->
      exists a',
        dmc_clock s = with_apu (Some a') s
        /\ dmc_remaining a' = dmc_remaining a
        /\ dmc_cur_addr a' = dmc_cur_addr a
        /\ dmc_irq_flag a' = dmc_irq_flag a
        /\ dmc_buffer a' = dmc_buffer a
        /\ dmc_buffer_full a' = false
        /\ (dmc_buffer_full a = false ->
            dmc_shift_reg a' = 0x7F /\ dmc_bits_remaining a' = 7))
  /\ (apu s = Some a -> bus_linked a = true -> dmc_bits_remaining a = 0 ->
      dmc_buffer_full a = false -> dmc_remaining a > 0 ->
      0x8000 <= dmc_cur_addr a <= 0xFFFF ->
      exists a',
        apu (dmc_clock s) = Some a'
        /\ dmc_shift_reg a'
           = u8 (Z.shiftr (cart_cpu_read (cart s) (dmc_cur_addr a)) 1)
        /\ dmc_cur_addr a'
           = (if u16 (dmc_cur_addr a + 1) =? 0 then 0x8000
              else u16 (dmc_cur_addr a + 1))
        /\ dmc_remaining a' = u16 (dmc_remaining a - 1)
        /\ dmc_irq_flag a'
           = ((u16 (dmc_remaining a - 1) =? 0) && dmc_irq_enable a
              || dmc_irq_flag a)).
Proof.
  split; [apply reachable_unwired|]. split; [|split].
  - intros addr x. apply wiring_unwired.
    destruct (bus_cpu_write_frame s addr x) as [[_ W] _]. exact W.
  - intros E Hl Hb. exists (dmc_output_bit (dmc_reload a)).
    split; [now apply dmc_clock_unwired|].
    destruct (output_after_reload a) as (H1 & H2 & H3 & H4 & H5 & _).
    repeat split; try assumption; now apply reload_empty.
  - apply dmc_clock_wired.
Qed.

End WithFloats.

(** On [Examples.dmc_armed] (DMC enabled, IRQ enabled, 17 bytes to play
    from $C000, shift register empty) a DMC clock fetches nothing: 17
    bytes remain, the address is still $C000, the buffer is still empty
    and the shift register holds 0x7F. *)
Lemma dmc_clock_without_bus_witness :
  exists a',
    dmc_clock Examples.dmc_armed = with_apu (Some a') Examples.dmc_armed
    /\ dmc_enabled a' = true /\ dmc_irq_enable a' = true
    /\ dmc_remaining a' = 17 /\ dmc_cur_addr a' = 0xC000
    /\ dmc_buffer_full a' = false /\ dmc_shift_reg a' = 0x7F.
Proof.
  destruct (dmc_clock_without_bus (fm := Examples.silent) cart_empty []
              Examples.dmc_armed Examples.armed) as (_ & _ & H & _).
  destruct H as (a' & E & H1 & H2 & _ & _ & H5 & H6);
    [reflexivity|reflexivity|reflexivity|].
  exists a'. split; [exact E|].
  assert (Ea : apu (dmc_clock Examples.dmc_armed) = Some a')
    by (rewrite E; reflexivity).
  assert (Ee : option_map dmc_enabled (apu (dmc_clock Examples.dmc_armed))
               = Some true) by (vm_compute; reflexivity).
  assert (Ei : option_map dmc_irq_enable
                 (apu (dmc_clock Examples.dmc_armed)) = Some true)
    by (vm_compute; reflexivity).
  rewrite Ea in Ee, Ei. cbn [option_map] in Ee, Ei.
  injection Ee as Ee. injection Ei as Ei.
  destruct (H6 eq_refl) as [H7 _].
  repeat split; try assumption.
Defined.

End DmcFacts.

(** * Further properties of the sources *)

(** ** Checking a bounded range by evaluation *)

Module Finite.

Import Props2.

Lemma all_from_spec (n : nat) (f : Z -> bool) :
  forall lo, all_from n lo f = true ->
  forall x, lo <= x < lo + Z.of_nat n -> f x = true.
Proof.
  induction n as [|k IH]; intros lo H x Hx; [lia|].
  cbn [all_from] in H. apply andb_true_iff in H. destruct H as [H0 H1].
  destruct (Z.eq_dec x lo) as [->|Hne]; [exact H0|].
  apply (IH (lo + 1) H1). lia.
Qed.

Lemma range_forall (n : Z) (f : Z -> bool) :
  all_below n f = true -> forall x, 0 <= x < n -> f x = true.
Proof.
  intros H x Hx. apply (all_from_spec (Z.to_nat n) f 0 H). lia.
Qed.

Lemma range_forall2 (n m : Z) (f : Z -> Z -> bool) :
  all_below n (fun x => all_below m (f x)) = true ->
  forall x y, 0 <= x < n -> 0 <= y < m -> f x y = true.
Proof.
  intros H x y Hx Hy.
  apply (range_forall m (f x)); [|exact Hy].
  exact (range_forall n _ H x Hx).
Qed.

End Finite.

(** ** util.h *)

Module UtilFacts.

Import Finite.

Lemma word_split (v : Z) : 0 <= v < 65536 -> make16 (lo8 v) (hi8 v) = v.
Proof.
  intros H. apply Z.eqb_eq.
  exact (range_forall 65536 (fun v => make16 (lo8 v) (hi8 v) =? v)
           ltac:(vm_compute; reflexivity) v H).
Qed.

Lemma word_join (lo hi : Z) :
  0 <= lo < 256 -> 0 <= hi < 256 ->
  lo8 (make16 lo hi) = lo /\ hi8 (make16 lo hi) = hi.
Proof.
  intros Hl Hh.
  pose proof (range_forall2 256 256
    (fun lo hi => (lo8 (make16 lo hi) =? lo) && (hi8 (make16 lo hi) =? hi))
    ltac:(vm_compute; reflexivity) lo hi Hl Hh) as H.
  apply andb_true_iff in H. destruct H as [H1 H2].
  split; apply Z.eqb_eq; assumption.
Qed.

Lemma page_of (a : Z) : 0 <= a < 65536 -> Z.land a 0xFF00 = 256 * (a / 256).
Proof.
  intros H. apply Z.eqb_eq.
  exact (range_forall 65536 (fun a => Z.land a 0xFF00 =? 256 * (a / 256))
           ltac:(vm_compute; reflexivity) a H).
Qed.

(** X1.  On 16-bit words and bytes, [make16], [lo8] and [hi8] are inverse
    to each other, and [page_crossed] holds exactly when the two
    addresses differ in their high byte. *)
Theorem words_and_pages (v a b lo hi : Z) :
  0 <= v < 65536 -> 0 <= a < 65536 -> 0 <= b < 65536 ->
  0 <= lo < 256 -> 0 <= hi < 256 ->
  make16 (lo8 v) (hi8 v) = v
  /\ lo8 (make16 lo hi) = lo /\ hi8 (make16 lo hi) = hi
  /\ 0 <= make16 lo hi < 65536
  /\ page_crossed a b = negb (a / 256 =? b / 256).
Proof.
  intros Hv Ha Hb Hl Hh.
  split; [now apply word_split|].
  destruct (word_join lo hi Hl Hh) as [H1 H2].
  split; [exact H1|]. split; [exact H2|].
  split; [unfold make16, u16; apply Z.mod_pos_bound; lia|].
  unfold page_crossed. rewrite !page_of by assumption. f_equal.
  destruct (Z.eqb_spec (256 * (a / 256)) (256 * (b / 256)));
    destruct (Z.eqb_spec (a / 256) (b / 256)); try reflexivity; lia.
Qed.

Lemma words_and_pages_witness :
  make16 (lo8 0x12FF) (hi8 0x12FF) = 0x12FF
  /\ lo8 (make16 0x34 0x12) = 0x34 /\ hi8 (make16 0x34 0x12) = 0x12
  /\ 0 <= make16 0x34 0x12 < 65536
  /\ page_crossed 0x12FF 0x1300 = negb (0x12FF / 256 =? 0x1300 / 256).
Proof.
  apply (words_and_pages 0x12FF 0x12FF 0x1300 0x34 0x12); lia.
Defined.

End UtilFacts.

(** ** cartridge.c: the mapping helpers *)

Module CartFacts.

Import Cart Props Bits.

Lemma rom_read (c : Cartridge) (m : mem) (a : Z) :
  prg_rom c = Some m -> 0 < prg_rom_size c -> 0x8000 <= a ->
  cart_cpu_read c a = m ((a - 0x8000) mod prg_rom_size c).
Proof.
  intros Hm Hs Ha. unfold cart_cpu_read.
  destruct (Z.geb_spec a 0x6000); [|lia].
  destruct (Z.leb_spec a 0x7FFF); [lia|]. cbn [andb].
  destruct (Z.geb_spec a 0x8000); [|lia].
  rewrite Hm. destruct (Z.eqb_spec (prg_rom_size c) 0); [lia|].
  cbv zeta. f_equal.
  destruct (Z.eqb_spec (prg_rom_size c) (16 * 1024)) as [E|_].
  - rewrite E. apply Z.rem_mod_nonneg; lia.
  - apply Z.rem_mod_nonneg; lia.
Qed.

(** X2.  A read of $8000-$FFFF returns the PRG ROM byte at the offset
    taken modulo the ROM size; so a 16 KB ROM appears twice, at $8000 and
    at $C000.  With no PRG ROM every such read returns 0. *)
Theorem prg_rom_banks (c : Cartridge) (m : mem) (a : Z) :
  prg_rom c = Some m -> 0 < prg_rom_size c -> 0x8000 <= a <= 0xFFFF ->
  cart_cpu_read c a = m ((a - 0x8000) mod prg_rom_size c)
  /\ (prg_rom_size c = 0x4000 -> a < 0xC000 ->
      cart_cpu_read c (a + 0x4000) = cart_cpu_read c a)
  /\ cart_cpu_read (set_prg_rom None c) a = 0
  /\ cart_cpu_read (set_prg_rom_size 0 c) a = 0.
Proof.
  intros Hm Hs Ha. split; [apply rom_read; solve [assumption|lia]|].
  split; [|split].
  - intros E Hlt. rewrite !(rom_read c m) by solve [assumption|lia].
    rewrite E. f_equal.
    replace (a + 0x4000 - 0x8000) with (a - 0x8000 + 1 * 0x4000) by lia.
    apply Z.mod_add. lia.
  - unfold cart_cpu_read.
    destruct (Z.geb_spec a 0x6000); [|lia].
    destruct (Z.leb_spec a 0x7FFF); [lia|]. cbn [andb].
    destruct (Z.geb_spec a 0x8000); [reflexivity|lia].
  - unfold cart_cpu_read.
    destruct (Z.geb_spec a 0x6000); [|lia].
    destruct (Z.leb_spec a 0x7FFF); [lia|]. cbn [andb].
    destruct (Z.geb_spec a 0x8000); [|lia].
    cbn [prg_rom set_prg_rom_size prg_rom_size]. rewrite Hm. reflexivity.
Qed.

Lemma prg_rom_banks_witness :
  cart_cpu_read Examples.spin 0xC005 = cart_cpu_read Examples.spin 0x8005.
Proof.
  destruct (prg_rom_banks Examples.spin Examples.spin_prg 0x8005)
    as (_ & H & _); [reflexivity|reflexivity|lia|].
  apply H; [reflexivity|lia].
Defined.

(** X3.  PRG RAM at $6000-$7FFF keeps what is written: a read after a
    write returns the written byte at the written address and what was
    there before at every other cartridge address, ROM included.  A write
    to any other address leaves the cartridge as it is. *)
Theorem prg_ram_round_trip (c : Cartridge) (m : mem) (a b x : Z) :
  prg_ram c = Some m -> prg_ram_size c <> 0 ->
  (0x6000 <= a <= 0x7FFF ->
   cart_cpu_read (cart_cpu_write c a x) b
   = if (b =? a) then x else cart_cpu_read c b)
  /\ (~ 0x6000 <= a <= 0x7FFF -> cart_cpu_write c a x = c).
Proof.
  intros Hm Hs. split.
  - intros Ha. unfold cart_cpu_write.
    destruct (Z.geb_spec a 0x6000); [|lia].
    destruct (Z.leb_spec a 0x7FFF); [|lia]. cbn [andb].
    rewrite Hm. unfold nz. destruct (Z.eqb_spec (prg_ram_size c) 0); [lia|].
    cbn [negb]. unfold cart_cpu_read.
    cbn [prg_ram prg_ram_size prg_rom prg_rom_size set_prg_ram].
    rewrite Hm. unfold nz. destruct (Z.eqb_spec (prg_ram_size c) 0); [lia|].
    cbn [negb].
    destruct ((b >=? 0x6000) && (b <=? 0x7FFF)) eqn:Eb.
    + unfold upd.
      destruct (Z.eqb_spec (b - 0x6000) (a - 0x6000));
        destruct (Z.eqb_spec b a); try lia; reflexivity.
    + destruct (Z.eqb_spec b a) as [->|]; [|reflexivity].
      destruct (Z.geb_spec a 0x6000); [|lia].
      destruct (Z.leb_spec a 0x7FFF); [|lia]. discriminate.
  - intros Ha. unfold cart_cpu_write.
    destruct (Z.geb_spec a 0x6000); [|reflexivity].
    destruct (Z.leb_spec a 0x7FFF); [lia|reflexivity].
Qed.

Lemma prg_ram_round_trip_witness :
  cart_cpu_read (cart_cpu_write Examples.spin 0x6010 0xAB) 0x6010 = 0xAB.
Proof.
  destruct (prg_ram_round_trip Examples.spin zeros 0x6010 0x6010 0xAB)
    as [H _]; [reflexivity|simpl; lia|].
  apply H. lia.
Defined.

End CartFacts.

(** ** cartridge.c: the loader *)

Module LoaderFacts.

Import Cart Loader Props Bits CartFacts Finite.

Lemma bytes_ok_nth (l : list Z) (i : nat) :
  bytes_ok l -> 0 <= nth i l 0 < 256.
Proof.
  intros H. destruct (Nat.lt_ge_cases i (length l)) as [Hi|Hi].
  - unfold bytes_ok in H. rewrite Forall_forall in H.
    apply H. now apply nth_In.
  - rewrite nth_overflow by assumption. lia.
Qed.

Lemma mem_of_firstn (n : nat) (l : list Z) (i : Z) :
  0 <= i < Z.of_nat n -> mem_of (firstn n l) i = nth (Z.to_nat i) l 0.
Proof.
  intros H. unfold mem_of. rewrite nth_firstn.
  destruct (Nat.ltb_spec (Z.to_nat i) n); [reflexivity|lia].
Qed.

(** Mapper 0 in the two flag bytes. *)
Lemma mapper_zero (f6 f7 : Z) :
  0 <= f6 < 256 -> 0 <= f7 < 256 ->
  (u8 (Z.lor (Z.land (Z.shiftr f6 4) 0x0F) (Z.land f7 0xF0)) =? 0)
  = (f6 <? 16) && (f7 <? 16).
Proof.
  intros H6 H7. apply Bool.eqb_prop.
  exact (range_forall2 256 256
    (fun f6 f7 =>
       Bool.eqb
         (u8 (Z.lor (Z.land (Z.shiftr f6 4) 0x0F) (Z.land f7 0xF0)) =? 0)
         ((f6 <? 16) && (f7 <? 16)))
    ltac:(vm_compute; reflexivity) f6 f7 H6 H7).
Qed.

Lemma trainer_bit (f6 : Z) : nz (Z.land f6 0x04) = Z.testbit f6 2.
Proof. exact (nz_land_pow2 f6 2 ltac:(lia)). Qed.

(** What a successful load has checked and produced. *)
Lemma load_inv (bytes : list Z) (c : Cartridge) :
  bytes_ok bytes -> cartridge_load (Some bytes) = Loaded c ->
  let f6 := nth 6 bytes 0 in
  let skip := if Z.testbit f6 2 then 512%nat else 0%nat in
  let rest := skipn skip (skipn 16 bytes) in
  let psize := nth 4 bytes 0 * 16 * 1024 in
  let csize := nth 5 bytes 0 * 8 * 1024 in
  (16 <= length bytes)%nat
  /\ header_is_nes (header_of bytes) = true
  /\ f6 < 16 /\ nth 7 bytes 0 < 16
  /\ 0 < psize /\ (Z.to_nat psize <= length rest)%nat
  /\ (c = mkCartridge (Some (mem_of (firstn (Z.to_nat psize) rest))) psize
            (Some zeros) (8 * 1024) true (Some zeros) (8 * 1024) 0
            (if nz (Z.land f6 0x08) then MIRROR_FOUR
             else if nz (Z.land f6 0x01) then MIRROR_VERTICAL
             else MIRROR_HORIZONTAL)
      /\ csize = 0
      \/ c = mkCartridge (Some (mem_of (firstn (Z.to_nat psize) rest))) psize
              (Some (mem_of (firstn (Z.to_nat csize)
                               (skipn (Z.to_nat psize) rest))))
              csize false (Some zeros) (8 * 1024) 0
              (if nz (Z.land f6 0x08) then MIRROR_FOUR
               else if nz (Z.land f6 0x01) then MIRROR_VERTICAL
               else MIRROR_HORIZONTAL)
         /\ 0 < csize
         /\ (Z.to_nat csize <= length (skipn (Z.to_nat psize) rest))%nat).
Proof.
  intros Hb. unfold cartridge_load.
  pose proof (bytes_ok_nth bytes 4 Hb) as H4.
  pose proof (bytes_ok_nth bytes 5 Hb) as H5.
  pose proof (bytes_ok_nth bytes 6 Hb) as H6.
  pose proof (bytes_ok_nth bytes 7 Hb) as H7.
  destruct (Nat.ltb_spec (length bytes) 16) as [|Hlen]; [discriminate|].
  cbv zeta.
  destruct (header_is_nes (header_of bytes)) eqn:Hm; [|discriminate].
  cbn [negb flags6 flags7 header_of prg_rom_16k_units chr_rom_8k_units].
  rewrite (mapper_zero _ _ H6 H7), trainer_bit.
  destruct (Z.ltb_spec (nth 6 bytes 0) 16) as [H6'|]; [|discriminate].
  destruct (Z.ltb_spec (nth 7 bytes 0) 16) as [H7'|]; [|discriminate].
  cbn [andb negb].
  set (rest := if Z.testbit (nth 6 bytes 0) 2
               then skipn 512 (skipn 16 bytes) else skipn 16 bytes).
  assert (Er : rest = skipn (if Z.testbit (nth 6 bytes 0) 2
                             then 512%nat else 0%nat) (skipn 16 bytes))
    by (subst rest; destruct (Z.testbit (nth 6 bytes 0) 2); reflexivity).
  rewrite <- Er. clearbody rest.
  destruct (Z.eqb_spec (nth 4 bytes 0 * 16 * 1024) 0) as [|Hp]; [discriminate|].
  destruct (Nat.ltb_spec (length rest) (Z.to_nat (nth 4 bytes 0 * 16 * 1024)))
    as [|Hl]; [discriminate|].
  assert (Eu : u8 (Z.lor (Z.land (Z.shiftr (nth 6 bytes 0) 4) 0x0F)
                      (Z.land (nth 7 bytes 0) 0xF0)) = 0).
  { apply Z.eqb_eq. rewrite (mapper_zero _ _ H6 H7).
    destruct (Z.ltb_spec (nth 6 bytes 0) 16); [|lia].
    destruct (Z.ltb_spec (nth 7 bytes 0) 16); [reflexivity|lia]. }
  rewrite Eu.
  destruct (Z.eqb_spec (nth 5 bytes 0 * 8 * 1024) 0) as [Hc|Hc].
  - intros E. injection E as <-.
    repeat (split; [first [assumption|lia]|]). left. split; [reflexivity|assumption].
  - destruct (Nat.ltb_spec (length (skipn (Z.to_nat (nth 4 bytes 0 * 16 * 1024))
                                      rest))
                (Z.to_nat (nth 5 bytes 0 * 8 * 1024))) as [|Hl2]; [discriminate|].
    intros E. injection E as <-.
    repeat (split; [first [assumption|lia]|]). right.
    split; [reflexivity|]. split; [lia|assumption].
Qed.

Lemma nth_rest (bytes : list Z) (skip : nat) (i : Z) :
  0 <= i ->
  nth (Z.to_nat i) (skipn skip (skipn 16 bytes)) 0
  = nth (Z.to_nat (16 + Z.of_nat skip + i)) bytes 0.
Proof.
  intros Hi. rewrite !nth_skipn. f_equal. lia.
Qed.

(** X4.  After a successful load of an iNES file, the CPU reads the
    file's PRG bytes: the byte at $8000 + i is the file byte at offset
    16 (+ 512 when the trainer bit of flags 6 is set) + i modulo the PRG
    size, which is 16 KB times header byte 4; the mapper is 0, the
    mirroring is four-screen if flags6.bit3, else vertical if
    flags6.bit0, else horizontal; and the 8 KB of PRG RAM at $6000-$7FFF
    read as 0. *)
Theorem load_then_read (bytes : list Z) (c : Cartridge) (a : Z) :
  bytes_ok bytes -> cartridge_load (Some bytes) = Loaded c ->
  0x8000 <= a <= 0xFFFF ->
  let f6 := nth 6 bytes 0 in
  let skip := if Z.testbit f6 2 then 512 else 0 in
  let psize := 16384 * nth 4 bytes 0 in
  prg_rom_size c = psize /\ 0 < psize
  /\ mapper c = 0
  /\ cmirror c = (if Z.testbit f6 3 then MIRROR_FOUR
                  else if Z.testbit f6 0 then MIRROR_VERTICAL
                  else MIRROR_HORIZONTAL)
  /\ cart_cpu_read c a
     = nth (Z.to_nat (16 + skip + (a - 0x8000) mod psize)) bytes 0
  /\ (forall b, 0x6000 <= b <= 0x7FFF -> cart_cpu_read c b = 0).
Proof.
  intros Hb Hl Ha f6 skip psize.
  destruct (load_inv bytes c Hb Hl)
    as (Hlen & _ & _ & _ & Hp & Hr & Hc).
  fold f6 in Hr, Hc.
  set (m := mem_of (firstn (Z.to_nat (nth 4 bytes 0 * 16 * 1024))
              (skipn (if Z.testbit f6 2 then 512%nat else 0%nat)
                 (skipn 16 bytes)))) in *.
  assert (Hf : prg_rom c = Some m /\ prg_rom_size c = psize
               /\ mapper c = 0
               /\ cmirror c = (if nz (Z.land f6 0x08) then MIRROR_FOUR
                               else if nz (Z.land f6 0x01) then MIRROR_VERTICAL
                               else MIRROR_HORIZONTAL)
               /\ prg_ram c = Some zeros).
  { destruct Hc as [[-> _]|[-> _]];
      cbn [prg_rom prg_rom_size mapper cmirror prg_ram];
      (split; [reflexivity|split; [subst psize; lia|
        split; [reflexivity|split; reflexivity]]]). }
  destruct Hf as (Hm & Hs & Hmap & Hmir & Hram).
  split; [exact Hs|]. split; [subst psize; lia|]. split; [exact Hmap|].
  split.
  { rewrite Hmir. change 0x08 with (2 ^ 3). change 0x01 with (2 ^ 0).
    rewrite !nz_land_pow2 by lia. reflexivity. }
  split.
  - rewrite (rom_read c m a Hm) by lia. rewrite Hs.
    pose proof (Z.mod_pos_bound (a - 0x8000) psize ltac:(subst psize; lia))
      as Hmod.
    subst m. rewrite mem_of_firstn by (subst psize; lia).
    rewrite nth_rest by lia. f_equal. f_equal.
    subst skip. destruct (Z.testbit f6 2); lia.
  - intros b Hb'. unfold cart_cpu_read.
    destruct (Z.geb_spec b 0x6000); [|lia].
    destruct (Z.leb_spec b 0x7FFF); [|lia]. cbn [andb].
    rewrite Hram. destruct (nz (prg_ram_size c)); reflexivity.
Qed.

(** The header test as a test on the first four bytes. *)
Lemma magic_iff (bytes : list Z) :
  (16 <= length bytes)%nat ->
  header_is_nes (header_of bytes) = true
  <-> firstn 4 bytes = [0x4E; 0x45; 0x53; 0x1A].
Proof.
  intros Hlen. unfold header_is_nes, header_of.
  cbn [magic0 magic1 magic2 magic3].
  destruct bytes as [|b0 [|b1 [|b2 [|b3 r]]]]; cbn [length] in Hlen; try lia.
  cbn [nth firstn]. rewrite !andb_true_iff, !Z.eqb_eq. split.
  - intros [[[-> ->] ->] ->]. reflexivity.
  - intros E. injection E as -> -> -> ->. repeat split.
Qed.

Lemma accepts_iff (bytes : list Z) :
  bytes_ok bytes ->
  let f6 := nth 6 bytes 0 in
  let skip := if Z.testbit f6 2 then 512 else 0 in
  (exists c, cartridge_load (Some bytes) = Loaded c) <->
  (16 <= Z.of_nat (length bytes)
   /\ firstn 4 bytes = [0x4E; 0x45; 0x53; 0x1A]
   /\ f6 < 16 /\ nth 7 bytes 0 < 16
   /\ nth 4 bytes 0 <> 0
   /\ 16 + skip + 16384 * nth 4 bytes 0 + 8192 * nth 5 bytes 0
      <= Z.of_nat (length bytes)).
Proof.
  intros Hb f6 skip.
  pose proof (bytes_ok_nth bytes 4 Hb) as H4.
  pose proof (bytes_ok_nth bytes 5 Hb) as H5.
  pose proof (bytes_ok_nth bytes 6 Hb) as H6.
  pose proof (bytes_ok_nth bytes 7 Hb) as H7.
  assert (Hlr : forall k : nat,
            length (skipn k (skipn 16 bytes)) = (length bytes - 16 - k)%nat)
    by (intros k; rewrite !length_skipn; reflexivity).
  split.
  - intros [c Hl]. destruct (load_inv bytes c Hb Hl)
      as (Hlen & Hm & H6' & H7' & Hp & Hr & Hc).
    fold f6 in Hr, Hc, H6'. rewrite Hlr in Hr.
    split; [lia|]. split; [now apply magic_iff|].
    split; [exact H6'|]. split; [exact H7'|]. split; [lia|].
    subst skip. destruct Hc as [[_ Hc]|(_ & Hc & Hc')].
    + destruct (Z.testbit f6 2); lia.
    + rewrite length_skipn, Hlr in Hc'. destruct (Z.testbit f6 2); lia.
  - intros (Hlen & Hm & H6' & H7' & Hp & Hsz).
    unfold cartridge_load.
    destruct (Nat.ltb_spec (length bytes) 16); [lia|]. cbv zeta.
    apply magic_iff in Hm; [|lia]. rewrite Hm.
    cbn [negb flags6 flags7 header_of prg_rom_16k_units chr_rom_8k_units].
    rewrite (mapper_zero _ _ H6 H7), trainer_bit. fold f6.
    destruct (Z.ltb_spec f6 16); [|lia].
    destruct (Z.ltb_spec (nth 7 bytes 0) 16); [|lia]. cbn [andb negb].
    set (rest := if Z.testbit f6 2
                 then skipn 512 (skipn 16 bytes) else skipn 16 bytes).
    assert (Elen : Z.of_nat (length rest)
                   = Z.of_nat (length bytes) - 16 - skip).
    { subst rest skip. destruct (Z.testbit f6 2);
        rewrite ?length_skipn; lia. }
    clearbody rest.
    destruct (Z.eqb_spec (nth 4 bytes 0 * 16 * 1024) 0); [lia|].
    destruct (Nat.ltb_spec (length rest)
                (Z.to_nat (nth 4 bytes 0 * 16 * 1024))); [lia|].
    destruct (Z.eqb_spec (nth 5 bytes 0 * 8 * 1024) 0);
      [eexists; reflexivity|].
    destruct (Nat.ltb_spec
                (length (skipn (Z.to_nat (nth 4 bytes 0 * 16 * 1024)) rest))
                (Z.to_nat (nth 5 bytes 0 * 8 * 1024))) as [Hlt|];
      [|eexists; reflexivity].
    rewrite length_skipn in Hlt. lia.
Qed.

Lemma tiny_rom_ok : bytes_ok Examples2.tiny_rom.
Proof.
  unfold bytes_ok, Examples2.tiny_rom. apply Forall_app. split.
  - repeat constructor; lia.
  - apply Forall_forall. intros x Hx. apply repeat_spec in Hx. lia.
Qed.

Lemma tiny_rom_fits :
  let bytes := Examples2.tiny_rom in
  let skip := if Z.testbit (nth 6 bytes 0) 2 then 512 else 0 in
  16 <= Z.of_nat (length bytes)
  /\ firstn 4 bytes = [0x4E; 0x45; 0x53; 0x1A]
  /\ nth 6 bytes 0 < 16 /\ nth 7 bytes 0 < 16
  /\ nth 4 bytes 0 <> 0
  /\ 16 + skip + 16384 * nth 4 bytes 0 + 8192 * nth 5 bytes 0
     <= Z.of_nat (length bytes).
Proof.
  vm_compute.
  repeat match goal with |- _ /\ _ => split end;
    solve [reflexivity | discriminate].
Qed.

Lemma tiny_rom_loads :
  exists c, cartridge_load (Some Examples2.tiny_rom) = Loaded c.
Proof. exact (proj2 (accepts_iff _ tiny_rom_ok) tiny_rom_fits). Qed.

Lemma load_then_read_witness :
  exists c, cartridge_load (Some Examples2.tiny_rom) = Loaded c
            /\ cart_cpu_read c 0xFFFC = 0xEA.
Proof.
  destruct tiny_rom_loads as [c E]. exists c. split; [exact E|].
  destruct (load_then_read Examples2.tiny_rom c 0xFFFC tiny_rom_ok E)
    as (_ & _ & _ & _ & H & _); [lia|].
  rewrite H. vm_compute. reflexivity.
Defined.

(** X5.  A file of bytes is accepted exactly when it has the 16 header
    bytes, the magic N, E, S, 0x1A, mapper nibbles 0 in flags 6 and 7, at
    least one PRG unit, and holds the header, the trainer if announced,
    the PRG units of 16 KB and the CHR units of 8 KB.  A missing file
    gives -1, a file shorter than the header -2, a wrong magic -3. *)
Theorem load_accepts (bytes : list Z) :
  bytes_ok bytes ->
  let f6 := nth 6 bytes 0 in
  let skip := if Z.testbit f6 2 then 512 else 0 in
  ((exists c, cartridge_load (Some bytes) = Loaded c) <->
   (16 <= Z.of_nat (length bytes)
    /\ firstn 4 bytes = [0x4E; 0x45; 0x53; 0x1A]
    /\ f6 < 16 /\ nth 7 bytes 0 < 16
    /\ nth 4 bytes 0 <> 0
    /\ 16 + skip + 16384 * nth 4 bytes 0 + 8192 * nth 5 bytes 0
       <= Z.of_nat (length bytes)))
  /\ cartridge_load None = Failed (-1)
  /\ ((length bytes < 16)%nat -> cartridge_load (Some bytes) = Failed (-2))
  /\ ((16 <= length bytes)%nat ->
      firstn 4 bytes <> [0x4E; 0x45; 0x53; 0x1A] ->
      cartridge_load (Some bytes) = Failed (-3)).
Proof.
  intros Hb f6 skip. split; [exact (accepts_iff bytes Hb)|].
  split; [reflexivity|]. split.
  - intros Hlen. unfold cartridge_load.
    destruct (Nat.ltb_spec (length bytes) 16); [reflexivity|lia].
  - intros Hlen Hm. unfold cartridge_load.
    destruct (Nat.ltb_spec (length bytes) 16); [lia|]. cbv zeta.
    destruct (header_is_nes (header_of bytes)) eqn:E; [|reflexivity].
    exfalso. apply Hm. now apply magic_iff.
Qed.

Lemma load_accepts_witness :
  exists c, cartridge_load (Some Examples2.tiny_rom) = Loaded c.
Proof.
  exact (proj2 (proj1 (load_accepts Examples2.tiny_rom tiny_rom_ok))
           tiny_rom_fits).
Defined.

End LoaderFacts.

(** ** bus.c *)

Module BusFacts2.

Import Controller Cart Apu Nes Props Bits BusFacts.
Import Cpu (CPU).
Import Ppu (PPU).

Section WithFloats.
Context {fm : FloatModel}.

Lemma ram_index (a : Z) : 0 <= a -> Z.land a 0x07FF = a mod 0x800.
Proof.
  intros H. change 0x07FF with (Z.ones 11). now rewrite Z.land_ones by lia.
Qed.

(** X6.  The 2 KB of RAM appear four times in $0000-$1FFF: a read after
    a write returns the written byte at every address that is congruent
    to the written one modulo 0x800, and what was there before at the
    others; a RAM read changes nothing, and a RAM write changes the RAM
    only. *)
Theorem ram_mirrors (s : NES) (a b x : Z) :
  0 <= a <= 0x1FFF -> 0 <= b <= 0x1FFF ->
  fst (bus_cpu_read (bus_cpu_write s a x) b)
  = (if b mod 0x800 =? a mod 0x800 then x else fst (bus_cpu_read s b))
  /\ snd (bus_cpu_read s b) = s
  /\ bus_cpu_write s a x = with_ram (upd (ram s) (a mod 0x800) x) s.
Proof.
  intros Ha Hb. unfold bus_cpu_read, bus_cpu_write.
  destruct (Z.leb_spec a 0x1FFF); [|lia].
  destruct (Z.leb_spec b 0x1FFF); [|lia].
  rewrite !ram_index by lia. cbn [fst snd ram with_ram].
  split; [reflexivity|]. split; reflexivity.
Qed.

Lemma reg_index (a : Z) : 0 <= a -> Z.land (0x2000 + a mod 8) 7 = Z.land a 7.
Proof.
  intros H. change 7 with (Z.ones 3). rewrite !Z.land_ones by lia.
  change (2 ^ 3) with 8. change 0x2000 with (1024 * 8).
  rewrite Z.add_comm, Z.mod_add by lia. apply Z.mod_mod. lia.
Qed.

(** X7.  The eight PPU registers repeat every 8 bytes through
    $2000-$3FFF: a read or a write at such an address is the read or
    write at $2000 + (address mod 8). *)
Theorem ppu_registers_mirrored (s : NES) (a x : Z) :
  0x2000 <= a <= 0x3FFF ->
  bus_cpu_write s a x = bus_cpu_write s (0x2000 + a mod 8) x
  /\ bus_cpu_read s a = bus_cpu_read s (0x2000 + a mod 8).
Proof.
  intros Ha. pose proof (Z.mod_pos_bound a 8 ltac:(lia)) as Hm.
  unfold bus_cpu_write, bus_cpu_read.
  destruct (Z.leb_spec a 0x1FFF); [lia|].
  destruct (Z.leb_spec a 0x3FFF); [|lia].
  destruct (Z.leb_spec (0x2000 + a mod 8) 0x1FFF); [lia|].
  destruct (Z.leb_spec (0x2000 + a mod 8) 0x3FFF); [|lia].
  rewrite reg_index by lia. split; reflexivity.
Qed.

(** X8.  Nothing is mapped at $4018-$5FFF: a read there returns 0, and
    neither a read nor a write changes the console.  Reads of the
    write-only registers $4000-$4014 return 0 and change nothing
    either. *)
Theorem unmapped_addresses (s : NES) (a x : Z) :
  (0x4018 <= a <= 0x5FFF ->
   bus_cpu_read s a = (0, s) /\ bus_cpu_write s a x = s)
  /\ (0x4000 <= a <= 0x4014 -> bus_cpu_read s a = (0, s)).
Proof.
  split; intros Ha; unfold bus_cpu_read, bus_cpu_write.
  - destruct (Z.leb_spec a 0x1FFF); [lia|].
    destruct (Z.leb_spec a 0x3FFF); [lia|].
    destruct (Z.eqb_spec a 0x4014); [lia|].
    destruct (Z.eqb_spec a 0x4016); [lia|].
    destruct (Z.eqb_spec a 0x4017); [lia|].
    destruct (Z.leb_spec a 0x4017); [lia|]. rewrite !andb_false_r.
    destruct (Z.geb_spec a 0x6000); [lia|]. split; reflexivity.
  - destruct (Z.leb_spec a 0x1FFF); [lia|].
    destruct (Z.leb_spec a 0x3FFF); [lia|].
    destruct (Z.eqb_spec a 0x4016); [lia|].
    destruct (Z.eqb_spec a 0x4017); [lia|].
    destruct (Z.geb_spec a 0x4000); [|lia].
    destruct (Z.leb_spec a 0x4017); [|lia]. cbn [andb].
    destruct (Z.eqb_spec a 0x4015); [lia|reflexivity].
Qed.

(** Reads of RAM and of the cartridge change nothing, and see the RAM
    and the cartridge only. *)
Lemma plain_read (s : NES) (a : Z) :
  0 <= a <= 0x1FFF \/ 0x6000 <= a ->
  snd (bus_cpu_read s a) = s
  /\ forall f, fst (bus_cpu_read (on_ppu f s) a) = fst (bus_cpu_read s a).
Proof.
  intros Ha. unfold bus_cpu_read.
  destruct (Z.leb_spec a 0x1FFF); [split; reflexivity|].
  destruct (Z.leb_spec a 0x3FFF); [lia|].
  destruct (Z.eqb_spec a 0x4016); [lia|].
  destruct (Z.eqb_spec a 0x4017); [lia|].
  destruct (Z.leb_spec a 0x4017); [lia|]. rewrite andb_false_r.
  destruct (Z.geb_spec a 0x6000); split; reflexivity.
Qed.

Lemma oam_dma_spec (base start : Z) (n : nat) :
  forall i s,
    0 <= i -> i + Z.of_nat n <= 256 ->
    (forall j, i <= j < i + Z.of_nat n ->
       0 <= u16 (base + j) <= 0x1FFF \/ 0x6000 <= u16 (base + j)) ->
    exists o,
      oam_dma n i base start s = on_ppu (Ppu.set_oam o) s
      /\ (forall j, i <= j < i + Z.of_nat n ->
            o (u8 (start + j)) = fst (bus_cpu_read s (u16 (base + j))))
      /\ (forall k, (forall j, i <= j < i + Z.of_nat n -> k <> u8 (start + j)) ->
            o k = Ppu.oam (ppu s) k).
Proof.
  induction n as [|n IH]; intros i s Hi Hn Hq.
  - exists (Ppu.oam (ppu s)). split; [|split].
    + cbn [oam_dma]. destruct s as [c p r ca c1 c2 a]. destruct p. reflexivity.
    + intros j Hj. lia.
    + reflexivity.
  - cbn [oam_dma].
    destruct (plain_read s (u16 (base + i)) (Hq i ltac:(lia))) as [Hs Hf].
    destruct (bus_cpu_read s (u16 (base + i))) as [x s1] eqn:E.
    cbn [snd fst] in Hs, Hf. subst s1.
    set (s2 := on_ppu (fun p : PPU =>
                 Ppu.set_oam (upd (Ppu.oam p) (u8 (start + i)) x) p) s).
    destruct (IH (i + 1) s2 ltac:(lia) ltac:(lia)) as (o & Ho & Hw & Hk).
    { intros j Hj. apply Hq. lia. }
    exists o. split; [rewrite Ho; reflexivity|]. split.
    + intros j Hj. destruct (Z.eq_dec j i) as [->|Hne].
      * rewrite Hk.
        -- subst s2. cbn [ppu on_ppu with_ppu Ppu.oam Ppu.set_oam].
           unfold upd. rewrite Z.eqb_refl, E. reflexivity.
        -- intros j Hj' Heq. unfold u8 in Heq.
           Z.div_mod_to_equations. lia.
      * rewrite Hw by lia. subst s2.
        destruct (plain_read s (u16 (base + j)) (Hq j ltac:(lia))) as [_ Hf'].
        apply Hf'.
    + intros k Hk'. rewrite Hk.
      * subst s2. cbn [ppu on_ppu with_ppu Ppu.oam Ppu.set_oam].
        unfold upd. destruct (Z.eqb_spec k (u8 (start + i))) as [->|];
          [|reflexivity].
        exfalso. apply (Hk' i); [lia|reflexivity].
      * intros j Hj. apply Hk'. lia.
Qed.

(** X9.  A write of a page number to $4014 copies the 256 bytes of that
    page, for a page of RAM or of the cartridge, into OAM, starting at
    OAMADDR and wrapping at 256, so that every OAM byte is replaced; it
    changes nothing else in the console. *)
Theorem oam_dma_copies_page (s : NES) (page i : Z) :
  0 <= page < 0x20 \/ 0x60 <= page <= 0xFF -> 0 <= i < 256 ->
  exists o,
    bus_cpu_write s 0x4014 page = on_ppu (Ppu.set_oam o) s
    /\ o (u8 (Ppu.oamaddr (ppu s) + i))
       = fst (bus_cpu_read s (page * 256 + i)).
Proof.
  intros Hp Hi. unfold bus_cpu_write.
  change (0x4014 <=? 0x1FFF) with false. change (0x4014 <=? 0x3FFF) with false.
  change (0x4014 =? 0x4014) with true. cbv iota zeta.
  rewrite Z.shiftl_mul_pow2 by lia. change (2 ^ 8) with 256.
  assert (Hb : u16 (page * 256) = page * 256)
    by (unfold u16; apply Z.mod_small; lia).
  rewrite Hb.
  destruct (oam_dma_spec (page * 256) (Ppu.oamaddr (ppu s)) 256 0 s)
    as (o & Ho & Hw & _); [lia|cbn; lia| |].
  { intros j Hj. cbn in Hj.
    assert (u16 (page * 256 + j) = page * 256 + j)
      by (unfold u16; apply Z.mod_small; lia).
    lia. }
  exists o. split; [exact Ho|].
  rewrite (Hw i) by (cbn; lia). do 2 f_equal.
  unfold u16. apply Z.mod_small. lia.
Qed.

End WithFloats.

Lemma oam_dma_copies_page_witness :
  exists o,
    bus_cpu_write Examples.booted 0x4014 0x02
    = on_ppu (Ppu.set_oam o) Examples.booted
    /\ o (u8 (Ppu.oamaddr (ppu Examples.booted) + 7))
       = fst (bus_cpu_read Examples.booted (0x02 * 256 + 7)).
Proof.
  apply (oam_dma_copies_page Examples.booted 0x02 7); lia.
Defined.

Lemma ram_mirrors_witness :
  fst (bus_cpu_read (bus_cpu_write Examples.booted 0x0002 0x5A) 0x1802)
  = 0x5A.
Proof.
  destruct (ram_mirrors Examples.booted 0x0002 0x1802 0x5A) as (H & _);
    [lia|lia|].
  exact H.
Defined.

Lemma ppu_registers_mirrored_witness :
  bus_cpu_write Examples.booted 0x3456 0x21
  = bus_cpu_write Examples.booted (0x2000 + 0x3456 mod 8) 0x21
  /\ bus_cpu_read Examples.booted 0x3456
     = bus_cpu_read Examples.booted (0x2000 + 0x3456 mod 8).
Proof. apply (ppu_registers_mirrored Examples.booted 0x3456 0x21). lia. Defined.

End BusFacts2.

(** ** ppu.c: the PPU's memory and its CPU-facing registers *)

Module PpuMemFacts.

Import Cart Ppu Props Props2 Bits Finite.

Lemma ppu_addr_small (a : Z) : 0 <= a < 0x4000 -> Z.land a 0x3FFF = a.
Proof.
  intros H. change 0x3FFF with (Z.ones 14).
  rewrite Z.land_ones by lia. apply Z.mod_small. lia.
Qed.

Lemma pal_index_slot (a : Z) :
  0x3F00 <= a <= 0x3FFF -> pal_index a = pal_slot a /\ 0 <= pal_slot a < 32.
Proof.
  intros H.
  pose proof (range_forall 256
    (fun d => (pal_index (0x3F00 + d) =? pal_slot (0x3F00 + d))
              && (0 <=? pal_slot (0x3F00 + d))
              && (pal_slot (0x3F00 + d) <? 32))
    ltac:(vm_compute; reflexivity) (a - 0x3F00) ltac:(lia)) as E.
  cbv beta in E. replace (0x3F00 + (a - 0x3F00)) with a in E by lia.
  apply andb_true_iff in E. destruct E as [E E3].
  apply andb_true_iff in E. destruct E as [E1 E2].
  apply Z.eqb_eq in E1. apply Z.leb_le in E2. apply Z.ltb_lt in E3.
  split; [exact E1|lia].
Qed.

(** X10.  Palette RAM is 32 bytes repeated through $3F00-$3FFF, with
    entries $10, $14, $18 and $1C falling on $00, $04, $08 and $0C: a
    read after a write returns the written byte at every address of the
    same cell and what was there before at the others, and the write
    changes nothing but that cell. *)
Theorem palette_mirrors (c : Cartridge) (p : PPU) (a b x : Z) :
  0x3F00 <= a <= 0x3FFF -> 0x3F00 <= b <= 0x3FFF ->
  let p' := fst (ppu_write_mem c p a x) in
  let c' := snd (ppu_write_mem c p a x) in
  p' = set_palette (upd (palette p) (pal_slot a) x) p /\ c' = c
  /\ ppu_read_mem c' p' b
     = (if pal_slot b =? pal_slot a then x else ppu_read_mem c p b)
  /\ 0 <= pal_slot a < 32.
Proof.
  intros Ha Hb. cbv zeta.
  destruct (pal_index_slot a Ha) as [Ea Ra].
  destruct (pal_index_slot b Hb) as [Eb Rb].
  unfold ppu_write_mem, ppu_read_mem. rewrite !ppu_addr_small by lia.
  destruct (Z.ltb_spec a 0x2000); [lia|].
  destruct (Z.ltb_spec a 0x3F00); [lia|].
  destruct (Z.ltb_spec a 0x4000); [|lia].
  destruct (Z.ltb_spec b 0x2000); [lia|].
  destruct (Z.ltb_spec b 0x3F00); [lia|].
  destruct (Z.ltb_spec b 0x4000); [|lia].
  rewrite Ea, Eb. cbn [fst snd palette set_palette]. unfold upd.
  repeat split; try reflexivity; lia.
Qed.

Lemma palette_mirrors_witness :
  ppu_read_mem cart_empty
    (fst (ppu_write_mem cart_empty Examples.at_prerender 0x3F10 0x21)) 0x3F00
  = 0x21.
Proof.
  destruct (palette_mirrors cart_empty Examples.at_prerender 0x3F10 0x3F00 0x21)
    as (_ & Hc & H & _); [lia|lia|].
  cbv zeta in Hc, H. rewrite Hc in H. exact H.
Defined.

Lemma mirror_nt_addr_mode (p : PPU) (a : Z) :
  mirror_nt_addr p a = mirror_nt_addr (set_mirror (mirror p) ppu_zeroed) a.
Proof. reflexivity. Qed.

Lemma nt_index_slot (p : PPU) (a : Z) :
  0x2000 <= a <= 0x3EFF ->
  mirror_nt_addr p a = nt_slot (mirror p) a.
Proof.
  intros H. rewrite mirror_nt_addr_mode.
  assert (E : forall m,
    all_below 0x1F00
      (fun d => mirror_nt_addr (set_mirror m ppu_zeroed) (0x2000 + d)
                =? nt_slot m (0x2000 + d)) = true)
    by (intros []; vm_compute; reflexivity).
  pose proof (range_forall _ _ (E (mirror p)) (a - 0x2000) ltac:(lia)) as E'.
  cbv beta in E'. replace (0x2000 + (a - 0x2000)) with a in E' by lia.
  now apply Z.eqb_eq.
Qed.

(** X11.  The index into the 2 KB nametable array for a PPU address in
    $2000-$3EFF: with vertical (and four-screen) mirroring the address
    modulo 0x800, always inside the array; with horizontal mirroring
    nametables 0 and 1 share the first 1 KB, but nametables 2 and 3 get
    the indices 0x800-0xBFF, which lie beyond the 2048 bytes of the
    array. *)
Theorem nametable_index (p : PPU) (a : Z) :
  0x2000 <= a <= 0x3EFF ->
  let i := mirror_nt_addr p a in
  let a' := (a - 0x2000) mod 0x1000 in
  i = nt_slot (mirror p) a
  /\ (mirror p <> MIRROR_HORIZONTAL -> i = a mod 0x800 /\ 0 <= i < 0x800)
  /\ (mirror p = MIRROR_HORIZONTAL ->
      (a' < 0x800 -> i = a mod 0x400 /\ 0 <= i < 0x400)
      /\ (0x800 <= a' -> i = 0x800 + a mod 0x400 /\ 0x800 <= i < 0xC00)).
Proof.
  intros Ha i a'. subst i. rewrite (nt_index_slot p a Ha).
  split; [reflexivity|]. unfold nt_slot. fold a'.
  pose proof (Z.mod_pos_bound (a - 0x2000) 0x1000 ltac:(lia)) as Hb.
  fold a' in Hb.
  assert (E8 : a' mod 0x800 = a mod 0x800).
  { subst a'. Z.div_mod_to_equations. lia. }
  assert (E4 : a' mod 0x400 = a mod 0x400).
  { subst a'. Z.div_mod_to_equations. lia. }
  pose proof (Z.mod_pos_bound a 0x800 ltac:(lia)).
  pose proof (Z.mod_pos_bound a 0x400 ltac:(lia)).
  split.
  - intros Hm. destruct (mirror p); [contradiction| |]; rewrite E8; lia.
  - intros ->. rewrite E4. split; intros Hlt.
    + replace (a' / 0x800) with 0 by (symmetry; apply Z.div_small; lia). lia.
    + replace (a' / 0x800) with 1; [lia|].
      apply Z.div_unique with (r := a' - 0x800); lia.
Qed.

Lemma nametable_index_witness :
  mirror_nt_addr Examples.at_prerender 0x2C05 = 0x805.
Proof.
  destruct (nametable_index Examples.at_prerender 0x2C05) as (_ & _ & H);
    [lia|].
  destruct (H eq_refl) as [_ H']. destruct H' as [H' _]; [vm_compute; discriminate|].
  exact H'.
Defined.

(** X12.  Where the index stays inside the 2 KB array, nametable memory
    keeps what is written: a read after a write returns the written byte
    at every address of $2000-$3EFF that falls on the same cell (the
    mirrors, and the copy at $3000-$3EFF) and what was there before at
    the others. *)
Theorem nametable_round_trip (c : Cartridge) (p : PPU) (a b x : Z) :
  0x2000 <= a <= 0x3EFF -> 0x2000 <= b <= 0x3EFF ->
  mirror_nt_addr p a < 0x800 -> mirror_nt_addr p b < 0x800 ->
  let p' := fst (ppu_write_mem c p a x) in
  let c' := snd (ppu_write_mem c p a x) in
  c' = c
  /\ ppu_read_mem c' p' b
     = (if nt_slot (mirror p) b =? nt_slot (mirror p) a then x
        else ppu_read_mem c p b)
  /\ ppu_read_mem c' p' (a + 0x1000 * Z.b2z (a <? 0x2F00)) = x.
Proof.
  intros Ha Hb _ _. cbv zeta.
  assert (R : forall q d, 0x2000 <= d <= 0x3EFF ->
            ppu_read_mem c q d = vram q (mirror_nt_addr q d)).
  { intros q d Hd. unfold ppu_read_mem. rewrite ppu_addr_small by lia.
    destruct (Z.ltb_spec d 0x2000); [lia|].
    destruct (Z.ltb_spec d 0x3F00); [reflexivity|lia]. }
  assert (W : ppu_write_mem c p a x
              = (set_vram (upd (vram p) (mirror_nt_addr p a) x) p, c)).
  { unfold ppu_write_mem. rewrite ppu_addr_small by lia.
    destruct (Z.ltb_spec a 0x2000); [lia|].
    destruct (Z.ltb_spec a 0x3F00); [reflexivity|lia]. }
  rewrite W. cbn [fst snd]. split; [reflexivity|].
  assert (G : forall d, 0x2000 <= d <= 0x3EFF ->
            ppu_read_mem c (set_vram (upd (vram p) (mirror_nt_addr p a) x) p) d
            = (if nt_slot (mirror p) d =? nt_slot (mirror p) a then x
               else ppu_read_mem c p d)).
  { intros d Hd. rewrite !R by assumption.
    rewrite (mirror_nt_addr_mode (set_vram _ p)). cbn [mirror set_vram].
    rewrite <- mirror_nt_addr_mode.
    rewrite !nt_index_slot by assumption.
    cbn [vram set_vram]. unfold upd. reflexivity. }
  split; [apply G; assumption|].
  destruct (Z.ltb_spec a 0x2F00); cbn [Z.b2z].
  - rewrite G by lia.
    replace (nt_slot (mirror p) (a + 0x1000 * 1)) with (nt_slot (mirror p) a).
    + now rewrite Z.eqb_refl.
    + unfold nt_slot.
      replace (a + 0x1000 * 1 - 0x2000) with (a - 0x2000 + 1 * 0x1000) by lia.
      rewrite Z.mod_add by lia. reflexivity.
  - rewrite Z.mul_0_r, Z.add_0_r, G by lia. now rewrite Z.eqb_refl.
Qed.

Lemma nametable_round_trip_witness :
  ppu_read_mem cart_empty
    (fst (ppu_write_mem cart_empty Examples.at_prerender 0x2005 0x42)) 0x2405
  = 0x42.
Proof.
  destruct (nametable_round_trip cart_empty Examples.at_prerender
              0x2005 0x2405 0x42) as (Hc & H & _);
    [lia|lia|vm_compute; reflexivity|vm_compute; reflexivity|].
  cbv zeta in Hc, H. rewrite Hc in H. exact H.
Defined.

Lemma write_2003 (c : Cartridge) (p : PPU) (a : Z) :
  ppu_write_reg c p 0x2003 a = (set_oamaddr a p, c).
Proof. reflexivity. Qed.

Lemma write_2004 (c : Cartridge) (p : PPU) (d : Z) :
  ppu_write_reg c p 0x2004 d
  = (set_oamaddr (u8 (oamaddr p + 1))
       (set_oam (upd (oam p) (oamaddr p) d) p), c).
Proof. reflexivity. Qed.

Lemma read_2004 (c : Cartridge) (p : PPU) :
  ppu_read_reg c p 0x2004 = (oam p (oamaddr p), p).
Proof. reflexivity. Qed.

(** X13.  The OAM port: after OAMADDR ($2003) is set to a byte a, a write
    to OAMDATA ($2004) stores at OAM[a], leaves the other 255 bytes, and
    steps OAMADDR to a + 1 modulo 256; a read of $2004 returns the byte
    at OAMADDR and changes nothing. *)
Theorem oam_port (c : Cartridge) (p : PPU) (a d : Z) :
  0 <= a < 256 ->
  let p1 := fst (ppu_write_reg c p 0x2003 a) in
  let p2 := fst (ppu_write_reg c p1 0x2004 d) in
  oam p2 a = d
  /\ (forall k, k <> a -> oam p2 k = oam p k)
  /\ oamaddr p2 = (a + 1) mod 256
  /\ ppu_read_reg c p 0x2004 = (oam p (oamaddr p), p)
  /\ fst (ppu_read_reg c (fst (ppu_write_reg c p2 0x2003 a)) 0x2004) = d.
Proof.
  intros Ha. cbv zeta.
  rewrite !write_2003, !write_2004, !read_2004.
  cbn [fst snd oam oamaddr set_oam set_oamaddr].
  unfold upd. rewrite Z.eqb_refl.
  split; [reflexivity|]. split.
  - intros k Hk. destruct (Z.eqb_spec k a); [contradiction|reflexivity].
  - split; [reflexivity|]. split; reflexivity.
Qed.

Lemma oam_port_witness :
  fst (ppu_read_reg cart_empty
         (fst (ppu_write_reg cart_empty
                 (fst (ppu_write_reg cart_empty
                         (fst (ppu_write_reg cart_empty Examples.at_prerender
                                 0x2003 0xFF)) 0x2004 0x77)) 0x2003 0xFF))
         0x2004) = 0x77.
Proof.
  destruct (oam_port cart_empty Examples.at_prerender 0xFF 0x77)
    as (_ & _ & _ & _ & H); [lia|exact H].
Defined.

(** *** The address and scroll latches *)

Lemma u16_land (x : Z) : u16 x = Z.land x 0xFFFF.
Proof.
  unfold u16. change 0xFFFF with (Z.ones 16). now rewrite Z.land_ones by lia.
Qed.

Lemma masked_or (t m a k : Z) :
  Z.land (Z.lor (Z.land t m) a) k
  = Z.lor (Z.land t (Z.land m k)) (Z.land a k).
Proof. now rewrite Z.land_lor_distr_l, <- Z.land_assoc. Qed.

Lemma shifted_or (t m a k : Z) :
  Z.shiftr (Z.lor (Z.land t m) a) k
  = Z.lor (Z.land (Z.shiftr t k) (Z.shiftr m k)) (Z.shiftr a k).
Proof. now rewrite Z.shiftr_lor, Z.shiftr_land. Qed.

Lemma read_2002 (c : Cartridge) (p : PPU) :
  ppu_read_reg c p 0x2002
  = (ppustatus p,
     set_w 0 (set_scroll_latch 0
       (set_ppustatus (Z.land (ppustatus p) (not8 0x80)) p))).
Proof. reflexivity. Qed.

Lemma write_2006_hi (c : Cartridge) (p : PPU) (d : Z) :
  w p = 0 ->
  ppu_write_reg c p 0x2006 d
  = (set_w 1 (set_t (u16 (Z.lor (Z.land (t p) 0x00FF)
                                 (Z.shiftl (Z.land d 0x3F) 8))) p), c).
Proof.
  intros H. unfold ppu_write_reg. change (Z.land 0x2006 7) with 6.
  cbv iota beta. rewrite H. reflexivity.
Qed.

Lemma write_2006_lo (c : Cartridge) (p : PPU) (d : Z) :
  w p = 1 ->
  ppu_write_reg c p 0x2006 d
  = (set_w 0 (set_v (u16 (Z.lor (Z.land (t p) 0xFF00) d))
                (set_t (u16 (Z.lor (Z.land (t p) 0xFF00) d)) p)), c).
Proof.
  intros H. unfold ppu_write_reg. change (Z.land 0x2006 7) with 6.
  cbv iota beta. rewrite H. reflexivity.
Qed.

Lemma write_2005_x (c : Cartridge) (p : PPU) (d : Z) :
  w p = 0 ->
  ppu_write_reg c p 0x2005 d
  = (set_w 1 (set_t (u16 (Z.lor (Z.land (t p) 0xFFE0) (Z.shiftr d 3)))
                (set_x_fine (u8 (Z.land d 0x07)) p)), c).
Proof.
  intros H. unfold ppu_write_reg. change (Z.land 0x2005 7) with 5.
  cbv iota beta. rewrite H. reflexivity.
Qed.

Lemma write_2005_y (c : Cartridge) (p : PPU) (d : Z) :
  w p = 1 ->
  ppu_write_reg c p 0x2005 d
  = (set_w 0
       (set_t (u16 (Z.lor
                 (Z.land (u16 (Z.lor (Z.land (t p) 0x8FFF)
                                     (Z.shiftl (Z.land d 0x07) 12))) 0xFC1F)
                 (Z.shiftl (Z.land d 0xF8) 2))) p), c).
Proof.
  intros H. unfold ppu_write_reg. change (Z.land 0x2005 7) with 5.
  cbv iota beta. rewrite H. reflexivity.
Qed.

Ltac masks :=
  repeat first
    [ rewrite u16_land
    | rewrite masked_or
    | rewrite shifted_or
    | rewrite <- Z.lor_assoc ];
  repeat match goal with
  | |- context [Z.land (Zpos ?a) (Zpos ?b)] =>
      let r := eval vm_compute in (Z.land (Zpos a) (Zpos b)) in
      change (Z.land (Zpos a) (Zpos b)) with r
  | |- context [Z.shiftr (Zpos ?a) (Zpos ?b)] =>
      let r := eval vm_compute in (Z.shiftr (Zpos a) (Zpos b)) in
      change (Z.shiftr (Zpos a) (Zpos b)) with r
  end;
  rewrite ?Z.land_0_r, ?Z.lor_0_l.

Ltac brute1 a Ha :=
  apply Z.eqb_eq;
  match goal with
  | |- ?B = true =>
      let f := eval pattern a in B in
      match f with
      | ?F a =>
          exact (range_forall 256 F ltac:(vm_compute; reflexivity) a Ha)
      end
  end.

Ltac brute2 a b Ha Hb :=
  apply Z.eqb_eq;
  match goal with
  | |- ?B = true =>
      let f := eval pattern a, b in B in
      match f with
      | ?F a b =>
          exact (range_forall2 256 256 F ltac:(vm_compute; reflexivity)
                   a b Ha Hb)
      end
  end.

(** X14.  A read of PPUSTATUS ($2002) returns the status byte, clears its
    VBlank bit only, and resets the write toggle; the two writes to
    PPUADDR ($2006) that follow then load v and t with
    (high mod 64) * 256 + low, whatever t and the toggle were before. *)
Theorem status_read_then_address (c : Cartridge) (p : PPU) (hi lo : Z) :
  0 <= hi < 256 -> 0 <= lo < 256 ->
  let r := fst (ppu_read_reg c p 0x2002) in
  let p1 := snd (ppu_read_reg c p 0x2002) in
  let p2 := fst (ppu_write_reg c p1 0x2006 hi) in
  let p3 := fst (ppu_write_reg c p2 0x2006 lo) in
  r = ppustatus p
  /\ ppustatus p1 = Z.land (ppustatus p) 0x7F
  /\ w p1 = 0
  /\ v p3 = hi mod 64 * 256 + lo
  /\ t p3 = v p3
  /\ w p3 = 0.
Proof.
  intros Hh Hl. cbv zeta. rewrite read_2002. cbn [fst snd].
  set (p1 := set_w 0 _).
  rewrite (write_2006_hi c p1 hi) by reflexivity. cbn [fst].
  set (p2 := set_w 1 _).
  rewrite (write_2006_lo c p2 lo) by reflexivity. cbn [fst].
  subst p2 p1.
  cbn [ppustatus w v t set_w set_v set_t set_scroll_latch set_ppustatus].
  split; [reflexivity|]. split; [reflexivity|]. split; [reflexivity|].
  split; [|split; reflexivity].
  masks. apply Z.eqb_eq.
  exact (range_forall2 256 256
    (fun hi lo =>
       Z.lor (Z.land (Z.land (Z.shiftl (Z.land hi 0x3F) 8) 0xFFFF) 0xFF00)
         (Z.land lo 0xFFFF) =? hi mod 64 * 256 + lo)
    ltac:(vm_compute; reflexivity) hi lo Hh Hl).
Qed.

Lemma status_read_then_address_witness :
  v (fst (ppu_write_reg cart_empty
       (fst (ppu_write_reg cart_empty
          (snd (ppu_read_reg cart_empty Examples.at_prerender 0x2002))
          0x2006 0xE1)) 0x2006 0x08)) = 0x2108.
Proof.
  destruct (status_read_then_address cart_empty Examples.at_prerender 0xE1 0x08)
    as (_ & _ & _ & H & _); [lia|lia|exact H].
Defined.

(** X15.  After a read of PPUSTATUS, the two writes to PPUSCROLL ($2005)
    store the fine X scroll (low three bits of the first byte), and place
    in t the coarse X (first byte / 8), the coarse Y (second byte / 8)
    and the fine Y (low three bits of the second byte); the nametable
    select bits 10-11 of t and its bit 15 are kept, v is not touched,
    and the toggle is back at 0. *)
Theorem scroll_pair (c : Cartridge) (p : PPU) (sx sy : Z) :
  0 <= sx < 256 -> 0 <= sy < 256 ->
  let p1 := snd (ppu_read_reg c p 0x2002) in
  let p2 := fst (ppu_write_reg c p1 0x2005 sx) in
  let p3 := fst (ppu_write_reg c p2 0x2005 sy) in
  x_fine p3 = sx mod 8
  /\ Z.land (t p3) 0x1F = sx / 8
  /\ Z.land (Z.shiftr (t p3) 5) 0x1F = sy / 8
  /\ Z.land (Z.shiftr (t p3) 12) 0x07 = sy mod 8
  /\ Z.land (t p3) 0x8C00 = Z.land (t p) 0x8C00
  /\ v p3 = v p
  /\ w p3 = 0.
Proof.
  intros Hx Hy. cbv zeta. rewrite read_2002. cbn [fst snd].
  set (p1 := set_w 0 _).
  rewrite (write_2005_x c p1 sx) by reflexivity. cbn [fst].
  set (p2 := set_w 1 _).
  rewrite (write_2005_y c p2 sy) by reflexivity. cbn [fst].
  subst p2 p1.
  cbn [ppustatus w v t x_fine set_w set_v set_t set_x_fine
       set_scroll_latch set_ppustatus].
  repeat match goal with |- _ /\ _ => split end;
    try reflexivity.
  - unfold u8. brute1 sx Hx.
  - masks. brute2 sx sy Hx Hy.
  - masks. brute2 sx sy Hx Hy.
  - masks. brute2 sx sy Hx Hy.
  - masks. rewrite <- (Z.lor_0_r (Z.land (t p) 0x8C00)) at 2. f_equal.
    brute2 sx sy Hx Hy.
Qed.

Lemma scroll_pair_witness :
  Z.land (t (fst (ppu_write_reg cart_empty
       (fst (ppu_write_reg cart_empty
          (snd (ppu_read_reg cart_empty Examples.at_prerender 0x2002))
          0x2005 0x7D)) 0x2005 0x5E))) 0x1F = 15.
Proof.
  destruct (scroll_pair cart_empty Examples.at_prerender 0x7D 0x5E)
    as (_ & H & _); [lia|lia|exact H].
Defined.

(** *** Pattern memory *)

(** X16.  Pattern memory ($0000-$1FFF) is read-only when the cartridge
    holds CHR ROM: a write changes neither the PPU nor the cartridge.
    With CHR RAM on a connected cartridge, a read after a write returns
    the written byte at every address that falls on the same cell
    (address modulo the CHR size) and the former content elsewhere. *)
Theorem pattern_memory (c : Cartridge) (p : PPU) (a b d : Z) :
  0 <= a < 0x2000 -> 0 <= b < 0x2000 -> 0 < chr_size c ->
  (chr_is_ram c = false -> ppu_write_mem c p a d = (p, c))
  /\ (chr_is_ram c = true -> cart_linked p = true -> chr c <> None ->
      let p' := fst (ppu_write_mem c p a d) in
      let c' := snd (ppu_write_mem c p a d) in
      p' = p
      /\ ppu_read_mem c' p' b
         = if a mod chr_size c =? b mod chr_size c then d
           else ppu_read_mem c p b).
Proof.
  intros Ha Hb Hs.
  assert (Ea : Z.land a 0x3FFF = a).
  { change 0x3FFF with (Z.ones 14). rewrite Z.land_ones by lia.
    apply Z.mod_small. lia. }
  assert (Eb : Z.land b 0x3FFF = b).
  { change 0x3FFF with (Z.ones 14). rewrite Z.land_ones by lia.
    apply Z.mod_small. lia. }
  assert (Ra : Z.rem a (chr_size c) = a mod chr_size c)
    by (apply Z.rem_mod_nonneg; lia).
  assert (Rb : Z.rem b (chr_size c) = b mod chr_size c)
    by (apply Z.rem_mod_nonneg; lia).
  assert (La : (a <? 0x2000) = true) by (apply Z.ltb_lt; lia).
  assert (Lb : (b <? 0x2000) = true) by (apply Z.ltb_lt; lia).
  assert (Z0 : (chr_size c =? 0) = false) by (apply Z.eqb_neq; lia).
  split.
  - intros Hr. unfold ppu_write_mem. cbv zeta. rewrite Ea, La, Hr.
    rewrite Bool.andb_false_r. now destruct (chr c).
  - intros Hr Hl Hc. cbv zeta. unfold ppu_write_mem, ppu_read_mem.
    cbv zeta. rewrite Ea, Eb, La, Lb, Hr, Hl.
    destruct (chr c) as [m|] eqn:E; [|congruence].
    cbn [andb negb orb fst snd chr chr_size set_chr cart_linked].
    rewrite Z0, Ra, Rb. split; [reflexivity|].
    unfold upd. rewrite Hl, (Z.eqb_sym (b mod chr_size c)). reflexivity.
Qed.

Lemma pattern_memory_witness :
  ppu_read_mem
    (snd (ppu_write_mem Examples2.chr_ram_cart Examples2.linked 0x0010 0x3C))
    (fst (ppu_write_mem Examples2.chr_ram_cart Examples2.linked 0x0010 0x3C))
    0x0010 = 0x3C.
Proof.
  destruct (pattern_memory Examples2.chr_ram_cart Examples2.linked
              0x0010 0x0010 0x3C) as [_ H];
    [lia|lia|reflexivity|].
  destruct (H eq_refl eq_refl ltac:(discriminate)) as [_ H']. exact H'.
Defined.

End PpuMemFacts.

(** ** ppu.c: scrolling and sprite evaluation *)

Module PpuScrollFacts.

Import Cart Ppu Props2 Finite PpuMemFacts.

(** *** The loopy register *)

Lemma set_v_id (p : PPU) : set_v (v p) p = p.
Proof. now destruct p. Qed.

(** An operation that only rewrites v, iterated. *)
Lemma iter_on_v (f : Z -> Z) (g : PPU -> PPU) :
  (forall p, g p = set_v (f (v p)) p) ->
  forall (n : nat) (p : PPU),
    Nat.iter n g p = set_v (Nat.iter n f (v p)) p.
Proof.
  intros Hg n p. induction n as [|k IH].
  - symmetry. apply set_v_id.
  - change (Nat.iter (S k) g p) with (g (Nat.iter k g p)).
    change (Nat.iter (S k) f (v p)) with (f (Nat.iter k f (v p))).
    rewrite IH, Hg. reflexivity.
Qed.

Lemma inc_coarse_x_on_v (p : PPU) :
  inc_coarse_x p = set_v (coarse_x_next (v p)) p.
Proof.
  unfold inc_coarse_x, coarse_x_next. cbn [v set_v].
  destruct (Z.land (v p) 31 =? 31); reflexivity.
Qed.

Lemma inc_y_on_v (p : PPU) : inc_y p = set_v (y_next (v p)) p.
Proof.
  unfold inc_y, y_next.
  destruct (negb _); [reflexivity|]. cbv zeta. cbn [v set_v].
  repeat match goal with
  | |- context [if ?b then _ else _] => destruct b
  end; reflexivity.
Qed.

(** An operation on v that works on the bits [M] and passes the bits [K]
    through can be followed on the [M] part alone. *)
Section Masked.

Variables (G : Z -> Z) (N K M : Z).
Hypothesis G_range : forall x, 0 <= x < N -> 0 <= G x < N.
Hypothesis G_keeps : forall x, 0 <= x < N -> Z.land (G x) K = Z.land x K.
Hypothesis G_local :
  forall x, 0 <= x < N -> Z.land (G x) M = Z.land (G (Z.land x M)) M.
Hypothesis M_range : forall x, 0 <= x < N -> 0 <= Z.land x M < N.

Lemma iter_masked (n : nat) (x : Z) :
  0 <= x < N ->
  0 <= Nat.iter n G x < N
  /\ 0 <= Nat.iter n G (Z.land x M) < N
  /\ Z.land (Nat.iter n G x) K = Z.land x K
  /\ Z.land (Nat.iter n G x) M = Z.land (Nat.iter n G (Z.land x M)) M.
Proof.
  intros Hx. induction n as [|k IH].
  - cbn [Nat.iter nat_rect]. repeat split; try lia; try (apply M_range; lia).
    now rewrite <- Z.land_assoc, Z.land_diag.
  - change (Nat.iter (S k) G x) with (G (Nat.iter k G x)).
    change (Nat.iter (S k) G (Z.land x M))
      with (G (Nat.iter k G (Z.land x M))).
    destruct IH as (Hu & Hw & Hk & Hm).
    split; [apply G_range; exact Hu|]. split; [apply G_range; exact Hw|].
    split; [rewrite G_keeps by exact Hu; exact Hk|].
    rewrite (G_local _ Hu), Hm, <- (G_local _ Hw). reflexivity.
Qed.

End Masked.

Lemma coarse_x_32 (x : Z) :
  0 <= x < 65536 -> Nat.iter 32 coarse_x_next x = Z.lxor x 0x0400.
Proof.
  intros Hx.
  pose proof (range_forall 65536
    (fun x => (0 <=? coarse_x_next x) && (coarse_x_next x <? 65536)
              && (Z.land (coarse_x_next x) 0xF800 =? Z.land x 0xF800)
              && (Z.land (coarse_x_next x) 0x07FF
                  =? Z.land (coarse_x_next (Z.land x 0x07FF)) 0x07FF)
              && (Z.land x 0x07FF <? 2048) && (0 <=? Z.land x 0x07FF)
              && (x =? Z.lor (Z.land x 0xF800) (Z.land x 0x07FF))
              && (Z.lor (Z.land x 0xF800)
                    (Z.land (Z.lxor (Z.land x 0x07FF) 0x0400) 0x07FF)
                  =? Z.lxor x 0x0400))
    ltac:(vm_compute; reflexivity)) as B.
  assert (B' : forall x, 0 <= x < 65536 ->
     0 <= coarse_x_next x < 65536
     /\ Z.land (coarse_x_next x) 0xF800 = Z.land x 0xF800
     /\ Z.land (coarse_x_next x) 0x07FF
        = Z.land (coarse_x_next (Z.land x 0x07FF)) 0x07FF
     /\ 0 <= Z.land x 0x07FF < 2048
     /\ x = Z.lor (Z.land x 0xF800) (Z.land x 0x07FF)
     /\ Z.lor (Z.land x 0xF800)
          (Z.land (Z.lxor (Z.land x 0x07FF) 0x0400) 0x07FF)
        = Z.lxor x 0x0400).
  { intros y Hy. specialize (B y Hy). cbv beta in B.
    repeat match type of B with
    | (_ && _) = true => apply andb_true_iff in B; destruct B as [B ?]
    end.
    repeat match goal with
    | H : (_ =? _) = true |- _ => apply Z.eqb_eq in H
    | H : (_ <=? _) = true |- _ => apply Z.leb_le in H
    | H : (_ <? _) = true |- _ => apply Z.ltb_lt in H
    end.
    repeat split; try assumption; lia. }
  clear B.
  destruct (iter_masked coarse_x_next 65536 0xF800 0x07FF
              (fun y Hy => proj1 (B' y Hy))
              (fun y Hy => proj1 (proj2 (B' y Hy)))
              (fun y Hy => proj1 (proj2 (proj2 (B' y Hy))))
              (fun y Hy => ltac:(destruct (B' y Hy) as (_ & _ & _ & ? & _); lia))
              32 x Hx) as (Hu & _ & Hk & Hm).
  destruct (B' x Hx) as (_ & _ & _ & Hs & _ & Hf).
  assert (S : Nat.iter 32 coarse_x_next (Z.land x 0x07FF)
              = Z.lxor (Z.land x 0x07FF) 0x0400).
  { apply Z.eqb_eq.
    exact (range_forall 2048
      (fun j => Nat.iter 32 coarse_x_next j =? Z.lxor j 0x0400)
      ltac:(vm_compute; reflexivity) _ Hs). }
  destruct (B' _ Hu) as (_ & _ & _ & _ & Hd & _).
  rewrite Hd, Hk, Hm, S. exact Hf.
Qed.

(** X17.  Thirty-two coarse X increments bring v back to the column it
    started from in the horizontally adjacent nametable: bit 10 of v is
    flipped and every other bit, and every other field of the PPU, is as
    before; sixty-four restore the PPU. *)
Theorem coarse_x_wraps (p : PPU) :
  0 <= v p < 65536 ->
  Nat.iter 32 inc_coarse_x p = set_v (Z.lxor (v p) 0x0400) p
  /\ Nat.iter 64 inc_coarse_x p = p.
Proof.
  intros H.
  assert (E32 : forall q, 0 <= v q < 65536 ->
            Nat.iter 32 inc_coarse_x q = set_v (Z.lxor (v q) 0x0400) q).
  { intros q Hq. rewrite (iter_on_v _ inc_coarse_x inc_coarse_x_on_v).
    now rewrite coarse_x_32. }
  split; [apply E32; exact H|].
  change 64%nat with (32 + 32)%nat. rewrite Nat.iter_add.
  rewrite (E32 p H).
  assert (Hb : 0 <= Z.lxor (v p) 0x0400 < 65536).
  { pose proof (range_forall 65536
      (fun x => (0 <=? Z.lxor x 0x0400) && (Z.lxor x 0x0400 <? 65536))
      ltac:(vm_compute; reflexivity) (v p) H) as B.
    apply andb_true_iff in B. destruct B as [B1 B2].
    apply Z.leb_le in B1. apply Z.ltb_lt in B2. lia. }
  rewrite E32 by exact Hb. cbn [v set_v].
  rewrite Z.lxor_assoc, Z.lxor_nilpotent, Z.lxor_0_r.
  now destruct p.
Qed.

Lemma coarse_x_wraps_witness :
  Nat.iter 64 inc_coarse_x Examples.at_prerender = Examples.at_prerender.
Proof.
  destruct (coarse_x_wraps Examples.at_prerender) as [_ H];
    [vm_compute; split; [discriminate|reflexivity]|exact H].
Defined.

Lemma y_240 (x : Z) :
  0 <= x < 32768 -> Z.land (Z.shiftr x 5) 0x1F < 30 ->
  Nat.iter 240 y_next x = Z.lxor x 0x0800.
Proof.
  intros Hx Hy.
  pose proof (range_forall 32768
    (fun x => (0 <=? y_next x) && (y_next x <? 32768)
              && (Z.land (y_next x) 0x001F =? Z.land x 0x001F)
              && (Z.land (y_next x) 0x7FE0
                  =? Z.land (y_next (Z.land x 0x7FE0)) 0x7FE0)
              && (Z.land x 0x7FE0 <? 32768) && (0 <=? Z.land x 0x7FE0)
              && (x =? Z.lor (Z.land x 0x001F) (Z.land x 0x7FE0))
              && (Z.lor (Z.land x 0x001F)
                    (Z.land (Z.lxor (Z.land x 0x7FE0) 0x0800) 0x7FE0)
                  =? Z.lxor x 0x0800)
              && (Z.land x 0x7FE0 =? x / 32 * 32)
              && (Z.land (Z.shiftr (Z.land x 0x7FE0) 5) 0x1F
                  =? Z.land (Z.shiftr x 5) 0x1F))
    ltac:(vm_compute; reflexivity)) as B.
  assert (B' : forall x, 0 <= x < 32768 ->
     0 <= y_next x < 32768
     /\ Z.land (y_next x) 0x001F = Z.land x 0x001F
     /\ Z.land (y_next x) 0x7FE0
        = Z.land (y_next (Z.land x 0x7FE0)) 0x7FE0
     /\ 0 <= Z.land x 0x7FE0 < 32768
     /\ x = Z.lor (Z.land x 0x001F) (Z.land x 0x7FE0)
     /\ Z.lor (Z.land x 0x001F)
          (Z.land (Z.lxor (Z.land x 0x7FE0) 0x0800) 0x7FE0)
        = Z.lxor x 0x0800
     /\ Z.land x 0x7FE0 = x / 32 * 32
     /\ Z.land (Z.shiftr (Z.land x 0x7FE0) 5) 0x1F
        = Z.land (Z.shiftr x 5) 0x1F).
  { intros y Hy'. specialize (B y Hy'). cbv beta in B.
    repeat match type of B with
    | (_ && _) = true => apply andb_true_iff in B; destruct B as [B ?]
    end.
    repeat match goal with
    | H : (_ =? _) = true |- _ => apply Z.eqb_eq in H
    | H : (_ <=? _) = true |- _ => apply Z.leb_le in H
    | H : (_ <? _) = true |- _ => apply Z.ltb_lt in H
    end.
    repeat split; try assumption; lia. }
  clear B.
  destruct (iter_masked y_next 32768 0x001F 0x7FE0
              (fun y Hy => proj1 (B' y Hy))
              (fun y Hy => proj1 (proj2 (B' y Hy)))
              (fun y Hy => proj1 (proj2 (proj2 (B' y Hy))))
              (fun y Hy => ltac:(destruct (B' y Hy) as (_ & _ & _ & ? & _); lia))
              240 x Hx) as (Hu & _ & Hk & Hm).
  destruct (B' x Hx) as (_ & _ & _ & Hs & _ & Hf & Hd32 & Hcy).
  assert (S : Nat.iter 240 y_next (Z.land x 0x7FE0)
              = Z.lxor (Z.land x 0x7FE0) 0x0800).
  { assert (Hj : 0 <= x / 32 < 1024)
      by (split; [apply Z.div_pos; lia|apply Z.div_lt_upper_bound; lia]).
    pose proof (range_forall 1024
      (fun j => (30 <=? Z.land (Z.shiftr (j * 32) 5) 0x1F)
                || (Nat.iter 240 y_next (j * 32) =? Z.lxor (j * 32) 0x0800))
      ltac:(vm_compute; reflexivity) _ Hj) as E.
    cbv beta in E. rewrite <- Hd32 in E.
    apply orb_true_iff in E. destruct E as [E|E].
    - apply Z.leb_le in E. lia.
    - apply Z.eqb_eq. exact E. }
  destruct (B' _ Hu) as (_ & _ & _ & _ & Hd & _).
  rewrite Hd, Hk, Hm, S. exact Hf.
Qed.

(** X18.  From a row of the nametable (coarse Y below 30), 240 Y
    increments bring v back to the same row of the vertically adjacent
    nametable: bit 11 of v is flipped and nothing else changes. *)
Theorem y_wraps (p : PPU) :
  0 <= v p < 32768 ->
  Z.land (Z.shiftr (v p) 5) 0x1F < 30 ->
  Nat.iter 240 inc_y p = set_v (Z.lxor (v p) 0x0800) p.
Proof.
  intros H Hy.
  rewrite (iter_on_v _ inc_y inc_y_on_v). f_equal.
  apply y_240; assumption.
Qed.

Lemma y_wraps_witness :
  Nat.iter 240 inc_y Examples.at_prerender
  = set_v 0x0800 Examples.at_prerender.
Proof.
  apply (y_wraps Examples.at_prerender);
    vm_compute; [split; [discriminate|reflexivity]|reflexivity].
Defined.

(** X19.  The horizontal transfer copies coarse X and the horizontal
    nametable bit from t into v and keeps the vertical bits of v; the
    vertical transfer does the opposite; after both, v is the low 15
    bits of t.  Neither changes t. *)
Theorem transfers_copy_t (p : PPU) :
  Z.land (v (transfer_horizontal p)) 0x041F = Z.land (t p) 0x041F
  /\ Z.land (v (transfer_horizontal p)) 0x7BE0 = Z.land (v p) 0x7BE0
  /\ Z.land (v (transfer_vertical p)) 0x7BE0 = Z.land (t p) 0x7BE0
  /\ Z.land (v (transfer_vertical p)) 0x041F = Z.land (v p) 0x041F
  /\ v (transfer_vertical (transfer_horizontal p)) = Z.land (t p) 0x7FFF
  /\ t (transfer_vertical (transfer_horizontal p)) = t p.
Proof.
  unfold transfer_horizontal, transfer_vertical. cbn [v t set_v].
  repeat match goal with |- _ /\ _ => split end; try reflexivity;
    masks; rewrite <- ?Z.land_assoc; masks; try reflexivity.
  - apply Z.lor_0_r.
  - apply Z.lor_0_r.
  - rewrite <- Z.land_lor_distr_r. reflexivity.
Qed.

(** *** Sprites *)

(** X20.  [rev8] reverses the eight bits of a byte: bit i of the result is
    bit 7 - i of the argument, the result is a byte, and reversing twice
    gives the byte back. *)
Theorem rev8_reverses (x : Z) :
  0 <= x < 256 ->
  0 <= rev8 x < 256
  /\ rev8 (rev8 x) = x
  /\ forall i, 0 <= i < 8 -> Z.testbit (rev8 x) i = Z.testbit x (7 - i).
Proof.
  intros H.
  pose proof (range_forall 256
    (fun x => (0 <=? rev8 x) && (rev8 x <? 256) && (rev8 (rev8 x) =? x)
              && all_below 8 (fun i =>
                   Bool.eqb (Z.testbit (rev8 x) i) (Z.testbit x (7 - i))))
    ltac:(vm_compute; reflexivity) x H) as E.
  apply andb_true_iff in E. destruct E as [E E4].
  apply andb_true_iff in E. destruct E as [E E3].
  apply andb_true_iff in E. destruct E as [E1 E2].
  apply Z.leb_le in E1. apply Z.ltb_lt in E2. apply Z.eqb_eq in E3.
  split; [lia|]. split; [exact E3|].
  intros i Hi. apply Bool.eqb_prop.
  exact (range_forall 8 _ E4 i Hi).
Qed.

Lemma rev8_reverses_witness : rev8 (rev8 0xB1) = 0xB1.
Proof.
  destruct (rev8_reverses 0xB1) as (_ & H & _); [lia|exact H].
Defined.

Lemma eval_sprites_spec (ns height : Z) (s8 : bool) (c : Cartridge)
    (cnt : nat) :
  forall (n : Z) (p : PPU),
    0 <= spr_count_next p <= 8 ->
    let p' := eval_sprites cnt n ns s8 height c p in
    let total := spr_count_next p + sprites_on_line cnt n (oam p) ns height in
    oam p' = oam p
    /\ spr_count_next p' = Z.min 8 total
    /\ ppustatus p'
       = if 8 <? total then Z.lor (ppustatus p) 0x20 else ppustatus p.
Proof.
  induction cnt as [|k IH]; intros n p Hc; cbv zeta.
  - cbn [eval_sprites sprites_on_line].
    replace (8 <? spr_count_next p + 0) with false
      by (symmetry; apply Z.ltb_ge; lia).
    repeat split; lia.
  - cbn [eval_sprites sprites_on_line]. unfold sprite_on_line. cbv zeta.
    assert (Hk : 0 <= sprites_on_line k (n + 1) (oam p) ns height).
    { clear. generalize (n + 1). induction k as [|j IHj]; intros m;
        cbn [sprites_on_line]; [lia|].
      specialize (IHj (m + 1)).
      destruct (sprite_on_line (oam p) ns height m); lia. }
    destruct ((ns - (oam p (n * 4 + 0) + 1) <? 0)
              || (ns - (oam p (n * 4 + 0) + 1) >=? height)) eqn:Eo;
      cbn [negb].
    + specialize (IH (n + 1) p Hc). cbv zeta in IH.
      rewrite Z.add_0_l. exact IH.
    + destruct (spr_count_next p <? 8) eqn:E8.
      * apply Z.ltb_lt in E8.
        repeat match goal with
        | |- context [let '(a, b) := ?X in _] => destruct X
        end.
        match goal with
        | |- context [eval_sprites k (n + 1) ns s8 height c ?q] =>
            set (p2 := q)
        end.
        assert (H2 : spr_count_next p2 = spr_count_next p + 1).
        { subst p2. cbn. unfold u8. apply Z.mod_small. lia. }
        assert (O2 : oam p2 = oam p) by reflexivity.
        assert (S2 : ppustatus p2 = ppustatus p) by reflexivity.
        specialize (IH (n + 1) p2 ltac:(lia)). cbv zeta in IH.
        rewrite H2, O2, S2 in IH.
        replace (spr_count_next p + (1 + sprites_on_line k (n + 1) (oam p) ns height))
          with (spr_count_next p + 1 + sprites_on_line k (n + 1) (oam p) ns height)
          by lia.
        exact IH.
      * apply Z.ltb_ge in E8.
        replace (8 <? _) with true by (symmetry; apply Z.ltb_lt; lia).
        cbn [oam spr_count_next ppustatus set_ppustatus].
        repeat split; lia.
Qed.

(** X21.  Sprite evaluation for the next scanline keeps at most eight
    sprites: when that line is visible, the sprite count is the number
    of the 64 OAM entries covering it, capped at 8, and status bit 5
    (overflow) is set exactly when more than eight cover it, the other
    status bits and OAM being left alone; when the next line is not
    visible the count is reset to 0 and nothing else happens. *)
Theorem sprite_limit (c : Cartridge) (sl : Z) (p : PPU) :
  let line := Z.rem (sl + 1) PPU_SCANLINES in
  let height := if nz (Z.land (ppuctrl p) 0x20) then 16 else 8 in
  let found := sprites_on_line 64 0 (oam p) line height in
  let p' := evaluate_sprites c sl p in
  ((line <? 240) = true ->
     spr_count_next p' = Z.min 8 found
     /\ Z.testbit (ppustatus p') 5 = (8 <? found)
     /\ (forall i, 0 <= i < 8 -> i <> 5 ->
           Z.testbit (ppustatus p') i = Z.testbit (ppustatus p) i)
     /\ oam p' = oam p)
  /\ ((line <? 240) = false -> p' = set_spr_count_next 0 p).
Proof.
  cbv zeta. unfold evaluate_sprites. cbv zeta.
  destruct (Z.rem (sl + 1) PPU_SCANLINES <? 240) eqn:E;
    (split; [|intros; congruence || reflexivity]); [|intros; congruence].
  intros _.
  cbn [ppuctrl set_ppustatus set_spr_count_next].
  match goal with
  | |- context [eval_sprites 64 0 ?ns ?s8 ?h c ?q] =>
      pose proof (eval_sprites_spec ns h s8 c 64 0 q) as H; set (p0 := q) in *
  end.
  cbv zeta in H. specialize (H ltac:(subst p0; cbn; lia)).
  destruct H as (Ho & Hc & Hs).
  assert (O0 : oam p0 = oam p) by reflexivity.
  assert (C0 : spr_count_next p0 = 0) by reflexivity.
  assert (S0 : ppustatus p0 = Z.land (ppustatus p) (not8 0x20))
    by reflexivity.
  rewrite O0, C0, S0, Z.add_0_l in *.
  split; [exact Hc|]. split; [|split; [|exact Ho]].
  - rewrite Hs. destruct (8 <? _).
    + rewrite Z.lor_spec, Z.land_spec. apply orb_true_r.
    + rewrite Z.land_spec. apply andb_false_r.
  - intros i Hi Hn. rewrite Hs.
    assert (B : Z.testbit 0x20 i = false).
    { change 0x20 with (2 ^ 5). rewrite Z.pow2_bits_eqb by lia.
      apply Z.eqb_neq. lia. }
    assert (N : Z.testbit (not8 0x20) i = true).
    { assert (Hc8 : i = 0 \/ i = 1 \/ i = 2 \/ i = 3 \/ i = 4 \/ i = 6 \/ i = 7)
        by lia.
      destruct Hc8 as [->|[->|[->|[->|[->|[->| ->]]]]]]; reflexivity. }
    destruct (8 <? _);
      rewrite ?Z.lor_spec, Z.land_spec, ?B, ?orb_false_r, N;
      apply andb_true_r.
Qed.

End PpuScrollFacts.

(** ** cpu.c: the stack, subroutines and interrupts *)

Module CpuFacts.

Import Controller Cart Apu Nes Props Props2 Finite BusFacts CpuLogic.
Import Cpu (CPU).
Import Ppu (PPU).

Section WithFloats.
Context {fm : FloatModel}.

Ltac run := rewrite FlagFacts.bind_eq; cbv beta;
            cbn [get_cpu mod_cpu ret fst snd].

Lemma stack_cell (sp : Z) :
  0 <= sp < 256 ->
  u16 (Z.lor 0x0100 sp) = 0x100 + sp
  /\ Z.land (0x100 + sp) 0x07FF = 0x100 + sp.
Proof.
  intros H. split; [now apply FlagFacts.stack_addr|].
  change 0x07FF with (Z.ones 11). rewrite Z.land_ones by lia.
  apply Z.mod_small. lia.
Qed.

(** [push]: the byte goes to RAM at 0x100 + S, S steps down, and nothing
    else changes. *)
Lemma push_eq (x : Z) (s : NES) :
  0 <= Cpu.S (cpu s) < 256 ->
  push x s
  = (tt, on_cpu (Cpu.set_S (u8 (Cpu.S (cpu s) - 1)))
           (with_ram (upd (ram s) (0x100 + Cpu.S (cpu s)) x) s)).
Proof.
  intros H. destruct (stack_cell _ H) as [E1 E2].
  unfold push. run. run. unfold cpu_write. rewrite E1.
  unfold bus_cpu_write.
  destruct (Z.leb_spec (0x100 + Cpu.S (cpu s)) 0x1FFF); [|lia].
  rewrite E2. reflexivity.
Qed.

(** [pull]: S steps up, and the byte comes from RAM at 0x100 + S. *)
Lemma pull_eq (s : NES) :
  pull s
  = (ram s (0x100 + u8 (Cpu.S (cpu s) + 1)),
     on_cpu (Cpu.set_S (u8 (Cpu.S (cpu s) + 1))) s).
Proof.
  pose proof (FlagFacts.u8_range (Cpu.S (cpu s) + 1)) as H.
  destruct (stack_cell _ H) as [E1 E2].
  unfold pull. run. run. unfold cpu_read.
  cbn [cpu on_cpu with_cpu Cpu.S Cpu.set_S]. rewrite E1.
  unfold bus_cpu_read.
  destruct (Z.leb_spec (0x100 + u8 (Cpu.S (cpu s) + 1)) 0x1FFF); [|lia].
  rewrite E2. reflexivity.
Qed.

Lemma sp_down_up (sp : Z) : 0 <= sp < 256 -> u8 (u8 (sp - 1) + 1) = sp.
Proof.
  intros H. apply Z.eqb_eq.
  exact (range_forall 256 (fun sp => u8 (u8 (sp - 1) + 1) =? sp)
           ltac:(vm_compute; reflexivity) sp H).
Qed.

Lemma sp_down_differs (sp : Z) : 0 <= sp < 256 -> u8 (sp - 1) <> sp.
Proof.
  intros H E. unfold u8 in E. revert E. Z.div_mod_to_equations. lia.
Qed.

Lemma with_cpu_same (s : NES) : with_cpu (cpu s) s = s.
Proof. now destruct s. Qed.

Lemma set_S_same (c : CPU) : Cpu.set_S (Cpu.S c) c = c.
Proof. now destruct c. Qed.

(** X22.  The stack lives in page 1 of RAM and wraps inside it: a pull
    after a push returns the pushed byte and restores the stack pointer
    and every register, for every stack pointer including 0x00, where
    the push wraps to 0xFF; all that is left is the byte in RAM at
    0x100 + S.  Two pushes come back in reverse order. *)
Theorem stack_round_trip (s : NES) (x y : Z) :
  0 <= Cpu.S (cpu s) < 256 ->
  pull (snd (push x s))
  = (x, with_ram (upd (ram s) (0x100 + Cpu.S (cpu s)) x) s)
  /\ Cpu.S (cpu (snd (push x s))) = (Cpu.S (cpu s) - 1) mod 256
  /\ fst (pull (snd (push y (snd (push x s))))) = y
  /\ fst (pull (snd (pull (snd (push y (snd (push x s))))))) = x.
Proof.
  intros H.
  pose proof (sp_down_up _ H) as Hud.
  pose proof (sp_down_differs _ H) as Hne.
  pose proof (FlagFacts.u8_range (Cpu.S (cpu s) - 1)) as H1.
  rewrite (push_eq x s H). cbn [snd].
  set (s1 := on_cpu _ _).
  assert (S1 : Cpu.S (cpu s1) = u8 (Cpu.S (cpu s) - 1)) by reflexivity.
  assert (R1 : ram s1 = upd (ram s) (0x100 + Cpu.S (cpu s)) x)
    by reflexivity.
  split; [|split; [exact S1|]].
  - rewrite pull_eq, S1, Hud, R1. unfold upd at 1. rewrite Z.eqb_refl.
    f_equal. subst s1. unfold on_cpu.
    cbn [cpu with_cpu with_ram Cpu.set_S Cpu.S ram ppu cart ctrl1 ctrl2 apu].
    destruct s as [c p r ct c1 c2 a]. destruct c. reflexivity.
  - rewrite (push_eq y s1) by (rewrite S1; exact H1). cbn [snd].
    set (s2 := on_cpu _ _).
    assert (S2 : Cpu.S (cpu s2) = u8 (Cpu.S (cpu s1) - 1)) by reflexivity.
    assert (R2 : ram s2 = upd (ram s1) (0x100 + Cpu.S (cpu s1)) y)
      by reflexivity.
    rewrite !pull_eq. cbn [fst snd].
    cbn [cpu on_cpu with_cpu Cpu.S Cpu.set_S ram].
    rewrite S2, (sp_down_up (Cpu.S (cpu s1))) by (rewrite S1; exact H1).
    rewrite R2, R1, S1, Hud. unfold upd. rewrite !Z.eqb_refl.
    split; [reflexivity|].
    destruct (Z.eqb_spec (0x100 + Cpu.S (cpu s))
                (0x100 + u8 (Cpu.S (cpu s) - 1))); [lia|reflexivity].
Qed.

(** [cpu_read(c, c->PC++)]: the read is at the old PC, in the state where
    PC has moved on. *)
Lemma fetch_pc_eq (s : NES) :
  fetch_pc s
  = cpu_read (Cpu.PC (cpu s))
      (on_cpu (fun c => Cpu.set_PC (u16 (Cpu.PC c + 1)) c) s).
Proof. unfold fetch_pc. run. run. reflexivity. Qed.

Lemma fetch_pc_keeps (s : NES) :
  cpu (snd (fetch_pc s)) = Cpu.set_PC (u16 (Cpu.PC (cpu s) + 1)) (cpu s)
  /\ ram (snd (fetch_pc s)) = ram s.
Proof.
  rewrite fetch_pc_eq.
  destruct (FlagFacts.read_keeps (Cpu.PC (cpu s))
              (on_cpu (fun c => Cpu.set_PC (u16 (Cpu.PC c + 1)) c) s))
    as [C R].
  rewrite C, R. split; reflexivity.
Qed.

(** The two operand fetches of an absolute address. *)
Lemma fetch16_eq (s : NES) :
  cpu (snd (fetch16 s))
  = Cpu.set_PC (u16 (u16 (Cpu.PC (cpu s) + 1) + 1)) (cpu s)
  /\ ram (snd (fetch16 s)) = ram s.
Proof.
  unfold fetch16. run.
  destruct (fetch_pc_keeps s) as [C1 R1].
  set (s1 := snd (fetch_pc s)) in *. clearbody s1.
  run. destruct (fetch_pc_keeps s1) as [C2 R2].
  rewrite C2, R2, C1, R1. split; reflexivity.
Qed.

Lemma return_address (pc : Z) :
  0 <= pc < 65536 ->
  u16 (make16 (lo8 (u16 (u16 (u16 (pc + 1) + 1) - 1)))
              (hi8 (u16 (u16 (u16 (pc + 1) + 1) - 1))) + 1)
  = (pc + 2) mod 65536.
Proof.
  intros H. rewrite UtilFacts.word_split by (apply Z.mod_pos_bound; lia).
  unfold u16. Z.div_mod_to_equations. lia.
Qed.

(** X23.  JSR (0x20) pushes the address of its own last byte, high byte
    first, and jumps to its operand; RTS (0x60) pulls it and resumes at
    the byte after the JSR: run back to back, they take 6 cycles each,
    leave PC two past the operand's start (modulo 0x10000), and restore
    the stack pointer. *)
Theorem jsr_then_rts (s : NES) :
  0 <= Cpu.S (cpu s) < 256 -> 0 <= Cpu.PC (cpu s) < 65536 ->
  let r1 := exec 0x20 s in
  let r2 := exec 0x60 (snd r1) in
  fst r1 = 6 /\ fst r2 = 6
  /\ Cpu.PC (cpu (snd r1)) = fst (fetch16 s)
  /\ Cpu.S (cpu (snd r1)) = (Cpu.S (cpu s) - 2) mod 256
  /\ ram (snd r1) (0x100 + Cpu.S (cpu s))
     = hi8 ((Cpu.PC (cpu s) + 1) mod 65536)
  /\ ram (snd r1) (0x100 + (Cpu.S (cpu s) - 1) mod 256)
     = lo8 ((Cpu.PC (cpu s) + 1) mod 65536)
  /\ Cpu.PC (cpu (snd r2)) = (Cpu.PC (cpu s) + 2) mod 65536
  /\ Cpu.S (cpu (snd r2)) = Cpu.S (cpu s).
Proof.
  intros HS HP. cbv zeta.
  change (exec 0x20) with op_jsr. change (exec 0x60) with op_rts.
  pose proof (sp_down_up _ HS) as Hud.
  pose proof (sp_down_differs _ HS) as Hne.
  pose proof (FlagFacts.u8_range (Cpu.S (cpu s) - 1)) as H1.
  destruct (fetch16_eq s) as [C0 R0].
  unfold op_jsr. run. set (a := fst (fetch16 s)).
  set (s0 := snd (fetch16 s)) in *. clearbody a s0. run.
  set (r := u16 (Cpu.PC (cpu s0) - 1)).
  assert (S0 : Cpu.S (cpu s0) = Cpu.S (cpu s)) by (rewrite C0; reflexivity).
  assert (Er : r = (Cpu.PC (cpu s) + 1) mod 65536).
  { subst r. rewrite C0. cbn [Cpu.PC Cpu.set_PC]. unfold u16.
    Z.div_mod_to_equations. lia. }
  run. rewrite (push_eq (hi8 r) s0) by (rewrite S0; exact HS). cbn [snd].
  set (s1 := on_cpu _ _).
  assert (S1 : Cpu.S (cpu s1) = u8 (Cpu.S (cpu s) - 1))
    by (subst s1; cbn; rewrite S0; reflexivity).
  assert (R1 : ram s1 = upd (ram s) (0x100 + Cpu.S (cpu s)) (hi8 r))
    by (subst s1; cbn; rewrite S0, R0; reflexivity).
  assert (P1 : Cpu.PC (cpu s1) = Cpu.PC (cpu s0)) by reflexivity.
  clearbody s1.
  run. rewrite (push_eq (lo8 r) s1) by (rewrite S1; exact H1). cbn [snd].
  set (s2 := on_cpu _ _).
  assert (S2 : Cpu.S (cpu s2) = u8 (u8 (Cpu.S (cpu s) - 1) - 1))
    by (subst s2; cbn; rewrite S1; reflexivity).
  assert (R2 : ram s2
               = upd (upd (ram s) (0x100 + Cpu.S (cpu s)) (hi8 r))
                   (0x100 + u8 (Cpu.S (cpu s) - 1)) (lo8 r))
    by (subst s2; cbn; rewrite S1, R1; reflexivity).
  clearbody s2.
  run. set (s3 := on_cpu (Cpu.set_PC a) s2).
  assert (S3 : Cpu.S (cpu s3) = u8 (u8 (Cpu.S (cpu s) - 1) - 1))
    by (subst s3; cbn; exact S2).
  assert (R3 : ram s3 = ram s2) by reflexivity.
  assert (P3 : Cpu.PC (cpu s3) = a) by reflexivity.
  clearbody s3.
  split; [reflexivity|].
  unfold op_rts. run. rewrite (pull_eq s3). cbn [fst snd].
  set (s4 := on_cpu _ s3).
  assert (S4 : Cpu.S (cpu s4) = u8 (Cpu.S (cpu s) - 1))
    by (subst s4; cbn; rewrite S3; apply sp_down_up; exact H1).
  assert (R4 : ram s4 = ram s2) by (subst s4; cbn; exact R3).
  run. rewrite (pull_eq s4). cbn [fst snd]. run.
  cbn [cpu on_cpu with_cpu Cpu.PC Cpu.S Cpu.set_PC Cpu.set_S].
  rewrite S3, S4, R4, R3, R2, Hud.
  rewrite (sp_down_up (u8 (Cpu.S (cpu s) - 1))) by exact H1.
  unfold upd. rewrite !Z.eqb_refl.
  destruct (Z.eqb_spec (0x100 + Cpu.S (cpu s))
              (0x100 + u8 (Cpu.S (cpu s) - 1))); [lia|].
  split; [reflexivity|]. split; [exact P3|].
  split.
  { unfold u8. generalize (Cpu.S (cpu s)) HS. intros sp Hsp.
    apply Z.eqb_eq.
    exact (range_forall 256
      (fun sp => ((sp - 1) mod 256 - 1) mod 256 =? (sp - 2) mod 256)
      ltac:(vm_compute; reflexivity) sp Hsp). }
  split; [now rewrite Er|]. split; [now rewrite Er|].
  split; [|reflexivity].
  subst r. rewrite C0. cbn [Cpu.PC Cpu.set_PC].
  apply return_address. exact HP.
Qed.

(** Reads at $6000 and above go to the cartridge and change nothing. *)
Lemma cart_read (s : NES) (a : Z) :
  0x6000 <= a -> bus_cpu_read s a = (cart_cpu_read (cart s) a, s).
Proof.
  intros Ha. unfold bus_cpu_read.
  destruct (Z.leb_spec a 0x1FFF); [lia|].
  destruct (Z.leb_spec a 0x3FFF); [lia|].
  destruct (Z.eqb_spec a 0x4016); [lia|].
  destruct (Z.eqb_spec a 0x4017); [lia|].
  destruct (Z.leb_spec a 0x4017); [lia|]. rewrite andb_false_r.
  destruct (Z.geb_spec a 0x6000); [reflexivity|lia].
Qed.

Lemma sp_steps (sp : Z) :
  0 <= sp < 256 ->
  u8 (sp - 1) = (sp - 1) mod 256
  /\ u8 (u8 (sp - 1) - 1) = (sp - 2) mod 256
  /\ u8 (u8 (u8 (sp - 1) - 1) - 1) = (sp - 3) mod 256.
Proof. intros H. unfold u8. Z.div_mod_to_equations. lia. Qed.

Lemma interrupt_enters (vec : Z) (s : NES) :
  0x8000 <= vec -> 0 <= Cpu.S (cpu s) < 256 ->
  enters vec s (snd (interrupt vec s))
  /\ Cpu.nmi_line (cpu (snd (interrupt vec s))) = Cpu.nmi_line (cpu s)
  /\ Cpu.irq_line (cpu (snd (interrupt vec s))) = Cpu.irq_line (cpu s).
Proof.
  intros Hv HS. destruct (sp_steps _ HS) as (E1 & E2 & E3).
  pose proof (FlagFacts.u8_range (Cpu.S (cpu s) - 1)) as H1.
  pose proof (FlagFacts.u8_range (u8 (Cpu.S (cpu s) - 1) - 1)) as H2.
  unfold interrupt. run. run.
  rewrite (push_eq _ s HS). cbn [snd].
  set (s1 := on_cpu _ _).
  assert (F1 : cpu s1 = Cpu.set_S (u8 (Cpu.S (cpu s) - 1)) (cpu s)
               /\ ram s1 = upd (ram s) (0x100 + Cpu.S (cpu s))
                             (hi8 (Cpu.PC (cpu s)))
               /\ cart s1 = cart s /\ ppu s1 = ppu s)
    by (repeat split; reflexivity).
  clearbody s1. destruct F1 as (C1 & R1 & K1 & U1).
  run. rewrite (push_eq _ s1) by (rewrite C1; exact H1). cbn [snd].
  set (s2 := on_cpu _ _).
  assert (F2 : cpu s2 = Cpu.set_S (u8 (Cpu.S (cpu s1) - 1)) (cpu s1)
               /\ ram s2 = upd (ram s1) (0x100 + Cpu.S (cpu s1))
                             (lo8 (Cpu.PC (cpu s)))
               /\ cart s2 = cart s1 /\ ppu s2 = ppu s1)
    by (repeat split; reflexivity).
  clearbody s2. destruct F2 as (C2 & R2 & K2 & U2).
  run. run.
  rewrite (push_eq _ s2) by (rewrite C2, C1; exact H2). cbn [snd].
  set (s3 := on_cpu _ _).
  assert (F3 : cpu s3 = Cpu.set_S (u8 (Cpu.S (cpu s2) - 1)) (cpu s2)
               /\ ram s3 = upd (ram s2) (0x100 + Cpu.S (cpu s2))
                             (Z.lor (Z.land (Cpu.P (cpu s2)) (not8 FLAG_B))
                                FLAG_U)
               /\ cart s3 = cart s2 /\ ppu s3 = ppu s2)
    by (repeat split; reflexivity).
  clearbody s3. destruct F3 as (C3 & R3 & K3 & U3).
  run. run. unfold cpu_read.
  rewrite (cart_read _ vec) by lia. cbn [fst snd].
  run. rewrite (cart_read _ (vec + 1)) by lia. cbn [fst snd].
  run.
  unfold enters.
  cbn [cpu ram cart ppu on_cpu with_cpu Cpu.S Cpu.P Cpu.PC Cpu.A Cpu.X Cpu.Y
       Cpu.cycles Cpu.nmi_line Cpu.irq_line Cpu.set_P Cpu.set_PC
       Cpu.set_cycles].
  rewrite K3, K2, K1, U3, U2, U1, R3, R2, R1, C3, C2, C1.
  cbn [Cpu.S Cpu.P Cpu.PC Cpu.A Cpu.X Cpu.Y Cpu.cycles Cpu.nmi_line
       Cpu.irq_line Cpu.set_S].
  rewrite E3, E2, E1. unfold upd.
  assert (N1 : 0x100 + Cpu.S (cpu s) <> 0x100 + (Cpu.S (cpu s) - 1) mod 256)
    by (Z.div_mod_to_equations; lia).
  assert (N2 : 0x100 + Cpu.S (cpu s) <> 0x100 + (Cpu.S (cpu s) - 2) mod 256)
    by (Z.div_mod_to_equations; lia).
  assert (N3 : 0x100 + (Cpu.S (cpu s) - 1) mod 256
               <> 0x100 + (Cpu.S (cpu s) - 2) mod 256)
    by (Z.div_mod_to_equations; lia).
  rewrite !Z.eqb_refl.
  destruct (Z.eqb_spec (0x100 + Cpu.S (cpu s))
              (0x100 + (Cpu.S (cpu s) - 2) mod 256)); [lia|].
  destruct (Z.eqb_spec (0x100 + Cpu.S (cpu s))
              (0x100 + (Cpu.S (cpu s) - 1) mod 256)); [lia|].
  destruct (Z.eqb_spec (0x100 + (Cpu.S (cpu s) - 1) mod 256)
              (0x100 + (Cpu.S (cpu s) - 2) mod 256)); [lia|].
  repeat match goal with |- _ /\ _ => split end; try reflexivity.
  intros a A1 A2 A3.
  destruct (Z.eqb_spec a (0x100 + (Cpu.S (cpu s) - 2) mod 256)); [lia|].
  destruct (Z.eqb_spec a (0x100 + (Cpu.S (cpu s) - 1) mod 256)); [lia|].
  destruct (Z.eqb_spec a (0x100 + Cpu.S (cpu s))); [lia|reflexivity].
Qed.

(** X24.  [cpu_step] serves a pending NMI before anything else, and a
    pending IRQ when I is clear and no NMI is pending: no instruction is
    fetched, 7 cycles are returned, the line served is cleared, and the
    CPU enters the handler: PC high, PC low and P (B clear, U set) are
    pushed, S drops by three modulo 256, I is set, PC is loaded from the
    cartridge at $FFFA/$FFFB for the NMI and $FFFE/$FFFF for the IRQ.
    An NMI leaves a pending IRQ pending. *)
Theorem interrupt_entry (s : NES) :
  0 <= Cpu.S (cpu s) < 256 ->
  (Cpu.nmi_line (cpu s) = true ->
     fst (cpu_step s) = 7
     /\ enters 0xFFFA s (snd (cpu_step s))
     /\ Cpu.nmi_line (cpu (snd (cpu_step s))) = false
     /\ Cpu.irq_line (cpu (snd (cpu_step s))) = Cpu.irq_line (cpu s))
  /\ (Cpu.nmi_line (cpu s) = false -> Cpu.irq_line (cpu s) = true ->
      Z.land (Cpu.P (cpu s)) FLAG_I = 0 ->
     fst (cpu_step s) = 7
     /\ enters 0xFFFE s (snd (cpu_step s))
     /\ Cpu.irq_line (cpu (snd (cpu_step s))) = false).
Proof.
  intros HS. split.
  - intros Hn. unfold cpu_step. run. rewrite Hn. run. run.
    unfold cpu_nmi.
    destruct (interrupt_enters 0xFFFA (on_cpu (Cpu.set_nmi_line false) s))
      as (He & Hl & Hi); [lia|exact HS|].
    split; [reflexivity|]. split; [exact He|]. split; [exact Hl|exact Hi].
  - intros Hn Hi HI. unfold cpu_step. run. rewrite Hn, Hi.
    unfold nz. rewrite HI. cbn [Z.eqb negb andb]. run. run.
    unfold cpu_irq. run.
    cbn [cpu on_cpu with_cpu Cpu.P Cpu.set_irq_line].
    unfold nz. rewrite HI. cbn [Z.eqb negb].
    destruct (interrupt_enters 0xFFFE (on_cpu (Cpu.set_irq_line false) s))
      as (He & _ & Hl); [lia|exact HS|].
    split; [reflexivity|]. split; [exact He|exact Hl].
Qed.

(** X25.  Reset sets I, lowers S by three (modulo 256) without writing
    to the stack, and loads PC from the cartridge at $FFFC/$FFFD, or
    with $8000 when that vector is 0, so that PC is never 0 after a
    reset; A, X, Y, the other flags, RAM, the cartridge and the PPU are
    untouched.  After power-on with a cartridge loaded, the reset leaves
    S = 0xFA and P = 0x24. *)
Theorem reset_state (s : NES) (audio : bool) (c : Cartridge) :
  let s' := snd (nes_reset s) in
  let vector :=
    make16 (cart_cpu_read (cart s) 0xFFFC) (cart_cpu_read (cart s) 0xFFFD) in
  Cpu.PC (cpu s') = (if vector =? 0 then 0x8000 else vector)
  /\ Cpu.PC (cpu s') <> 0
  /\ Cpu.S (cpu s') = (Cpu.S (cpu s) - 3) mod 256
  /\ Cpu.P (cpu s') = Z.lor (Cpu.P (cpu s)) FLAG_I
  /\ Cpu.A (cpu s') = Cpu.A (cpu s) /\ Cpu.X (cpu s') = Cpu.X (cpu s)
  /\ Cpu.Y (cpu s') = Cpu.Y (cpu s)
  /\ ram s' = ram s /\ cart s' = cart s /\ ppu s' = ppu s
  /\ Cpu.S (cpu (snd (nes_reset (nes_load_rom (nes_init audio) c)))) = 0xFA
  /\ Cpu.P (cpu (snd (nes_reset (nes_load_rom (nes_init audio) c)))) = 0x24.
Proof.
  assert (E0 : forall t : NES,
    cpu_reset t
    = (tt, on_cpu (fun k =>
        Cpu.set_PC (make16 (cart_cpu_read (cart t) 0xFFFC)
                      (cart_cpu_read (cart t) 0xFFFD))
          (Cpu.set_S (u8 (Cpu.S k - 3))
             (Cpu.set_P (Z.lor (Cpu.P k) FLAG_I) k))) t)).
  { intros t. unfold cpu_reset. run. run. run.
    unfold cpu_read. rewrite (cart_read _ 0xFFFC) by lia. cbn [fst snd].
    run. rewrite (cart_read _ 0xFFFD) by lia. cbn [fst snd].
    reflexivity. }
  assert (E : forall t : NES,
    snd (nes_reset t)
    = on_cpu (fun k =>
        let vector := make16 (cart_cpu_read (cart t) 0xFFFC)
                        (cart_cpu_read (cart t) 0xFFFD) in
        Cpu.set_PC (if vector =? 0 then 0x8000 else vector)
          (Cpu.set_S (u8 (Cpu.S k - 3))
             (Cpu.set_P (Z.lor (Cpu.P k) FLAG_I) k))) t).
  { intros t. unfold nes_reset. run. rewrite E0. cbn [fst snd]. run.
    cbn [cpu cart on_cpu with_cpu Cpu.PC Cpu.set_PC]. cbv zeta.
    destruct (make16 _ _ =? 0); reflexivity. }
  cbv zeta. rewrite !E. cbn [cpu on_cpu with_cpu ram cart ppu].
  cbv zeta. cbn [Cpu.PC Cpu.S Cpu.P Cpu.A Cpu.X Cpu.Y Cpu.set_PC Cpu.set_S
                 Cpu.set_P].
  repeat match goal with |- _ /\ _ => split end; try reflexivity.
  - destruct (Z.eqb_spec (make16 (cart_cpu_read (cart s) 0xFFFC)
                            (cart_cpu_read (cart s) 0xFFFD)) 0);
      [discriminate|assumption].
Qed.

(** X26.  Every opcode byte outside the 151 case labels of the switch is
    a NOP of one byte and two cycles: [exec] changes nothing, and a
    [cpu_step] that fetches such a byte with no interrupt pending only
    moves PC one byte on and counts two cycles, so the bytes that would
    be the operand of an undocumented instruction are decoded as the
    next opcodes. *)
Theorem unofficial_opcodes (op : Z) (s : NES) :
  official op = false ->
  exec op s = (2, s)
  /\ (Cpu.nmi_line (cpu s) = false -> Cpu.irq_line (cpu s) = false ->
      fst (fetch_pc s) = op ->
      fst (cpu_step s) = 2
      /\ cpu (snd (cpu_step s))
         = Cpu.set_cycles ((Cpu.cycles (cpu s) + 2) mod 2 ^ 64)
             (Cpu.set_PC (u16 (Cpu.PC (cpu s) + 1)) (cpu s))
      /\ ram (snd (cpu_step s)) = ram s).
Proof.
  intros H.
  assert (E : forall t, exec op t = (2, t)).
  { intros t. unfold official in H. revert H. clear. intros H. unfold exec.
    repeat match goal with
           | |- (match ?p with _ => _ end) _ = _ =>
               is_var p; destruct p; cbv beta iota
           end;
      first [ exfalso; vm_compute in H; discriminate H | reflexivity ]. }
  split; [apply E|].
  intros Hn Hi Hop. unfold cpu_step. run. rewrite Hn, Hi. cbn [andb].
  run. rewrite Hop. run. rewrite E. cbn [fst snd]. run.
  destruct (fetch_pc_keeps s) as [C R].
  cbn [cpu ram on_cpu with_cpu]. rewrite C, R.
  split; [reflexivity|]. split; reflexivity.
Qed.

End WithFloats.

Lemma booted_sp : 0 <= Cpu.S (cpu Examples.booted) < 256.
Proof. vm_compute. split; [discriminate|reflexivity]. Qed.

Lemma booted_pc : 0 <= Cpu.PC (cpu Examples.booted) < 65536.
Proof. vm_compute. split; [discriminate|reflexivity]. Qed.

Lemma stack_round_trip_witness :
  fst (pull (snd (push 0x42 Examples.booted))) = 0x42.
Proof.
  destruct (stack_round_trip Examples.booted 0x42 0x43 booted_sp)
    as (H & _).
  rewrite H. reflexivity.
Defined.

Lemma jsr_then_rts_witness :
  Cpu.PC (cpu (snd (exec 0x60 (snd (exec 0x20 Examples.booted)))))
  = (Cpu.PC (cpu Examples.booted) + 2) mod 65536.
Proof.
  destruct (jsr_then_rts Examples.booted booted_sp booted_pc)
    as (_ & _ & _ & _ & _ & _ & H & _).
  exact H.
Defined.

Lemma interrupt_entry_witness :
  fst (cpu_step (on_cpu (Cpu.set_nmi_line true) Examples.booted)) = 7.
Proof.
  destruct (interrupt_entry (on_cpu (Cpu.set_nmi_line true) Examples.booted))
    as [H _].
  - vm_compute. split; [discriminate|reflexivity].
  - assert (Hn : Cpu.nmi_line
                   (cpu (on_cpu (Cpu.set_nmi_line true) Examples.booted))
                 = true) by reflexivity.
    exact (proj1 (H Hn)).
Defined.

Lemma unofficial_opcodes_witness :
  exec 0x02 Examples.booted = (2, Examples.booted).
Proof.
  exact (proj1 (unofficial_opcodes 0x02 Examples.booted eq_refl)).
Defined.

End CpuFacts.

(** ** The cartridge ROM through a run *)

Module RomFacts.

Import Controller Cart Apu Nes Props Props2 BusFacts CpuLogic NesFacts
  RunFacts.
Import Cpu (CPU).
Import Ppu (PPU).

Lemma same_rom_refl (c : Cartridge) : same_rom c c.
Proof. unfold same_rom. repeat split; reflexivity. Qed.

Lemma same_rom_trans (c1 c2 c3 : Cartridge) :
  same_rom c1 c2 -> same_rom c2 c3 -> same_rom c1 c3.
Proof.
  unfold same_rom.
  intros (A1 & A2 & A3 & A4 & A5 & A6 & A7) (B1 & B2 & B3 & B4 & B5 & B6 & B7).
  repeat split; try congruence.
  intros H. rewrite B7 by congruence. now apply A7.
Qed.

Lemma ppu_write_mem_rom (c : Cartridge) (p : PPU) (a x : Z) :
  same_rom c (snd (Ppu.ppu_write_mem c p a x)).
Proof.
  unfold Ppu.ppu_write_mem. cbv zeta.
  destruct (Z.land a 16383 <? 8192).
  - destruct (chr c) as [m|]; [|apply same_rom_refl].
    destruct (Ppu.cart_linked p && chr_is_ram c) eqn:E;
      [|apply same_rom_refl].
    apply andb_true_iff in E. destruct E as [_ E].
    unfold same_rom. cbn. repeat split; try reflexivity. congruence.
  - destruct (Z.land a 16383 <? 16128); [apply same_rom_refl|].
    destruct (Z.land a 16383 <? 16384); apply same_rom_refl.
Qed.

Lemma ppu_write_reg_rom (c : Cartridge) (p : PPU) (reg x : Z) :
  same_rom c (snd (Ppu.ppu_write_reg c p reg x)).
Proof.
  unfold Ppu.ppu_write_reg. cbv zeta.
  destruct (Z.land reg 7) as [|q|q]; try apply same_rom_refl.
  repeat (destruct q as [q|q|]; try apply same_rom_refl);
    try (break_if; apply same_rom_refl).
  pose proof (ppu_write_mem_rom c p (Ppu.v p) x) as H.
  destruct (Ppu.ppu_write_mem c p (Ppu.v p) x) as [p1 c1]. exact H.
Qed.

Section WithFloats.
Context {fm : FloatModel}.

Lemma read_cart (s : NES) (a : Z) : cart (snd (bus_cpu_read s a)) = cart s.
Proof.
  unfold bus_cpu_read.
  repeat match goal with
         | |- context [if ?b then _ else _] => destruct b
         | |- context [let '(_, _) := ?x in _] => destruct x
         | |- context [match apu s with _ => _ end] => destruct (apu s)
         end; reflexivity.
Qed.

Lemma oam_dma_cart (n : nat) :
  forall i base start s, cart (oam_dma n i base start s) = cart s.
Proof.
  induction n as [|n IH]; intros i base start s; cbn [oam_dma];
    [reflexivity|].
  pose proof (read_cart s (u16 (base + i))) as H.
  destruct (bus_cpu_read s (u16 (base + i))) as [x s1]. cbn [snd] in H.
  rewrite IH. exact H.
Qed.

Lemma write_rom (s : NES) (a x : Z) :
  same_rom (cart s) (cart (bus_cpu_write s a x)).
Proof.
  unfold bus_cpu_write.
  destruct (a <=? 8191); [apply same_rom_refl|].
  destruct (a <=? 16383).
  { pose proof (ppu_write_reg_rom (cart s) (ppu s)
                  (u16 (8192 + Z.land a 7)) x) as H.
    destruct (Ppu.ppu_write_reg _ _ _ _) as [p c]. exact H. }
  destruct (a =? 16404).
  { cbv zeta. rewrite oam_dma_cart. apply same_rom_refl. }
  destruct (a =? 16406); [apply same_rom_refl|].
  destruct ((a >=? 16384) && (a <=? 16407)).
  { unfold on_apu. destruct (apu s); apply same_rom_refl. }
  destruct (a >=? 24576); [|apply same_rom_refl].
  cbn [cart with_cart]. unfold cart_cpu_write.
  destruct ((a >=? 24576) && (a <=? 32767)); [|apply same_rom_refl].
  destruct (prg_ram (cart s)); [|apply same_rom_refl].
  destruct (nz (prg_ram_size (cart s))); [|apply same_rom_refl].
  unfold same_rom. cbn. repeat split; reflexivity.
Qed.

Lemma holds_read (c0 : Cartridge) (s : NES) (a : Z) :
  holds_rom c0 s -> holds_rom c0 (snd (bus_cpu_read s a)).
Proof. unfold holds_rom. now rewrite read_cart. Qed.

Lemma holds_write (c0 : Cartridge) (s : NES) (a x : Z) :
  holds_rom c0 s -> holds_rom c0 (bus_cpu_write s a x).
Proof.
  unfold holds_rom. intros H. eapply same_rom_trans; [exact H|].
  apply write_rom.
Qed.

Lemma holds_reg (c0 : Cartridge) (s : NES) (c : CPU) :
  cpu_upd (cpu s) c -> holds_rom c0 s -> holds_rom c0 (with_cpu c s).
Proof. intros _ H. exact H. Qed.

Lemma on_apu_cart (f : APU -> APU) (s : NES) : cart (on_apu f s) = cart s.
Proof. unfold on_apu. destruct (apu s); reflexivity. Qed.

Lemma dmc_fetch_cart (s : NES) : cart (dmc_fetch s) = cart s.
Proof.
  unfold dmc_fetch. destruct (apu s) as [a|]; [|reflexivity].
  pose proof (read_cart s (dmc_cur_addr a)) as H.
  destruct (bus_cpu_read s (dmc_cur_addr a)) as [b s1]. cbn [snd] in H.
  rewrite on_apu_cart. exact H.
Qed.

Lemma dmc_clock_cart (s : NES) : cart (dmc_clock s) = cart s.
Proof.
  unfold dmc_clock. destruct (apu s) as [a|]; [|reflexivity]. cbv zeta.
  rewrite on_apu_cart.
  destruct (dmc_bits_remaining a =? 0); [|reflexivity].
  rewrite on_apu_cart.
  destruct (negb (dmc_buffer_full a) && bus_linked a
            && (dmc_remaining a >? 0)); [apply dmc_fetch_cart|reflexivity].
Qed.

Lemma dmc_clocks_cart (n : nat) : forall s, cart (dmc_clocks n s) = cart s.
Proof.
  induction n as [|n IH]; intros s; cbn [dmc_clocks]; [reflexivity|].
  rewrite IH. apply dmc_clock_cart.
Qed.

Lemma tick_cart (s : NES) (n : Z) : cart (apu_tick_cpu_cycles s n) = cart s.
Proof.
  unfold apu_tick_cpu_cycles. destruct (apu s) as [a|]; [|reflexivity].
  cbv zeta. destruct (dmc_enabled _); [|reflexivity].
  destruct (fp_dmc_advance _ _) as [due f]. now rewrite dmc_clocks_cart.
Qed.

Lemma after_step_cart (used : Z) (s : NES) :
  cart (after_step used s) = cart s.
Proof.
  unfold after_step. cbv zeta.
  set (s1 := on_ppu _ s).
  assert (E1 : cart s1 = cart s) by reflexivity. clearbody s1.
  assert (E2 : cart (take_nmi s1) = cart s1)
    by (unfold take_nmi; destruct (Ppu.nmi_pending (ppu s1)); reflexivity).
  set (s2 := take_nmi s1) in *. clearbody s2.
  unfold tick_apu. destruct (apu s2); [|congruence].
  cbv zeta. pose proof (tick_cart s2 used) as E3.
  destruct (_ || _); cbn [cart on_cpu with_cpu]; congruence.
Qed.

Lemma iteration_rom (s : NES) :
  same_rom (cart s) (cart (snd (nes_iteration s))).
Proof.
  rewrite iteration_snd, after_step_cart.
  apply (triple_cpu_step (holds_rom (cart s))
           (holds_read _) (holds_write _) (holds_reg _) s).
  apply same_rom_refl.
Qed.

Lemma run_loop_rom (fuel : nat) :
  forall n s us s',
    nes_run_loop fuel n s = Some (us, s') -> same_rom (cart s) (cart s').
Proof.
  induction fuel as [|k IH]; intros n s us s' H; cbn [nes_run_loop] in H.
  - destruct (n >? 0); [discriminate|]. injection H as _ <-.
    apply same_rom_refl.
  - destruct (n >? 0); [|injection H as _ <-; apply same_rom_refl].
    pose proof (iteration_rom s) as H1.
    destruct (nes_iteration s) as [used s1]. cbn [snd] in H1.
    destruct (nes_run_loop k (n - used) s1) as [[us1 s2]|] eqn:E;
      [|discriminate].
    injection H as _ <-.
    eapply same_rom_trans; [exact H1|]. exact (IH _ _ _ _ E).
Qed.

Lemma apply_op_rom (s : NES) (op : machine_op) :
  same_rom (cart s) (cart (apply_op s op)).
Proof.
  destruct op as [| | | |n]; cbn [apply_op].
  - apply (triple_cpu_step (holds_rom (cart s))
             (holds_read _) (holds_write _) (holds_reg _) s).
    apply same_rom_refl.
  - apply (triple_nes_reset (holds_rom (cart s))
             (holds_read _) (holds_reg _) s).
    apply same_rom_refl.
  - apply (triple_cpu_nmi (holds_rom (cart s))
             (holds_read _) (holds_write _) (holds_reg _) s).
    apply same_rom_refl.
  - apply (triple_cpu_irq (holds_rom (cart s))
             (holds_read _) (holds_write _) (holds_reg _) s).
    apply same_rom_refl.
  - unfold nes_run_cycles.
    destruct (nes_run_loop (Z.to_nat n) n s) as [[us s']|] eqn:E;
      [|apply same_rom_refl].
    exact (run_loop_rom _ _ _ _ _ E).
Qed.

(** X27.  The program cannot change the ROM: after any sequence of
    instruction steps, resets, interrupts and runs, the cartridge holds
    the same PRG ROM, the same CHR when it is ROM, and the same
    geometry, whatever the program wrote and wherever; so every CPU read
    at $8000-$FFFF returns what it returned before. *)
Theorem rom_is_read_only (ops : list machine_op) (s : NES) (a : Z) :
  same_rom (cart s) (cart (run_ops ops s))
  /\ (0x8000 <= a ->
      fst (bus_cpu_read (run_ops ops s) a) = fst (bus_cpu_read s a)).
Proof.
  assert (H : same_rom (cart s) (cart (run_ops ops s))).
  { revert s. induction ops as [|op ops IH]; intros s;
      cbn [run_ops fold_left]; [apply same_rom_refl|].
    eapply same_rom_trans; [apply apply_op_rom|apply IH]. }
  split; [exact H|]. intros Ha.
  rewrite !CpuFacts.cart_read by lia. cbn [fst].
  destruct H as (H1 & H2 & _).
  unfold cart_cpu_read.
  destruct (Z.geb_spec a 0x6000); [|lia].
  destruct (Z.leb_spec a 0x7FFF); [lia|]. cbn [andb].
  rewrite H1, H2. reflexivity.
Qed.

End WithFloats.

End RomFacts.

(** ** cpu.c: addressing *)

Module AddrFacts.

Import Controller Cart Apu Nes Props Props2 Finite BusFacts CpuLogic.
Import Cpu (CPU).
Import Ppu (PPU).

Section WithFloats.
Context {fm : FloatModel}.

Ltac run := rewrite FlagFacts.bind_eq; cbv beta;
            cbn [get_cpu mod_cpu ret fst snd].

Lemma fetch16_range (s : NES) : 0 <= fst (fetch16 s) < 65536.
Proof.
  unfold fetch16. run. run. unfold make16, u16.
  apply Z.mod_pos_bound. lia.
Qed.

(** The address of the high byte of an indirect jump: the byte after
    the pointer, but inside the pointer's page. *)
Lemma wrapped_successor (ptr : Z) :
  0 <= ptr < 65536 ->
  u16 (Z.lor (Z.land ptr 0xFF00) (Z.land (ptr + 1) 0x00FF))
  = if ptr mod 256 =? 255 then ptr - 255 else ptr + 1.
Proof.
  intros H. apply Z.eqb_eq.
  exact (range_forall 65536
    (fun ptr => u16 (Z.lor (Z.land ptr 0xFF00) (Z.land (ptr + 1) 0x00FF))
                =? (if ptr mod 256 =? 255 then ptr - 255 else ptr + 1))
    ltac:(vm_compute; reflexivity) ptr H).
Qed.

(** X28.  JMP (indirect), opcode 0x6C, takes 5 cycles and reads its
    target through the pointer that follows the opcode, low byte first;
    the address of the high byte is the pointer plus one computed inside
    the pointer's page, so a pointer at $xxFF takes its high byte from
    $xx00.  Stated for a pointer into RAM or the cartridge, where reads
    have no side effect. *)
Theorem jmp_indirect (s : NES) :
  let ptr := fst (fetch16 s) in
  let s1 := snd (fetch16 s) in
  let hi_addr := if ptr mod 256 =? 255 then ptr - 255 else ptr + 1 in
  ptr <= 0x1FFF \/ 0x6000 <= ptr ->
  exec 0x6C s
  = (5, on_cpu (Cpu.set_PC (make16 (fst (bus_cpu_read s1 ptr))
                              (fst (bus_cpu_read s1 hi_addr)))) s1).
Proof.
  cbv zeta. intros Hp. pose proof (fetch16_range s) as Hr.
  assert (E : addr_ind s
    = (mkAddr (make16 (fst (bus_cpu_read (snd (fetch16 s)) (fst (fetch16 s))))
                 (fst (bus_cpu_read (snd (fetch16 s))
                         (if fst (fetch16 s) mod 256 =? 255
                          then fst (fetch16 s) - 255
                          else fst (fetch16 s) + 1)))) 0,
       snd (fetch16 s))).
  { unfold addr_ind. run.
    set (ptr := fst (fetch16 s)) in *. set (s1 := snd (fetch16 s)).
    clearbody ptr s1. cbv zeta.
    rewrite (wrapped_successor ptr Hr).
    set (hi := if ptr mod 256 =? 255 then ptr - 255 else ptr + 1).
    assert (Hh : 0 <= hi <= 0x1FFF \/ 0x6000 <= hi).
    { subst hi. destruct (Z.eqb_spec (ptr mod 256) 255);
        Z.div_mod_to_equations; lia. }
    unfold cpu_read.
    destruct (BusFacts2.plain_read s1 ptr ltac:(lia)) as [E1 _].
    run. rewrite E1.
    destruct (BusFacts2.plain_read s1 hi Hh) as [E2 _].
    run. rewrite E2. reflexivity. }
  change (exec 0x6C) with (op_jmp addr_ind (fixed 5)).
  unfold op_jmp. run. rewrite E. cbn [fst snd addr]. run. reflexivity.
Qed.

End WithFloats.

Lemma jmp_indirect_witness :
  fst (exec 0x6C Examples.booted) = 5.
Proof.
  rewrite (jmp_indirect Examples.booted);
    [reflexivity|left; vm_compute; discriminate].
Defined.

End AddrFacts.

(** ** apu.c: the frame sequencer under the run loop *)

Module SequencerFacts.

Import Controller Cart Apu Nes Props Props2 BusFacts CpuLogic TickFacts
  NesFacts RunFacts.
Import Cpu (CPU).
Import Ppu (PPU).

Section WithFloats.
Context {fm : FloatModel}.

Lemma quarter_frame_counters (a : APU) :
  counters (apu_quarter_frame a) = counters a.
Proof.
  assert (P1 : forall b, counters (clock_p1_envelope b) = counters b).
  { intros b. unfold clock_p1_envelope. cbv zeta.
    repeat break_if; reflexivity. }
  assert (P2 : forall b, counters (clock_noise_envelope b) = counters b).
  { intros b. unfold clock_noise_envelope. cbv zeta.
    repeat break_if; reflexivity. }
  assert (P3 : forall b, counters (clock_linear_counter b) = counters b).
  { intros b. unfold clock_linear_counter. repeat break_if; reflexivity. }
  unfold apu_quarter_frame. cbv zeta. now rewrite P3, P2, P1.
Qed.

(** A tick that stays below the second boundary: the sequencer either
    only accumulates, or clocks one quarter frame and restarts at 0. *)
Lemma small_tick (a : APU) (cyc : Z) :
  cpu_cycle_mod a + cyc < 7457 ->
  apu_frame_sequencer a cyc
  = if cpu_cycle_mod a + cyc <? 3729
    then set_cpu_cycle_mod (cpu_cycle_mod a + cyc) a
    else set_cpu_cycle_mod 0
           (apu_quarter_frame (set_cpu_cycle_mod (cpu_cycle_mod a + cyc) a)).
Proof.
  intros H. destruct (Z.ltb_spec (cpu_cycle_mod a + cyc) 3729) as [Hlt|Hge];
    [now apply frame_sequencer_below|].
  unfold apu_frame_sequencer, seq_fuel. cbv zeta.
  cbn [cpu_cycle_mod set_cpu_cycle_mod].
  rewrite (Z.div_small (cpu_cycle_mod a + cyc) 14916) by lia.
  set (a1 := set_cpu_cycle_mod (cpu_cycle_mod a + cyc) a).
  change (Z.to_nat 0) with O.
  assert (E1 : seq_index step_times (cpu_cycle_mod a1) = 1).
  { subst a1. cbn [cpu_cycle_mod set_cpu_cycle_mod seq_index step_times].
    destruct (Z.geb_spec (cpu_cycle_mod a + cyc) 3729); [|lia].
    destruct (Z.geb_spec (cpu_cycle_mod a + cyc) 7457); [lia|reflexivity]. }
  change (seq_loop 2 a1) with
    (if seq_index step_times (cpu_cycle_mod a1) =? 0 then Some a1
     else seq_loop 1 (seq_pass (seq_index step_times (cpu_cycle_mod a1)) a1)).
  rewrite E1. change (1 =? 0) with false. cbv iota.
  assert (E2 : seq_pass 1 a1 = set_cpu_cycle_mod 0 (apu_quarter_frame a1)).
  { unfold seq_pass.
    destruct (Z.geb_spec (cpu_cycle_mod a1) 14916) as [Hb|_];
      [subst a1; cbn [cpu_cycle_mod set_cpu_cycle_mod] in Hb; lia|].
    reflexivity. }
  rewrite E2. rewrite seq_loop_leaves; [reflexivity|].
  cbn [cpu_cycle_mod set_cpu_cycle_mod]. lia.
Qed.

(** X29.  A tick of at most 7 cycles, the most one instruction takes,
    from an accumulator below 3729 never reaches the second boundary of
    the frame sequencer: it clocks no half frame and raises no frame
    IRQ, so the three length counters and the frame IRQ flag are left as
    they were; the accumulator is the sum while that is below 3729 and
    restarts at 0 once it is not. *)
Theorem tick_clocks_no_half_frame (a : APU) (cyc : Z) :
  cpu_cycle_mod a < 3729 -> cyc <= 7 ->
  let a' := apu_frame_sequencer a cyc in
  p1_length a' = p1_length a
  /\ tri_length a' = tri_length a
  /\ noise_length a' = noise_length a
  /\ frame_irq a' = frame_irq a
  /\ cpu_cycle_mod a'
     = (if cpu_cycle_mod a + cyc <? 3729 then cpu_cycle_mod a + cyc else 0).
Proof.
  intros Hm Hc. cbv zeta. rewrite small_tick by lia.
  destruct (cpu_cycle_mod a + cyc <? 3729).
  - repeat split; reflexivity.
  - pose proof (quarter_frame_counters
                  (set_cpu_cycle_mod (cpu_cycle_mod a + cyc) a)) as H.
    set (q := apu_quarter_frame _) in *. clearbody q.
    unfold counters in H. injection H as H1 H2 H3 H4.
    cbn [p1_length tri_length noise_length frame_irq cpu_cycle_mod
         set_cpu_cycle_mod] in *.
    repeat split; assumption.
Qed.

(** *** The invariant of the run loop *)

Lemma idle_same_apu (s s' : NES) :
  apu s' = apu s -> idle_sequencer s -> idle_sequencer s'.
Proof. unfold idle_sequencer. now intros ->. Qed.

Lemma idle_on_apu (f : APU -> APU) (s : NES) :
  (forall a, frame_irq (f a) = frame_irq a
             /\ (cpu_cycle_mod (f a) = cpu_cycle_mod a
                 \/ cpu_cycle_mod (f a) = 0)) ->
  idle_sequencer s -> idle_sequencer (on_apu f s).
Proof.
  intros Hf. unfold idle_sequencer, on_apu.
  destruct (apu s) as [a|] eqn:E; [|rewrite ?E; auto].
  intros [H1 H2]. cbn [apu with_apu]. destruct (Hf a) as [F1 [F2|F2]].
  - rewrite F1, F2. split; assumption.
  - rewrite F1, F2. split; [assumption|lia].
Qed.

Lemma idle_read (s : NES) (a : Z) :
  idle_sequencer s -> idle_sequencer (snd (bus_cpu_read s a)).
Proof.
  unfold bus_cpu_read.
  destruct (a <=? 8191); [auto|].
  destruct (a <=? 16383).
  { destruct (Ppu.ppu_read_reg _ _ _) as [r p]. auto. }
  destruct (a =? 16406); [destruct (controller_read (ctrl1 s)); auto|].
  destruct (a =? 16407); [destruct (controller_read (ctrl2 s)); auto|].
  destruct ((a >=? 16384) && (a <=? 16407)).
  { destruct (Z.eqb_spec a 16405) as [->|]; [|auto].
    unfold idle_sequencer. destruct (apu s) as [x|] eqn:E;
      [|cbn [snd]; rewrite ?E; auto].
    intros [H1 H2]. unfold apu_read. change (16405 =? 16405) with true.
    cbv iota zeta. cbn [snd apu with_apu frame_irq cpu_cycle_mod
                        set_frame_irq set_dmc_irq_flag].
    split; [reflexivity|exact H2]. }
  destruct (a >=? 24576); auto.
Qed.

Lemma apu_write_idle (a : APU) (addr x : Z) :
  frame_irq (apu_write a addr x) = frame_irq a
  /\ (cpu_cycle_mod (apu_write a addr x) = cpu_cycle_mod a
      \/ cpu_cycle_mod (apu_write a addr x) = 0).
Proof.
  unfold apu_write.
  repeat break_match; try (split; [reflexivity|left; reflexivity]).
  all: repeat break_if;
    first [ split; [reflexivity|left; reflexivity]
          | split; [reflexivity|right; reflexivity] ].
Qed.

Lemma oam_dma_idle (n : nat) :
  forall i base start s,
    idle_sequencer s -> idle_sequencer (oam_dma n i base start s).
Proof.
  induction n as [|n IH]; intros i base start s H; cbn [oam_dma];
    [exact H|].
  pose proof (idle_read s (u16 (base + i)) H) as H1.
  destruct (bus_cpu_read s (u16 (base + i))) as [x s1]. cbn [snd] in H1.
  apply IH. exact H1.
Qed.

Lemma idle_write (s : NES) (a x : Z) :
  idle_sequencer s -> idle_sequencer (bus_cpu_write s a x).
Proof.
  intros H. unfold bus_cpu_write.
  destruct (a <=? 8191); [exact H|].
  destruct (a <=? 16383).
  { destruct (Ppu.ppu_write_reg _ _ _ _) as [p c]. exact H. }
  destruct (a =? 16404); [now apply oam_dma_idle|].
  destruct (a =? 16406); [exact H|].
  destruct ((a >=? 16384) && (a <=? 16407)).
  { apply idle_on_apu; [|exact H]. intros y. apply apu_write_idle. }
  destruct (a >=? 24576); exact H.
Qed.

Lemma idle_reg (s : NES) (c : CPU) :
  cpu_upd (cpu s) c -> idle_sequencer s -> idle_sequencer (with_cpu c s).
Proof. intros _ H. exact H. Qed.

Lemma dmc_clock_idle (s : NES) : idle_sequencer s -> idle_sequencer (dmc_clock s).
Proof.
  intros H. unfold dmc_clock. destruct (apu s) as [a|] eqn:E; [|exact H].
  cbv zeta. apply idle_on_apu.
  { intros y. unfold dmc_output_bit. cbv zeta.
    repeat break_if; split; try reflexivity; left; reflexivity. }
  destruct (dmc_bits_remaining a =? 0); [|exact H].
  apply idle_on_apu.
  { intros y. unfold dmc_reload.
    break_if; split; try reflexivity; left; reflexivity. }
  destruct (negb (dmc_buffer_full a) && bus_linked a && (dmc_remaining a >? 0));
    [|exact H].
  unfold dmc_fetch. rewrite E.
  pose proof (idle_read s (dmc_cur_addr a) H) as H1.
  destruct (bus_cpu_read s (dmc_cur_addr a)) as [b s1]. cbn [snd] in H1.
  apply idle_on_apu; [|exact H1].
  intros y. unfold dmc_store. cbv zeta.
  repeat break_if; split; try reflexivity; left; reflexivity.
Qed.

Lemma dmc_clocks_idle (n : nat) :
  forall s, idle_sequencer s -> idle_sequencer (dmc_clocks n s).
Proof.
  induction n as [|n IH]; intros s H; cbn [dmc_clocks]; [exact H|].
  apply IH, dmc_clock_idle, H.
Qed.

Lemma tick_idle (s : NES) (used : Z) :
  0 <= used <= 7 -> idle_sequencer s ->
  idle_sequencer (apu_tick_cpu_cycles s used).
Proof.
  intros Hu H. unfold apu_tick_cpu_cycles.
  destruct (apu s) as [a|] eqn:E; [|exact H]. cbv zeta.
  assert (Ha : frame_irq (apu_frame_sequencer a used) = false
               /\ 0 <= cpu_cycle_mod (apu_frame_sequencer a used) < 3729).
  { unfold idle_sequencer in H. rewrite E in H. destruct H as [H1 H2].
    rewrite small_tick by lia.
    destruct (Z.ltb_spec (cpu_cycle_mod a + used) 3729).
    - cbn [frame_irq cpu_cycle_mod set_cpu_cycle_mod]. split; [exact H1|lia].
    - pose proof (quarter_frame_counters
                    (set_cpu_cycle_mod (cpu_cycle_mod a + used) a)) as Hq.
      set (q := apu_quarter_frame _) in *. clearbody q.
      unfold counters in Hq. injection Hq as Hq _ _ _.
      cbn [frame_irq cpu_cycle_mod set_cpu_cycle_mod] in *.
      split; [congruence|lia]. }
  set (a1 := apu_frame_sequencer a used) in *. clearbody a1.
  destruct (dmc_enabled a1).
  - destruct (fp_dmc_advance used (fp a1)) as [due f].
    apply dmc_clocks_idle. unfold idle_sequencer. cbn [apu with_apu].
    exact Ha.
  - unfold idle_sequencer. cbn [apu with_apu]. exact Ha.
Qed.

Lemma after_step_idle (used : Z) (s : NES) :
  0 <= used <= 7 -> idle_sequencer s -> idle_sequencer (after_step used s).
Proof.
  intros Hu H. unfold after_step. cbv zeta.
  set (s1 := on_ppu _ s).
  assert (H1 : idle_sequencer s1) by exact H. clearbody s1.
  assert (H2 : idle_sequencer (take_nmi s1))
    by (unfold take_nmi; destruct (Ppu.nmi_pending (ppu s1)); exact H1).
  set (s2 := take_nmi s1) in *. clearbody s2.
  unfold tick_apu. destruct (apu s2) eqn:E; [|exact H2].
  cbv zeta. pose proof (tick_idle s2 used Hu H2) as H3.
  destruct (_ || _); exact H3.
Qed.

Lemma cpu_step_idle (s : NES) :
  idle_sequencer s ->
  cycles_ok (fst (cpu_step s)) /\ idle_sequencer (snd (cpu_step s)).
Proof.
  apply (triple_cpu_step idle_sequencer idle_read idle_write idle_reg).
Qed.

Lemma iteration_idle (s : NES) :
  idle_sequencer s -> idle_sequencer (snd (nes_iteration s)).
Proof.
  intros H. rewrite iteration_snd.
  destruct (cpu_step_idle s H) as [Hc Hs]. unfold cycles_ok in Hc.
  apply after_step_idle; [lia|exact Hs].
Qed.

Lemma run_loop_idle (fuel : nat) :
  forall n s us s',
    nes_run_loop fuel n s = Some (us, s') ->
    idle_sequencer s -> idle_sequencer s'.
Proof.
  induction fuel as [|k IH]; intros n s us s' H Hs; cbn [nes_run_loop] in H.
  - destruct (n >? 0); [discriminate|]. injection H as _ <-. exact Hs.
  - destruct (n >? 0); [|injection H as _ <-; exact Hs].
    pose proof (iteration_idle s Hs) as H1.
    destruct (nes_iteration s) as [used s1]. cbn [snd] in H1.
    destruct (nes_run_loop k (n - used) s1) as [[us1 s2]|] eqn:E;
      [|discriminate].
    injection H as _ <-. exact (IH _ _ _ _ E H1).
Qed.

Lemma apply_op_idle (s : NES) (op : machine_op) :
  idle_sequencer s -> idle_sequencer (apply_op s op).
Proof.
  intros H. destruct op as [| | | |n]; cbn [apply_op].
  - apply cpu_step_idle, H.
  - apply (triple_nes_reset idle_sequencer idle_read idle_reg s H).
  - apply (triple_cpu_nmi idle_sequencer idle_read idle_write idle_reg s H).
  - apply (triple_cpu_irq idle_sequencer idle_read idle_write idle_reg s H).
  - unfold nes_run_cycles.
    destruct (nes_run_loop (Z.to_nat n) n s) as [[us s']|] eqn:E;
      [|exact H].
    exact (run_loop_idle _ _ _ _ _ E H).
Qed.

(** X30.  The frame IRQ never fires under the run loop: from power-on,
    with any cartridge, after any sequence of instruction steps, resets,
    interrupts and runs of [nes_run_cycles], the APU's frame IRQ flag is
    clear and its cycle accumulator is below 3729, because every tick
    adds at most 7 cycles and the accumulator restarts at 0 at the first
    boundary; the same holds from every state where it holds. *)
Theorem frame_irq_never_raised (audio : bool) (rom : Cartridge)
    (ops : list machine_op) (s : NES) :
  idle_sequencer (run_ops ops (nes_load_rom (nes_init audio) rom))
  /\ (idle_sequencer s -> idle_sequencer (run_ops ops s)).
Proof.
  assert (H : forall t, idle_sequencer t -> idle_sequencer (run_ops ops t)).
  { induction ops as [|op ops IH]; intros t Ht; cbn [run_ops fold_left];
      [exact Ht|].
    apply IH, apply_op_idle, Ht. }
  split; [|apply H]. apply H.
  unfold idle_sequencer, nes_load_rom, nes_init. cbv zeta.
  cbn [apu with_ppu with_cart].
  destruct audio; [|exact Logic.I].
  split; [reflexivity|]. change (cpu_cycle_mod (apu_connect_bus apu_init)) with 0.
  lia.
Qed.

End WithFloats.

Lemma tick_clocks_no_half_frame_witness :
  p1_length (apu_frame_sequencer Examples.pulse_loaded 7)
  = p1_length Examples.pulse_loaded.
Proof.
  destruct (tick_clocks_no_half_frame Examples.pulse_loaded 7) as (H & _);
    [vm_compute; reflexivity|lia|exact H].
Defined.

End SequencerFacts.
